(** * Grid-to-hierarchy extraction: the four extractors of [src/backend]

    A shallow embedding of the spreadsheet extractors
    - [extract_json.py]      ([extract_nested_json], [parse_section]),
    - [hierarchy_mapper.py]  ([extract_hierarchy_data], [build_section_hierarchy]),
    - [dataframe_parser.py]  ([parse_excel_to_dataframe]),
    - [openpyxl_parser.py]   ([ExcelSheetParser.detect_hierarchy]),
    followed by the properties of the specification, each settled on the
    code.  Python dictionaries that are shared and mutated (the tree nodes,
    reached through the ancestor stack or the level map) live in an explicit
    heap: a list of nodes, a reference being an index into it. *)

From Stdlib Require Import ZArith Lia Ascii String List Bool.
From Stdlib Require Import Sorting.Sorted Sorting.Permutation.
From Stdlib Require Structures.OrderedTypeEx.
From stdpp Require Import base option list gmap strings pretty.

Local Open Scope string_scope.
Local Open Scope list_scope.
Local Open Scope Z_scope.

(* ===================================================================== *)
(** * Python values, exceptions and strings *)
(* ===================================================================== *)

Module Py.

(** A finite Python [float], by the rational it denotes. *)
Record pyfloat := PyFloat { fnum : Z; fden : positive }.

(** What a cell of a sheet or of a data frame can hold.  A [datetime] (or
    pandas [Timestamp]) is represented by its ordinal. *)
Inductive value :=
| VNone                      (* None *)
| VNaN                       (* float('nan'); also pandas' NaT, which the
                                frame alone can hold and which [isna]
                                treats alike *)
| VBool (b : bool)
| VInt (z : Z)               (* int *)
| VFloat (f : pyfloat)       (* float *)
| VNpInt (z : Z)             (* numpy.integer *)
| VNpFloat (f : pyfloat)     (* numpy.floating *)
| VStr (s : string)
| VDate (d : Z).             (* datetime / pandas.Timestamp *)

(** The exceptions the extractors can meet.  An [IndexError] comes either
    from a Python list ("list index out of range", "pop from empty list")
    or from pandas' [iloc] ("single positional indexer is out-of-bounds"). *)
Inductive index_site := of_list | of_iloc.
Inductive exn :=
  IndexError (site : index_site) | KeyError | ValueError | TypeError.

Inductive result (A : Type) :=
| Ok (a : A)
| Raise (e : exn).
Arguments Ok {A} a.
Arguments Raise {A} e.

#[export] Instance result_ret : MRet result := fun A a => Ok a.
#[export] Instance result_bind : MBind result := fun A B f m =>
  match m with
  | Ok a => f a
  | Raise e => Raise e
  end.

(** The library functions the extractors call and that are not code of the
    repository: [strftime("%Y-%m-%d")], [pandas.to_datetime] ([None] when it
    raises, or when its result cannot be formatted; [is_NaT] tells when
    its result is [NaT], the date that cannot be formatted) and [str()]
    of an object that is not a string. *)
Record Library := {
  strftime : Z -> string;
  to_datetime : value -> option Z;
  is_NaT : value -> bool;
  repr : value -> string
}.

(** [str(v)] *)
Definition py_str (lib : Library) (v : value) : string :=
  match v with
  | VStr s => s
  | _ => repr lib v
  end.

(** Truth value of an object, as tested by [if v:]. *)
Definition truthy (v : value) : bool :=
  match v with
  | VNone => false
  | VNaN => true
  | VBool b => b
  | VInt z | VNpInt z => negb (z =? 0)
  | VFloat f | VNpFloat f => negb (fnum f =? 0)
  | VStr s => negb (String.eqb s "")
  | VDate _ => true
  end.

(** [pandas.isna] / [pandas.notna] on a scalar. *)
Definition isna (v : value) : bool :=
  match v with
  | VNone | VNaN => true
  | _ => false
  end.
Definition notna (v : value) : bool := negb (isna v).

(** [isinstance(v, (int, float))]: [bool] is a subclass of [int],
    [numpy.float64] one of [float], and [nan] is a [float]. *)
Definition is_int_or_float (v : value) : bool :=
  match v with
  | VBool _ | VInt _ | VFloat _ | VNpFloat _ | VNaN => true
  | _ => false
  end.

(** [isinstance(v, (np.integer, np.floating))] *)
Definition is_numpy_number (v : value) : bool :=
  match v with
  | VNpInt _ | VNpFloat _ => true
  | _ => false
  end.

(** The double nearest to an integer, ties going to the even mantissa: an
    integer of more than 53 bits is not always a double.  (A numpy integer
    has 64 bits at most, far below the largest double.) *)
Definition nearest_double (z : Z) : Z :=
  let a := Z.abs z in
  let e := Z.log2 a - 52 in
  if e <=? 0 then z
  else
    let q := Z.shiftr a e in
    let r := a - Z.shiftl q e in
    let half := Z.shiftl 1 (e - 1) in
    let q' := if (half <? r) || ((r =? half) && Z.odd q) then q + 1 else q in
    Z.sgn z * Z.shiftl q' e.

(** [float(v)] on a numpy number. *)
Definition to_float (v : value) : value :=
  match v with
  | VNpInt z => VFloat (PyFloat (nearest_double z) 1)
  | VNpFloat f => VFloat f
  | _ => v
  end.

(** [l[i]] for a non-negative literal index. *)
Definition py_index {A} (l : list A) (i : nat) : result A :=
  match l !! i with
  | Some a => Ok a
  | None => Raise (IndexError of_list)
  end.

(** ** Strings

    A [str] is held as its UTF-8 encoding, the bytes Rocq reads from a
    string literal (a sequence of bytes that is not UTF-8 stands for no
    [str]).  Looking for a text, cutting at one, comparing and joining
    are the same on the bytes as on the characters; the length and the
    blanks are not, and are defined on the encoding. *)

(** [s.startswith(p)] *)
Fixpoint startswith (s p : string) {struct p} : bool :=
  match p with
  | EmptyString => true
  | String c p' =>
      match s with
      | EmptyString => false
      | String d s' => Ascii.eqb c d && startswith s' p'
      end
  end.

(** The text with these bytes. *)
Definition of_bytes (bytes : list nat) : string :=
  foldr (fun n s => String (ascii_of_nat n) s) EmptyString bytes.

(** The characters [str.isspace] holds of, which are the ones [strip]
    removes: U+0009 to U+000D, U+001C to U+0020, U+0085, U+00A0, U+1680,
    U+2000 to U+200A, U+2028, U+2029, U+202F, U+205F and U+3000. *)
Definition whitespace : list string :=
  map of_bytes
    ([[9]; [10]; [11]; [12]; [13]; [28]; [29]; [30]; [31]; [32];
      [194; 133]; [194; 160]; [225; 154; 128]]
     ++ map (fun k => [226; 128; 128 + k]) (seq 0 11)
     ++ [[226; 128; 168]; [226; 128; 169]; [226; 128; 175];
         [226; 129; 159]; [227; 128; 128]])%nat.

(** The number of bytes of the blank [s] starts with, 0 when it starts
    with none. *)
Definition blank_prefix (s : string) : nat :=
  default 0%nat
    (head (omap (fun b => if startswith s b then Some (String.length b)
                          else None) whitespace)).

(** [s.lstrip()]; [skip] counts the bytes left of the blank that is being
    removed. *)
Fixpoint lstrip_skip (skip : nat) (s : string) : string :=
  match s with
  | EmptyString => EmptyString
  | String _ s' =>
      match skip with
      | S k => lstrip_skip k s'
      | O =>
          match blank_prefix s with
          | O => s
          | S k => lstrip_skip k s'
          end
      end
  end.

Definition lstrip (s : string) : string := lstrip_skip 0 s.

(** [s.isspace()], or [s] is empty. *)
Definition all_blank (s : string) : bool :=
  match lstrip s with
  | EmptyString => true
  | _ => false
  end.

(** [s.rstrip()]: the text before the blanks [s] ends with. *)
Fixpoint rstrip (s : string) : string :=
  match s with
  | EmptyString => EmptyString
  | String c s' => if all_blank s then EmptyString else String c (rstrip s')
  end.

(** [s.strip()] *)
Definition strip (s : string) : string := rstrip (lstrip s).

(** [len(s)]: the characters of [s], one for each byte that does not
    continue a character. *)
Definition continues (c : ascii) : bool :=
  let n := nat_of_ascii c in (128 <=? n)%nat && (n <? 192)%nat.

Fixpoint py_len (s : string) : nat :=
  match s with
  | EmptyString => 0%nat
  | String c s' => ((if continues c then 0 else 1) + py_len s')%nat
  end.

Fixpoint str_drop (n : nat) (s : string) : string :=
  match n, s with
  | O, _ => s
  | S n', String _ s' => str_drop n' s'
  | S _, EmptyString => EmptyString
  end.

(** [sub in s] *)
Fixpoint str_in (sub s : string) : bool :=
  startswith s sub ||
  match s with
  | EmptyString => false
  | String _ s' => str_in sub s'
  end.

(** [s.split(sep, 1)]: at most one cut, at the first occurrence of [sep]. *)
Fixpoint split1 (sep s : string) : list string :=
  if startswith s sep then [EmptyString; str_drop (String.length sep) s]
  else match s with
       | EmptyString => [EmptyString]
       | String c s' =>
           match split1 sep s' with
           | h :: t => String c h :: t
           | [] => []
           end
       end.

(** [s.split(sep)]: every occurrence of [sep] is a cut.  The fuel bounds the
    number of cuts; [String.length s] is always enough. *)
Fixpoint split_all (fuel : nat) (sep s : string) : list string :=
  match split1 sep s, fuel with
  | [h; t], S fuel' => h :: split_all fuel' sep t
  | parts, _ => parts
  end.

(** [range(a, b)] *)
Definition range (a b : Z) : list Z := seqZ a (b - a).

End Py.
Export Py.

(* ===================================================================== *)
(** * The configuration and the worksheet *)
(* ===================================================================== *)

Module Schema.

(** [config["sheets"][0]]: the keys the extractors read, as the schema
    gives them (rows and columns counted from 1). *)
Record sheet_config := {
  date_row : Z;
  data_start_column : Z;
  data_name_column : Z;
  assets_row : Z;
  liabilities_row : Z;
  assets_hierarchy : list Z;
  liabilities_hierarchy : list Z
}.

End Schema.
Export Schema.

Module Openpyxl.

(** An openpyxl worksheet opened with [data_only=True]: its bounds, the
    value of each cell and the [alignment.indent] of each cell.  Reading a
    cell that was never written gives [None]. *)
Record Worksheet := {
  max_row : Z;
  max_column : Z;
  cell_value : Z -> Z -> value;
  cell_indent : Z -> Z -> Z
}.

(** [ws.cell(row=r, column=c).value]: openpyxl refuses a row or a column
    below 1. *)
Definition cell (ws : Worksheet) (r c : Z) : result value :=
  if (1 <=? r) && (1 <=? c) then Ok (cell_value ws r c)
  else Raise ValueError.

(** [v is None] *)
Definition is_None (v : value) : bool :=
  match v with
  | VNone => true
  | _ => false
  end.

End Openpyxl.
Export Openpyxl.

(* ===================================================================== *)
(** * extract_json.py *)
(* ===================================================================== *)

Module ExtractJson.

(** The data frame read with [header=None]: [shape] and the cells by
    position. *)
Record DataFrame := {
  shape0 : Z;
  shape1 : Z;
  at_pos : Z -> Z -> value
}.

(** A positional index into an axis of length [n]: negative indices count
    from the end, anything else is out of bounds. *)
Definition positional (n i : Z) : result Z :=
  if (0 <=? i) && (i <? n) then Ok i
  else if (- n <=? i) && (i <? 0) then Ok (i + n)
  else Raise (IndexError of_iloc).

(** [df.iloc[r, c]] *)
Definition iloc (df : DataFrame) (r c : Z) : result value :=
  r' ← positional (shape0 df) r;
  c' ← positional (shape1 df) c;
  Ok (at_pos df r' c').

(** [row_data = df.iloc[r]]: the row, by its position. *)
Definition iloc_row (df : DataFrame) (r : Z) : result Z :=
  positional (shape0 df) r.

(** [row_data[c]]: the row is a Series labelled [0 .. shape1-1], and an
    integer key is looked up as a label. *)
Definition getitem (df : DataFrame) (row c : Z) : result value :=
  if (0 <=? c) && (c <? shape1 df) then Ok (at_pos df row c)
  else Raise KeyError.

(** The dictionaries of the tree.  The section root [result] has the keys
    [name] and [children] only; a row's node also has [is], [en] and
    [values].  [children] holds references into the heap. *)
Record fields := {
  f_is : string;
  f_en : string;
  f_values : gmap string value
}.

Record node := {
  name : string;
  item : option fields;
  children : list nat;
  (** not a key of the dictionary: the level the node is paired with in
      its stack entry [(node, level)], kept to state properties of it *)
  stack_level : Z
}.

Definition append_child (c : nat) (n : node) : node :=
  {| name := name n; item := item n; children := children n ++ [c];
     stack_level := stack_level n |}.

(** The state of the loop of [parse_section]. *)
Record state := {
  heap : list node;
  stack : list (nat * Z);     (* the top of the stack is the head *)
  current_row : Z
}.

(** The tree a reference denotes, as [json.dump] walks it. *)
#[warnings="-register-all"]
Inductive tree :=
| Tree (t_name : string) (t_item : option fields) (t_level : Z)
       (t_children : list tree).

Fixpoint reify (fuel : nat) (h : list node) (r : nat) : option tree :=
  match fuel with
  | O => None
  | S fuel' =>
      n ← h !! r;
      kids ← mapM (reify fuel' h) (children n);
      Some (Tree (name n) (item n) (stack_level n) kids)
  end.

Section WithSheet.
Context (lib : Library) (df : DataFrame) (cfg : sheet_config).

(** Lines 16-25: the dates of the header row. *)
Fixpoint scan_dates (cols : list Z) (dates : list string)
  : result (list string) :=
  match cols with
  | [] => Ok dates
  | col :: cols' =>
      cell_value ← iloc df (date_row cfg - 1) col;
      if notna cell_value then
        match cell_value with
        | VDate d => scan_dates cols' (dates ++ [strftime lib d])
        | _ => scan_dates cols' (dates ++ [py_str lib cell_value])
        end
      else scan_dates cols' dates
  end.

Definition extract_dates : result (list string) :=
  scan_dates (range (data_start_column cfg - 1) (shape1 df)) [].

(** Lines 48-54: the two names of a label. *)
Definition translations (name : string) : result (string * string) :=
  if str_in "/" name then
    let parts := split1 "/" name in
    p0 ← py_index parts 0;
    p1 ← py_index parts 1;
    Ok (strip p0, strip p1)
  else Ok (name, name).

(** Lines 56-65: the values of a row, [i] being the index [enumerate]
    gives to the head of [dates]. *)
Fixpoint row_values (row : Z) (i : Z) (dates : list string)
    (values : gmap string value) : result (gmap string value) :=
  match dates with
  | [] => Ok values
  | date :: dates' =>
      let col_idx := data_start_column cfg - 1 + i in
      if col_idx <? shape1 df then
        val ← getitem df row col_idx;
        if notna val then
          let val := if is_numpy_number val then to_float val else val in
          row_values row (i + 1) dates' (<[date := val]> values)
        else row_values row (i + 1) dates' values
      else row_values row (i + 1) dates' values
  end.

(** Lines 76-78: [while stack[-1][1] >= level: stack.pop()].  Reading the
    top of an empty stack raises. *)
Fixpoint pop_stale (stack : list (nat * Z)) (level : Z)
  : result (list (nat * Z)) :=
  match stack with
  | [] => Raise (IndexError of_list)
  | (n, l) :: rest =>
      if level <=? l then pop_stale rest level else Ok stack
  end.

(** [stack[-1]] *)
Definition top (stack : list (nat * Z)) : result (nat * Z) :=
  match stack with
  | [] => Raise (IndexError of_list)
  | e :: _ => Ok e
  end.

Definition next_row (st : state) : state :=
  {| heap := heap st; stack := stack st; current_row := current_row st + 1 |}.

(** One turn of [for level in hierarchy_levels] (lines 36-84). *)
Definition parse_row (dates : list string) (st : state) (level : Z)
  : result state :=
  let name_col := data_name_column cfg - 1 in
  row_data ← iloc_row df (current_row st);
  label ← getitem df row_data name_col;
  if isna label then Ok (next_row st)
  else
    let name := strip (py_str lib label) in
    '(icelandic_name, english_name) ← translations name;
    values ← row_values row_data 0 dates ∅;
    let node := {| name := name;
                   item := Some {| f_is := icelandic_name;
                                   f_en := english_name;
                                   f_values := values |};
                   children := [];
                   stack_level := level |} in
    let ref := length (heap st) in
    let heap1 := heap st ++ [node] in
    stack1 ← pop_stale (stack st) level;
    '(parent, _) ← top stack1;
    Ok {| heap := alter (append_child ref) parent heap1;
          stack := (ref, level) :: stack1;
          current_row := current_row st + 1 |}.

Fixpoint parse_rows (dates : list string) (st : state) (levels : list Z)
  : result state :=
  match levels with
  | [] => Ok st
  | level :: levels' =>
      st' ← parse_row dates st level;
      parse_rows dates st' levels'
  end.

(** The state [parse_section] starts from: [result] is the node at
    reference 0, alone on the stack with level 0. *)
Definition initial (start_row : Z) (section_name : string) : state :=
  {| heap := [{| name := section_name; item := None; children := [];
                 stack_level := 0 |}];
     stack := [(0%nat, 0)];
     current_row := start_row |}.

(** [parse_section(start_row, hierarchy_levels, section_name)]: the heap
    it leaves, in which [result] is the node at reference 0. *)
Definition parse_section (dates : list string) (start_row : Z)
    (hierarchy_levels : list Z) (section_name : string)
  : result (list node) :=
  st ← parse_rows dates (initial start_row section_name) hierarchy_levels;
  Ok (heap st).

(** [result["data"]] and [result["metadata"]["dates"]] of
    [extract_nested_json]; the file name and the time of extraction are
    left out. *)
Record extraction := {
  dates_of : list string;
  assets : list node;
  liabilities : list node
}.

Definition extract_nested_json : result extraction :=
  dates ← extract_dates;
  a ← parse_section dates (assets_row cfg - 1) (assets_hierarchy cfg)
        "EIGNIR / ASSETS";
  l ← parse_section dates (liabilities_row cfg - 1)
        (liabilities_hierarchy cfg) "SKULDIR / LIABILITIES";
  Ok {| dates_of := dates; assets := a; liabilities := l |}.

End WithSheet.

(** The tree of a section: [result], reified from the heap. *)
Definition section_tree (h : list node) : option tree :=
  reify (length h) h 0.

End ExtractJson.

(* ===================================================================== *)
(** * hierarchy_mapper.py *)
(* ===================================================================== *)

Module HierarchyMapper.

(** An entry of [assets_data] / [liabilities_data]. *)
Record entry := {
  e_name : string;
  hierarchy_level : Z;
  row : Z;
  e_values : gmap string value;
  e_is : string;
  e_en : string
}.

(** A node of [build_section_hierarchy]; its [id] is ["row_<row>"], kept
    as the row.  [children] holds references into the list [nodes]. *)
Record node := {
  id : Z;
  name : string;
  n_is : string;
  n_en : string;
  level : Z;
  values : gmap string value;
  children : list nat
}.

Definition append_child (c : nat) (n : node) : node :=
  {| id := id n; name := name n; n_is := n_is n; n_en := n_en n;
     level := level n; values := values n; children := children n ++ [c] |}.

(** The state of the second loop of [build_section_hierarchy]. *)
Record build_state := {
  nodes : list node;
  root_nodes : list nat;
  node_map : gmap Z nat
}.

(** What [build_section_hierarchy] returns: the roots, and the nodes they
    refer to. *)
Record forest := {
  heap : list node;
  roots : list nat
}.

#[warnings="-register-all"]
Inductive tree :=
| Tree (t_id : Z) (t_name t_is t_en : string) (t_level : Z)
       (t_values : gmap string value) (t_children : list tree).

Fixpoint reify (fuel : nat) (h : list node) (r : nat) : option tree :=
  match fuel with
  | O => None
  | S fuel' =>
      n ← h !! r;
      kids ← mapM (reify fuel' h) (children n);
      Some (Tree (id n) (name n) (n_is n) (n_en n) (level n) (values n) kids)
  end.

(** The list of trees [json.dump] writes for a section. *)
Definition trees (f : forest) : option (list tree) :=
  mapM (reify (length (heap f)) (heap f)) (roots f).

Section WithSheet.
Context (lib : Library) (ws : Worksheet) (cfg : sheet_config).

(** Lines 35-48: the dates of the header row. *)
Fixpoint scan_dates (cols : list Z) (dates : list string)
  : result (list string) :=
  match cols with
  | [] => Ok dates
  | col :: cols' =>
      date_value ← cell ws (date_row cfg) col;
      if truthy date_value then
        match date_value with
        | VDate d => scan_dates cols' (dates ++ [strftime lib d])
        | _ =>
            match to_datetime lib date_value with
            | Some dt => scan_dates cols' (dates ++ [strftime lib dt])
            | None => scan_dates cols' dates
            end
        end
      else scan_dates cols' dates
  end.

Definition extract_dates : result (list string) :=
  scan_dates (range (data_start_column cfg) (max_column ws + 1)) [].

(** Lines 62-67: the values of a row; [cols] is what is left of
    [range(data_start_column, data_start_column + len(dates))] and
    [date_idx] the index [enumerate] gives to its head. *)
Fixpoint row_values (dates : list string) (row_index : Z) (date_idx : nat)
    (cols : list Z) (values : gmap string value)
  : result (gmap string value) :=
  match cols with
  | [] => Ok values
  | col :: cols' =>
      value ← cell ws row_index col;
      if negb (is_None value) && is_int_or_float value then
        date ← py_index dates date_idx;
        row_values dates row_index (S date_idx) cols' (<[date := value]> values)
      else row_values dates row_index (S date_idx) cols' values
  end.

(** Lines 77-84: the two names of a label. *)
Definition split_name (name : string) : result (string * string) :=
  if str_in " / " name then
    let parts := split1 " / " name in
    p0 ← py_index parts 0;
    p1 ← py_index parts 1;
    Ok (p0, p1)
  else Ok (name, "").

(** Lines 50-87 (and 89-126, the same loop on the liabilities). *)
Fixpoint extract_section (dates : list string) (row_index : Z)
    (hierarchy : list Z) (data : list entry) : result (list entry) :=
  match hierarchy with
  | [] => Ok data
  | level :: hierarchy' =>
      cell_value ← cell ws row_index (data_name_column cfg);
      if is_None cell_value then
        extract_section dates (row_index + 1) hierarchy' data
      else
        values ←
          row_values dates row_index 0
            (range (data_start_column cfg)
                   (data_start_column cfg + Z.of_nat (length dates))) ∅;
        let name := strip (py_str lib cell_value) in
        '(name_is, name_en) ← split_name name;
        let entry := {| e_name := name; hierarchy_level := level;
                        row := row_index; e_values := values;
                        e_is := name_is; e_en := name_en |} in
        extract_section dates (row_index + 1) hierarchy' (data ++ [entry])
  end.

End WithSheet.

(** Lines 150-161: the node of an entry. *)
Definition make_node (item : entry) : node :=
  {| id := row item; name := e_name item; n_is := e_is item;
     n_en := e_en item; level := hierarchy_level item;
     values := e_values item; children := [] |}.

(** Lines 168-186: one turn of [for node in nodes], [ref] being the
    reference of [node]. *)
Definition place (st : build_state) (ref : nat) (level : Z) : build_state :=
  if level =? 1 then
    {| nodes := nodes st;
       root_nodes := root_nodes st ++ [ref];
       node_map := {[ 1 := ref ]} |}
  else
    let parent_level := level - 1 in
    match node_map st !! parent_level with
    | Some parent =>
        {| nodes := alter (append_child ref) parent (nodes st);
           root_nodes := root_nodes st;
           node_map :=
             filter (fun kv => ¬ (level < kv.1))
                    (<[level := ref]> (node_map st)) |}
    | None => st
    end.

Fixpoint place_all (st : build_state) (ref : nat) (todo : list node)
  : build_state :=
  match todo with
  | [] => st
  | node :: todo' => place_all (place st ref (level node)) (S ref) todo'
  end.

(** [build_section_hierarchy(section_data)] *)
Definition build_section_hierarchy (section_data : list entry) : forest :=
  let nodes0 := map make_node section_data in
  let st := place_all {| nodes := nodes0; root_nodes := []; node_map := ∅ |}
                      0 nodes0 in
  {| heap := nodes st; roots := root_nodes st |}.

(** [build_hierarchy]: the two sections of the result; the metadata (file
    name, sheet name, dates, time of extraction) are left out but for the
    dates. *)
Record hierarchy := {
  dates_of : list string;
  assets : forest;
  liabilities : forest
}.

Definition build_hierarchy (assets_data liabilities_data : list entry)
    (dates : list string) : hierarchy :=
  {| dates_of := dates;
     assets := build_section_hierarchy assets_data;
     liabilities := build_section_hierarchy liabilities_data |}.

(** [extract_hierarchy_data], on the sheet and the configuration that
    [load_schema] and [openpyxl.load_workbook] give it. *)
Definition extract_hierarchy_data (lib : Library) (ws : Worksheet)
    (cfg : sheet_config) : result hierarchy :=
  dates ← extract_dates lib ws cfg;
  assets_data ←
    extract_section lib ws cfg dates (assets_row cfg) (assets_hierarchy cfg) [];
  liabilities_data ←
    extract_section lib ws cfg dates (liabilities_row cfg)
      (liabilities_hierarchy cfg) [];
  Ok (build_hierarchy assets_data liabilities_data dates).

End HierarchyMapper.

(* ===================================================================== *)
(** * dataframe_parser.py *)
(* ===================================================================== *)

Module DataframeParser.

Inductive section_type := asset | liability.

(** What [dates] holds: a [datetime], by its ordinal, or pandas' [NaT]. *)
Inductive datetime := Datetime (d : Z) | NaT.

(** A dictionary of [all_data], from which a row of the data frame is
    made. *)
Record flat_row := {
  date : datetime;
  name : value;
  name_is : value;
  name_en : string;
  type : section_type;
  parent : value;
  parent_is : value;
  parent_en : string;
  hierarchy_level : Z;
  value_of : value
}.

(** Lines 66-72 and 86-92: the two names of a label, cut only when the
    label is a string. *)
Definition split_label (name : value) : result (value * string) :=
  match name with
  | VStr s =>
      if str_in " / " s then
        let parts := split1 " / " s in
        p0 ← py_index parts 0;
        p1 ← py_index parts 1;
        Ok (VStr p0, p1)
      else Ok (name, "")
  | _ => Ok (name, "")
  end.

Section WithSheet.
Context (lib : Library) (ws : Worksheet) (cfg : sheet_config).

(** Lines 34-47: the dates of the header row, kept as [datetime]s.
    What [pandas.to_datetime] returns is appended as it is, [NaT]
    included. *)
Fixpoint scan_dates (cols : list Z) (dates : list datetime)
  : result (list datetime) :=
  match cols with
  | [] => Ok dates
  | col :: cols' =>
      date_value ← cell ws (date_row cfg) col;
      if truthy date_value then
        match date_value with
        | VDate d => scan_dates cols' (dates ++ [Datetime d])
        | _ =>
            if is_NaT lib date_value then scan_dates cols' (dates ++ [NaT])
            else
              match to_datetime lib date_value with
              | Some dt => scan_dates cols' (dates ++ [Datetime dt])
              | None => scan_dates cols' dates
              end
        end
      else scan_dates cols' dates
  end.

Definition extract_dates : result (list datetime) :=
  scan_dates (range (data_start_column cfg) (max_column ws + 1)) [].

(** Lines 94-112: the rows a sheet row contributes, one for each date
    whose cell holds a number. *)
Fixpoint emit_values (dates : list datetime) (row_index : Z)
    (date_idx : nat) (cols : list Z) (proto : datetime -> value -> flat_row)
    (all_data : list flat_row) : result (list flat_row) :=
  match cols with
  | [] => Ok all_data
  | col :: cols' =>
      value ← cell ws row_index col;
      if negb (is_None value) && is_int_or_float value then
        d ← py_index dates date_idx;
        emit_values dates row_index (S date_idx) cols' proto
                    (all_data ++ [proto d value])
      else emit_values dates row_index (S date_idx) cols' proto all_data
  end.

(** The state of the loop over a section. *)
Record state := {
  row_index : Z;
  current_parents : gmap Z value;
  all_data : list flat_row
}.

(** One turn of [for level in assets_hierarchy] (lines 57-114), which is
    also that of the loop on the liabilities (lines 120-177) but for the
    [type] it writes. *)
Definition process_row (tp : section_type) (dates : list datetime)
    (st : state) (level : Z) : result state :=
  name ← cell ws (row_index st) (data_name_column cfg);
  if is_None name then
    Ok {| row_index := row_index st + 1;
          current_parents := current_parents st;
          all_data := all_data st |}
  else
    '(name_is, name_en) ← split_label name;
    let parents :=
      filter (fun kv => ¬ (level < kv.1))
             (<[level := name]> (current_parents st)) in
    let parent :=
      if 1 <? level then default VNone (parents !! (level - 1)) else VNone in
    '(parent_is, parent_en) ← split_label parent;
    let proto d v :=
      {| date := d; name := name; name_is := name_is; name_en := name_en;
         type := tp; parent := parent; parent_is := parent_is;
         parent_en := parent_en; hierarchy_level := level; value_of := v |} in
    rows ←
      emit_values dates (row_index st) 0
        (range (data_start_column cfg)
               (data_start_column cfg + Z.of_nat (length dates)))
        proto (all_data st);
    Ok {| row_index := row_index st + 1;
          current_parents := parents;
          all_data := rows |}.

Fixpoint process_rows (tp : section_type) (dates : list datetime)
    (st : state) (hierarchy : list Z) : result state :=
  match hierarchy with
  | [] => Ok st
  | level :: hierarchy' =>
      st' ← process_row tp dates st level;
      process_rows tp dates st' hierarchy'
  end.

(** Lines 49-177: [all_data] when the two loops are done. *)
Definition collect_all_data : result (list flat_row) :=
  dates ← extract_dates;
  st_a ← process_rows asset dates
           {| row_index := assets_row cfg; current_parents := ∅;
              all_data := [] |}
           (assets_hierarchy cfg);
  st_l ← process_rows liability dates
           {| row_index := liabilities_row cfg; current_parents := ∅;
              all_data := all_data st_a |}
           (liabilities_hierarchy cfg);
  Ok (all_data st_l).

End WithSheet.

(** ** The frame (lines 180-185)

    [pd.DataFrame(all_data)] has one row for each dictionary, labelled in
    its index by the position of the dictionary, and [sort_values] moves
    the rows with their labels.  The frame that is returned is given here
    by its index: for each of its rows, from the first to the last, the
    position in [all_data] of the dictionary the row was made from.  How a
    column stores what the dictionaries hold (its dtype) is not
    modelled. *)

(** What [sort_values] compares of a row whose label is a text and whose
    date is not [NaT]: the date, the type and the label. *)
Definition sort_key (r : flat_row) : option (Z * section_type * string) :=
  match date r, name r with
  | Datetime d, VStr s => Some (d, type r, s)
  | _, _ => None
  end.

(** What pandas does with the other frames, where a label is not a text
    or a date is [NaT]: the index of the sorted frame, or the exception
    of the comparison that fails. *)
Record Pandas := {
  sort_other : list flat_row -> result (list nat)
}.

(** ['asset' < 'liability'] *)
Definition type_compare (a b : section_type) : comparison :=
  match a, b with
  | asset, asset | liability, liability => Eq
  | asset, liability => Lt
  | liability, asset => Gt
  end.

(** The order of two keys: by the date, then by the type, then by the
    label, texts being compared as Python compares them. *)
Definition key_leb (a b : Z * section_type * string) : bool :=
  match a.1.1 ?= b.1.1 with
  | Lt => true
  | Gt => false
  | Eq =>
      match type_compare a.1.2 b.1.2 with
      | Lt => true
      | Gt => false
      | Eq =>
          match String.compare a.2 b.2 with
          | Gt => false
          | _ => true
          end
      end
  end.

Fixpoint insert_key (x : nat * (Z * section_type * string))
    (l : list (nat * (Z * section_type * string)))
  : list (nat * (Z * section_type * string)) :=
  match l with
  | [] => [x]
  | y :: l' => if key_leb x.2 y.2 then x :: l else y :: insert_key x l'
  end.

(** The positions of the keys, in the order of the keys; equal keys stay
    in the order they have.  An insertion sort: the properties below use
    only that it orders its argument. *)
Definition argsort (keys : list (Z * section_type * string)) : list nat :=
  (foldr insert_key [] (zip (seq 0 (length keys)) keys)).*1.

(** [df.sort_values(['date', 'type', 'name']).index] *)
Definition sort_values (pd : Pandas) (all_data : list flat_row)
  : result (list nat) :=
  match mapM sort_key all_data with
  | Some keys => Ok (argsort keys)
  | None => sort_other pd all_data
  end.

(** [parse_excel_to_dataframe]: the index of the frame it returns.  A
    frame built from no dictionary has no column, and sorting it by
    ['date'] raises [KeyError]. *)
Definition parse_excel_to_dataframe (pd : Pandas) (lib : Library)
    (ws : Worksheet) (cfg : sheet_config) : result (list nat) :=
  all_data ← collect_all_data lib ws cfg;
  match all_data with
  | [] => Raise KeyError
  | _ => sort_values pd all_data
  end.

End DataframeParser.

(* ===================================================================== *)
(** * openpyxl_parser.py *)
(* ===================================================================== *)

Module OpenpyxlParser.

(** The dictionaries of the tree.  The two roots [assets] and
    [liabilities] have the keys [name] and [children]; a row's node has
    [name], [is], [en], [values], and gets [children] with its first
    child. *)
Record fields := {
  f_is : string;
  f_en : string;
  f_values : gmap string value
}.

Record node := {
  name : string;
  item : option fields;
  children : option (list nat)
}.

Definition append_child (c : nat) (n : node) : node :=
  {| name := name n; item := item n;
     children := Some (default [] (children n) ++ [c]) |}.

(** The references of the two roots. *)
Definition assets_ref : nat := 0.
Definition liabilities_ref : nat := 1.

(** The state of the loop of [detect_hierarchy]; the top of
    [hierarchy_stack] is its head. *)
Record state := {
  heap : list node;
  hierarchy_stack : list nat;
  in_assets : bool;
  assets_count : Z;
  liabilities_count : Z
}.

Definition initial : state :=
  {| heap := [ {| name := "EIGNIR / ASSETS"; item := None;
                  children := Some [] |};
               {| name := "SKULDIR / LIABILITIES"; item := None;
                  children := Some [] |} ];
     hierarchy_stack := [];
     in_assets := true;
     assets_count := 0;
     liabilities_count := 0 |}.

(** Line 231: Python reads [a or b and c] as [a or (b and c)]. *)
Definition is_section_switch (title_text : string) (row_idx start_row : Z)
  : bool :=
  str_in "SKULDIR" title_text
  || (str_in "LIABILITIES" title_text && (start_row + 5 <? row_idx)).

(** Lines 259-261: [while len(hierarchy_stack) > level: pop()]. *)
Fixpoint pop_deeper (stack : list nat) (level : Z) : result (list nat) :=
  match stack with
  | [] => if level <? 0 then Raise (IndexError of_list) else Ok []
  | _ :: rest =>
      if level <? Z.of_nat (length stack) then pop_deeper rest level
      else Ok stack
  end.

Section WithSheet.
Context (lib : Library) (ws : Worksheet).
Context (start_row title_col data_start_col : Z) (date_strs : list string).

(** Lines 253-257: [enumerate(date_strs, start=data_start_col)]. *)
Fixpoint node_values (row_idx col_idx : Z) (dates : list string)
    (values : gmap string value) : result (gmap string value) :=
  match dates with
  | [] => Ok values
  | date_str :: dates' =>
      value ← cell ws row_idx col_idx;
      if negb (is_None value) && is_int_or_float value then
        node_values row_idx (col_idx + 1) dates' (<[date_str := value]> values)
      else node_values row_idx (col_idx + 1) dates' values
  end.

(** The node starts a new top-level item of the current section. *)
Definition add_top (st : state) (ref : nat) (h : list node) : state :=
  if in_assets st then
    {| heap := alter (append_child ref) assets_ref h;
       hierarchy_stack := [ref];
       in_assets := in_assets st;
       assets_count := assets_count st + 1;
       liabilities_count := liabilities_count st |}
  else
    {| heap := alter (append_child ref) liabilities_ref h;
       hierarchy_stack := [ref];
       in_assets := in_assets st;
       assets_count := assets_count st;
       liabilities_count := liabilities_count st + 1 |}.

(** One turn of [for row_idx in range(start_row, ws.max_row + 1)]
    (lines 219-289). *)
Definition detect_row (st : state) (row_idx : Z) : result state :=
  title ← cell ws row_idx title_col;
  if is_None title || negb (truthy (VStr (strip (py_str lib title)))) then
    Ok st
  else
    let title_text := strip (py_str lib title) in
    let st :=
      if is_section_switch title_text row_idx start_row then
        {| heap := heap st; hierarchy_stack := []; in_assets := false;
           assets_count := assets_count st;
           liabilities_count := liabilities_count st |}
      else st in
    let indent := cell_indent ws row_idx title_col in
    let level :=
      if negb (indent =? 0) then indent
      else
        let leading_spaces :=
          Z.of_nat (py_len title_text)
          - Z.of_nat (py_len (lstrip title_text)) in
        leading_spaces / 2 in
    let bilingual := str_in " / " title_text in
    p_is ← (if bilingual
            then py_index (split_all (String.length title_text) " / " title_text) 0
            else Ok title_text);
    p_en ← (if bilingual
            then py_index (split_all (String.length title_text) " / " title_text) 1
            else Ok "");
    values ← node_values row_idx data_start_col date_strs ∅;
    let node := {| name := title_text;
                   item := Some {| f_is := p_is; f_en := p_en;
                                   f_values := values |};
                   children := None |} in
    let ref := length (heap st) in
    let heap1 := heap st ++ [node] in
    stack1 ← pop_deeper (hierarchy_stack st) level;
    if level =? 0 then Ok (add_top st ref heap1)
    else
      match stack1 with
      | [] => Ok (add_top st ref heap1)
      | parent :: _ =>
          Ok {| heap := alter (append_child ref) parent heap1;
                hierarchy_stack := ref :: stack1;
                in_assets := in_assets st;
                assets_count := assets_count st;
                liabilities_count := liabilities_count st |}
      end.

Fixpoint detect_rows (st : state) (rows : list Z) : result state :=
  match rows with
  | [] => Ok st
  | row_idx :: rows' =>
      st' ← detect_row st row_idx;
      detect_rows st' rows'
  end.

(** [detect_hierarchy], from the data region and the dates of the header
    (which [find_data_region] and [extract_dates_from_header] supply): the
    state its loop ends in, the two roots being the nodes at
    [assets_ref] and [liabilities_ref]. *)
Definition detect_hierarchy : result state :=
  detect_rows initial (range start_row (max_row ws + 1)).

End WithSheet.

End OpenpyxlParser.

(* ===================================================================== *)
(** * Notions used to state the properties *)
(* ===================================================================== *)

Module SectionSpec.

(** Two configurations that differ at most in what they say of the
    liabilities. *)
Definition same_but_liabilities (c1 c2 : sheet_config) : Prop :=
  date_row c1 = date_row c2
  /\ data_start_column c1 = data_start_column c2
  /\ data_name_column c1 = data_name_column c2
  /\ assets_row c1 = assets_row c2
  /\ assets_hierarchy c1 = assets_hierarchy c2.

(** The rows a loop over [hierarchy] visits from [start_row]. *)
Definition section_rows (start_row : Z) (hierarchy : list Z) : list Z :=
  seqZ start_row (Z.of_nat (length hierarchy)).

End SectionSpec.

Module ValuesSpec.

(** What the loops over the periods do with one period: its cell is
    either kept under the label of the period, or dropped. *)
Definition put (values : gmap string value) (e : string * option value)
  : gmap string value :=
  match e.2 with
  | Some v => <[e.1 := v]> values
  | None => values
  end.

End ValuesSpec.

Module ExtractJsonSpec.
Import ExtractJson.

(** The label a header cell contributes: none when the cell is blank, the
    formatted date for a date, the text [str] gives for anything else. *)
Definition header_text (lib : Library) (v : value) : option string :=
  if notna v then
    Some match v with
         | VDate d => strftime lib d
         | _ => py_str lib v
         end
  else None.

(** What a data cell contributes to [values]: nothing when it is blank,
    otherwise the cell, a numpy number turned into a [float]. *)
Definition kept (v : value) : option value :=
  if notna v then Some (if is_numpy_number v then to_float v else v)
  else None.

(** What the [i]-th data column gives to the values of the row at
    position [row]: what its cell contributes, and nothing when the frame
    has no such column. *)
Definition column_value (df : DataFrame) (cfg : sheet_config) (row : Z)
    (i : nat) : option value :=
  let c := data_start_column cfg - 1 + Z.of_nat i in
  if c <? shape1 df then kept (at_pos df row c) else None.

(** The grid accesses of a run of [parse_section] over [n] rows from
    [start_row] stay inside the frame. *)
Definition grid_ok (df : DataFrame) (cfg : sheet_config) (start_row : Z)
    (n : nat) : bool :=
  (0 <=? start_row) && (start_row + Z.of_nat n <=? shape0 df)
  && (1 <=? data_name_column cfg) && (data_name_column cfg <=? shape1 df)
  && (1 <=? data_start_column cfg).

(** The levels of the rows that get a node: those whose label is not
    blank. *)
Fixpoint created_levels (df : DataFrame) (cfg : sheet_config) (row : Z)
    (levels : list Z) : list Z :=
  match levels with
  | [] => []
  | l :: ls =>
      if isna (at_pos df row (data_name_column cfg - 1))
      then created_levels df cfg (row + 1) ls
      else l :: created_levels df cfg (row + 1) ls
  end.

(** No forward gap: every level is at most one more than the level
    created before it, [prev] ([0] at the start of a section, where the
    first level is 1). *)
Fixpoint gap_free (prev : Z) (levels : list Z) : bool :=
  match levels with
  | [] => true
  | l :: ls => (l <=? prev + 1) && gap_free l ls
  end.

(** Two rows hold the same cells, up to blank cells at the end of the one
    in the wider frame. *)
Definition cells_match (df1 df2 : DataFrame) (r' : Z) : Prop :=
  forall c, 0 <= c ->
    (c < shape1 df1 -> c < shape1 df2 -> at_pos df1 r' c = at_pos df2 r' c)
    /\ (shape1 df1 <= c -> c < shape1 df2 -> isna (at_pos df2 r' c) = true)
    /\ (shape1 df2 <= c -> c < shape1 df1 -> isna (at_pos df1 r' c) = true).

(** Row [r] of the two frames is the same row: [iloc] finds it at the
    same position, with the same cells. *)
Definition same_row (df1 df2 : DataFrame) (r : Z) : Prop :=
  iloc_row df1 r = iloc_row df2 r
  /\ forall r', iloc_row df1 r = Ok r' -> cells_match df1 df2 r'.

(** The header row and the name column are inside both frames, and the
    data columns start at or after the first column. *)
Definition frames_ok (df1 df2 : DataFrame) (cfg : sheet_config) : bool :=
  (1 <=? date_row cfg) && (date_row cfg <=? shape0 df1)
  && (date_row cfg <=? shape0 df2) && (1 <=? data_start_column cfg)
  && (1 <=? data_name_column cfg) && (data_name_column cfg <=? shape1 df1)
  && (data_name_column cfg <=? shape1 df2).

(** Every stack entry refers to a node of the heap and carries its
    level. *)
Definition stack_in_heap (h : list node) (stack : list (nat * Z)) : Prop :=
  Forall (fun e => stack_level <$> h !! e.1 = Some e.2) stack.

(** From the top down the levels of the stack decrease, to the root
    [result] at level 0. *)
Fixpoint descending (stack : list (nat * Z)) : Prop :=
  match stack with
  | [] => False
  | e :: rest =>
      match rest with
      | [] => e = (0%nat, 0)
      | e' :: _ => e'.2 < e.2 /\ descending rest
      end
  end.

(** The same, by steps of exactly one. *)
Fixpoint consecutive (stack : list (nat * Z)) : Prop :=
  match stack with
  | [] => False
  | e :: rest =>
      match rest with
      | [] => e = (0%nat, 0)
      | e' :: _ => e.2 = e'.2 + 1 /\ consecutive rest
      end
  end.

(** The level on top of the stack: that of the last node created. *)
Definition top_level (stack : list (nat * Z)) : Z :=
  match stack with
  | [] => 0
  | e :: _ => e.2
  end.

(** The heap holds [result] at reference 0, at level 0 and without the
    keys of a row, and after it the nodes of the rows, at positive
    levels. *)
Definition root_first (h : list node) : Prop :=
  forall r n, h !! r = Some n ->
    (r = 0%nat /\ stack_level n = 0 /\ item n = None)
    \/ (r <> 0%nat /\ 1 <= stack_level n /\ is_Some (item n)).

(** Every child is one level below its parent. *)
Definition levels_consistent (h : list node) : Prop :=
  forall p np c, h !! p = Some np -> c ∈ children np ->
    exists nc, h !! c = Some nc /\ stack_level nc = stack_level np + 1.

End ExtractJsonSpec.

Module HierarchyMapperSpec.
Import HierarchyMapper.

(** The label a header cell contributes: none when the cell is false as
    a condition ([None], [0], the empty string) or when
    [pandas.to_datetime] fails on it. *)
Definition header_label (lib : Library) (v : value) : option string :=
  if truthy v then
    match v with
    | VDate d => Some (strftime lib d)
    | _ => strftime lib <$> to_datetime lib v
    end
  else None.

(** Row [r] of the two sheets holds the same values. *)
Definition same_cells (ws1 ws2 : Worksheet) (r : Z) : Prop :=
  forall c, cell_value ws1 r c = cell_value ws2 r c.

(** Past [max_column] the row [r] is empty. *)
Definition blank_beyond (ws : Worksheet) (r : Z) : Prop :=
  forall c, max_column ws < c -> cell_value ws r c = VNone.

(** What a data cell contributes to [values]: the cell when it is an
    [int] or a [float], nothing otherwise. *)
Definition kept (v : value) : option value :=
  if negb (is_None v) && is_int_or_float v then Some v else None.

(** A node is in the tree when it is a root or a child of some node. *)
Definition attached (f : forest) (ref : nat) : Prop :=
  ref ∈ roots f \/ exists p np, heap f !! p = Some np /\ ref ∈ children np.

(** Every child is one level below its parent, and parents are at level 1
    or deeper. *)
Definition levels_consistent (h : list node) : Prop :=
  forall p np c, h !! p = Some np -> c ∈ children np ->
    1 <= level np /\ exists nc, h !! c = Some nc /\ level nc = level np + 1.

(** The level map sends a level to a node of that level, and only levels
    from 1 on. *)
Definition node_map_ok (st : build_state) : Prop :=
  forall k r, node_map st !! k = Some r ->
    1 <= k /\ level <$> nodes st !! r = Some k.

(** The roots are the nodes of level 1 met so far. *)
Definition roots_ok (st : build_state) : Prop :=
  forall r, r ∈ root_nodes st -> level <$> nodes st !! r = Some 1.

End HierarchyMapperSpec.

Module DataframeParserSpec.
Import DataframeParser SectionSpec.

(** The order of the keys, spelled out: the earlier date first; on the
    same date the asset first; on the same date and type the smaller
    label first, texts being ordered byte by byte, which is the order
    of their code points. *)
Definition key_le (a b : Z * section_type * string) : Prop :=
  a.1.1 < b.1.1
  \/ (a.1.1 = b.1.1
      /\ ((a.1.2 = asset /\ b.1.2 = liability)
          \/ (a.1.2 = b.1.2
              /\ (a.2 = b.2 \/ OrderedTypeEx.String_as_OT.lt a.2 b.2)))).

(** The order [sort_values] sorts by, as a relation on the dictionaries
    whose label is a text and whose date is not [NaT]: by the date, then
    by the type, then by the label. *)
Definition row_le (a b : flat_row) : Prop :=
  exists ka kb,
    sort_key a = Some ka /\ sort_key b = Some kb /\ key_le ka kb.

(** A dictionary whose label is a text and whose date is not [NaT]. *)
Definition plain (r : flat_row) : bool :=
  match date r, name r with
  | Datetime _, VStr _ => true
  | _, _ => false
  end.

(** The dictionaries the rows of a frame are made from, from its first
    row to its last, [index] being the index of the frame. *)
Definition frame_rows (all_data : list flat_row) (index : list nat)
  : list flat_row :=
  omap (fun i => all_data !! i) index.

(** What identifies a dictionary in the sheet: the label of its line, its
    date and its value. *)
Definition cell_of (r : flat_row) : value * datetime * value :=
  (name r, date r, value_of r).

(** The cells of sheet row [r] that give a row of the frame, from left to
    right: none when the label is missing, otherwise one for each date
    whose cell holds a number. *)
Definition row_cells (ws : Worksheet) (cfg : sheet_config)
    (dates : list datetime) (r : Z) : list (value * datetime * value) :=
  let label := cell_value ws r (data_name_column cfg) in
  if is_None label then []
  else
    omap (fun dc : datetime * Z =>
            let v := cell_value ws r dc.2 in
            if negb (is_None v) && is_int_or_float v
            then Some (label, dc.1, v) else None)
         (zip dates (seqZ (data_start_column cfg) (Z.of_nat (length dates)))).

(** The cells of a section, row after row. *)
Definition section_cells (ws : Worksheet) (cfg : sheet_config)
    (dates : list datetime) (start_row : Z) (hierarchy : list Z)
  : list (value * datetime * value) :=
  concat (map (row_cells ws cfg dates) (section_rows start_row hierarchy)).

(** The date a header cell contributes: none when the cell is false as
    a condition or when [pandas.to_datetime] fails on it. *)
Definition header_date (lib : Library) (v : value) : option datetime :=
  if truthy v then
    match v with
    | VDate d => Some (Datetime d)
    | _ => if is_NaT lib v then Some NaT else Datetime <$> to_datetime lib v
    end
  else None.

(** The rows of the assets among the rows of a frame. *)
Definition is_asset (r : flat_row) : bool :=
  match type r with
  | asset => true
  | liability => false
  end.

(** The coordinates of the configuration are ones openpyxl accepts. *)
Definition coordinates_ok (cfg : sheet_config) : bool :=
  (1 <=? date_row cfg) && (1 <=? data_start_column cfg)
  && (1 <=? data_name_column cfg) && (1 <=? assets_row cfg)
  && (1 <=? liabilities_row cfg).

End DataframeParserSpec.

(* ===================================================================== *)
(** * Sheets and frames for the examples *)
(* ===================================================================== *)

Module Examples.

(** A library that knows two dates. *)
Definition calendar : Library :=
  {| strftime := fun d =>
       if d =? 738916 then "2024-01-31"
       else if d =? 738945 then "2024-02-29"
       else "1970-01-01";
     to_datetime := fun v =>
       match v with
       | VStr s =>
           if String.eqb s "2024-01-31" then Some 738916
           else if String.eqb s "2024-02-29" then Some 738945
           else None
       | _ => None
       end;
     is_NaT := fun v =>
       match v with
       | VStr s => String.eqb s "NaT"
       | _ => false
       end;
     repr := fun v =>
       match v with
       | VNone => "None"
       | VNaN => "nan"
       | VBool true => "True"
       | VBool false => "False"
       | _ => ""
       end |}.

Definition width (rows : list (list value)) : nat :=
  foldr (fun r m => Nat.max (length r) m) 0%nat rows.

(** The frame [pandas.read_excel(..., header=None)] makes of the rows of a
    sheet: short rows are filled with [nan]. *)
Definition frame (rows : list (list value)) : ExtractJson.DataFrame :=
  {| ExtractJson.shape0 := Z.of_nat (length rows);
     ExtractJson.shape1 := Z.of_nat (width rows);
     ExtractJson.at_pos := fun r c =>
       default VNaN (row ← rows !! Z.to_nat r; row !! Z.to_nat c) |}.

(** The worksheet with these rows, from row 1 and column 1, no cell
    indented. *)
Definition sheet (rows : list (list value)) : Worksheet :=
  {| max_row := Z.of_nat (length rows);
     max_column := Z.of_nat (width rows);
     cell_value := fun r c =>
       if (1 <=? r) && (1 <=? c)
       then default VNone (row ← rows !! Z.to_nat (r - 1);
                           row !! Z.to_nat (c - 1))
       else VNone;
     cell_indent := fun _ _ => 0 |}.

(** The scenario of the specification: five lines at the levels
    [1, 2, 3, 2, 1], each with 10 and 20 for the two periods. *)
Definition scenario_rows : list (list value) :=
  [ [VNaN; VStr "2024-01"; VStr "2024-02"];
    [VStr "A"; VInt 10; VInt 20];
    [VStr "B"; VInt 10; VInt 20];
    [VStr "C"; VInt 10; VInt 20];
    [VStr "D"; VInt 10; VInt 20];
    [VStr "E"; VInt 10; VInt 20] ].

Definition scenario_config : sheet_config :=
  {| date_row := 1; data_start_column := 2; data_name_column := 1;
     assets_row := 2; liabilities_row := 7;
     assets_hierarchy := [1; 2; 3; 2; 1]; liabilities_hierarchy := [] |}.

Definition scenario_values : gmap string value :=
  {[ "2024-01" := VInt 10; "2024-02" := VInt 20 ]}.

Definition scenario_entry (name : string) (row level : Z)
  : HierarchyMapper.entry :=
  {| HierarchyMapper.e_name := name;
     HierarchyMapper.hierarchy_level := level;
     HierarchyMapper.row := row;
     HierarchyMapper.e_values := scenario_values;
     HierarchyMapper.e_is := name;
     HierarchyMapper.e_en := "" |}.

Definition scenario_entries : list HierarchyMapper.entry :=
  [ scenario_entry "A" 2 1; scenario_entry "B" 3 2; scenario_entry "C" 4 3;
    scenario_entry "D" 5 2; scenario_entry "E" 6 1 ].

(** The trees expected of the scenario. *)
Definition scenario_item (name : string) (level : Z)
    (kids : list ExtractJson.tree) : ExtractJson.tree :=
  ExtractJson.Tree name
    (Some {| ExtractJson.f_is := name; ExtractJson.f_en := name;
             ExtractJson.f_values := scenario_values |})
    level kids.

Definition scenario_node (name : string) (row level : Z)
    (kids : list HierarchyMapper.tree) : HierarchyMapper.tree :=
  HierarchyMapper.Tree row name name "" level scenario_values kids.

(** A line at level 1 directly followed by a line at level 3. *)
Definition jump_rows : list (list value) :=
  [ [VNaN; VStr "2024-01"; VStr "2024-02"];
    [VStr "A"; VInt 10; VInt 20];
    [VStr "B"; VInt 10; VInt 20] ].

Definition jump_entries : list HierarchyMapper.entry :=
  [ scenario_entry "A" 2 1; scenario_entry "B" 3 3 ].

Definition jump_sheet_rows : list (list value) :=
  [ [VNone; VDate 738916; VDate 738945];
    [VStr "A"; VInt 10; VInt 20];
    [VStr "B"; VInt 10; VInt 20] ].

Definition jump_config : sheet_config :=
  {| date_row := 1; data_start_column := 2; data_name_column := 1;
     assets_row := 2; liabilities_row := 4;
     assets_hierarchy := [1; 3]; liabilities_hierarchy := [] |}.

(** A line whose cell for the second period holds a text, one that
    [pandas.read_excel] does not take for a missing value. *)
Definition text_rows : list (list value) :=
  [ [VNaN; VStr "2024-01"; VStr "2024-02"];
    [VStr "A"; VInt 10; VStr "see note" ] ].

(** A line whose cell for the second period is blank: as the sheet has
    it, and as the frame has it. *)
Definition blank_sheet_rows : list (list value) :=
  [ [VNone; VStr "2024-01"; VStr "2024-02"];
    [VStr "A"; VInt 10; VNone] ].

Definition blank_frame_rows : list (list value) :=
  [ [VNaN; VStr "2024-01"; VStr "2024-02"];
    [VStr "A"; VInt 10; VNaN] ].

(** A header with a cell that is not a date between two dates, over a
    line with a number in each of the three columns. *)
Definition total_rows : list (list value) :=
  [ [VNone; VDate 738916; VStr "Total"; VDate 738945];
    [VStr "A"; VInt 1; VInt 2; VInt 3] ].

Definition total_frame_rows : list (list value) :=
  [ [VNaN; VDate 738916; VStr "Total"; VDate 738945];
    [VStr "A"; VInt 1; VInt 2; VInt 3] ].

(** Two sheets with the same assets and different liabilities; in the
    second a single line, wider than the others, at a level met deep in
    the assets. *)
Definition first_liabilities : list (list value) :=
  [ [VStr "L1"; VInt 1; VInt 2]; [VStr "L2"; VInt 3; VInt 4] ].

Definition other_liabilities : list (list value) :=
  [ [VStr "X"; VInt 7; VInt 7; VInt 9] ].

Definition first_config : sheet_config :=
  {| date_row := 1; data_start_column := 2; data_name_column := 1;
     assets_row := 2; liabilities_row := 7;
     assets_hierarchy := [1; 2; 3; 2; 1]; liabilities_hierarchy := [1; 2] |}.

Definition other_config : sheet_config :=
  {| date_row := 1; data_start_column := 2; data_name_column := 1;
     assets_row := 2; liabilities_row := 7;
     assets_hierarchy := [1; 2; 3; 2; 1]; liabilities_hierarchy := [3] |}.

(** The scenario as a worksheet: dates in the header. *)
Definition scenario_sheet_rows : list (list value) :=
  [ [VNone; VDate 738916; VDate 738945];
    [VStr "A"; VInt 10; VInt 20];
    [VStr "B"; VInt 10; VInt 20];
    [VStr "C"; VInt 10; VInt 20];
    [VStr "D"; VInt 10; VInt 20];
    [VStr "E"; VInt 10; VInt 20] ].

(** A sheet whose third row, within five rows of the first data row,
    holds the marker of the liabilities. *)
Definition marker_rows : list (list value) :=
  [ [VStr "Reikningar"];
    [VStr "Eignir"];
    [VStr "SKULDIR og eigid fe"];
    [VStr "Innlan"] ].

(** A sheet whose lines are not in alphabetical order. *)
Definition unsorted_rows : list (list value) :=
  [ [VNone; VDate 738916];
    [VStr "B"; VInt 1];
    [VStr "A"; VInt 2] ].

Definition unsorted_config : sheet_config :=
  {| date_row := 1; data_start_column := 2; data_name_column := 1;
     assets_row := 2; liabilities_row := 4;
     assets_hierarchy := [1; 1]; liabilities_hierarchy := [] |}.

(** pandas for the sheets of the examples only: their labels are texts
    and their dates are dates, so that it is never asked for the order of
    another frame, and what it answers then stands for nothing. *)
Definition plain_frames : DataframeParser.Pandas :=
  {| DataframeParser.sort_other := fun _ => Raise TypeError |}.

(** Two frames with the same line of assets and a different line of
    liabilities, read with a [date_row] of 0: the header is then looked
    for in the last row, the line of the liabilities. *)
Definition wrapped_rows (header : string) : list (list value) :=
  [ [VStr "A"; VInt 10];
    [VStr "L"; VStr header] ].

Definition wrapped_config : sheet_config :=
  {| date_row := 0; data_start_column := 2; data_name_column := 1;
     assets_row := 1; liabilities_row := 2;
     assets_hierarchy := [1]; liabilities_hierarchy := [1] |}.

(** The shape the specification gives for the scenario: two roots, the
    first with exactly one child that has exactly one child without
    children, the second without children. *)
Definition claimed_shape_json (t : ExtractJson.tree) : bool :=
  match t with
  | ExtractJson.Tree _ _ _
      [ ExtractJson.Tree _ _ _
          [ ExtractJson.Tree _ _ _ [ ExtractJson.Tree _ _ _ [] ] ];
        ExtractJson.Tree _ _ _ [] ] => true
  | _ => false
  end.

Definition claimed_shape_mapper (ts : list HierarchyMapper.tree) : bool :=
  match ts with
  | [ HierarchyMapper.Tree _ _ _ _ _ _
        [ HierarchyMapper.Tree _ _ _ _ _ _
            [ HierarchyMapper.Tree _ _ _ _ _ _ [] ] ];
      HierarchyMapper.Tree _ _ _ _ _ _ [] ] => true
  | _ => false
  end.

End Examples.

(* ===================================================================== *)
(** * The shape of the trees *)
(* ===================================================================== *)

(** Nodes kept in a list and referred to by their index, each with the
    list of its children: when is the list a tree written parents first? *)
Module HeapShape.
Section WithKids.
Context {N : Type} (kids : N -> list nat).

(** [covers h r e]: the node [r] and the nodes below it are the nodes
    [r, r+1, .., e-1] of the list, each subtree a run of its own;
    [chain h a cs e]: the subtrees of the nodes [cs] follow one another
    from [a] to [e]. *)
Inductive covers (h : list N) : nat -> nat -> Prop :=
| covers_node (r : nat) (n : N) (e : nat) :
    h !! r = Some n -> chain h (S r) (kids n) e -> covers h r e
with chain (h : list N) : nat -> list nat -> nat -> Prop :=
| chain_nil (a : nat) : chain h a [] a
| chain_cons (a m : nat) (cs : list nat) (e : nat) :
    covers h a m -> chain h m cs e -> chain h a (a :: cs) e.

Scheme covers_chain_ind := Minimality for covers Sort Prop
  with chain_covers_ind := Minimality for chain Sort Prop.
Combined Scheme covers_chain_mutind from covers_chain_ind, chain_covers_ind.

(** The node [s] is still open: its children so far run up to [e]. *)
Definition top_open (h : list N) (s e : nat) : Prop :=
  exists n, h !! s = Some n /\ chain h (S s) (kids n) e.

(** The node [s] is the last child of the node [s']. *)
Definition link (h : list N) (s' s : nat) : Prop :=
  exists n cs, h !! s' = Some n /\ kids n = cs ++ [s]
               /\ chain h (S s') cs s.

(** Each node of the stack, from its top, is the last child of the node
    under it. *)
Fixpoint links (h : list N) (stack : list nat) : Prop :=
  match stack with
  | [] => True
  | s :: rest =>
      match rest with
      | [] => True
      | s' :: _ => link h s' s /\ links h rest
      end
  end.

(** The stack is the right-most branch of what is built up to [e]. *)
Definition branch (h : list N) (stack : list nat) (e : nat) : Prop :=
  links h stack /\ top_open h (default 0%nat (head stack)) e.

End WithKids.
End HeapShape.

Module ExtractJsonShape.
Import ExtractJson.

(** The configuration with another [date_row]. *)
Definition with_date_row (cfg : sheet_config) (r : Z) : sheet_config :=
  {| date_row := r;
     data_start_column := data_start_column cfg;
     data_name_column := data_name_column cfg;
     assets_row := assets_row cfg;
     liabilities_row := liabilities_row cfg;
     assets_hierarchy := assets_hierarchy cfg;
     liabilities_hierarchy := liabilities_hierarchy cfg |}.

(** The references held as children, node after node of the heap. *)
Definition child_refs (h : list node) : list nat :=
  concat (map children h).

(** The children of a node are nodes created after it, kept in the order
    they were created in. *)
Definition nested (h : list node) : Prop :=
  forall p np, h !! p = Some np ->
    StronglySorted lt (p :: children np)
    /\ Forall (fun c => (c < length h)%nat) (children np).

(** The names of a tree, parents before children and children from first
    to last: the order [json.dump] writes them in. *)
Fixpoint tree_names (t : tree) : list string :=
  match t with
  | Tree n _ _ kids => n :: concat (map tree_names kids)
  end.

(** The names of the lines that get a node: the labels that are not
    blank, as [str] and [strip] leave them. *)
Fixpoint created_names (lib : Library) (df : DataFrame) (cfg : sheet_config)
    (row : Z) (levels : list Z) : list string :=
  match levels with
  | [] => []
  | _ :: ls =>
      let label := at_pos df row (data_name_column cfg - 1) in
      if isna label then created_names lib df cfg (row + 1) ls
      else strip (py_str lib label) :: created_names lib df cfg (row + 1) ls
  end.

(** The shape a run of [parse_section] keeps. *)
Definition shaped (st : state) : Prop :=
  nested (heap st)
  /\ child_refs (heap st) ≡ₚ seq 1 (length (heap st) - 1)
  /\ HeapShape.branch children (heap st) (map fst (stack st))
                      (length (heap st)).

End ExtractJsonShape.

Module HierarchyMapperShape.
Import HierarchyMapper.

(** The references held as children, node after node of the list. *)
Definition child_refs (h : list node) : list nat :=
  concat (map children h).

(** The references the forest holds: its roots, then the children. *)
Definition attached_refs (f : forest) : list nat :=
  roots f ++ child_refs (heap f).

(** The same for the state of the loop. *)
Definition placed (st : build_state) : list nat :=
  root_nodes st ++ child_refs (nodes st).

(** The children of a node are later nodes of the list, in the order of
    the list. *)
Definition nested (h : list node) : Prop :=
  forall p np, h !! p = Some np ->
    StronglySorted lt (p :: children np)
    /\ Forall (fun c => (c < length h)%nat) (children np).

(** What a node holds of its entry: everything but [children]. *)
Definition payload (n : node)
  : Z * string * string * string * Z * gmap string value :=
  (id n, name n, n_is n, n_en n, level n, values n).

(** Levels without a gap: the first is 1 ([prev] is 0 there), and each
    one is at least 1 and at most one more than the level before it. *)
Fixpoint stepwise (prev : Z) (levels : list Z) : bool :=
  match levels with
  | [] => true
  | l :: ls => (1 <=? l) && (l <=? prev + 1) && stepwise l ls
  end.

(** The level map holds the levels from 1 to [k], and no other. *)
Definition tracks (st : build_state) (k : Z) : Prop :=
  forall j, is_Some (node_map st !! j) <-> 1 <= j <= k.

(** What the loop keeps, [ref] being the next node to place. *)
Definition well_placed (st : build_state) (ref : nat) : Prop :=
  (forall p np, nodes st !! p = Some np ->
     StronglySorted lt (p :: children np)
     /\ Forall (fun c => (c < ref)%nat) (children np))
  /\ StronglySorted lt (root_nodes st)
  /\ Forall (fun r => (r < ref)%nat) (placed st)
  /\ NoDup (placed st)
  /\ (forall k r, node_map st !! k = Some r -> (r < ref)%nat).





(** The names of a tree, parents before children and children from first
    to last. *)
Fixpoint tree_names (t : tree) : list string :=
  match t with
  | Tree _ name _ _ _ _ kids => name :: concat (map tree_names kids)
  end.

(** The level map read as a stack: [tracked] holds the nodes of the
    levels 1, 2, ... in this order, and the map holds no other level. *)
Definition ghost (st : build_state) (tracked : list nat) : Prop :=
  forall j, node_map st !! j
            = if decide (1 <= j) then tracked !! Z.to_nat (j - 1) else None.

(** What the loop keeps on levels without a gap, [ref] being the next
    node to place: the tracked nodes are the right-most branch of the
    forest built so far, the roots before the last one are complete, and
    the nodes still to place have no child. *)
Definition in_order (st : build_state) (ref : nat) (tracked : list nat)
  : Prop :=
  ghost st tracked
  /\ HeapShape.links children (nodes st) (reverse tracked)
  /\ match last tracked with
     | None => root_nodes st = [] /\ ref = 0%nat
     | Some top =>
         HeapShape.top_open children (nodes st) top ref
         /\ exists rs b,
              head tracked = Some b /\ root_nodes st = rs ++ [b]
              /\ HeapShape.chain children (nodes st) 0 rs b
     end
  /\ (forall r n, (ref <= r)%nat -> nodes st !! r = Some n ->
        children n = []).

End HierarchyMapperShape.

(* ===================================================================== *)
(** * hierarchy_mapper.py: the readable view *)
(* ===================================================================== *)

Module ReadableHierarchy.
Import HierarchyMapper.

(** A Python [dict] with text keys: its items, in the order the keys were
    first set. *)
Definition dict (A : Type) : Type := list (string * A).

Definition keys {A} (d : dict A) : list string := map fst d.

(** [d[k] = v]: a key that is there keeps its place. *)
Fixpoint dict_set {A} (k : string) (v : A) (d : dict A) : dict A :=
  match d with
  | [] => [(k, v)]
  | (k', v') :: d' =>
      if String.eqb k k' then (k, v) :: d' else (k', v') :: dict_set k v d'
  end.

(** [d.update(other)] *)
Definition dict_update {A} (d other : dict A) : dict A :=
  foldl (fun acc kv => dict_set kv.1 kv.2 acc) d other.

(** [d.get(k)] *)
Fixpoint dict_get {A} (k : string) (d : dict A) : option A :=
  match d with
  | [] => None
  | (k', v) :: d' => if String.eqb k k' then Some v else dict_get k d'
  end.

(** An entry of the readable view. *)
Record readable := {
  r_id : Z;
  r_name : string;
  r_is : string;
  r_en : string;
  r_path : list nat;
  r_level : nat;
  r_hierarchy_level : Z;
  r_index : nat;
  r_full_path : string
}.

(** [".".join(map(str, current_path))] *)
Definition path_str (current_path : list nat) : string :=
  String.concat "." (map pretty current_path).

(** Lines 247 and 252: the name behind the prefix, with [" > "] between
    them when the prefix is not empty. *)
Definition breadcrumb (prefix name : string) : string :=
  String.append prefix
    (if String.eqb prefix "" then name else String.append " > " name).

Definition children_of (item : tree) : list tree :=
  match item with
  | Tree _ _ _ _ _ _ kids => kids
  end.

Definition name_of (item : tree) : string :=
  match item with
  | Tree _ name _ _ _ _ _ => name
  end.

(** Lines 238-248: the entry of an item. *)
Definition entry_of (item : tree) (prefix : string)
    (current_path : list nat) (i : nat) : readable :=
  match item with
  | Tree id name n_is n_en level _ _ =>
      {| r_id := id; r_name := name; r_is := n_is; r_en := n_en;
         r_path := current_path; r_level := length current_path;
         r_hierarchy_level := level; r_index := i;
         r_full_path := breadcrumb prefix name |}
  end.

Section Enumerate.
Context {A B : Type} (body : A -> nat -> B -> B).

(** [for i, item in enumerate(items)], [j] being the index of the head
    of [items] and [acc] what the loop has built. *)
Fixpoint enumerate_from (items : list A) (j : nat) (acc : B) : B :=
  match items with
  | [] => acc
  | item :: rest => enumerate_from rest (S j) (body item j acc)
  end.

End Enumerate.

(** One turn of the loop of [extract_readable_hierarchy] (lines 232-254),
    on the item of index [i]. *)
Fixpoint readable_item (item : tree) (prefix : string) (path : list nat)
    (i : nat) (result : dict readable) {struct item} : dict readable :=
  let current_path := path ++ [i] in
  let result :=
    dict_set (path_str current_path) (entry_of item prefix current_path i)
             result in
  match item with
  | Tree _ name _ _ _ _ children =>
      match children with
      | [] => result
      | _ :: _ =>
          let child_prefix := breadcrumb prefix name in
          let child_results :=
            enumerate_from
              (fun child j acc =>
                 readable_item child child_prefix current_path j acc)
              children 0%nat [] in
          dict_update result child_results
      end
  end.

(** [extract_readable_hierarchy(hierarchy, prefix, path)], on the trees
    that the roots denote. *)
Definition extract_readable_hierarchy (hierarchy : list tree)
    (prefix : string) (path : list nat) : dict readable :=
  enumerate_from (fun item i acc => readable_item item prefix path i acc)
                 hierarchy 0%nat [].

(** Lines 213-214 of [map_test_schema_to_hierarchy]: the view of a
    section, with the default [prefix] and [path]. *)
Definition readable_section (f : forest) : option (dict readable) :=
  hierarchy ← trees f;
  Some (extract_readable_hierarchy hierarchy "" []).

(** ** The view, node after node *)

Section FlatEnumerate.
Context {A B : Type} (body : A -> nat -> list B).

Fixpoint flat_enumerate (items : list A) (j : nat) : list B :=
  match items with
  | [] => []
  | item :: rest => body item j ++ flat_enumerate rest (S j)
  end.

End FlatEnumerate.

(** The entries of an item and of the items below it, parents first. *)
Fixpoint listing (item : tree) (prefix : string) (path : list nat)
    (i : nat) {struct item} : list readable :=
  entry_of item prefix (path ++ [i]) i
  :: match item with
     | Tree _ name _ _ _ _ children =>
         flat_enumerate
           (fun child j =>
              listing child (breadcrumb prefix name) (path ++ [i]) j)
           children 0%nat
     end.

Definition listing_all (hierarchy : list tree) (prefix : string)
    (path : list nat) : list readable :=
  flat_enumerate (fun item i => listing item prefix path i) hierarchy 0%nat.

(** The item of a dictionary an entry makes. *)
Definition item_of (r : readable) : string * readable :=
  (path_str (r_path r), r).

(** The node a path leads to: its first index picks a root, the next
    ones a child each.  The empty path leads nowhere. *)
Fixpoint node_at (items : list tree) (p : list nat) : option tree :=
  match p with
  | [] => None
  | i :: p' =>
      match items !! i with
      | None => None
      | Some t =>
          match p' with
          | [] => Some t
          | _ :: _ => node_at (children_of t) p'
          end
      end
  end.

(** The names of the nodes above it, from the root down. *)
Fixpoint ancestors_at (items : list tree) (p : list nat) : list string :=
  match p with
  | [] => []
  | i :: p' =>
      match items !! i with
      | None => []
      | Some t =>
          match p' with
          | [] => []
          | _ :: _ => name_of t :: ancestors_at (children_of t) p'
          end
      end
  end.

(** The entry of the node a path leads to, in a view made with [prefix]
    and [path]. *)
Fixpoint entry_at (items : list tree) (prefix : string) (path : list nat)
    (p : list nat) : option readable :=
  match p with
  | [] => None
  | i :: p' =>
      match items !! i with
      | None => None
      | Some t =>
          match p' with
          | [] => Some (entry_of t prefix (path ++ [i]) i)
          | _ :: _ =>
              entry_at (children_of t) (breadcrumb prefix (name_of t))
                       (path ++ [i]) p'
          end
      end
  end.

End ReadableHierarchy.

(* ===================================================================== *)
(** * dataframe_parser.py: the dictionaries of the frame *)
(* ===================================================================== *)

Module DataframeParserShape.
Import DataframeParser.

(** The lines of a section that have a label, each with the level the
    configuration gives it. *)
Fixpoint labelled_lines (ws : Worksheet) (cfg : sheet_config) (row : Z)
    (hierarchy : list Z) : list (Z * value) :=
  match hierarchy with
  | [] => []
  | level :: rest =>
      let name := cell_value ws row (data_name_column cfg) in
      if is_None name then labelled_lines ws cfg (row + 1) rest
      else (level, name) :: labelled_lines ws cfg (row + 1) rest
  end.

(** The lines of the section a row belongs to. *)
Definition lines_of (ws : Worksheet) (cfg : sheet_config)
    (tp : section_type) : list (Z * value) :=
  match tp with
  | asset => labelled_lines ws cfg (assets_row cfg) (assets_hierarchy cfg)
  | liability =>
      labelled_lines ws cfg (liabilities_row cfg) (liabilities_hierarchy cfg)
  end.

(** What holds of a row made from the lines [lines] and the dates
    [dates]: its date is one of the header, its value a number, its name
    and level those of a line, its two names the cut of its name, its
    parent [None] at level 1 or below and otherwise [None] or the label
    of a line one level up, cut in the same way. *)
Definition well_formed (dates : list datetime) (lines : list (Z * value))
    (r : flat_row) : Prop :=
  date r ∈ dates
  /\ is_None (value_of r) = false
  /\ is_int_or_float (value_of r) = true
  /\ (hierarchy_level r, name r) ∈ lines
  /\ split_label (name r) = Ok (name_is r, name_en r)
  /\ split_label (parent r) = Ok (parent_is r, parent_en r)
  /\ (hierarchy_level r <= 1 -> parent r = VNone)
  /\ (parent r = VNone \/ (hierarchy_level r - 1, parent r) ∈ lines).

End DataframeParserShape.

(* ===================================================================== *)
(** * openpyxl_parser.py: the shape of the two trees *)
(* ===================================================================== *)

Module OpenpyxlParserShape.
Import OpenpyxlParser.

(** The children of a node; none when the node has no [children] key. *)
Definition kids_of (n : node) : list nat := default [] (children n).

(** The children of the node at a reference. *)
Definition kids (h : list node) (r : nat) : list nat :=
  default [] (kids_of <$> h !! r).

(** The references held as children, node after node of the heap. *)
Definition child_refs (h : list node) : list nat :=
  concat (map kids_of h).

(** Line 231-234: the state after the switch to the liabilities. *)
Definition switched (st : state) : state :=
  {| heap := heap st; hierarchy_stack := []; in_assets := false;
     assets_count := assets_count st;
     liabilities_count := liabilities_count st |}.

(** Lines 263-289: filing the node of a line, [stack1] being the stack
    after the pops. *)
Definition file_node (st : state) (level : Z) (stack1 : list nat)
    (node : OpenpyxlParser.node) : state :=
  let ref := length (heap st) in
  let heap1 := heap st ++ [node] in
  if level =? 0 then add_top st ref heap1
  else
    match stack1 with
    | [] => add_top st ref heap1
    | parent :: _ =>
        {| heap := alter (append_child ref) parent heap1;
           hierarchy_stack := ref :: stack1;
           in_assets := in_assets st;
           assets_count := assets_count st;
           liabilities_count := liabilities_count st |}
    end.

(** Lines 236-243: the level of a line, from the indent of its cell or
    from the blanks before its text. *)
Definition level_of (ws : Worksheet) (row_idx title_col : Z)
    (title_text : string) : Z :=
  let indent := cell_indent ws row_idx title_col in
  if negb (indent =? 0) then indent
  else (Z.of_nat (py_len title_text)
        - Z.of_nat (py_len (lstrip title_text))) / 2.

(** What the loop of [detect_hierarchy] keeps: the two roots are there,
    the stack holds nodes of lines, every node of a line is held as a
    child once, the two counters count the children of the two roots, and
    nothing is filed under the liabilities before the switch. *)
Definition well_kept (st : state) : Prop :=
  (2 <= length (heap st))%nat
  /\ Forall (fun r => (2 <= r < length (heap st))%nat) (hierarchy_stack st)
  /\ child_refs (heap st) ≡ₚ seq 2 (length (heap st) - 2)
  /\ assets_count st = Z.of_nat (length (kids (heap st) assets_ref))
  /\ liabilities_count st
     = Z.of_nat (length (kids (heap st) liabilities_ref))
  /\ (in_assets st = true -> kids (heap st) liabilities_ref = []).

(** No line has a child: all of them are items of the two roots, in the
    order of the sheet. *)
Definition flat (st : state) : Prop :=
  kids (heap st) assets_ref ++ kids (heap st) liabilities_ref
  = seq 2 (length (heap st) - 2)
  /\ forall r n, (2 <= r)%nat -> heap st !! r = Some n -> children n = None.

End OpenpyxlParserShape.

(* ===================================================================== *)
(** * openpyxl_parser.py: the data region, the dates, a whole sheet *)
(* ===================================================================== *)

Module OpenpyxlSheet.
Import OpenpyxlParser.

(** What the parser reads of the JSON template ([self.template]), its
    nested entries being objects where the parser reads them as objects:
    whether it has a ['data'] key, [metadata.get('sheet')],
    [metadata.get('dates', [])], and
    [data.get('assets', {}).get('data_region', {})], with integers for
    values. *)
Record Template := {
  has_data : bool;
  metadata_sheet : option string;
  metadata_dates : list value;
  data_region : gmap string Z
}.

(** A data region: [(start_row, title_col, data_start_col)]. *)
Definition region : Type := Z * Z * Z.

(** Lines 62-72: the region the template gives for the sheet, if it
    gives one. *)
Definition template_region (template : option Template)
    (sheet_name : string) : option region :=
  match template with
  | Some t =>
      if has_data t
         && bool_decide (metadata_sheet t = Some sheet_name)
         && negb (bool_decide (data_region t = ∅))
      then Some (default 10 (data_region t !! "start_row"),
                 default 1 (data_region t !! "title_col"),
                 default 2 (data_region t !! "data_start_col"))
      else None
  | None => None
  end.

(** A date as pandas holds it: a [Timestamp], or [NaT]. *)
Inductive stamp := Timestamp (d : Z) | NaT.

(** pandas and the clock: [pd.to_datetime] on a scalar, [datetime.now()]
    and [end_date - pd.DateOffset(months=i)]. *)
Record Pandas := {
  pd_to_datetime : value -> result stamp;
  now : Z;
  months_before : Z -> Z -> Z
}.

Section WithSheet.
Context (lib : Library) (pd : Pandas) (ws : Worksheet).
Context (template : option Template) (sheet_name : string).

(** Lines 77-81: the count of the cells of a row that are not empty. *)
Fixpoint count_non_empty (row_idx : Z) (cols : list Z) (non_empty_count : Z)
  : result Z :=
  match cols with
  | [] => Ok non_empty_count
  | col_idx :: cols' =>
      cell_value ← cell ws row_idx col_idx;
      if negb (is_None cell_value)
         && truthy (VStr (strip (py_str lib cell_value)))
      then count_non_empty row_idx cols' (non_empty_count + 1)
      else count_non_empty row_idx cols' non_empty_count
  end.

(** Lines 76-92: the first row with five cells that are not empty, or
    the default. *)
Fixpoint scan_rows (rows : list Z) : result region :=
  match rows with
  | [] => Ok (10, 1, 2)
  | row_idx :: rows' =>
      non_empty_count ←
        count_non_empty row_idx (range 1 (Z.min 20 (max_column ws))) 0;
      if 5 <=? non_empty_count then Ok (row_idx, 1, 2)
      else scan_rows rows'
  end.

(** [find_data_region(sheet_name)] *)
Definition find_data_region : result region :=
  match template_region template sheet_name with
  | Some r => Ok r
  | None => scan_rows (range 1 (Z.min 50 (max_row ws)))
  end.

(** Lines 119-142: the dates of the header row.  A [datetime] is true as
    a condition whatever it holds, so every date that is read or parsed
    is kept. *)
Fixpoint header_dates (row : Z) (cols : list Z) (dates : list stamp)
  : result (list stamp) :=
  match cols with
  | [] => Ok dates
  | col :: cols' =>
      cell_value ← cell ws row col;
      if is_None cell_value then header_dates row cols' dates
      else
        let date_value :=
          match cell_value with
          | VDate d => Some (Timestamp d)
          | _ =>
              match pd_to_datetime pd cell_value with
              | Ok s => Some s
              | Raise _ => None
              end
          end in
        match date_value with
        | Some s => header_dates row cols' (dates ++ [s])
        | None => header_dates row cols' dates
        end
  end.

(** Line 153: [[pd.to_datetime(d) for d in template_dates]]. *)
Fixpoint to_datetimes (ds : list value) : result (list stamp) :=
  match ds with
  | [] => Ok []
  | d :: ds' =>
      s ← pd_to_datetime pd d;
      rest ← to_datetimes ds';
      Ok (s :: rest)
  end.

(** Lines 147-151: the dates of the template, when it is about this
    sheet. *)
Definition template_dates : list value :=
  match template with
  | Some t =>
      if bool_decide (metadata_sheet t = Some sheet_name)
      then metadata_dates t else []
  | None => []
  end.

(** Lines 159-161: the last 24 months, the oldest first. *)
Definition sample_dates : list stamp :=
  reverse (map (fun i => Timestamp (months_before pd (now pd) i))
               (range 0 24)).

(** [extract_dates_from_header(sheet_name, data_region)] *)
Definition extract_dates_from_header (data_region : region)
  : result (list stamp) :=
  let '(start_row, title_col, data_start_col) := data_region in
  dates ← header_dates (start_row - 1)
             (range data_start_col (max_column ws + 1)) [];
  match dates with
  | [] =>
      match template_dates with
      | [] => Ok sample_dates
      | _ :: _ => to_datetimes template_dates
      end
  | _ :: _ => Ok dates
  end.

(** Line 192: [[d.strftime("%Y-%m-%d") for d in dates]]; [NaT] has no
    [strftime]. *)
Fixpoint date_strs_of (dates : list stamp) : result (list string) :=
  match dates with
  | [] => Ok []
  | Timestamp d :: dates' =>
      rest ← date_strs_of dates';
      Ok (strftime lib d :: rest)
  | NaT :: _ => Raise ValueError
  end.

(** [parse_sheet(sheet_name)]: the data region, then
    [detect_hierarchy(sheet_name, data_region)] with the dates of its
    header. *)
Definition parse_sheet : result state :=
  data_region ← find_data_region;
  let '(start_row, title_col, data_start_col) := data_region in
  dates ← extract_dates_from_header data_region;
  date_strs ← date_strs_of dates;
  detect_hierarchy lib ws start_row title_col data_start_col date_strs.

End WithSheet.

(** ** Dense rows *)

(** A cell counts when it is not [None] and its text is not blank. *)
Definition non_empty (lib : Library) (v : value) : bool :=
  negb (is_None v) && truthy (VStr (strip (py_str lib v))).

(** The columns the detection looks at, and the rows. *)
Definition inspected_columns (ws : Worksheet) : list Z :=
  range 1 (Z.min 20 (max_column ws)).

Definition inspected_rows (ws : Worksheet) : list Z :=
  range 1 (Z.min 50 (max_row ws)).

(** A row is dense when five of its inspected cells count. *)
Definition dense (lib : Library) (ws : Worksheet) (row : Z) : bool :=
  5 <=? Z.of_nat (length (List.filter
                            (fun c => non_empty lib (cell_value ws row c))
                            (inspected_columns ws))).

End OpenpyxlSheet.

(* ===================================================================== *)
(** * Further examples *)
(* ===================================================================== *)

Module MoreExamples.
Import Examples.

(** The forest of the scenario: ["A"] over ["B"] (over ["C"]) and ["D"],
    then ["E"]. *)
Definition scenario_forest : list HierarchyMapper.tree :=
  [ scenario_node "A" 2 1
      [ scenario_node "B" 3 2 [ scenario_node "C" 4 3 [] ];
        scenario_node "D" 5 2 [] ];
    scenario_node "E" 6 1 [] ].

(** The library of the examples, with a text for numbers and dates. *)
Definition almanac : Library :=
  {| strftime := strftime calendar;
     to_datetime := to_datetime calendar;
     is_NaT := is_NaT calendar;
     repr := fun v =>
       match v with
       | VInt z | VNpInt z => pretty z
       | VFloat f | VNpFloat f =>
           pretty (fnum f) +:+ "/" +:+ pretty (Zpos (fden f))
       | VDate d => strftime calendar d +:+ " 00:00:00"
       | _ => repr calendar v
       end |}.

(** pandas for the examples: it parses the two dates of the calendar,
    and counts a month as thirty days. *)
Definition pandas : OpenpyxlSheet.Pandas :=
  {| OpenpyxlSheet.pd_to_datetime := fun v =>
       match to_datetime calendar v with
       | Some d => Ok (OpenpyxlSheet.Timestamp d)
       | None => Raise ValueError
       end;
     OpenpyxlSheet.now := 738945;
     OpenpyxlSheet.months_before := fun d i => d - 30 * i |}.

(** A sheet that starts with its header: six cells in the first row. *)
Definition dense_rows : list (list value) :=
  [ [VStr "Heiti"; VDate 738916; VDate 738945; VStr "c"; VStr "d"; VStr "e"];
    [VStr "Eignir"; VInt 1; VInt 2; VInt 3; VInt 4; VInt 5];
    [VStr "Skuldir"; VInt 1; VInt 2; VInt 3; VInt 4; VInt 5] ].

(** The same lines under two rows of titles. *)
Definition titled_rows : list (list value) :=
  [ [VStr "Reikningar bankakerfis"];
    [];
    [VNone; VDate 738916; VDate 738945; VStr "c"; VStr "d"; VStr "e";
     VStr "f"];
    [VStr "Eignir"; VInt 1; VInt 2; VInt 3; VInt 4; VInt 5; VInt 6];
    [VStr "Skuldir"; VInt 1; VInt 2; VInt 3; VInt 4; VInt 5; VInt 6] ].

End MoreExamples.
(* ===================================================================== *)
(** * Properties *)
(* ===================================================================== *)

(** ** Results and strings *)

Module PyFacts.

Lemma bind_Ok {A B} (m : result A) (f : A -> result B) (b : B) :
  m ≫= f = Ok b -> exists a, m = Ok a /\ f a = Ok b.
Proof. destruct m as [a|e]; cbn; [eauto | discriminate]. Qed.

Lemma bind_Raise {A B} (m : result A) (f : A -> result B) (e : exn) :
  m ≫= f = Raise e -> m = Raise e \/ exists a, m = Ok a /\ f a = Raise e.
Proof.
  destruct m as [a|e']; cbn; intros H; [eauto|].
  inversion H; subst; auto.
Qed.

Lemma append_cons (c : ascii) (a b : string) :
  String.append (String c a) b = String c (String.append a b).
Proof. reflexivity. Qed.

Lemma startswith_drop (s p : string) :
  startswith s p = true ->
  s = String.append p (str_drop (String.length p) s).
Proof.
  revert s. induction p as [|c p IH]; intros s H.
  - reflexivity.
  - destruct s as [|d s]; [discriminate|]. cbn in H.
    apply andb_true_iff in H as [Hc Hp].
    apply Ascii.eqb_eq in Hc as ->.
    rewrite append_cons. cbn. f_equal. now apply IH.
Qed.

Lemma startswith_append (a x p : string) :
  startswith a p = true -> startswith (String.append a x) p = true.
Proof.
  revert a. induction p as [|c p IH]; intros a H.
  - reflexivity.
  - destruct a as [|d a]; [discriminate|]. rewrite append_cons. cbn in *.
    apply andb_true_iff in H as [Hc Hp].
    rewrite Hc. cbn. now apply IH.
Qed.

(** A label without the separator is not cut. *)
Lemma split1_absent (sep s : string) :
  str_in sep s = false -> split1 sep s = [s].
Proof.
  induction s as [|c s IH]; simpl; intros H;
    apply orb_false_iff in H as [Hp Hin]; rewrite Hp.
  - reflexivity.
  - now rewrite (IH Hin).
Qed.

(** A label with the separator is cut in two at its first occurrence. *)
Lemma split1_present (sep s : string) :
  str_in sep s = true ->
  exists a b, split1 sep s = [a; b]
              /\ s = String.append a (String.append sep b)
              /\ (sep <> EmptyString -> str_in sep a = false).
Proof.
  induction s as [|c s IH]; simpl; intros H.
  - rewrite orb_false_r in H. rewrite H.
    exists EmptyString, (str_drop (String.length sep) EmptyString).
    destruct sep; [|discriminate]. simpl. repeat split; congruence.
  - destruct (startswith (String c s) sep) eqn:Hp.
    + exists EmptyString, (str_drop (String.length sep) (String c s)).
      split; [reflexivity|]. split; [now apply startswith_drop|].
      intros Hne. destruct sep; [congruence | reflexivity].
    + simpl in H. destruct (IH H) as (a & b & Hs & Heq & Hfirst).
      rewrite Hs. exists (String c a), b. split; [reflexivity|].
      split; [rewrite append_cons; now f_equal|].
      intros Hne. simpl. rewrite (Hfirst Hne), orb_false_r.
      destruct (startswith (String c a) sep) eqn:Hpa; [|reflexivity].
      apply (startswith_append _ (String.append sep b)) in Hpa.
      rewrite append_cons, <- Heq in Hpa. congruence.
Qed.

(** The cut is at the first occurrence of the separator: no text
    shorter than the first part is followed by the separator. *)
Lemma split1_first (sep s : string) :
  forall a b a' b',
    split1 sep s = [a; b] ->
    s = String.append a' (String.append sep b') ->
    (String.length a <= String.length a')%nat.
Proof.
  induction s as [|c s IH]; intros a b a' b' Hs Heq; simpl in Hs.
  - destruct (startswith EmptyString sep); [|discriminate].
    injection Hs as <- _. cbn. lia.
  - destruct (startswith (String c s) sep) eqn:Hp.
    + injection Hs as <- _. cbn. lia.
    + destruct (split1 sep s) as [|h [|t [|? ?]]] eqn:Hsplit;
        try discriminate.
      injection Hs as <- <-.
      destruct a' as [|c' a'].
      * change (String c s = String.append sep b') in Heq.
        assert (startswith (String.append sep b') sep = true) as Hsw.
        { apply startswith_append. clear. induction sep as [|x sep IH];
            [reflexivity|]. cbn. now rewrite Ascii.eqb_refl. }
        rewrite <- Heq in Hsw. congruence.
      * rewrite append_cons in Heq. injection Heq as <- Heq.
        specialize (IH h t a' b' eq_refl Heq). cbn. lia.
Qed.

(** Up to 2^53 an integer is a double. *)
Lemma nearest_double_small (z : Z) :
  Z.abs z <= 2 ^ 53 -> nearest_double z = z.
Proof.
  intros Hz. destruct (Z.eq_dec (Z.abs z) (2 ^ 53)) as [He|Hne].
  - destruct (Z.abs_spec z) as [[_ E]|[_ E]]; rewrite E in He.
    + rewrite He. vm_compute. reflexivity.
    + replace z with (- 2 ^ 53) by lia. vm_compute. reflexivity.
  - unfold nearest_double.
    assert (Z.log2 (Z.abs z) - 52 <= 0) as He.
    { destruct (Z.eq_dec (Z.abs z) 0) as [->|Hz0]; [cbn; lia|].
      assert (Z.log2 (Z.abs z) < 53); [|lia].
      apply Z.log2_lt_pow2; lia. }
    apply Z.leb_le in He. now rewrite He.
Qed.

Lemma omap_none {A B} (f : A -> option B) (l : list A) :
  (forall x, x ∈ l -> f x = None) -> omap f l = [].
Proof.
  induction l as [|x l IH]; intros H; cbn; [reflexivity|].
  rewrite (H x) by left. apply IH. intros y Hy. apply H. now right.
Qed.

Lemma omap_agree_on {A B} (f g : A -> option B) (l : list A) :
  (forall x, x ∈ l -> f x = g x) -> omap f l = omap g l.
Proof.
  induction l as [|x l IH]; intros H; cbn; [reflexivity|].
  rewrite (H x) by left. rewrite IH; [reflexivity|].
  intros y Hy. apply H. now right.
Qed.

Lemma omap_pointwise {A B} (f g : A -> option B) (l : list A) :
  (forall x, f x = g x) -> omap f l = omap g l.
Proof.
  intros H. induction l as [|x l IH]; cbn; [reflexivity|].
  now rewrite (H x), IH.
Qed.

(** The labels of a header that is empty past column [m] are those of
    its columns up to [m]. *)
Lemma header_cut {B} (f : Z -> option B) (a b m : Z) :
  (forall c, a <= c -> m < c -> f c = None) ->
  omap f (range a b) = omap f (range a (Z.min b (m + 1))).
Proof.
  intros Hblank. destruct (Z_le_gt_dec b (m + 1)) as [Hle|Hgt].
  - now rewrite Z.min_l by lia.
  - rewrite Z.min_r by lia. unfold range.
    destruct (Z_le_gt_dec (m + 1) a) as [Hma|Hma].
    + replace (seqZ a (m + 1 - a)) with (@nil Z)
        by (symmetry; apply seqZ_nil; lia).
      cbn. apply omap_none. intros c Hc. apply elem_of_seqZ in Hc.
      apply Hblank; lia.
    + replace (b - a) with ((m + 1 - a) + (b - (m + 1))) by lia.
      rewrite seqZ_app by lia. rewrite omap_app.
      replace (omap f (seqZ (a + (m + 1 - a)) (b - (m + 1)))) with (@nil B);
        [now rewrite app_nil_r|].
      symmetry. apply omap_none. intros c Hc. apply elem_of_seqZ in Hc.
      apply Hblank; lia.
Qed.

End PyFacts.

(** ** extract_json.py: the loop of [parse_section] *)

Module ExtractJsonFacts.
Import ExtractJson ExtractJsonSpec PyFacts.

Section WithSheet.
Context (lib : Library) (df : DataFrame) (cfg : sheet_config).

(** Cutting a label never raises. *)
Lemma translations_absent (name : string) :
  str_in "/" name = false -> translations name = Ok (name, name).
Proof. unfold translations. now intros ->. Qed.

Lemma translations_present (name : string) :
  str_in "/" name = true ->
  exists a b, translations name = Ok (strip a, strip b)
              /\ name = String.append a (String.append "/" b)
              /\ str_in "/" a = false.
Proof.
  intros H. unfold translations. rewrite H.
  destruct (split1_present "/" name H) as (a & b & -> & Heq & Hfirst).
  exists a, b. cbn. repeat split; [exact Heq | now apply Hfirst].
Qed.

Lemma translations_cut (name : string) :
  str_in "/" name = true ->
  exists a b, translations name = Ok (strip a, strip b)
              /\ name = String.append a (String.append "/" b)
              /\ str_in "/" a = false
              /\ forall a' b',
                   name = String.append a' (String.append "/" b') ->
                   (String.length a <= String.length a')%nat.
Proof.
  intros H. unfold translations. rewrite H.
  destruct (split1_present "/" name H) as (a & b & Hs & Heq & Hfirst).
  rewrite Hs. exists a, b. cbn.
  split; [reflexivity|]. split; [exact Heq|].
  split; [now apply Hfirst|].
  intros a' b'. exact (split1_first "/" name a b a' b' Hs).
Qed.

Lemma translations_total (name : string) :
  exists a b, translations name = Ok (a, b).
Proof.
  destruct (str_in "/" name) eqn:H.
  - destruct (translations_present name H) as (a & b & -> & _). eauto.
  - rewrite (translations_absent name H). eauto.
Qed.

(** With the data columns at or after the first column, reading the
    values of a row never raises. *)
Lemma row_values_total (row i : Z) (dates : list string)
    (values : gmap string value) :
  1 <= data_start_column cfg -> 0 <= i ->
  exists m, row_values df cfg row i dates values = Ok m.
Proof.
  intros Hdsc. revert i values.
  induction dates as [|date dates IH]; intros i values Hi; cbn.
  - eauto.
  - destruct (data_start_column cfg - 1 + i <? shape1 df) eqn:Hc.
    + unfold getitem. rewrite Hc.
      replace (0 <=? data_start_column cfg - 1 + i) with true
        by (symmetry; apply Z.leb_le; lia).
      cbn. destruct (notna _); apply IH; lia.
    + apply IH; lia.
Qed.

(** What a turn of the loop does, read off its result. *)
Lemma parse_row_inv (dates : list string) (st st' : state) (level : Z) :
  parse_row lib df cfg dates st level = Ok st' ->
  st' = next_row st
  \/ exists node p lp rest,
       pop_stale (stack st) level = Ok ((p, lp) :: rest)
       /\ children node = [] /\ stack_level node = level
       /\ is_Some (item node)
       /\ heap st' = alter (append_child (length (heap st))) p
                           (heap st ++ [node])
       /\ stack st' = (length (heap st), level) :: (p, lp) :: rest
       /\ current_row st' = current_row st + 1.
Proof.
  unfold parse_row. intros H.
  apply bind_Ok in H as (row & _ & H).
  apply bind_Ok in H as (label & _ & H).
  destruct (isna label); [left; congruence|].
  apply bind_Ok in H as ([a b] & _ & H).
  apply bind_Ok in H as (values & _ & H).
  apply bind_Ok in H as (stack1 & Hpop & H).
  apply bind_Ok in H as ([p lp] & Htop & H).
  destruct stack1 as [|e rest]; [discriminate|].
  injection Htop as ->. injection H as <-.
  right. eexists _, p, lp, rest. cbn. repeat split; eauto.
Qed.

(** *** The ancestor stack *)

Lemma descending_nonneg (stack : list (nat * Z)) :
  descending stack -> Forall (fun e => 0 <= e.2) stack.
Proof.
  induction stack as [|e rest IH]; cbn; [tauto|].
  destruct rest as [|e' rest'].
  - intros ->. constructor; [cbn; lia | constructor].
  - intros [Hlt Hd]. specialize (IH Hd).
    constructor; [|exact IH]. inversion IH; subst. lia.
Qed.

Lemma descending_last (stack : list (nat * Z)) :
  descending stack -> last stack = Some (0%nat, 0).
Proof.
  induction stack as [|e rest IH]; cbn; [tauto|].
  destruct rest as [|e' rest']; [now intros ->|].
  intros [_ Hd]. now apply IH.
Qed.

Lemma consecutive_descending (stack : list (nat * Z)) :
  consecutive stack -> descending stack.
Proof.
  induction stack as [|e rest IH]; cbn; [tauto|].
  destruct rest as [|e' rest']; [tauto|].
  intros [Heq Hc]. split; [lia | auto].
Qed.

(** On a stack that rests on [result], the pop loop stops on an entry of
    a smaller level exactly when the level is positive ... *)
Lemma pop_stale_positive (stack : list (nat * Z)) (level : Z) :
  descending stack -> 1 <= level ->
  exists p lp rest,
    pop_stale stack level = Ok ((p, lp) :: rest)
    /\ lp < level /\ descending ((p, lp) :: rest)
    /\ (exists popped, stack = popped ++ (p, lp) :: rest
          /\ Forall (fun e => level <= e.2) popped).
Proof.
  intros Hd Hl. induction stack as [|[r l] rest IH]; [destruct Hd|].
  cbn [pop_stale]. destruct (level <=? l) eqn:Hle.
  - apply Z.leb_le in Hle.
    destruct rest as [|e' rest'].
    + cbn in Hd. injection Hd as -> ->. lia.
    + destruct Hd as [_ Hd].
      destruct (IH Hd) as (p & lp & rest0 & Hpop & Hlt & Hd' & popped & Heq & Hall).
      exists p, lp, rest0. repeat split; try assumption.
      exists ((r, l) :: popped). rewrite Heq. split; [reflexivity|].
      constructor; [exact Hle | exact Hall].
  - apply Z.leb_gt in Hle. exists r, l, rest. repeat split; try assumption.
    exists []. split; [reflexivity | constructor].
Qed.

(** ... and empties the stack, and raises, when it is not. *)
Lemma pop_stale_nonpositive (stack : list (nat * Z)) (level : Z) :
  descending stack -> level <= 0 ->
  pop_stale stack level = Raise (IndexError of_list).
Proof.
  intros Hd Hl. pose proof (descending_nonneg _ Hd) as Hnn.
  clear Hd. induction stack as [|[r l] rest IH]; [reflexivity|].
  inversion Hnn as [|? ? H0 Hrest]; subst. cbn in H0. cbn [pop_stale].
  replace (level <=? l) with true by (symmetry; apply Z.leb_le; lia).
  now apply IH.
Qed.

Lemma pop_stale_consecutive (stack : list (nat * Z)) (level : Z) :
  consecutive stack -> 1 <= level <= top_level stack + 1 ->
  exists p rest,
    pop_stale stack level = Ok ((p, level - 1) :: rest)
    /\ consecutive ((p, level - 1) :: rest)
    /\ (exists popped, stack = popped ++ (p, level - 1) :: rest).
Proof.
  intros Hc Hl. induction stack as [|[r l] rest IH]; [destruct Hc|].
  cbn [pop_stale]. cbn in Hl. destruct (level <=? l) eqn:Hle.
  - apply Z.leb_le in Hle.
    destruct rest as [|[r' l'] rest'].
    + cbn in Hc. injection Hc as -> ->. lia.
    + destruct Hc as [Heq Hc]. cbn in Heq.
      destruct IH as (p & rest0 & Hpop & Hc' & popped & Hst);
        [exact Hc | cbn; lia |].
      exists p, rest0. repeat split; try assumption.
      exists ((r, l) :: popped). now rewrite Hst.
  - apply Z.leb_gt in Hle. assert (l = level - 1) as -> by lia.
    exists r, rest. repeat split; try assumption. now exists [].
Qed.

(** *** The heap *)

(** The heap after a node is created and given to its parent. *)
Lemma grown_lookup (h : list node) (node : ExtractJson.node) (p : nat) :
  (p < length h)%nat ->
  let h' := alter (append_child (length h)) p (h ++ [node]) in
  h' !! length h = Some node
  /\ (forall r n, h !! r = Some n ->
        h' !! r = Some (if decide (r = p) then append_child (length h) n
                        else n))
  /\ (forall r n, h' !! r = Some n -> (r <= length h)%nat).
Proof.
  intros Hp h'. subst h'. repeat split.
  - rewrite list_lookup_alter_ne by lia.
    rewrite lookup_app_r by lia. now rewrite Nat.sub_diag.
  - intros r n Hr. pose proof (lookup_lt_Some _ _ _ Hr) as Hlt.
    destruct (decide (r = p)) as [->|Hne].
    + rewrite list_lookup_alter_eq, lookup_app_l, Hr by lia. reflexivity.
    + rewrite list_lookup_alter_ne, lookup_app_l by (lia || congruence).
      exact Hr.
  - intros r n Hr. apply lookup_lt_Some in Hr.
    rewrite length_alter, length_app in Hr. cbn in Hr. lia.
Qed.

Lemma stack_in_heap_lt (h : list node) (stack : list (nat * Z)) e :
  stack_in_heap h stack -> e ∈ stack -> (e.1 < length h)%nat.
Proof.
  intros Hs He. unfold stack_in_heap in Hs. rewrite Forall_forall in Hs.
  specialize (Hs e He). destruct (h !! e.1) eqn:Hl; [|discriminate].
  now apply lookup_lt_Some in Hl.
Qed.

Lemma append_child_level (c : nat) (n : node) :
  stack_level (append_child c n) = stack_level n /\
  item (append_child c n) = item n.
Proof. split; reflexivity. Qed.

(** *** One turn of the loop keeps the stack and the heap in order *)

Lemma parse_row_invariant (dates : list string) (st st' : state) (level : Z) :
  stack_in_heap (heap st) (stack st) -> descending (stack st) ->
  root_first (heap st) ->
  parse_row lib df cfg dates st level = Ok st' ->
  stack_in_heap (heap st') (stack st') /\ descending (stack st')
  /\ root_first (heap st').
Proof.
  intros Hs Hd Hr H. apply parse_row_inv in H as [->|H]; [auto|].
  destruct H as (node & p & lp & rest & Hpop & Hch & Hlv & Hit & Hh & Hst & _).
  assert (1 <= level) as Hl.
  { destruct (Z_le_gt_dec level 0) as [Hle|]; [|lia].
    rewrite (pop_stale_nonpositive _ _ Hd Hle) in Hpop. discriminate. }
  destruct (pop_stale_positive _ _ Hd Hl)
    as (p' & lp' & rest' & Hpop' & Hlt & Hd' & popped & Heq & _).
  rewrite Hpop in Hpop'. injection Hpop' as <- <- <-.
  assert ((p < length (heap st))%nat) as Hp.
  { apply (stack_in_heap_lt _ _ (p, lp) Hs). rewrite Heq.
    apply elem_of_app. right. left. }
  destruct (grown_lookup (heap st) node p Hp) as (Hnew & Hold & Hbound).
  cbn zeta in Hnew, Hold, Hbound. rewrite <- Hh in Hnew, Hold, Hbound.
  rewrite Hst. split; [|split].
  - constructor; [cbn; rewrite Hnew; cbn; now rewrite Hlv|].
    unfold stack_in_heap in *. rewrite Forall_forall in Hs |- *.
    intros e He. assert (e ∈ stack st) as Hin
      by (rewrite Heq; apply elem_of_app; now right).
    specialize (Hs e Hin). destruct (heap st !! e.1) as [n|] eqn:Hn;
      [|discriminate].
    rewrite (Hold _ _ Hn). cbn in Hs |- *. injection Hs as Hs.
    destruct (decide (e.1 = p)); cbn; now rewrite Hs.
  - cbn [descending]. split; [cbn; lia | exact Hd'].
  - intros r n Hn. pose proof (Hbound _ _ Hn) as Hle.
    destruct (decide (r = length (heap st))) as [->|Hne].
    + rewrite Hnew in Hn. injection Hn as <-. right.
      repeat split; [lia | lia | exact Hit].
    + destruct (lookup_lt_is_Some_2 (heap st) r) as [n0 Hn0]; [lia|].
      rewrite (Hold _ _ Hn0) in Hn. injection Hn as <-.
      destruct (Hr _ _ Hn0) as [?|?]; [left | right];
        destruct (decide (r = p)); cbn; tauto.
Qed.

(** With a level that leaves no gap, the turn also keeps every child one
    level below its parent. *)
Lemma parse_row_consistent (dates : list string) (st st' : state) (level : Z) :
  stack_in_heap (heap st) (stack st) -> consecutive (stack st) ->
  levels_consistent (heap st) ->
  level <= top_level (stack st) + 1 ->
  parse_row lib df cfg dates st level = Ok st' ->
  consecutive (stack st') /\ levels_consistent (heap st').
Proof.
  intros Hs Hc Hlc Hgap H. pose proof (consecutive_descending _ Hc) as Hd.
  apply parse_row_inv in H as [->|H]; [auto|].
  destruct H as (node & p & lp & rest & Hpop & Hch & Hlv & Hit & Hh & Hst & _).
  assert (1 <= level) as Hl.
  { destruct (Z_le_gt_dec level 0) as [Hle|]; [|lia].
    rewrite (pop_stale_nonpositive _ _ Hd Hle) in Hpop. discriminate. }
  destruct (pop_stale_consecutive (stack st) level Hc)
    as (p' & rest' & Hpop' & Hc' & popped & Heq); [lia|].
  rewrite Hpop in Hpop'. injection Hpop' as <- -> <-.
  assert ((p < length (heap st))%nat) as Hp.
  { apply (stack_in_heap_lt _ _ (p, level - 1) Hs). rewrite Heq.
    apply elem_of_app. right. left. }
  assert (stack_level <$> heap st !! p = Some (level - 1)) as Hplev.
  { unfold stack_in_heap in Hs. rewrite Forall_forall in Hs.
    apply (Hs (p, level - 1)). rewrite Heq. apply elem_of_app. right. left. }
  destruct (grown_lookup (heap st) node p Hp) as (Hnew & Hold & Hbound).
  cbn zeta in Hnew, Hold, Hbound. rewrite <- Hh in Hnew, Hold, Hbound.
  rewrite Hst. split.
  - cbn [consecutive]. split; [cbn; lia | exact Hc'].
  - intros q nq c Hq Hin. pose proof (Hbound _ _ Hq) as Hle.
    assert (forall c n0 nq0, heap st !! q = Some nq0 -> c ∈ children nq0 ->
              stack_level n0 = stack_level nq0 ->
              exists nc, heap st' !! c = Some nc
                         /\ stack_level nc = stack_level n0 + 1) as Hkeep.
    { intros c0 n0 nq0 Hq0 Hc0 Hlev.
      destruct (Hlc _ _ _ Hq0 Hc0) as (nc & Hnc & Hnclev).
      eexists. split; [apply (Hold _ _ Hnc)|].
      destruct (decide (c0 = p)); cbn; lia. }
    destruct (decide (q = length (heap st))) as [->|Hne].
    + rewrite Hnew in Hq. injection Hq as <-. rewrite Hch in Hin.
      now apply elem_of_nil in Hin.
    + destruct (lookup_lt_is_Some_2 (heap st) q) as [nq0 Hq0]; [lia|].
      rewrite (Hold _ _ Hq0) in Hq. injection Hq as <-.
      destruct (decide (q = p)) as [->|Hqp].
      * cbn in Hin. apply elem_of_app in Hin as [Hin|Hin].
        -- apply (Hkeep c _ nq0 Hq0 Hin). reflexivity.
        -- apply list_elem_of_singleton in Hin as ->.
           exists node. split; [exact Hnew|]. cbn.
           rewrite Hq0 in Hplev. cbn in Hplev. injection Hplev as Hplev. lia.
      * apply (Hkeep c _ nq0 Hq0 Hin). reflexivity.
Qed.

(** *** Turns that succeed, turns that raise *)

Lemma positional_in_range (n i : Z) :
  0 <= i < n -> positional n i = Ok i.
Proof.
  intros H. unfold positional.
  replace ((0 <=? i) && (i <? n)) with true; [reflexivity|].
  symmetry. apply andb_true_iff. split; [apply Z.leb_le | apply Z.ltb_lt]; lia.
Qed.

Lemma getitem_in_range (row c : Z) :
  0 <= c < shape1 df -> getitem df row c = Ok (at_pos df row c).
Proof.
  intros H. unfold getitem.
  replace ((0 <=? c) && (c <? shape1 df)) with true; [reflexivity|].
  symmetry. apply andb_true_iff. split; [apply Z.leb_le | apply Z.ltb_lt]; lia.
Qed.

Lemma parse_row_blank (dates : list string) (st : state) (level : Z) :
  0 <= current_row st < shape0 df ->
  1 <= data_name_column cfg <= shape1 df ->
  isna (at_pos df (current_row st) (data_name_column cfg - 1)) = true ->
  parse_row lib df cfg dates st level = Ok (next_row st).
Proof.
  intros Hrow Hcol Hna. unfold parse_row, iloc_row.
  rewrite positional_in_range by exact Hrow. cbn.
  rewrite getitem_in_range by lia. cbn. now rewrite Hna.
Qed.

Lemma parse_row_creates (dates : list string) (st : state) (level : Z) :
  0 <= current_row st < shape0 df ->
  1 <= data_name_column cfg <= shape1 df ->
  1 <= data_start_column cfg ->
  isna (at_pos df (current_row st) (data_name_column cfg - 1)) = false ->
  descending (stack st) -> 1 <= level ->
  exists st' node p lp rest,
    parse_row lib df cfg dates st level = Ok st'
    /\ pop_stale (stack st) level = Ok ((p, lp) :: rest) /\ lp < level
    /\ name node
        = strip (py_str lib (at_pos df (current_row st)
                                    (data_name_column cfg - 1)))
    /\ children node = [] /\ stack_level node = level
    /\ heap st' = alter (append_child (length (heap st))) p
                        (heap st ++ [node])
    /\ stack st' = (length (heap st), level) :: (p, lp) :: rest
    /\ current_row st' = current_row st + 1.
Proof.
  intros Hrow Hcol Hdsc Hna Hd Hl. unfold parse_row, iloc_row.
  rewrite positional_in_range by exact Hrow. cbn.
  rewrite getitem_in_range by lia. cbn. rewrite Hna.
  destruct (translations_total
              (strip (py_str lib (at_pos df (current_row st)
                                         (data_name_column cfg - 1)))))
    as (a & b & ->). cbn.
  destruct (row_values_total (current_row st) 0 dates ∅ Hdsc) as (m & ->);
    [lia|]. cbn.
  destruct (pop_stale_positive _ _ Hd Hl)
    as (p & lp & rest & Hpop & Hlt & _). rewrite Hpop. cbn.
  eexists _,
    {| name := strip (py_str lib (at_pos df (current_row st)
                                         (data_name_column cfg - 1)));
       item := Some {| f_is := a; f_en := b; f_values := m |};
       children := []; stack_level := level |}, p, lp, rest.
  split; [reflexivity|].
  cbn. split; [reflexivity|]. split; [exact Hlt|].
  repeat (split; [reflexivity|]). reflexivity.
Qed.

Lemma row_values_raise (row i : Z) (dates : list string)
    (values : gmap string value) (e : exn) :
  row_values df cfg row i dates values = Raise e -> e = KeyError.
Proof.
  revert i values. induction dates as [|date dates IH]; intros i values; cbn.
  - discriminate.
  - destruct (data_start_column cfg - 1 + i <? shape1 df); [|apply IH].
    intros H. apply bind_Raise in H as [H|(val & _ & H)].
    + unfold getitem in H. destruct (_ && _); congruence.
    + destruct (notna val); apply IH in H; exact H.
Qed.

(** On a stack that rests on [result] and with a positive level, a turn
    can only fail on the grid: on a row or a column outside the frame. *)
Lemma parse_row_raise (dates : list string) (st : state) (level : Z)
    (e : exn) :
  descending (stack st) -> 1 <= level ->
  parse_row lib df cfg dates st level = Raise e ->
  e = IndexError of_iloc \/ e = KeyError.
Proof.
  intros Hd Hl H. unfold parse_row in H.
  apply bind_Raise in H as [H|(row & _ & H)].
  { unfold iloc_row, positional in H.
    repeat destruct (_ && _) in H; try discriminate. left. congruence. }
  apply bind_Raise in H as [H|(label & _ & H)].
  { unfold getitem in H. destruct (_ && _); [discriminate|].
    right. congruence. }
  destruct (isna label); [discriminate|].
  apply bind_Raise in H as [H|([a b] & _ & H)].
  { destruct (translations_total (strip (py_str lib label))) as (a & b & E).
    congruence. }
  apply bind_Raise in H as [H|(values & _ & H)].
  { right. now apply row_values_raise in H. }
  destruct (pop_stale_positive _ _ Hd Hl) as (p & lp & rest & Hpop & _).
  rewrite Hpop in H. discriminate H.
Qed.

(** *** Whole runs *)

Lemma parse_rows_app (dates : list string) (st : state) (l1 l2 : list Z) :
  parse_rows lib df cfg dates st (l1 ++ l2)
  = parse_rows lib df cfg dates st l1
      ≫= fun st' => parse_rows lib df cfg dates st' l2.
Proof.
  revert st. induction l1 as [|l l1 IH]; intros st; cbn; [reflexivity|].
  destruct (parse_row lib df cfg dates st l); cbn; [apply IH | reflexivity].
Qed.

Lemma initial_invariant (start_row : Z) (section_name : string) :
  let st := initial start_row section_name in
  stack_in_heap (heap st) (stack st) /\ consecutive (stack st)
  /\ root_first (heap st) /\ levels_consistent (heap st).
Proof.
  cbn. repeat split.
  - repeat constructor.
  - intros [|r] n Hn; cbn in Hn; [|discriminate].
    injection Hn as <-. left. auto.
  - intros [|p] np c Hp Hc; cbn in Hp; [|discriminate].
    injection Hp as <-. now apply elem_of_nil in Hc.
Qed.

Lemma parse_rows_invariant (dates : list string) (levels : list Z)
    (st st' : state) :
  stack_in_heap (heap st) (stack st) -> descending (stack st) ->
  root_first (heap st) ->
  parse_rows lib df cfg dates st levels = Ok st' ->
  stack_in_heap (heap st') (stack st') /\ descending (stack st')
  /\ root_first (heap st').
Proof.
  revert st. induction levels as [|l levels IH]; intros st Hs Hd Hr H; cbn in H.
  - injection H as <-. auto.
  - apply bind_Ok in H as (st1 & Hrow & H).
    destruct (parse_row_invariant _ _ _ _ Hs Hd Hr Hrow) as (Hs1 & Hd1 & Hr1).
    exact (IH st1 Hs1 Hd1 Hr1 H).
Qed.

Lemma parse_rows_raise (dates : list string) (levels : list Z) (st : state)
    (e : exn) :
  stack_in_heap (heap st) (stack st) -> descending (stack st) ->
  root_first (heap st) ->
  Forall (fun l => 1 <= l) levels ->
  parse_rows lib df cfg dates st levels = Raise e ->
  e = IndexError of_iloc \/ e = KeyError.
Proof.
  revert st. induction levels as [|l levels IH];
    intros st Hs Hd Hr Hall H; cbn in H; [discriminate|].
  inversion Hall as [|? ? Hl Hall']; subst.
  apply bind_Raise in H as [H|(st1 & Hrow & H)].
  - exact (parse_row_raise _ _ _ _ Hd Hl H).
  - destruct (parse_row_invariant _ _ _ _ Hs Hd Hr Hrow) as (Hs1 & Hd1 & Hr1).
    exact (IH st1 Hs1 Hd1 Hr1 Hall' H).
Qed.

(** A turn on a line with a label, when it returns, has created a
    node. *)
Lemma parse_row_nonblank (dates : list string) (st st' : state) (level : Z) :
  0 <= current_row st < shape0 df ->
  1 <= data_name_column cfg <= shape1 df ->
  isna (at_pos df (current_row st) (data_name_column cfg - 1)) = false ->
  parse_row lib df cfg dates st level = Ok st' ->
  stack st' = (length (heap st), level) :: tail (stack st')
  /\ current_row st' = current_row st + 1.
Proof.
  intros Hrow Hcol Hna H. unfold parse_row, iloc_row in H.
  rewrite positional_in_range in H by exact Hrow. cbn in H.
  rewrite getitem_in_range in H by lia. cbn in H. rewrite Hna in H.
  apply bind_Ok in H as ([a b] & _ & H).
  apply bind_Ok in H as (values & _ & H).
  apply bind_Ok in H as (stack1 & _ & H).
  apply bind_Ok in H as ([p lp] & _ & H).
  injection H as <-. cbn. auto.
Qed.

Lemma created_levels_sublist (levels : list Z) (row : Z) (P : Z -> Prop) :
  Forall P levels -> Forall P (created_levels df cfg row levels).
Proof.
  intros H. revert row. induction H as [|l levels Hl H IH]; intros row; cbn.
  - constructor.
  - destruct (isna _); [apply IH | constructor; [exact Hl | apply IH]].
Qed.

(** With the levels of the lines that get a node positive and the rows
    inside the frame, the run returns. *)
Lemma parse_rows_total (dates : list string) (levels : list Z) (st : state) :
  0 <= current_row st ->
  current_row st + Z.of_nat (length levels) <= shape0 df ->
  1 <= data_name_column cfg <= shape1 df ->
  1 <= data_start_column cfg ->
  stack_in_heap (heap st) (stack st) -> descending (stack st) ->
  root_first (heap st) ->
  Forall (fun l => 1 <= l) (created_levels df cfg (current_row st) levels) ->
  exists st', parse_rows lib df cfg dates st levels = Ok st'.
Proof.
  intros Hlo Hhi Hcol Hdsc. revert st Hlo Hhi.
  induction levels as [|l levels IH]; intros st Hlo Hhi Hs Hd Hr Hall.
  - cbn. eauto.
  - cbn [length] in Hhi. cbn [parse_rows]. cbn [created_levels] in Hall.
    destruct (isna (at_pos df (current_row st) (data_name_column cfg - 1)))
      eqn:Hna.
    + rewrite (parse_row_blank dates st l) by (lia || assumption). cbn.
      apply IH; cbn; try assumption; lia.
    + inversion Hall as [|? ? Hl Hall']; subst.
      destruct (parse_row_creates dates st l)
        as (st' & node & p & lp & rest & Hrow & _ & _ & _ & _ & _ & _ & _ & Hcur);
        try (lia || assumption).
      destruct (parse_row_invariant _ _ _ _ Hs Hd Hr Hrow) as (Hs1 & Hd1 & Hr1).
      rewrite Hrow. cbn. apply IH; try assumption; try lia.
      now rewrite Hcur.
Qed.

(** With no forward gap among the levels of the lines that get a node,
    every child of the tree the run returns is one level below its
    parent. *)
Lemma parse_rows_gap_free (dates : list string) (levels : list Z)
    (st st' : state) :
  0 <= current_row st ->
  current_row st + Z.of_nat (length levels) <= shape0 df ->
  1 <= data_name_column cfg <= shape1 df ->
  stack_in_heap (heap st) (stack st) -> consecutive (stack st) ->
  root_first (heap st) -> levels_consistent (heap st) ->
  gap_free (top_level (stack st))
           (created_levels df cfg (current_row st) levels) = true ->
  parse_rows lib df cfg dates st levels = Ok st' ->
  root_first (heap st') /\ levels_consistent (heap st').
Proof.
  intros Hlo Hhi Hcol. revert st Hlo Hhi.
  induction levels as [|l levels IH]; intros st Hlo Hhi Hs Hc Hr Hlc Hgap Hrun.
  - cbn in Hrun. injection Hrun as <-. auto.
  - cbn [length] in Hhi. cbn [parse_rows] in Hrun.
    apply bind_Ok in Hrun as (st1 & Hrow & Hrun).
    cbn [created_levels] in Hgap.
    pose proof (consecutive_descending _ Hc) as Hd.
    destruct (isna (at_pos df (current_row st) (data_name_column cfg - 1)))
      eqn:Hna.
    + rewrite (parse_row_blank dates st l) in Hrow by (lia || assumption).
      injection Hrow as <-.
      apply (IH (next_row st)); cbn; try assumption; lia.
    + cbn [gap_free] in Hgap. apply andb_true_iff in Hgap as [Hl Hgap].
      apply Z.leb_le in Hl.
      destruct (parse_row_nonblank dates st st1 l) as (Hst & Hcur);
        try (lia || assumption).
      destruct (parse_row_invariant _ _ _ _ Hs Hd Hr Hrow) as (Hs1 & Hd1 & Hr1).
      destruct (parse_row_consistent _ _ _ _ Hs Hc Hlc Hl Hrow) as (Hc1 & Hlc1).
      apply (IH st1); try assumption; try lia.
      rewrite Hst, Hcur. exact Hgap.
Qed.

End WithSheet.
End ExtractJsonFacts.

(** ** hierarchy_mapper.py: [build_section_hierarchy] *)

Module HierarchyMapperFacts.
Import HierarchyMapper HierarchyMapperSpec PyFacts.

Lemma split_name_absent (name : string) :
  str_in " / " name = false -> split_name name = Ok (name, "").
Proof. unfold split_name. now intros ->. Qed.


Lemma split_name_cut (name : string) :
  str_in " / " name = true ->
  exists a b, split_name name = Ok (a, b)
              /\ name = String.append a (String.append " / " b)
              /\ str_in " / " a = false
              /\ forall a' b',
                   name = String.append a' (String.append " / " b') ->
                   (String.length a <= String.length a')%nat.
Proof.
  intros H. unfold split_name. rewrite H.
  destruct (split1_present " / " name H) as (a & b & Hs & Heq & Hfirst).
  rewrite Hs. exists a, b. cbn.
  split; [reflexivity|]. split; [exact Heq|].
  split; [now apply Hfirst|].
  intros a' b'. exact (split1_first " / " name a b a' b' Hs).
Qed.


(** A row that is not at level 1 and whose parent level is not in the
    level map is left where it is: in [nodes], in no [children]. *)
Lemma place_untracked (st : build_state) (ref : nat) (lv : Z) :
  lv <> 1 -> node_map st !! (lv - 1) = None -> place st ref lv = st.
Proof.
  intros Hne Hnone. unfold place.
  destruct (Z.eqb_spec lv 1); [contradiction|]. now rewrite Hnone.
Qed.

Lemma place_tracked (st : build_state) (ref : nat) (lv : Z) (parent : nat) :
  lv <> 1 -> node_map st !! (lv - 1) = Some parent ->
  nodes (place st ref lv) = alter (append_child ref) parent (nodes st)
  /\ root_nodes (place st ref lv) = root_nodes st
  /\ node_map (place st ref lv) !! lv = Some ref.
Proof.
  intros Hne Hsome. unfold place.
  destruct (Z.eqb_spec lv 1); [contradiction|]. rewrite Hsome. cbn.
  repeat split. apply map_lookup_filter_Some. split.
  - apply lookup_insert_eq.
  - cbn. lia.
Qed.

Lemma place_root (st : build_state) (ref : nat) :
  nodes (place st ref 1) = nodes st
  /\ root_nodes (place st ref 1) = root_nodes st ++ [ref]
  /\ node_map (place st ref 1) = {[ 1 := ref ]}.
Proof. unfold place. cbn. auto. Qed.

(** Placing a node changes no level. *)
Lemma place_levels (st : build_state) (ref : nat) (lv : Z) (r : nat) :
  level <$> nodes (place st ref lv) !! r = level <$> nodes st !! r.
Proof.
  unfold place. destruct (lv =? 1); [reflexivity|].
  destruct (node_map st !! (lv - 1)) as [parent|]; [|reflexivity]. cbn.
  destruct (decide (parent = r)) as [->|Hne].
  - rewrite list_lookup_alter_eq. now destruct (nodes st !! r).
  - now rewrite list_lookup_alter_ne.
Qed.

Lemma place_invariant (st : build_state) (ref : nat) (lv : Z) :
  level <$> nodes st !! ref = Some lv ->
  node_map_ok st -> roots_ok st -> levels_consistent (nodes st) ->
  node_map_ok (place st ref lv) /\ roots_ok (place st ref lv)
  /\ levels_consistent (nodes (place st ref lv)).
Proof.
  intros Hlv Hm Hr Hlc.
  assert (forall r, level <$> nodes (place st ref lv) !! r
                    = level <$> nodes st !! r) as Hsame
    by apply place_levels.
  destruct (Z.eq_dec lv 1) as [->|Hne].
  - destruct (place_root st ref) as (Hn & Hroots & Hmap).
    split; [|split].
    + intros k r Hk. rewrite Hmap in Hk.
      apply lookup_singleton_Some in Hk as [<- <-].
      rewrite Hsame. split; [lia | exact Hlv].
    + intros r Hin. rewrite Hroots in Hin. rewrite Hsame.
      apply elem_of_app in Hin as [Hin|Hin]; [now apply Hr|].
      apply list_elem_of_singleton in Hin as ->. exact Hlv.
    + now rewrite Hn.
  - destruct (node_map st !! (lv - 1)) as [parent|] eqn:Hparent.
    2:{ rewrite (place_untracked st ref lv Hne Hparent). auto. }
    destruct (Hm _ _ Hparent) as [Hk Hplev].
    destruct (place_tracked st ref lv parent Hne Hparent) as (Hn & Hroots & _).
    split; [|split].
    + intros k r Hk'. rewrite Hsame.
      unfold place in Hk'. destruct (Z.eqb_spec lv 1); [contradiction|].
      rewrite Hparent in Hk'. cbn in Hk'.
      apply map_lookup_filter_Some in Hk' as [Hk' _].
      destruct (decide (lv = k)) as [->|Hlk].
      * rewrite lookup_insert_eq in Hk'. injection Hk' as <-.
        split; [lia | exact Hlv].
      * rewrite lookup_insert_ne in Hk' by exact Hlk. now apply Hm.
    + intros r Hin. rewrite Hroots in Hin. rewrite Hsame. now apply Hr.
    + intros p np c Hp Hc. rewrite Hn in Hp.
      assert (forall c0 np0, nodes st !! p = Some np0 -> c0 ∈ children np0 ->
                level np0 = level np ->
                1 <= level np /\
                exists nc, nodes (place st ref lv) !! c0 = Some nc
                           /\ level nc = level np + 1) as Hkeep.
      { intros c0 np0 Hp0 Hc0 Hl0.
        destruct (Hlc _ _ _ Hp0 Hc0) as (H1 & nc & Hnc & Hncl).
        split; [lia|].
        pose proof (Hsame c0) as Hs0. rewrite Hnc in Hs0. cbn in Hs0.
        destruct (nodes (place st ref lv) !! c0) as [nc'|]; [|discriminate].
        exists nc'. split; [reflexivity|]. cbn in Hs0. injection Hs0. lia. }
      destruct (decide (parent = p)) as [->|Hpp].
      * rewrite list_lookup_alter_eq in Hp.
        destruct (nodes st !! p) as [np0|] eqn:Hp0; [|discriminate].
        cbn in Hp. injection Hp as <-. cbn in Hc.
        cbn in Hplev. injection Hplev as Hplev.
        apply elem_of_app in Hc as [Hc|Hc].
        -- apply (Hkeep c np0 eq_refl Hc). reflexivity.
        -- apply list_elem_of_singleton in Hc as ->. cbn.
           split; [lia|].
           pose proof (Hsame ref) as Hs0. rewrite Hlv in Hs0.
           destruct (nodes (place st ref lv) !! ref) as [nc'|];
             [|discriminate].
           exists nc'. split; [reflexivity|]. cbn in Hs0. injection Hs0. lia.
      * rewrite list_lookup_alter_ne in Hp by exact Hpp.
        apply (Hkeep c np Hp Hc). reflexivity.
Qed.

Lemma place_all_invariant (todo : list node) (st : build_state) (ref : nat) :
  (forall i n, todo !! i = Some n ->
     level <$> nodes st !! (ref + i)%nat = Some (level n)) ->
  node_map_ok st -> roots_ok st -> levels_consistent (nodes st) ->
  let st' := place_all st ref todo in
  node_map_ok st' /\ roots_ok st' /\ levels_consistent (nodes st').
Proof.
  revert st ref. induction todo as [|n todo IH]; intros st ref Hlv Hm Hr Hlc.
  - cbn. auto.
  - cbn [place_all].
    assert (level <$> nodes st !! ref = Some (level n)) as Hn.
    { specialize (Hlv 0%nat n eq_refl). now rewrite Nat.add_0_r in Hlv. }
    destruct (place_invariant st ref (level n) Hn Hm Hr Hlc) as (Hm1 & Hr1 & Hlc1).
    apply IH; try assumption.
    intros i m Hi. rewrite place_levels.
    specialize (Hlv (S i) m Hi). now rewrite Nat.add_succ_r in Hlv.
Qed.

(** In the forest of [build_section_hierarchy] every child is one level
    below its parent, and the roots are nodes of level 1. *)
Lemma build_section_hierarchy_levels (section_data : list entry) :
  let f := build_section_hierarchy section_data in
  levels_consistent (heap f)
  /\ forall r, r ∈ roots f -> level <$> heap f !! r = Some 1.
Proof.
  unfold build_section_hierarchy. cbn zeta. cbn [heap roots].
  destruct (place_all_invariant (map make_node section_data)
              {| nodes := map make_node section_data; root_nodes := [];
                 node_map := ∅ |} 0%nat) as (_ & Hr & Hlc).
  - intros i n Hi. cbn. now rewrite Hi.
  - intros k r Hk. cbn in Hk. now rewrite lookup_empty in Hk.
  - intros r Hin. cbn in Hin. now apply elem_of_nil in Hin.
  - intros p np c Hp Hc. cbn in Hp.
    apply list_lookup_fmap_Some in Hp as (e & -> & _). cbn in Hc.
    now apply elem_of_nil in Hc.
  - split; [exact Hlc | exact Hr].
Qed.

End HierarchyMapperFacts.

(** ** The values of a row and the dates of the header *)

Module ValuesFacts.
Import ValuesSpec PyFacts.

Lemma put_other (es : list (string * option value))
    (acc : gmap string value) (k : string) :
  k ∉ es.*1 -> foldl put acc es !! k = acc !! k.
Proof.
  revert acc. induction es as [|[d o] es IH]; intros acc Hk; cbn.
  - reflexivity.
  - cbn in Hk. apply not_elem_of_cons in Hk as [Hne Hk].
    rewrite IH by exact Hk. unfold put. cbn.
    destruct o; [now rewrite lookup_insert_ne | reflexivity].
Qed.

(** With distinct labels, the label of a period is bound to its cell when
    the cell is kept, and is not bound by the loop otherwise. *)
Lemma put_lookup (es : list (string * option value))
    (acc : gmap string value) (i : nat) (k : string) (o : option value) :
  NoDup es.*1 -> es !! i = Some (k, o) ->
  foldl put acc es !! k = match o with Some v => Some v | None => acc !! k end.
Proof.
  revert acc i. induction es as [|[d o'] es IH]; intros acc i Hnd Hi.
  - discriminate.
  - cbn in Hnd. apply NoDup_cons in Hnd as [Hd Hnd]. destruct i as [|i]; cbn.
    + injection Hi as -> ->. rewrite put_other by exact Hd.
      unfold put. cbn. destruct o; [apply lookup_insert_eq | reflexivity].
    + cbn in Hi. rewrite (IH _ i Hnd Hi).
      destruct o; [reflexivity|]. unfold put. cbn.
      destruct o'; [|reflexivity]. apply lookup_insert_ne.
      intros ->. apply Hd. apply list_elem_of_fmap.
      exists (k, None). split; [reflexivity|].
      now apply list_elem_of_lookup_2 in Hi.
Qed.

(** Without the assumption that the labels are distinct: the last of
    the periods with a given label whose cell is kept gives the value of
    the label. *)
Lemma put_absent (es : list (string * option value))
    (acc : gmap string value) (k : string) :
  (forall j o, es !! j = Some (k, o) -> o = None) ->
  foldl put acc es !! k = acc !! k.
Proof.
  revert acc. induction es as [|[d o] es IH]; intros acc H; cbn.
  - reflexivity.
  - rewrite IH by (intros j o' Hj; exact (H (S j) o' Hj)).
    unfold put. cbn. destruct o as [v|]; [|reflexivity].
    apply lookup_insert_ne. intros ->. now specialize (H 0%nat _ eq_refl).
Qed.

Lemma put_last (es : list (string * option value))
    (acc : gmap string value) (i : nat) (k : string) (v : value) :
  es !! i = Some (k, Some v) ->
  (forall j o, (i < j)%nat -> es !! j = Some (k, o) -> o = None) ->
  foldl put acc es !! k = Some v.
Proof.
  revert acc i. induction es as [|[d o] es IH]; intros acc i Hi Hlater.
  - discriminate.
  - destruct i as [|i]; cbn.
    + injection Hi as -> ->.
      rewrite put_absent
        by (intros j o' Hj; apply (Hlater (S j) o'); [lia | exact Hj]).
      unfold put. cbn. apply lookup_insert_eq.
    + apply (IH _ i Hi). intros j o' Hij Hj.
      apply (Hlater (S j) o'); [lia | exact Hj].
Qed.

End ValuesFacts.

Module HierarchyMapperValues.
Import HierarchyMapper HierarchyMapperSpec ValuesSpec ValuesFacts PyFacts.

Section WithSheet.
Context (lib : Library) (ws : Worksheet) (cfg : sheet_config).

Lemma cell_valid (r c : Z) :
  1 <= r -> 1 <= c -> cell ws r c = Ok (cell_value ws r c).
Proof.
  intros Hr Hc. unfold cell.
  replace ((1 <=? r) && (1 <=? c)) with true; [reflexivity|].
  symmetry. apply andb_true_iff. split; apply Z.leb_le; lia.
Qed.

(** The loop over the header is a filter: it keeps, in the order of the
    columns, the labels of the cells that have one. *)
Lemma mapper_scan_dates_spec (cols : list Z) (dates : list string) :
  1 <= date_row cfg -> Forall (fun c => 1 <= c) cols ->
  scan_dates lib ws cfg cols dates
  = Ok (dates ++ omap (fun c => header_label lib
                                  (cell_value ws (date_row cfg) c)) cols).
Proof.
  intros Hr Hcols. revert dates.
  induction Hcols as [|c cols Hc Hcols IH]; intros dates; cbn.
  - now rewrite app_nil_r.
  - rewrite cell_valid by assumption. cbn. unfold header_label.
    destruct (truthy (cell_value ws (date_row cfg) c)); [|apply IH].
    destruct (cell_value ws (date_row cfg) c); cbn;
      try (destruct (to_datetime lib _); cbn);
      rewrite IH, <- ?app_assoc; reflexivity.
Qed.

(** The loop over the periods pairs the [j]-th label with the [j]-th
    column after [data_start_column]. *)
Lemma mapper_row_values_put (dates : list string) (row : Z) (cols : list Z)
    (j : nat) (acc : gmap string value) :
  1 <= row -> Forall (fun c => 1 <= c) cols ->
  (j + length cols <= length dates)%nat ->
  row_values ws dates row j cols acc
  = Ok (foldl put acc
          (zip (drop j dates)
               (map (fun c => kept (cell_value ws row c)) cols))).
Proof.
  intros Hr Hcols. revert j acc.
  induction Hcols as [|c cols Hc Hcols IH]; intros j acc Hlen; cbn.
  - now rewrite zip_with_nil_r.
  - rewrite cell_valid by assumption. cbn. cbn in Hlen.
    destruct (lookup_lt_is_Some_2 dates j) as [d Hd]; [lia|].
    rewrite (drop_S _ _ _ Hd). cbn [map zip zip_with foldl].
    assert (put acc (d, kept (cell_value ws row c))
            = if negb (is_None (cell_value ws row c))
                 && is_int_or_float (cell_value ws row c)
              then <[d := cell_value ws row c]> acc else acc) as ->.
    { unfold put, kept. cbn. now destruct (_ && _). }
    destruct (negb (is_None (cell_value ws row c))
              && is_int_or_float (cell_value ws row c)).
    + unfold py_index. rewrite Hd. cbn. apply IH. lia.
    + apply IH. lia.
Qed.

Lemma mapper_row_values_spec (dates : list string) (row : Z) :
  1 <= row -> 1 <= data_start_column cfg -> NoDup dates ->
  exists m,
    row_values ws dates row 0
      (range (data_start_column cfg)
             (data_start_column cfg + Z.of_nat (length dates))) ∅ = Ok m
    /\ (forall (i : nat) date, dates !! i = Some date ->
          m !! date
          = kept (cell_value ws row (data_start_column cfg + Z.of_nat i)))
    /\ (forall k, k ∉ dates -> m !! k = None).
Proof.
  intros Hr Hdsc Hnd. unfold range.
  replace (data_start_column cfg + Z.of_nat (length dates)
           - data_start_column cfg) with (Z.of_nat (length dates)) by lia.
  set (cols := seqZ (data_start_column cfg) (Z.of_nat (length dates))).
  assert (length cols = length dates) as Hlen
    by (unfold cols; rewrite length_seqZ; lia).
  eexists. split; [|split].
  - apply mapper_row_values_put; [exact Hr | | lia].
    apply Forall_forall. intros c Hc. unfold cols in Hc.
    apply elem_of_seqZ in Hc. lia.
  - intros i date Hi. change (drop 0 dates) with dates.
    match goal with |- context [foldl put ∅ ?l] => set (es := l) end.
    assert (es.*1 = dates) as Hfst
      by (apply fst_zip; rewrite length_map; lia).
    assert (es !! i
            = Some (date, kept (cell_value ws row
                                  (data_start_column cfg + Z.of_nat i))))
      as Hes.
    { unfold es. apply lookup_zip_with_Some.
      eexists _, _. split; [reflexivity|]. split; [exact Hi|].
      rewrite list_lookup_fmap. unfold cols.
      rewrite lookup_seqZ_lt; [reflexivity|].
      apply lookup_lt_Some in Hi. lia. }
    rewrite (put_lookup es ∅ i date _ ltac:(now rewrite Hfst) Hes).
    destruct (kept _); [reflexivity | apply lookup_empty].
  - intros k Hk. change (drop 0 dates) with dates.
    rewrite put_other; [apply lookup_empty|].
    rewrite fst_zip; [exact Hk | rewrite length_map; lia].
Qed.

(** The same without distinct labels: a label is bound to the cell of
    the last of its columns whose cell is kept, and to nothing when no
    cell of its columns is kept. *)
Lemma mapper_row_values_positional (dates : list string) (row : Z) :
  1 <= row -> 1 <= data_start_column cfg ->
  exists m,
    row_values ws dates row 0
      (range (data_start_column cfg)
             (data_start_column cfg + Z.of_nat (length dates))) ∅ = Ok m
    /\ (forall (i : nat) date v,
          dates !! i = Some date ->
          kept (cell_value ws row (data_start_column cfg + Z.of_nat i))
          = Some v ->
          (forall j : nat, (i < j)%nat -> dates !! j = Some date ->
             kept (cell_value ws row (data_start_column cfg + Z.of_nat j))
             = None) ->
          m !! date = Some v)
    /\ (forall date,
          (forall i : nat, dates !! i = Some date ->
             kept (cell_value ws row (data_start_column cfg + Z.of_nat i))
             = None) ->
          m !! date = None).
Proof.
  intros Hr Hdsc. unfold range.
  replace (data_start_column cfg + Z.of_nat (length dates)
           - data_start_column cfg) with (Z.of_nat (length dates)) by lia.
  set (cols := seqZ (data_start_column cfg) (Z.of_nat (length dates))).
  assert (length cols = length dates) as Hlen
    by (unfold cols; rewrite length_seqZ; lia).
  eexists. split; [|split].
  - apply mapper_row_values_put; [exact Hr | | lia].
    apply Forall_forall. intros c Hc. unfold cols in Hc.
    apply elem_of_seqZ in Hc. lia.
  - change (drop 0 dates) with dates.
    match goal with |- context [foldl put ∅ ?l] => set (es := l) end.
    assert (forall j d o, es !! j = Some (d, o) ->
              dates !! j = Some d
              /\ o = kept (cell_value ws row
                             (data_start_column cfg + Z.of_nat j))) as Hes.
    { intros j d o Hj. unfold es in Hj.
      apply lookup_zip_with_Some in Hj as (d' & o' & [= <- <-] & Hd & Ho).
      split; [exact Hd|]. rewrite list_lookup_fmap in Ho. unfold cols in Ho.
      rewrite lookup_seqZ_lt in Ho by (apply lookup_lt_Some in Hd; lia).
      now injection Ho. }
    intros i date v Hi Hv Hlater.
    apply (put_last es ∅ i date v).
    + unfold es. apply lookup_zip_with_Some.
      eexists _, _. split; [reflexivity|]. split; [exact Hi|].
      rewrite list_lookup_fmap. unfold cols.
      rewrite lookup_seqZ_lt by (apply lookup_lt_Some in Hi; lia).
      cbn. now rewrite Hv.
    + intros j o Hij Hj. destruct (Hes j date o Hj) as [Hd ->].
      now apply Hlater.
  - change (drop 0 dates) with dates.
    match goal with |- context [foldl put ∅ ?l] => set (es := l) end.
    intros date Hnone. rewrite put_absent; [apply lookup_empty|].
    intros j o Hj. unfold es in Hj.
    apply lookup_zip_with_Some in Hj as (d' & o' & [= <- <-] & Hd & Ho).
    rewrite list_lookup_fmap in Ho. unfold cols in Ho.
    rewrite lookup_seqZ_lt in Ho by (apply lookup_lt_Some in Hd; lia).
    injection Ho as <-. now apply Hnone.
Qed.

End WithSheet.
End HierarchyMapperValues.

Module ExtractJsonValues.
Import ExtractJson ExtractJsonSpec ExtractJsonFacts ValuesSpec ValuesFacts.
Import PyFacts.

Section WithSheet.
Context (lib : Library) (df : DataFrame) (cfg : sheet_config).

(** The loop over the header is a filter: every cell that is not blank
    gives a label, in the order of the columns. *)
Lemma json_scan_dates_spec (cols : list Z) (dates : list string) :
  0 <= date_row cfg - 1 < shape0 df ->
  Forall (fun c => 0 <= c < shape1 df) cols ->
  scan_dates lib df cfg cols dates
  = Ok (dates ++ omap (fun c => header_text lib
                                  (at_pos df (date_row cfg - 1) c)) cols).
Proof.
  intros Hr Hcols. revert dates.
  induction Hcols as [|c cols Hc Hcols IH]; intros dates; cbn.
  - now rewrite app_nil_r.
  - unfold iloc. rewrite !positional_in_range by assumption. cbn.
    unfold header_text.
    destruct (notna (at_pos df (date_row cfg - 1) c)); [|apply IH].
    destruct (at_pos df (date_row cfg - 1) c); cbn;
      rewrite IH, <- ?app_assoc; reflexivity.
Qed.

(** The loop over the periods pairs the [j]-th label with the [j]-th
    column after [data_start_column], when the frame has that column. *)
Lemma json_row_values_put (row i : Z) (dates : list string)
    (acc : gmap string value) :
  0 <= data_start_column cfg - 1 + i ->
  row_values df cfg row i dates acc
  = Ok (foldl put acc
          (zip dates
               (map (fun c => if c <? shape1 df then kept (at_pos df row c)
                              else None)
                    (seqZ (data_start_column cfg - 1 + i)
                          (Z.of_nat (length dates)))))).
Proof.
  revert i acc. induction dates as [|d dates IH]; intros i acc Hi.
  - reflexivity.
  - cbn [row_values length].
    rewrite Nat2Z.inj_succ, seqZ_cons by lia. cbn [map zip zip_with foldl].
    replace (Z.pred (Z.succ (Z.of_nat (length dates))))
      with (Z.of_nat (length dates)) by lia.
    replace (Z.succ (data_start_column cfg - 1 + i))
      with (data_start_column cfg - 1 + (i + 1)) by lia.
    destruct (data_start_column cfg - 1 + i <? shape1 df) eqn:Hc.
    + rewrite getitem_in_range by (apply Z.ltb_lt in Hc; lia). cbn.
      assert (put acc (d, kept (at_pos df row (data_start_column cfg - 1 + i)))
              = if notna (at_pos df row (data_start_column cfg - 1 + i))
                then <[d := if is_numpy_number
                                 (at_pos df row (data_start_column cfg - 1 + i))
                            then to_float
                                   (at_pos df row (data_start_column cfg - 1 + i))
                            else at_pos df row (data_start_column cfg - 1 + i)]>
                       acc
                else acc) as ->.
      { unfold put, kept. cbn. now destruct (notna _). }
      destruct (notna (at_pos df row (data_start_column cfg - 1 + i)));
        apply IH; lia.
    + change (put acc (d, None)) with acc. apply IH. lia.
Qed.

Lemma json_row_values_spec (row : Z) (dates : list string) :
  1 <= data_start_column cfg -> NoDup dates ->
  exists m,
    row_values df cfg row 0 dates ∅ = Ok m
    /\ (forall (i : nat) date, dates !! i = Some date ->
          m !! date
          = let c := data_start_column cfg - 1 + Z.of_nat i in
            if c <? shape1 df then kept (at_pos df row c) else None)
    /\ (forall k, k ∉ dates -> m !! k = None).
Proof.
  intros Hdsc Hnd. eexists. split; [|split].
  - apply json_row_values_put. lia.
  - intros i date Hi. cbn zeta.
    match goal with |- context [foldl put ∅ ?l] => set (es := l) end.
    assert (es.*1 = dates) as Hfst
      by (apply fst_zip; rewrite length_map, length_seqZ; lia).
    assert (es !! i
            = Some (date,
                    if data_start_column cfg - 1 + Z.of_nat i <? shape1 df
                    then kept (at_pos df row
                                 (data_start_column cfg - 1 + Z.of_nat i))
                    else None)) as Hes.
    { unfold es. apply lookup_zip_with_Some.
      eexists _, _. split; [reflexivity|]. split; [exact Hi|].
      rewrite list_lookup_fmap.
      rewrite lookup_seqZ_lt by (apply lookup_lt_Some in Hi; lia).
      replace (data_start_column cfg - 1 + 0 + Z.of_nat i)
        with (data_start_column cfg - 1 + Z.of_nat i) by lia.
      reflexivity. }
    rewrite (put_lookup es ∅ i date _ ltac:(now rewrite Hfst) Hes).
    destruct (_ <? _); [destruct (kept _)|]; try reflexivity;
      apply lookup_empty.
  - intros k Hk. rewrite put_other; [apply lookup_empty|].
    rewrite fst_zip; [exact Hk | rewrite length_map, length_seqZ; lia].
Qed.

(** What the [i]-th data column of a row gives: nothing past the last
    column of the frame. *)
Lemma json_row_values_positional (row : Z) (dates : list string) :
  1 <= data_start_column cfg ->
  exists m,
    row_values df cfg row 0 dates ∅ = Ok m
    /\ (forall (i : nat) date v,
          dates !! i = Some date ->
          column_value df cfg row i = Some v ->
          (forall j : nat, (i < j)%nat -> dates !! j = Some date ->
             column_value df cfg row j = None) ->
          m !! date = Some v)
    /\ (forall date,
          (forall i : nat, dates !! i = Some date ->
             column_value df cfg row i = None) ->
          m !! date = None).
Proof.
  intros Hdsc. eexists. split; [apply json_row_values_put; lia|].
  match goal with |- context [foldl put ∅ ?l] => set (es := l) end.
  assert (forall j d, dates !! j = Some d ->
            es !! j = Some (d, column_value df cfg row j)) as Hes.
  { intros j d Hd. unfold es. apply lookup_zip_with_Some.
    eexists _, _. split; [reflexivity|]. split; [exact Hd|].
    rewrite list_lookup_fmap.
    rewrite lookup_seqZ_lt by (apply lookup_lt_Some in Hd; lia).
    unfold column_value.
    replace (data_start_column cfg - 1 + 0 + Z.of_nat j)
      with (data_start_column cfg - 1 + Z.of_nat j) by lia.
    reflexivity. }
  assert (forall j d o, es !! j = Some (d, o) ->
            dates !! j = Some d /\ o = column_value df cfg row j) as Hes'.
  { intros j d o Hj. pose proof Hj as Hj'. unfold es in Hj'.
    apply lookup_zip_with_Some in Hj' as (d' & o' & [= <- <-] & Hd & _).
    split; [exact Hd|]. rewrite (Hes j d Hd) in Hj. now injection Hj. }
  split.
  - intros i date v Hi Hv Hlater. apply (put_last es ∅ i date v).
    + now rewrite (Hes i date Hi), Hv.
    + intros j o Hij Hj. destruct (Hes' j date o Hj) as [Hd ->].
      now apply Hlater.
  - intros date Hnone. rewrite put_absent; [apply lookup_empty|].
    intros j o Hj. destruct (Hes' j date o Hj) as [Hd ->]. now apply Hnone.
Qed.

End WithSheet.
End ExtractJsonValues.

(** ** The assets do not depend on the liabilities *)

Module ExtractJsonSections.
Import ExtractJson ExtractJsonSpec ExtractJsonFacts ExtractJsonValues.
Import SectionSpec PyFacts.

Section TwoFrames.
Context (lib : Library) (df1 df2 : DataFrame) (cfg1 cfg2 : sheet_config).
Hypothesis Hcfg : same_but_liabilities cfg1 cfg2.
Hypothesis Hok : frames_ok df1 df2 cfg1 = true.

Lemma frames_ok_bounds :
  (0 <= date_row cfg1 - 1 < shape0 df1
   /\ 0 <= date_row cfg1 - 1 < shape0 df2)
  /\ 1 <= data_start_column cfg1
  /\ 1 <= data_name_column cfg1 <= shape1 df1
  /\ 1 <= data_name_column cfg1 <= shape1 df2.
Proof.
  pose proof Hok as H. unfold frames_ok in H.
  repeat (apply andb_true_iff in H as [H ?]).
  repeat match goal with
         | H : (_ <=? _) = true |- _ => apply Z.leb_le in H
         end.
  lia.
Qed.

(** What a row gives for column [c] is the same in the two frames. *)
Lemma cells_match_kept (r' c : Z) :
  cells_match df1 df2 r' -> 0 <= c ->
  (if c <? shape1 df1 then kept (at_pos df1 r' c) else None)
  = (if c <? shape1 df2 then kept (at_pos df2 r' c) else None).
Proof.
  intros Hm Hc. destruct (Hm c Hc) as (Hboth & Hwide2 & Hwide1).
  unfold kept, notna.
  destruct (Z.ltb_spec c (shape1 df1)), (Z.ltb_spec c (shape1 df2)).
  - now rewrite Hboth.
  - now rewrite Hwide1.
  - now rewrite Hwide2.
  - reflexivity.
Qed.

Lemma cells_match_header (r' c : Z) :
  cells_match df1 df2 r' -> 0 <= c ->
  (if c <? shape1 df1 then header_text lib (at_pos df1 r' c) else None)
  = (if c <? shape1 df2 then header_text lib (at_pos df2 r' c) else None).
Proof.
  intros Hm Hc. destruct (Hm c Hc) as (Hboth & Hwide2 & Hwide1).
  unfold header_text, notna.
  destruct (Z.ltb_spec c (shape1 df1)), (Z.ltb_spec c (shape1 df2)).
  - now rewrite Hboth.
  - now rewrite Hwide1.
  - now rewrite Hwide2.
  - reflexivity.
Qed.

Lemma json_extract_dates_agree :
  cells_match df1 df2 (date_row cfg1 - 1) ->
  extract_dates lib df1 cfg1 = extract_dates lib df2 cfg2.
Proof.
  intros Hm. destruct frames_ok_bounds as ((Hr1 & Hr2) & Hdsc & _).
  destruct Hcfg as (Hdr & Hd & _).
  unfold extract_dates. rewrite <- Hd.
  assert (forall df, Forall (fun c => 0 <= c < shape1 df)
                       (range (data_start_column cfg1 - 1) (shape1 df)))
    as Hcols.
  { intros df. apply Forall_forall. intros c Hc. unfold range in Hc.
    apply elem_of_seqZ in Hc. lia. }
  rewrite (json_scan_dates_spec lib df1 cfg1) by auto.
  rewrite (json_scan_dates_spec lib df2 cfg2) by (rewrite <- ?Hdr; auto).
  rewrite <- Hdr. cbn [app]. f_equal.
  set (g := fun c => if c <? shape1 df1
                     then header_text lib (at_pos df1 (date_row cfg1 - 1) c)
                     else None).
  assert (forall c, Z.min (shape1 df1) (shape1 df2) - 1 < c -> 0 <= c ->
                    g c = None) as Hblank.
  { intros c Hc Hc0. unfold g. destruct (Z.ltb_spec c (shape1 df1));
      [|reflexivity].
    destruct (Hm c Hc0) as (_ & _ & Hwide1).
    unfold header_text, notna. rewrite Hwide1; [reflexivity | lia | lia]. }
  assert (forall c, data_start_column cfg1 - 1 <= c ->
                    Z.min (shape1 df1) (shape1 df2) - 1 < c -> g c = None)
    as Hcut by (intros c Hc0 Hc; apply Hblank; lia).
  transitivity (omap g (range (data_start_column cfg1 - 1)
                              (Z.min (shape1 df1) (shape1 df2)))).
  - rewrite (omap_agree_on _ g).
    + rewrite (header_cut g _ _ _ Hcut). do 2 f_equal. lia.
    + intros c Hc. unfold range in Hc. apply elem_of_seqZ in Hc.
      unfold g. destruct (Z.ltb_spec c (shape1 df1)); [reflexivity | lia].
  - symmetry. rewrite (omap_agree_on _ g).
    + rewrite (header_cut g _ _ _ Hcut). do 2 f_equal. lia.
    + intros c Hc. unfold range in Hc. apply elem_of_seqZ in Hc.
      unfold g. rewrite (cells_match_header _ c Hm) by lia.
      destruct (Z.ltb_spec c (shape1 df2)); [reflexivity | lia].
Qed.

Lemma json_row_values_agree (row : Z) (dates : list string) :
  cells_match df1 df2 row ->
  row_values df1 cfg1 row 0 dates ∅ = row_values df2 cfg2 row 0 dates ∅.
Proof.
  intros Hm. destruct frames_ok_bounds as (_ & Hdsc & _).
  destruct Hcfg as (_ & Hd & _).
  rewrite (json_row_values_put df1 cfg1) by lia.
  rewrite (json_row_values_put df2 cfg2) by (rewrite <- Hd; lia).
  rewrite <- Hd. do 3 f_equal. apply map_ext_in. intros c Hc.
  apply list_elem_of_In, elem_of_seqZ in Hc.
  apply cells_match_kept; [exact Hm | lia].
Qed.

Lemma parse_row_agree (dates : list string) (st : state) (level : Z) :
  same_row df1 df2 (current_row st) ->
  parse_row lib df1 cfg1 dates st level = parse_row lib df2 cfg2 dates st level.
Proof.
  intros [Hpos Hcells]. destruct frames_ok_bounds as (_ & _ & Hn1 & Hn2).
  destruct Hcfg as (_ & _ & Hname & _).
  unfold parse_row. rewrite <- Hpos, <- Hname.
  destruct (iloc_row df1 (current_row st)) as [row|e]; [cbn|reflexivity].
  specialize (Hcells row eq_refl).
  rewrite !getitem_in_range by lia.
  destruct (Hcells (data_name_column cfg1 - 1)) as (Hlabel & _); [lia|].
  rewrite <- Hlabel by lia. cbn.
  destruct (isna _); [reflexivity|].
  destruct (translations _) as [[a b]|e]; [cbn|reflexivity].
  now rewrite (json_row_values_agree row dates Hcells).
Qed.

Lemma parse_row_advances (dates : list string) (st st' : state) (level : Z) :
  parse_row lib df1 cfg1 dates st level = Ok st' ->
  current_row st' = current_row st + 1.
Proof.
  intros H. apply parse_row_inv in H as [->|H]; [reflexivity|].
  destruct H as (? & ? & ? & ? & _ & _ & _ & _ & _ & _ & H). exact H.
Qed.

Lemma parse_rows_agree (dates : list string) (levels : list Z) (st : state) :
  Forall (same_row df1 df2) (section_rows (current_row st) levels) ->
  parse_rows lib df1 cfg1 dates st levels
  = parse_rows lib df2 cfg2 dates st levels.
Proof.
  revert st. induction levels as [|l levels IH]; intros st Hrows; cbn.
  - reflexivity.
  - unfold section_rows in Hrows. cbn [length] in Hrows.
    rewrite Nat2Z.inj_succ, seqZ_cons in Hrows by lia.
    inversion Hrows as [|? ? Hrow Hrows']; subst.
    rewrite <- (parse_row_agree dates st l Hrow).
    destruct (parse_row lib df1 cfg1 dates st l) as [st'|e] eqn:Hst;
      [cbn|reflexivity].
    apply IH. unfold section_rows.
    rewrite (parse_row_advances _ _ _ _ Hst).
    replace (Z.pred (Z.succ (Z.of_nat (length levels))))
      with (Z.of_nat (length levels)) in Hrows' by lia.
    exact Hrows'.
Qed.

Lemma parse_section_agree (dates : list string) (start_row : Z)
    (levels : list Z) (section_name : string) :
  Forall (same_row df1 df2) (section_rows start_row levels) ->
  parse_section lib df1 cfg1 dates start_row levels section_name
  = parse_section lib df2 cfg2 dates start_row levels section_name.
Proof.
  intros Hrows. unfold parse_section.
  now rewrite (parse_rows_agree dates levels (initial start_row section_name)).
Qed.

End TwoFrames.
End ExtractJsonSections.

Module HierarchyMapperSections.
Import HierarchyMapper HierarchyMapperSpec HierarchyMapperValues.
Import SectionSpec PyFacts.

Section TwoSheets.
Context (lib : Library) (ws1 ws2 : Worksheet) (cfg1 cfg2 : sheet_config).
Hypothesis Hcfg : same_but_liabilities cfg1 cfg2.

Lemma cell_agree (r c : Z) :
  same_cells ws1 ws2 r -> cell ws1 r c = cell ws2 r c.
Proof. intros H. unfold cell. now rewrite (H c). Qed.

Lemma mapper_row_values_agree (dates : list string) (row : Z) (j : nat)
    (cols : list Z) (acc : gmap string value) :
  same_cells ws1 ws2 row ->
  row_values ws1 dates row j cols acc = row_values ws2 dates row j cols acc.
Proof.
  intros Hrow. revert j acc.
  induction cols as [|c cols IH]; intros j acc; cbn; [reflexivity|].
  rewrite <- (cell_agree row c Hrow).
  destruct (cell ws1 row c) as [v|e]; [cbn|reflexivity].
  destruct (_ && _); [|apply IH].
  destruct (py_index dates j); [cbn; apply IH | reflexivity].
Qed.

Lemma extract_section_agree (dates : list string) (hierarchy : list Z)
    (row_index : Z) (data : list entry) :
  Forall (same_cells ws1 ws2) (section_rows row_index hierarchy) ->
  extract_section lib ws1 cfg1 dates row_index hierarchy data
  = extract_section lib ws2 cfg2 dates row_index hierarchy data.
Proof.
  destruct Hcfg as (_ & Hdsc & Hname & _).
  revert row_index data.
  induction hierarchy as [|l hierarchy IH]; intros row_index data Hrows; cbn.
  - reflexivity.
  - unfold section_rows in Hrows. cbn [length] in Hrows.
    rewrite Nat2Z.inj_succ, seqZ_cons in Hrows by lia.
    replace (Z.pred (Z.succ (Z.of_nat (length hierarchy))))
      with (Z.of_nat (length hierarchy)) in Hrows by lia.
    inversion Hrows as [|? ? Hrow Hrows']; subst.
    rewrite <- Hname, <- Hdsc, <- (cell_agree row_index _ Hrow).
    destruct (cell ws1 row_index (data_name_column cfg1)) as [v|e];
      [cbn|reflexivity].
    destruct (is_None v); [now apply IH|].
    rewrite <- (mapper_row_values_agree dates row_index 0 _ ∅ Hrow).
    destruct (row_values ws1 dates row_index 0 _ ∅) as [m|e];
      [cbn|reflexivity].
    destruct (split_name _) as [[n_is n_en]|e]; [cbn|reflexivity].
    now apply IH.
Qed.

Lemma mapper_extract_dates_agree :
  1 <= date_row cfg1 -> 1 <= data_start_column cfg1 ->
  same_cells ws1 ws2 (date_row cfg1) ->
  blank_beyond ws1 (date_row cfg1) -> blank_beyond ws2 (date_row cfg1) ->
  extract_dates lib ws1 cfg1 = extract_dates lib ws2 cfg2.
Proof.
  intros Hr Hdsc Hsame Hb1 Hb2. destruct Hcfg as (Hdr & Hd & _).
  unfold extract_dates. rewrite <- Hd.
  assert (forall b, Forall (fun c => 1 <= c) (range (data_start_column cfg1) b))
    as Hpos.
  { intros b. apply Forall_forall. intros c Hc. unfold range in Hc.
    apply elem_of_seqZ in Hc. lia. }
  rewrite !mapper_scan_dates_spec by (try rewrite <- Hdr; auto).
  rewrite <- Hdr. cbn [app]. f_equal.
  set (f := fun c => header_label lib (cell_value ws1 (date_row cfg1) c)).
  assert (omap (fun c => header_label lib (cell_value ws2 (date_row cfg1) c))
               (range (data_start_column cfg1) (max_column ws2 + 1))
          = omap f (range (data_start_column cfg1) (max_column ws2 + 1))) as ->.
  { apply omap_pointwise. intros c. unfold f. now rewrite (Hsame c). }
  assert (forall c, Z.min (max_column ws1) (max_column ws2) < c -> f c = None)
    as Hblank.
  { intros c Hc. unfold f.
    destruct (Z_lt_ge_dec (max_column ws1) c) as [H1|H1].
    - now rewrite (Hb1 c H1).
    - rewrite (Hsame c), (Hb2 c); [reflexivity | lia]. }
  rewrite (header_cut f _ (max_column ws1 + 1) _ (fun c _ => Hblank c)).
  rewrite (header_cut f _ (max_column ws2 + 1) _ (fun c _ => Hblank c)).
  f_equal. f_equal. lia.
Qed.

End TwoSheets.
End HierarchyMapperSections.

(** ** dataframe_parser.py: the rows and their order *)

Module DataframeParserFacts.
Import DataframeParser DataframeParserSpec SectionSpec PyFacts.
Import HierarchyMapperValues.

(** *** The sort *)

Lemma string_gt_not_le (s t : string) :
  (s ?= t)%string = Gt ->
  ~ (s = t \/ OrderedTypeEx.String_as_OT.lt s t).
Proof.
  intros Hs. apply OrderedTypeEx.String_as_OT.compare_helper_gt in Hs.
  intros [He|Hl].
  - rewrite He in Hs.
    exact (OrderedTypeEx.String_as_OT.lt_not_eq _ _ Hs eq_refl).
  - pose proof (OrderedTypeEx.String_as_OT.lt_trans _ _ _ Hs Hl) as H.
    exact (OrderedTypeEx.String_as_OT.lt_not_eq _ _ H eq_refl).
Qed.

Lemma key_leb_spec (a b : Z * section_type * string) :
  key_leb a b = true <-> key_le a b.
Proof.
  destruct a as [[da ta] sa], b as [[db tb] sb].
  unfold key_leb, key_le. cbn.
  destruct (Z.compare_spec da db) as [Hd|Hd|Hd].
  - destruct ta, tb; cbn.
    + destruct (sa ?= sb)%string eqn:Hs.
      * pose proof (proj1 (OrderedTypeEx.String_as_OT.cmp_eq _ _) Hs). tauto.
      * pose proof (proj1 (OrderedTypeEx.String_as_OT.cmp_lt _ _) Hs). tauto.
      * apply string_gt_not_le in Hs. split; [discriminate|].
        intros [?|(_ & [[_ ?]|(_ & ?)])]; [lia | discriminate | tauto].
    + tauto.
    + split; [discriminate|].
      intros [?|(_ & [[? _]|(? & _)])]; [lia | discriminate | discriminate].
    + destruct (sa ?= sb)%string eqn:Hs.
      * pose proof (proj1 (OrderedTypeEx.String_as_OT.cmp_eq _ _) Hs). tauto.
      * pose proof (proj1 (OrderedTypeEx.String_as_OT.cmp_lt _ _) Hs). tauto.
      * apply string_gt_not_le in Hs. split; [discriminate|].
        intros [?|(_ & [[? _]|(_ & ?)])]; [lia | discriminate | tauto].
  - tauto.
  - split; [discriminate|]. intros [?|(? & _)]; lia.
Qed.

Lemma type_compare_antisym (a b : section_type) :
  type_compare b a = CompOpp (type_compare a b).
Proof. now destruct a, b. Qed.

Lemma key_leb_total (a b : Z * section_type * string) :
  key_leb a b = false -> key_leb b a = true.
Proof.
  destruct a as [[da ta] sa], b as [[db tb] sb]. unfold key_leb. cbn.
  rewrite (Z.compare_antisym da db), (type_compare_antisym ta tb),
    (String.compare_antisym sa sb).
  destruct (da ?= db); cbn; try congruence.
  destruct (type_compare ta tb); cbn; try congruence.
  destruct (sb ?= sa)%string; cbn; congruence.
Qed.

Lemma key_leb_trans (a b c : Z * section_type * string) :
  key_leb a b = true -> key_leb b c = true -> key_leb a c = true.
Proof.
  rewrite !key_leb_spec. unfold key_le.
  intros [Hab|(Hab & Hab')] [Hbc|(Hbc & Hbc')]; try (left; lia).
  right. split; [lia|].
  destruct Hab' as [[Ha Hb]|(Hab' & Hs)], Hbc' as [[Hb' Hc]|(Hbc' & Hs')].
  - congruence.
  - left. split; congruence.
  - left. split; congruence.
  - right. split; [congruence|].
    destruct Hs as [Hs|Hs], Hs' as [Hs'|Hs'].
    + left. congruence.
    + right. now rewrite Hs.
    + right. now rewrite <- Hs'.
    + right. exact (OrderedTypeEx.String_as_OT.lt_trans _ _ _ Hs Hs').
Qed.

Lemma insert_key_perm (x : nat * (Z * section_type * string))
    (l : list (nat * (Z * section_type * string))) :
  Permutation (x :: l) (insert_key x l).
Proof.
  induction l as [|y l IH]; cbn; [reflexivity|].
  destruct (key_leb x.2 y.2); [reflexivity|].
  rewrite perm_swap. now apply perm_skip.
Qed.

Lemma sorted_pairs_perm (l : list (nat * (Z * section_type * string))) :
  Permutation l (foldr insert_key [] l).
Proof.
  induction l as [|x l IH]; cbn; [reflexivity|].
  rewrite <- insert_key_perm. now apply perm_skip.
Qed.

Lemma insert_key_sorted (x : nat * (Z * section_type * string))
    (l : list (nat * (Z * section_type * string))) :
  StronglySorted (fun p q => key_leb p.2 q.2 = true) l ->
  StronglySorted (fun p q => key_leb p.2 q.2 = true) (insert_key x l).
Proof.
  induction l as [|y l IH]; intros Hs; cbn.
  - repeat constructor.
  - inversion Hs as [|? ? Hs' Hall]; subst.
    destruct (key_leb x.2 y.2) eqn:Hxy.
    + constructor; [exact Hs|]. constructor; [exact Hxy|].
      eapply Forall_impl; [exact Hall|]. cbn. intros z Hz.
      exact (key_leb_trans _ _ _ Hxy Hz).
    + constructor; [now apply IH|].
      rewrite <- (insert_key_perm x l).
      constructor; [now apply key_leb_total | exact Hall].
Qed.

Lemma sorted_pairs_sorted (l : list (nat * (Z * section_type * string))) :
  StronglySorted (fun p q => key_leb p.2 q.2 = true) (foldr insert_key [] l).
Proof.
  induction l as [|x l IH]; cbn; [constructor|].
  now apply insert_key_sorted.
Qed.

Lemma lookup_positions {A} (l : list A) (k : nat) :
  omap (fun i => (drop k l) !! (i - k)%nat) (seq k (length (drop k l)))
  = drop k l.
Proof.
  remember (drop k l) as t eqn:E. clear E l. revert k.
  induction t as [|x t IH]; intros k; cbn; [reflexivity|].
  rewrite Nat.sub_diag. cbn. f_equal. rewrite <- (IH (S k)) at 2.
  apply omap_agree_on. intros i Hi. apply elem_of_seq in Hi.
  now replace (i - k)%nat with (S (i - S k)) by lia.
Qed.

(** The index of a sorted frame holds every position once, and the
    dictionaries are in the order of their keys. *)
Lemma argsort_spec (all_data : list flat_row)
    (keys : list (Z * section_type * string)) :
  mapM sort_key all_data = Some keys ->
  Permutation (argsort keys) (seq 0 (length all_data))
  /\ Permutation all_data (frame_rows all_data (argsort keys))
  /\ StronglySorted row_le (frame_rows all_data (argsort keys)).
Proof.
  intros Hkeys. pose proof (length_mapM _ _ _ Hkeys) as Hlen.
  unfold argsort, frame_rows.
  set (ps := foldr insert_key [] (zip (seq 0 (length keys)) keys)).
  assert (Permutation (zip (seq 0 (length keys)) keys) ps) as Hperm
    by apply sorted_pairs_perm.
  assert (Permutation ps.*1 (seq 0 (length all_data))) as Hindex.
  { rewrite <- Hperm, fst_zip by (rewrite length_seq; lia).
    now rewrite Hlen. }
  split; [exact Hindex|]. split.
  - rewrite Hindex. pose proof (lookup_positions all_data 0) as H.
    rewrite drop_0 in H. rewrite <- H at 1. apply Permutation_refl'.
    apply omap_pointwise. intros i. now rewrite Nat.sub_0_r.
  - assert (Forall (fun p => exists r, all_data !! p.1 = Some r
                                       /\ sort_key r = Some p.2) ps) as Hps.
    { rewrite <- Hperm. apply Forall_forall. intros [i k] Hik.
      apply list_elem_of_lookup in Hik as [j Hj].
      apply lookup_zip_with_Some in Hj as (i' & k' & [= <- <-] & Hi & Hk).
      apply lookup_seq in Hi as [-> _]. cbn.
      rewrite mapM_Some in Hkeys.
      destruct (Forall2_lookup_r _ _ _ _ _ Hkeys Hk) as (r & Hr & Hrk).
      eauto. }
    pose proof (sorted_pairs_sorted (zip (seq 0 (length keys)) keys)) as Hs.
    fold ps in Hs. clearbody ps. clear Hperm Hindex.
    induction Hs as [|p ps Hs IH Hall]; cbn; [constructor|].
    inversion Hps as [|? ? (r & Hr & Hk) Hps']; subst.
    rewrite Hr. constructor; [now apply IH|].
    clear IH Hs Hps. induction Hps' as [|q ps (r' & Hr' & Hk') _ IH]; cbn;
      [constructor|].
    inversion Hall as [|? ? Hpq Hall']; subst.
    rewrite Hr'. constructor; [|now apply IH].
    exists p.2, q.2. split; [exact Hk|]. split; [exact Hk'|].
    now apply key_leb_spec.
Qed.

Lemma plain_keys (all_data : list flat_row) :
  Forall (fun r => plain r = true) all_data ->
  exists keys, mapM sort_key all_data = Some keys.
Proof.
  intros H. apply mapM_is_Some. eapply Forall_impl; [exact H|].
  intros r Hr. unfold plain in Hr. unfold compose, sort_key.
  destruct (date r); [|discriminate]. destruct (name r); try discriminate.
  eauto.
Qed.

(** *** The loops *)

Section WithSheet.
Context (lib : Library) (ws : Worksheet) (cfg : sheet_config).

Lemma split_label_total (v : value) :
  exists a b, split_label v = Ok (a, b).
Proof.
  destruct v; cbn; eauto.
  destruct (str_in " / " s) eqn:H; [|eauto].
  destruct (split1_present " / " s H) as (a & b & -> & _). cbn. eauto.
Qed.

Lemma frame_scan_dates_spec (cols : list Z) (dates : list datetime) :
  1 <= date_row cfg -> Forall (fun c => 1 <= c) cols ->
  scan_dates lib ws cfg cols dates
  = Ok (dates ++ omap (fun c => header_date lib
                                  (cell_value ws (date_row cfg) c)) cols).
Proof.
  intros Hr Hcols. revert dates.
  induction Hcols as [|c cols Hc Hcols IH]; intros dates; cbn.
  - now rewrite app_nil_r.
  - rewrite cell_valid by assumption. cbn. unfold header_date.
    destruct (truthy (cell_value ws (date_row cfg) c)); [|apply IH].
    destruct (cell_value ws (date_row cfg) c); cbn;
      try (destruct (is_NaT lib _); cbn;
           [|destruct (to_datetime lib _); cbn]);
      rewrite IH, <- ?app_assoc; reflexivity.
Qed.

Lemma scan_dates_total (cols : list Z) (dates : list datetime) :
  1 <= date_row cfg -> Forall (fun c => 1 <= c) cols ->
  exists ds, scan_dates lib ws cfg cols dates = Ok ds.
Proof. intros Hr Hcols. rewrite frame_scan_dates_spec; eauto. Qed.

(** The rows a sheet row gives are appended in the order of the
    columns. *)
Lemma emit_values_spec (dates : list datetime) (row : Z) (cols : list Z) (j : nat)
    (proto : datetime -> value -> flat_row) (acc : list flat_row) :
  1 <= row -> Forall (fun c => 1 <= c) cols ->
  (j + length cols <= length dates)%nat ->
  emit_values ws dates row j cols proto acc
  = Ok (acc ++ omap (fun dc : datetime * Z =>
                       let v := cell_value ws row dc.2 in
                       if negb (is_None v) && is_int_or_float v
                       then Some (proto dc.1 v) else None)
                    (zip (drop j dates) cols)).
Proof.
  intros Hr Hcols. revert j acc.
  induction Hcols as [|c cols Hc Hcols IH]; intros j acc Hlen; cbn.
  - now rewrite zip_with_nil_r, app_nil_r.
  - rewrite cell_valid by assumption. cbn. cbn in Hlen.
    destruct (lookup_lt_is_Some_2 dates j) as [d Hd]; [lia|].
    rewrite (drop_S _ _ _ Hd). cbn [zip zip_with omap list_omap fst snd].
    cbn zeta.
    destruct (negb (is_None (cell_value ws row c))
              && is_int_or_float (cell_value ws row c)).
    + unfold py_index. rewrite Hd. cbn.
      rewrite IH by lia. now rewrite <- app_assoc.
    + apply IH. lia.
Qed.

Lemma process_row_spec (tp : section_type) (dates : list datetime) (st : state)
    (level : Z) :
  1 <= row_index st -> 1 <= data_name_column cfg ->
  1 <= data_start_column cfg ->
  exists st' new,
    process_row ws cfg tp dates st level = Ok st'
    /\ row_index st' = row_index st + 1
    /\ all_data st' = all_data st ++ new
    /\ Forall (fun r => type r = tp) new
    /\ map cell_of new = row_cells ws cfg dates (row_index st).
Proof.
  intros Hr Hn Hd. unfold process_row, row_cells.
  rewrite cell_valid by assumption. cbn.
  destruct (is_None (cell_value ws (row_index st) (data_name_column cfg))).
  { eexists _, []. cbn. rewrite app_nil_r. repeat split. constructor. }
  destruct (split_label_total
              (cell_value ws (row_index st) (data_name_column cfg)))
    as (a & b & ->). cbn.
  match goal with
  | |- context [split_label ?p] =>
      destruct (split_label_total p) as (pa & pb & ->)
  end. cbn.
  unfold range.
  replace (data_start_column cfg + Z.of_nat (length dates)
           - data_start_column cfg) with (Z.of_nat (length dates)) by lia.
  rewrite emit_values_spec;
    [| exact Hr
     | apply Forall_forall; intros c Hc; apply elem_of_seqZ in Hc; lia
     | rewrite length_seqZ; lia].
  cbn. eexists _, _. split; [reflexivity|]. cbn.
  split; [reflexivity|]. split; [reflexivity|].
  change (drop 0 dates) with dates.
  generalize (zip dates (seqZ (data_start_column cfg)
                              (Z.of_nat (length dates)))).
  intros l. split.
  - induction l as [|dc l IH]; cbn; [constructor|].
    destruct (_ && _); [constructor; [reflexivity | exact IH] | exact IH].
  - induction l as [|dc l IH]; cbn; [reflexivity|].
    destruct (_ && _); cbn; now rewrite IH.
Qed.

Lemma process_rows_spec (tp : section_type) (dates : list datetime)
    (hierarchy : list Z) (st : state) :
  1 <= row_index st -> 1 <= data_name_column cfg ->
  1 <= data_start_column cfg ->
  exists st' new,
    process_rows ws cfg tp dates st hierarchy = Ok st'
    /\ all_data st' = all_data st ++ new
    /\ Forall (fun r => type r = tp) new
    /\ map cell_of new
       = section_cells ws cfg dates (row_index st) hierarchy.
Proof.
  intros Hr Hn Hd. revert st Hr.
  induction hierarchy as [|l hierarchy IH]; intros st Hr; cbn.
  - exists st, []. rewrite app_nil_r. repeat split. constructor.
  - destruct (process_row_spec tp dates st l Hr Hn Hd)
      as (st1 & new1 & -> & Hrow & Hall & Htp & Hcells). cbn.
    destruct (IH st1) as (st2 & new2 & -> & Hall2 & Htp2 & Hcells2); [lia|].
    exists st2, (new1 ++ new2). split; [reflexivity|].
    split; [now rewrite Hall2, Hall, app_assoc|].
    split; [now apply Forall_app|].
    rewrite map_app, Hcells, Hcells2, Hrow.
    unfold section_cells, section_rows. cbn [length].
    rewrite Nat2Z.inj_succ, (seqZ_cons (row_index st)) by lia.
    replace (Z.pred (Z.succ (Z.of_nat (length hierarchy))))
      with (Z.of_nat (length hierarchy)) by lia.
    reflexivity.
Qed.

(** The rows collected are those of the assets, then those of the
    liabilities, each section in the order of the sheet. *)
Lemma collect_all_data_spec :
  coordinates_ok cfg = true ->
  exists dates st_a a l,
    extract_dates lib ws cfg = Ok dates
    /\ process_rows ws cfg asset dates
         {| row_index := assets_row cfg; current_parents := ∅;
            all_data := [] |} (assets_hierarchy cfg) = Ok st_a
    /\ all_data st_a = a
    /\ collect_all_data lib ws cfg = Ok (a ++ l)
    /\ Forall (fun r => type r = asset) a
    /\ Forall (fun r => type r = liability) l
    /\ map cell_of a
       = section_cells ws cfg dates (assets_row cfg) (assets_hierarchy cfg)
    /\ map cell_of l
       = section_cells ws cfg dates (liabilities_row cfg)
           (liabilities_hierarchy cfg).
Proof.
  intros Hok. unfold coordinates_ok in Hok.
  repeat (apply andb_true_iff in Hok as [Hok ?]).
  repeat match goal with
         | H : (_ <=? _) = true |- _ => apply Z.leb_le in H
         end.
  destruct (scan_dates_total
              (range (data_start_column cfg) (max_column ws + 1)) [])
    as (dates & Hdates); [assumption | |].
  { apply Forall_forall. intros c Hc. unfold range in Hc.
    apply elem_of_seqZ in Hc. lia. }
  destruct (process_rows_spec asset dates (assets_hierarchy cfg)
              {| row_index := assets_row cfg; current_parents := ∅;
                 all_data := [] |})
    as (st_a & a & Hrun_a & Hall_a & Htp_a & Hcells_a); try assumption.
  cbn in Hall_a, Hcells_a.
  destruct (process_rows_spec liability dates (liabilities_hierarchy cfg)
              {| row_index := liabilities_row cfg; current_parents := ∅;
                 all_data := all_data st_a |})
    as (st_l & l & Hrun_l & Hall_l & Htp_l & Hcells_l); try assumption.
  cbn in Hall_l, Hcells_l.
  exists dates, st_a, a, l. split; [exact Hdates|]. split; [exact Hrun_a|].
  split; [exact Hall_a|]. split.
  { unfold collect_all_data, extract_dates.
    rewrite Hdates. cbn. rewrite Hrun_a. cbn. rewrite Hrun_l. cbn.
    now rewrite Hall_l, Hall_a. }
  auto.
Qed.

End WithSheet.

(** *** Two sheets with the same assets *)

Section TwoSheets.
Context (lib : Library) (ws1 ws2 : Worksheet) (cfg1 cfg2 : sheet_config).
Hypothesis Hcfg : same_but_liabilities cfg1 cfg2.

Lemma emit_values_agree (dates : list datetime) (row : Z) (j : nat) (cols : list Z)
    (proto : datetime -> value -> flat_row) (acc : list flat_row) :
  HierarchyMapperSpec.same_cells ws1 ws2 row ->
  emit_values ws1 dates row j cols proto acc
  = emit_values ws2 dates row j cols proto acc.
Proof.
  intros Hrow. revert j acc.
  induction cols as [|c cols IH]; intros j acc; cbn; [reflexivity|].
  rewrite <- (HierarchyMapperSections.cell_agree ws1 ws2 row c Hrow).
  destruct (cell ws1 row c) as [v|e]; [cbn|reflexivity].
  destruct (_ && _); [|apply IH].
  destruct (py_index dates j); [cbn; apply IH | reflexivity].
Qed.

Lemma process_row_agree (tp : section_type) (dates : list datetime) (st : state)
    (level : Z) :
  HierarchyMapperSpec.same_cells ws1 ws2 (row_index st) ->
  process_row ws1 cfg1 tp dates st level
  = process_row ws2 cfg2 tp dates st level.
Proof.
  intros Hrow. destruct Hcfg as (_ & Hdsc & Hname & _).
  unfold process_row. rewrite <- Hname, <- Hdsc.
  rewrite <- (HierarchyMapperSections.cell_agree ws1 ws2 (row_index st)
                (data_name_column cfg1) Hrow).
  destruct (cell ws1 (row_index st) (data_name_column cfg1)) as [v|e];
    [cbn|reflexivity].
  destruct (is_None v); [reflexivity|].
  destruct (split_label _) as [[a b]|e]; [cbn|reflexivity].
  destruct (split_label _) as [[pa pb]|e]; [cbn|reflexivity].
  now rewrite (emit_values_agree dates (row_index st) 0 _ _ _ Hrow).
Qed.

Lemma process_rows_agree (tp : section_type) (dates : list datetime)
    (hierarchy : list Z) (st : state) :
  1 <= row_index st -> 1 <= data_name_column cfg1 ->
  1 <= data_start_column cfg1 ->
  Forall (HierarchyMapperSpec.same_cells ws1 ws2)
         (section_rows (row_index st) hierarchy) ->
  process_rows ws1 cfg1 tp dates st hierarchy
  = process_rows ws2 cfg2 tp dates st hierarchy.
Proof.
  intros Hr Hn Hd. revert st Hr.
  induction hierarchy as [|l hierarchy IH]; intros st Hr Hrows; cbn.
  - reflexivity.
  - unfold section_rows in Hrows. cbn [length] in Hrows.
    rewrite Nat2Z.inj_succ, seqZ_cons in Hrows by lia.
    replace (Z.pred (Z.succ (Z.of_nat (length hierarchy))))
      with (Z.of_nat (length hierarchy)) in Hrows by lia.
    inversion Hrows as [|? ? Hrow Hrows']; subst.
    rewrite <- (process_row_agree tp dates st l Hrow).
    destruct (process_row_spec ws1 cfg1 tp dates st l Hr Hn Hd)
      as (st1 & new & -> & Hnext & _). cbn.
    apply IH; [lia|]. unfold section_rows. now rewrite Hnext.
Qed.

Lemma frame_extract_dates_agree :
  1 <= date_row cfg1 -> 1 <= data_start_column cfg1 ->
  HierarchyMapperSpec.same_cells ws1 ws2 (date_row cfg1) ->
  HierarchyMapperSpec.blank_beyond ws1 (date_row cfg1) ->
  HierarchyMapperSpec.blank_beyond ws2 (date_row cfg1) ->
  extract_dates lib ws1 cfg1 = extract_dates lib ws2 cfg2.
Proof.
  intros Hr Hdsc Hsame Hb1 Hb2. destruct Hcfg as (Hdr & Hd & _).
  unfold extract_dates. rewrite <- Hd.
  assert (forall b, Forall (fun c => 1 <= c) (range (data_start_column cfg1) b))
    as Hpos.
  { intros b. apply Forall_forall. intros c Hc. unfold range in Hc.
    apply elem_of_seqZ in Hc. lia. }
  rewrite !frame_scan_dates_spec by (try rewrite <- Hdr; auto).
  rewrite <- Hdr. cbn [app]. f_equal.
  set (f := fun c => header_date lib (cell_value ws1 (date_row cfg1) c)).
  assert (omap (fun c => header_date lib (cell_value ws2 (date_row cfg1) c))
               (range (data_start_column cfg1) (max_column ws2 + 1))
          = omap f (range (data_start_column cfg1) (max_column ws2 + 1))) as ->.
  { apply omap_pointwise. intros c. unfold f. now rewrite (Hsame c). }
  assert (forall c, Z.min (max_column ws1) (max_column ws2) < c -> f c = None)
    as Hblank.
  { intros c Hc. unfold f.
    destruct (Z_lt_ge_dec (max_column ws1) c) as [H1|H1].
    - now rewrite (Hb1 c H1).
    - rewrite (Hsame c), (Hb2 c); [reflexivity | lia]. }
  rewrite (header_cut f _ (max_column ws1 + 1) _ (fun c _ => Hblank c)).
  rewrite (header_cut f _ (max_column ws2 + 1) _ (fun c _ => Hblank c)).
  f_equal. f_equal. lia.
Qed.

End TwoSheets.

Lemma filter_assets (a l : list flat_row) :
  Forall (fun r => type r = asset) a ->
  Forall (fun r => type r = liability) l ->
  List.filter is_asset (a ++ l) = a.
Proof.
  intros Ha Hl. rewrite List.filter_app.
  replace (List.filter is_asset l) with (@nil flat_row).
  - rewrite app_nil_r. induction Ha as [|r a Hr Ha IH]; cbn; [reflexivity|].
    unfold is_asset at 1. rewrite Hr. now rewrite IH.
  - induction Hl as [|r l Hr Hl IH]; cbn; [reflexivity|].
    unfold is_asset at 1. now rewrite Hr.
Qed.

End DataframeParserFacts.

(* ===================================================================== *)
(** * The properties of the specification *)
(* ===================================================================== *)

Import PyFacts SectionSpec Examples.

(** ** Level jumps *)

(** C1, as the specification states it, fails on [hierarchy_mapper.py]:
    for a line at level 1 directly followed by a line at level 3,
    [build_section_hierarchy] creates the node of the second line but
    makes it neither a root nor a child of any node.  (On the same
    lines [dataframe_parser.py] gives the rows of the second line no
    parent.) *)
Lemma C1_jump_dropped_by_mapper :
  let f := HierarchyMapper.build_section_hierarchy jump_entries in
  ((exists n, HierarchyMapper.heap f !! 1%nat = Some n
              /\ HierarchyMapper.level n = 3)
   /\ ~ HierarchyMapperSpec.attached f 1)
  /\ exists all_data,
       DataframeParser.collect_all_data calendar (sheet jump_sheet_rows)
         jump_config = Ok all_data
       /\ map (fun r => (DataframeParser.name r,
                         DataframeParser.hierarchy_level r,
                         DataframeParser.parent r)) all_data
          = [ (VStr "A", 1, VNone); (VStr "A", 1, VNone);
              (VStr "B", 3, VNone); (VStr "B", 3, VNone) ].
Proof.
  cbn zeta. split; [|eexists; split; vm_compute; reflexivity].
  assert (HierarchyMapper.roots
            (HierarchyMapper.build_section_hierarchy jump_entries)
          = [0%nat]) as Hroots by (vm_compute; reflexivity).
  assert (map HierarchyMapper.children
            (HierarchyMapper.heap
               (HierarchyMapper.build_section_hierarchy jump_entries))
          = [[]; []]) as Hkids by (vm_compute; reflexivity).
  split.
  - eexists. split; vm_compute; reflexivity.
  - intros [Hroot|(p & np & Hp & Hc)].
    + rewrite Hroots in Hroot. apply list_elem_of_singleton in Hroot.
      discriminate.
    + assert (map HierarchyMapper.children
                (HierarchyMapper.heap
                   (HierarchyMapper.build_section_hierarchy jump_entries))
              !! p = Some (HierarchyMapper.children np)) as Hl
        by (rewrite list_lookup_fmap, Hp; reflexivity).
      rewrite Hkids in Hl.
      destruct p as [|[|p]]; cbn in Hl; try discriminate;
        injection Hl as Hl; rewrite <- Hl in Hc;
        now apply elem_of_nil in Hc.
Qed.

(** C1, amended: in [parse_section] of [extract_json.py], whenever the
    level of a line with a label exceeds the level on top of the ancestor
    stack (by one or by more: no level need lie between them), the turn
    of the loop returns, a node is created for the line with that level,
    it is appended to the children of the node on top of the stack, and
    it is pushed on the stack above that node. *)
Theorem C1_jump_attached_to_stack_top
    (lib : Library) (df : ExtractJson.DataFrame) (cfg : sheet_config)
    (dates : list string) (start_row : Z) (section_name : string)
    (levels : list Z) (level : Z) (st : ExtractJson.state)
    (p : nat) (lp : Z) (rest : list (nat * Z)) :
  ExtractJson.parse_rows lib df cfg dates
    (ExtractJson.initial start_row section_name) levels = Ok st ->
  0 <= ExtractJson.current_row st < ExtractJson.shape0 df ->
  1 <= data_name_column cfg <= ExtractJson.shape1 df ->
  1 <= data_start_column cfg ->
  isna (ExtractJson.at_pos df (ExtractJson.current_row st)
          (data_name_column cfg - 1)) = false ->
  ExtractJson.stack st = (p, lp) :: rest ->
  lp < level ->
  exists st' node parent,
    ExtractJson.parse_rows lib df cfg dates
      (ExtractJson.initial start_row section_name) (levels ++ [level])
    = Ok st'
    /\ ExtractJson.heap st !! p = Some parent
    /\ ExtractJson.heap st' !! length (ExtractJson.heap st) = Some node
    /\ ExtractJson.stack_level node = level
    /\ ExtractJson.name node
       = strip (py_str lib (ExtractJson.at_pos df (ExtractJson.current_row st)
                              (data_name_column cfg - 1)))
    /\ ExtractJson.heap st' !! p
       = Some (ExtractJson.append_child (length (ExtractJson.heap st)) parent)
    /\ ExtractJson.stack st'
       = (length (ExtractJson.heap st), level) :: ExtractJson.stack st.
Proof.
  intros Hrun Hrow Hcol Hdsc Hna Hstack Hlt.
  destruct (ExtractJsonFacts.initial_invariant start_row section_name)
    as (Hs0 & Hc0 & Hr0 & _).
  destruct (ExtractJsonFacts.parse_rows_invariant lib df cfg dates levels _ st
              Hs0 (ExtractJsonFacts.consecutive_descending _ Hc0) Hr0 Hrun)
    as (Hs & Hd & Hr).
  assert (0 <= lp) as Hlp.
  { pose proof (ExtractJsonFacts.descending_nonneg _ Hd) as Hnn.
    rewrite Hstack in Hnn. inversion Hnn; subst. assumption. }
  destruct (ExtractJsonFacts.parse_row_creates lib df cfg dates st level)
    as (st' & node & p' & lp' & rest' & Hstep & Hpop & _ & Hname & _ & Hlv
        & Hheap & Hst' & _); try (assumption || lia).
  rewrite Hstack in Hpop. cbn in Hpop.
  replace (level <=? lp) with false in Hpop
    by (symmetry; apply Z.leb_gt; lia).
  injection Hpop as <- <- <-.
  assert ((p < length (ExtractJson.heap st))%nat) as Hp.
  { apply (ExtractJsonFacts.stack_in_heap_lt _ _ (p, lp) Hs).
    rewrite Hstack. left. }
  destruct (lookup_lt_is_Some_2 (ExtractJson.heap st) p Hp) as [parent Hparent].
  destruct (ExtractJsonFacts.grown_lookup (ExtractJson.heap st) node p Hp)
    as (Hnew & Hold & _). cbn zeta in Hnew, Hold. rewrite <- Hheap in Hnew, Hold.
  exists st', node, parent.
  split.
  { rewrite ExtractJsonFacts.parse_rows_app, Hrun. cbn. now rewrite Hstep. }
  split; [exact Hparent|]. split; [exact Hnew|]. split; [exact Hlv|].
  split; [exact Hname|]. split.
  - rewrite (Hold _ _ Hparent). now destruct (decide (p = p)).
  - now rewrite Hst', Hstack.
Qed.

(** C1 on a line at level 1 followed by a line at level 3: the second
    node becomes a child of the first. *)
Lemma C1_jump_attached_witness :
  exists st',
    ExtractJson.parse_rows calendar (frame jump_rows) scenario_config
      ["2024-01"; "2024-02"] (ExtractJson.initial 1 "EIGNIR / ASSETS")
      ([1] ++ [3]) = Ok st'
    /\ map ExtractJson.children (ExtractJson.heap st') = [[1]; [2]; []]%nat
    /\ ExtractJson.stack st' = [(2%nat, 3); (1%nat, 1); (0%nat, 0)].
Proof.
  eassert (ExtractJson.parse_rows calendar (frame jump_rows) scenario_config
             ["2024-01"; "2024-02"]
             (ExtractJson.initial 1 "EIGNIR / ASSETS") [1] = Ok _) as Hrun
    by (vm_compute; reflexivity).
  destruct (C1_jump_attached_to_stack_top _ _ _ _ _ _ _ 3 _ 1%nat 1
              [(0%nat, 0)] Hrun)
    as (st' & node & parent & Hrun' & _ & _ & _ & _ & _ & Hstack);
    [cbn; lia | cbn; lia | cbn; lia | reflexivity | reflexivity | lia |].
  exists st'. split; [exact Hrun'|]. split; [|exact Hstack].
  vm_compute in Hrun'. injection Hrun' as <-. reflexivity.
Defined.

(** ** The scenario of the specification *)

(** C2, as the specification states it, fails: on the lines at levels
    [1, 2, 3, 2, 1] the first root does not have exactly one child, in
    [extract_json.py] as in [hierarchy_mapper.py]. *)
Lemma C2_first_root_not_one_child :
  (exists e t,
     ExtractJson.extract_nested_json calendar (frame scenario_rows)
       scenario_config = Ok e
     /\ ExtractJson.section_tree (ExtractJson.assets e) = Some t
     /\ claimed_shape_json t = false)
  /\ (exists ts,
        HierarchyMapper.trees
          (HierarchyMapper.build_section_hierarchy scenario_entries) = Some ts
        /\ claimed_shape_mapper ts = false).
Proof.
  split.
  - eexists _, _. split; [vm_compute; reflexivity|].
    split; [vm_compute; reflexivity | reflexivity].
  - eexists. split; [vm_compute; reflexivity | reflexivity].
Qed.

(** C2, amended: on the lines at levels [1, 2, 3, 2, 1], each with 10 and
    20 for the periods 2024-01 and 2024-02, there are exactly two roots at
    level 1; the first has exactly two children at level 2, of which the
    first has exactly one child, at level 3, and the second has none; the
    second root has no children; and the values of every node are
    [{2024-01: 10, 2024-02: 20}]. *)
Theorem C2_scenario_trees :
  (exists e,
     ExtractJson.extract_nested_json calendar (frame scenario_rows)
       scenario_config = Ok e
     /\ ExtractJson.dates_of e = ["2024-01"; "2024-02"]
     /\ ExtractJson.section_tree (ExtractJson.assets e)
        = Some (ExtractJson.Tree "EIGNIR / ASSETS" None 0
                  [ scenario_item "A" 1
                      [ scenario_item "B" 2 [ scenario_item "C" 3 [] ];
                        scenario_item "D" 2 [] ];
                    scenario_item "E" 1 [] ]))
  /\ HierarchyMapper.trees
       (HierarchyMapper.build_section_hierarchy scenario_entries)
     = Some [ scenario_node "A" 2 1
                [ scenario_node "B" 3 2 [ scenario_node "C" 4 3 [] ];
                  scenario_node "D" 5 2 [] ];
              scenario_node "E" 6 1 [] ].
Proof.
  split.
  - eexists. split; [vm_compute; reflexivity|].
    split; vm_compute; reflexivity.
  - vm_compute. reflexivity.
Qed.

(** ** The two names of a label *)

(** C5, as the specification states it, fails on [extract_json.py]: for
    a label without separator the English name is the label, not the
    empty string. *)
Lemma C5_english_name_defaults_to_label :
  ExtractJson.translations "TotalOnly" = Ok ("TotalOnly", "TotalOnly")
  /\ ExtractJson.translations "TotalOnly" <> Ok ("TotalOnly", "").
Proof. split; [reflexivity | discriminate]. Qed.

(** C5, amended: [hierarchy_mapper.py] cuts a label at the first [" / "]
    into what is before and what is after it, and gives a label without
    [" / "] the empty string as its English name; [extract_json.py] cuts
    at the first ["/"], strips both parts, and gives a label without
    ["/"] the label itself as its English name.  The cut is at the first
    occurrence: the first part is followed by the separator, and no
    shorter text of the label is (["a / / b"] is cut into ["a"] and
    ["/ b"]).  Both split ["Eignir / Assets"] into ["Eignir"] and
    ["Assets"]. *)
Theorem C5_bilingual_split :
  (forall name, str_in " / " name = false ->
     HierarchyMapper.split_name name = Ok (name, ""))
  /\ (forall name, str_in " / " name = true ->
        exists a b,
          HierarchyMapper.split_name name = Ok (a, b)
          /\ name = String.append a (String.append " / " b)
          /\ str_in " / " a = false
          /\ forall a' b',
               name = String.append a' (String.append " / " b') ->
               (String.length a <= String.length a')%nat)
  /\ (forall name, str_in "/" name = false ->
        ExtractJson.translations name = Ok (name, name))
  /\ (forall name, str_in "/" name = true ->
        exists a b,
          ExtractJson.translations name = Ok (strip a, strip b)
          /\ name = String.append a (String.append "/" b)
          /\ str_in "/" a = false
          /\ forall a' b',
               name = String.append a' (String.append "/" b') ->
               (String.length a <= String.length a')%nat)
  /\ HierarchyMapper.split_name "Eignir / Assets" = Ok ("Eignir", "Assets")
  /\ HierarchyMapper.split_name "TotalOnly" = Ok ("TotalOnly", "")
  /\ HierarchyMapper.split_name "a / / b" = Ok ("a", "/ b")
  /\ ExtractJson.translations "Eignir / Assets" = Ok ("Eignir", "Assets").
Proof.
  split; [exact HierarchyMapperFacts.split_name_absent|].
  split; [exact HierarchyMapperFacts.split_name_cut|].
  split; [exact ExtractJsonFacts.translations_absent|].
  split; [exact ExtractJsonFacts.translations_cut|].
  repeat split; reflexivity.
Qed.

(** C5 on a label without separator and on a label with one. *)
Lemma C5_bilingual_split_witness :
  HierarchyMapper.split_name "Heildareignir" = Ok ("Heildareignir", "")
  /\ ExtractJson.translations "Heildareignir"
     = Ok ("Heildareignir", "Heildareignir")
  /\ exists a b,
       HierarchyMapper.split_name "Innlan / Deposits" = Ok (a, b)
       /\ "Innlan / Deposits" = String.append a (String.append " / " b)
       /\ (String.length a <= String.length "Innlan")%nat.
Proof.
  destruct C5_bilingual_split as (Habsent & Hpresent & Hjson & _).
  split; [apply Habsent; reflexivity|].
  split; [apply Hjson; reflexivity|].
  destruct (Hpresent "Innlan / Deposits" eq_refl)
    as (a & b & Hs & Heq & _ & Hfirst).
  exists a, b. split; [exact Hs|]. split; [exact Heq|].
  apply (Hfirst "Innlan" "Deposits"). reflexivity.
Defined.

(** ** Levels of parents and children *)

(** C3: when the levels of the lines that get a node leave no forward gap
    (each is at most one more than the level created before it, the
    first at most 1), every child of the resulting tree is exactly one
    level below its parent, and a node of level 1 has no parent.  In
    [extract_json.py] this holds of the tree [parse_section] returns, in
    which the section root [result] (level 0, no line of its own) is the
    only node with children of level 1, and the run does return when the
    levels are positive; in [hierarchy_mapper.py] the roots are nodes of
    level 1 and no child has level 1 (there the levels of parents and
    children agree whatever the sequence). *)
Theorem C3_level_consistency :
  (forall lib df cfg dates start_row levels section_name,
     ExtractJsonSpec.grid_ok df cfg start_row (length levels) = true ->
     ExtractJsonSpec.gap_free 0
       (ExtractJsonSpec.created_levels df cfg start_row levels) = true ->
     (forall h,
        ExtractJson.parse_section lib df cfg dates start_row levels
          section_name = Ok h ->
        ExtractJsonSpec.levels_consistent h
        /\ forall p np c nc,
             h !! p = Some np -> c ∈ ExtractJson.children np ->
             h !! c = Some nc -> ExtractJson.stack_level nc = 1 ->
             p = 0%nat /\ ExtractJson.item np = None)
     /\ (Forall (fun l => 1 <= l)
                (ExtractJsonSpec.created_levels df cfg start_row levels) ->
         exists h,
           ExtractJson.parse_section lib df cfg dates start_row levels
             section_name = Ok h))
  /\ (forall section_data,
        let f := HierarchyMapper.build_section_hierarchy section_data in
        HierarchyMapperSpec.levels_consistent (HierarchyMapper.heap f)
        /\ (forall r, r ∈ HierarchyMapper.roots f ->
              HierarchyMapper.level <$> HierarchyMapper.heap f !! r = Some 1)
        /\ forall p np c nc,
             HierarchyMapper.heap f !! p = Some np ->
             c ∈ HierarchyMapper.children np ->
             HierarchyMapper.heap f !! c = Some nc ->
             HierarchyMapper.level nc <> 1).
Proof.
  split.
  - intros lib df cfg dates start_row levels section_name Hgrid Hgap.
    unfold ExtractJsonSpec.grid_ok in Hgrid.
    repeat (apply andb_true_iff in Hgrid as [Hgrid ?]).
    repeat match goal with
           | H : (_ <=? _) = true |- _ => apply Z.leb_le in H
           end.
    destruct (ExtractJsonFacts.initial_invariant start_row section_name)
      as (Hs0 & Hc0 & Hr0 & Hl0).
    split.
    + intros h Hh. unfold ExtractJson.parse_section in Hh.
      apply bind_Ok in Hh as (st & Hrun & Hh). injection Hh as <-.
      destruct (ExtractJsonFacts.parse_rows_gap_free lib df cfg dates levels
                  (ExtractJson.initial start_row section_name) st)
        as (Hroot & Hlc); try assumption; try (cbn; lia).
      split; [exact Hlc|].
      intros p np c nc Hp Hc Hnc Hone.
      destruct (Hlc _ _ _ Hp Hc) as (nc' & Hnc' & Hlev).
      rewrite Hnc in Hnc'. injection Hnc' as <-.
      destruct (Hroot _ _ Hp) as [(-> & _ & Hitem)|(_ & Hpos & _)];
        [auto | lia].
    + intros Hpos.
      destruct (ExtractJsonFacts.parse_rows_total lib df cfg dates levels
                  (ExtractJson.initial start_row section_name))
        as (st & Hrun); try assumption; try (cbn; lia).
      exists (ExtractJson.heap st). unfold ExtractJson.parse_section.
      now rewrite Hrun.
  - intros section_data f.
    destruct (HierarchyMapperFacts.build_section_hierarchy_levels section_data)
      as (Hlc & Hroots).
    split; [exact Hlc|]. split; [exact Hroots|].
    intros p np c nc Hp Hc Hnc.
    destruct (Hlc _ _ _ Hp Hc) as (Hpos & nc' & Hnc' & Hlev).
    fold f in Hnc'. rewrite Hnc in Hnc'. injection Hnc' as <-. lia.
Qed.

(** C3 on the scenario: the run returns a tree, and its levels are
    consistent. *)
Lemma C3_level_consistency_witness :
  exists h,
    ExtractJson.parse_section calendar (frame scenario_rows) scenario_config
      ["2024-01"; "2024-02"] 1 [1; 2; 3; 2; 1] "EIGNIR / ASSETS" = Ok h
    /\ ExtractJsonSpec.levels_consistent h.
Proof.
  destruct C3_level_consistency as [Hjson _].
  destruct (Hjson calendar (frame scenario_rows) scenario_config
              ["2024-01"; "2024-02"] 1 [1; 2; 3; 2; 1] "EIGNIR / ASSETS")
    as (Hcons & Hret); [reflexivity | reflexivity |].
  destruct Hret as (h & Hrun); [repeat constructor; lia|].
  exists h. split; [exact Hrun | exact (proj1 (Hcons h Hrun))].
Defined.

(** ** The ancestor stack never runs empty *)

(** C10: in [parse_section], when every declared level is at least 1 the
    run never fails with the [IndexError] of an empty stack, and it
    returns when its rows are inside the frame.  At every turn the stack
    rests on the root [result] at level 0: for a level of 1 or more the
    pop loop stops on a stack that is not empty and still rests on
    [result]; for a level of 0 or less, and only then, it empties the
    stack and raises. *)
Theorem C10_sentinel_never_popped
    (lib : Library) (df : ExtractJson.DataFrame) (cfg : sheet_config)
    (dates : list string) (start_row : Z) (levels : list Z)
    (section_name : string) :
  Forall (fun l => 1 <= l) levels ->
  ExtractJson.parse_section lib df cfg dates start_row levels section_name
  <> Raise (IndexError of_list)
  /\ (ExtractJsonSpec.grid_ok df cfg start_row (length levels) = true ->
      exists h,
        ExtractJson.parse_section lib df cfg dates start_row levels
          section_name = Ok h)
  /\ forall done todo st,
       levels = done ++ todo ->
       ExtractJson.parse_rows lib df cfg dates
         (ExtractJson.initial start_row section_name) done = Ok st ->
       last (ExtractJson.stack st) = Some (0%nat, 0)
       /\ forall level,
            (1 <= level ->
             exists p lp rest,
               ExtractJson.pop_stale (ExtractJson.stack st) level
               = Ok ((p, lp) :: rest)
               /\ last ((p, lp) :: rest) = Some (0%nat, 0))
            /\ (level <= 0 ->
                ExtractJson.pop_stale (ExtractJson.stack st) level
                = Raise (IndexError of_list)).
Proof.
  intros Hall.
  destruct (ExtractJsonFacts.initial_invariant start_row section_name)
    as (Hs0 & Hc0 & Hr0 & _).
  pose proof (ExtractJsonFacts.consecutive_descending _ Hc0) as Hd0.
  split; [|split].
  - unfold ExtractJson.parse_section. intros Hraise.
    destruct (ExtractJson.parse_rows lib df cfg dates
                (ExtractJson.initial start_row section_name) levels)
      as [st|e] eqn:Hrun; [discriminate|].
    cbn in Hraise. injection Hraise as ->.
    destruct (ExtractJsonFacts.parse_rows_raise lib df cfg dates levels _ _
                Hs0 Hd0 Hr0 Hall Hrun); discriminate.
  - intros Hgrid. unfold ExtractJsonSpec.grid_ok in Hgrid.
    repeat (apply andb_true_iff in Hgrid as [Hgrid ?]).
    repeat match goal with
           | H : (_ <=? _) = true |- _ => apply Z.leb_le in H
           end.
    destruct (ExtractJsonFacts.parse_rows_total lib df cfg dates levels
                (ExtractJson.initial start_row section_name))
      as (st & Hrun); try assumption; try (cbn; lia).
    { now apply ExtractJsonFacts.created_levels_sublist. }
    exists (ExtractJson.heap st). unfold ExtractJson.parse_section.
    now rewrite Hrun.
  - intros done todo st _ Hrun.
    destruct (ExtractJsonFacts.parse_rows_invariant lib df cfg dates done _ st
                Hs0 Hd0 Hr0 Hrun) as (_ & Hd & _).
    split; [now apply ExtractJsonFacts.descending_last|].
    intros level. split.
    + intros Hl.
      destruct (ExtractJsonFacts.pop_stale_positive _ _ Hd Hl)
        as (p & lp & rest & Hpop & _ & Hd' & _).
      exists p, lp, rest. split; [exact Hpop|].
      now apply ExtractJsonFacts.descending_last.
    + intros Hl. now apply ExtractJsonFacts.pop_stale_nonpositive.
Qed.

(** C10 on the scenario, whose levels are all positive. *)
Lemma C10_sentinel_never_popped_witness :
  ExtractJson.parse_section calendar (frame scenario_rows) scenario_config
    ["2024-01"; "2024-02"] 1 [1; 2; 3; 2; 1] "EIGNIR / ASSETS"
  <> Raise (IndexError of_list)
  /\ exists h,
       ExtractJson.parse_section calendar (frame scenario_rows)
         scenario_config ["2024-01"; "2024-02"] 1 [1; 2; 3; 2; 1]
         "EIGNIR / ASSETS" = Ok h.
Proof.
  destruct (C10_sentinel_never_popped calendar (frame scenario_rows)
              scenario_config ["2024-01"; "2024-02"] 1 [1; 2; 3; 2; 1]
              "EIGNIR / ASSETS") as (Hno & Hreturns & _).
  - repeat constructor; lia.
  - split; [exact Hno | apply Hreturns; reflexivity].
Defined.

(** ** The values of a node *)

(** C4, as the specification states it, fails on [extract_json.py]: a
    cell that holds a text is not omitted, it is kept under the label of
    its period.  (The text is one that [pandas.read_excel] leaves as it
    is; it reads ["n/a"] and the like as missing values.) *)
Lemma C4_text_cell_kept_by_json :
  exists h n f,
    ExtractJson.parse_section calendar (frame text_rows) scenario_config
      ["2024-01"; "2024-02"] 1 [1] "EIGNIR / ASSETS" = Ok h
    /\ h !! 1%nat = Some n /\ ExtractJson.item n = Some f
    /\ ExtractJson.f_values f !! "2024-02" = Some (VStr "see note").
Proof.
  eexists _, _, _. split; [vm_compute; reflexivity|].
  split; [reflexivity|]. split; [reflexivity|]. vm_compute. reflexivity.
Qed.

(** C4, amended: with distinct period labels, reading the values of a
    line raises no error and binds the label of the [i]-th period exactly
    when the cell of the [i]-th data column is kept, and binds no other
    key.  In [hierarchy_mapper.py] a cell is kept when it is an [int] or a
    [float] ([True] and [False] are [int]s): a blank cell, a text, a date
    are omitted.  In [extract_json.py] a cell is kept when it is not
    blank, whatever it holds, text included, a numpy number being turned
    into a [float]: a numpy integer into the nearest double, which is the
    integer itself up to 2^53.  In both, the line with 10 for 2024-01 and
    a blank cell for 2024-02 has the values [{2024-01: 10}]. *)
Theorem C4_values_keys :
  (forall ws cfg dates row,
     1 <= row -> 1 <= data_start_column cfg -> NoDup dates ->
     exists m,
       HierarchyMapper.row_values ws dates row 0
         (range (data_start_column cfg)
                (data_start_column cfg + Z.of_nat (length dates))) ∅ = Ok m
       /\ (forall (i : nat) date, dates !! i = Some date ->
             m !! date
             = HierarchyMapperSpec.kept
                 (cell_value ws row (data_start_column cfg + Z.of_nat i)))
       /\ (forall k, k ∉ dates -> m !! k = None))
  /\ (HierarchyMapperSpec.kept VNone = None
      /\ (forall s, HierarchyMapperSpec.kept (VStr s) = None)
      /\ (forall d, HierarchyMapperSpec.kept (VDate d) = None)
      /\ (forall z, HierarchyMapperSpec.kept (VInt z) = Some (VInt z))
      /\ (forall x, HierarchyMapperSpec.kept (VFloat x) = Some (VFloat x))
      /\ (forall b, HierarchyMapperSpec.kept (VBool b) = Some (VBool b)))
  /\ (forall df cfg dates row,
        1 <= data_start_column cfg -> NoDup dates ->
        exists m,
          ExtractJson.row_values df cfg row 0 dates ∅ = Ok m
          /\ (forall (i : nat) date, dates !! i = Some date ->
                m !! date
                = let c := data_start_column cfg - 1 + Z.of_nat i in
                  if c <? ExtractJson.shape1 df
                  then ExtractJsonSpec.kept (ExtractJson.at_pos df row c)
                  else None)
          /\ (forall k, k ∉ dates -> m !! k = None))
  /\ (ExtractJsonSpec.kept VNaN = None /\ ExtractJsonSpec.kept VNone = None
      /\ (forall s, ExtractJsonSpec.kept (VStr s) = Some (VStr s))
      /\ (forall z, ExtractJsonSpec.kept (VInt z) = Some (VInt z))
      /\ (forall x, ExtractJsonSpec.kept (VNpFloat x) = Some (VFloat x))
      /\ (forall z, ExtractJsonSpec.kept (VNpInt z)
                    = Some (VFloat (PyFloat (nearest_double z) 1)))
      /\ (forall z, Z.abs z <= 2 ^ 53 -> nearest_double z = z)
      /\ nearest_double (2 ^ 53 + 1) = 2 ^ 53)
  /\ HierarchyMapper.row_values (sheet blank_sheet_rows)
       ["2024-01"; "2024-02"] 2 0 (range 2 4) ∅
     = Ok {[ "2024-01" := VInt 10 ]}
  /\ ExtractJson.row_values (frame blank_frame_rows) scenario_config 1 0
       ["2024-01"; "2024-02"] ∅
     = Ok {[ "2024-01" := VInt 10 ]}.
Proof.
  split.
  { intros ws cfg dates row. apply HierarchyMapperValues.mapper_row_values_spec. }
  split; [repeat split|].
  split.
  { intros df cfg dates row. apply ExtractJsonValues.json_row_values_spec. }
  split.
  { split; [reflexivity|]. split; [reflexivity|]. split; [reflexivity|].
    split; [reflexivity|]. split; [reflexivity|]. split; [reflexivity|].
    split; [exact PyFacts.nearest_double_small | reflexivity]. }
  split; vm_compute; reflexivity.
Qed.

(** C4 on the line whose cell for the second period is blank. *)
Lemma C4_values_keys_witness :
  exists m,
    HierarchyMapper.row_values (sheet blank_sheet_rows)
      ["2024-01"; "2024-02"] 2 0 (range 2 (2 + 2)) ∅ = Ok m
    /\ m !! "2024-01" = Some (VInt 10) /\ m !! "2024-02" = None.
Proof.
  destruct C4_values_keys as (Hmapper & _).
  destruct (Hmapper (sheet blank_sheet_rows) scenario_config
              ["2024-01"; "2024-02"] 2) as (m & Hm & Hkeys & _);
    [lia | cbn; lia | |].
  { apply (bool_decide_unpack _). vm_compute. reflexivity. }
  exists m. split; [exact Hm|]. split.
  - rewrite (Hkeys 0%nat "2024-01" eq_refl). reflexivity.
  - rewrite (Hkeys 1%nat "2024-02" eq_refl). reflexivity.
Defined.

(** ** The period axis *)

(** C6, as the specification states it, fails on [extract_json.py]: a
    header cell that does not parse as a date is not skipped, it gives
    the text of the cell as a label. *)
Lemma C6_unparsed_header_kept_by_json :
  to_datetime calendar (VStr "Total") = None
  /\ exists dates,
       ExtractJson.extract_dates calendar (frame total_frame_rows)
         scenario_config = Ok dates
       /\ dates = ["2024-01-31"; "Total"; "2024-02-29"].
Proof. split; [reflexivity|]. eexists. split; vm_compute; reflexivity. Qed.

(** C6, amended.  In [hierarchy_mapper.py] the axis holds, in the order
    of the columns from [data_start_column] to [max_column], the labels
    of the header cells that have one: a date gives its formatted date, a
    cell that [pandas.to_datetime] parses gives the formatted result, and
    a cell on which it fails gives none and raises nothing; a cell that
    is false as a condition ([None], [0], the empty string) gives none
    either.  In [extract_json.py] every header cell that is not blank
    gives a label: a date its formatted date, anything else its text.  In
    both, the values of a line pair the [i]-th label of the axis with the
    [i]-th data column, not with the column its header was found in: a
    label is bound to what the cell of its column contributes, the last
    of its columns with a contribution when the axis holds the label
    more than once, and to nothing when none of its columns contributes.
    Over the header (date, "Total", date) the second date labels the
    cell under "Total". *)
Theorem C6_period_axis :
  (forall lib ws cfg,
     1 <= date_row cfg -> 1 <= data_start_column cfg ->
     HierarchyMapper.extract_dates lib ws cfg
     = Ok (omap (fun c => HierarchyMapperSpec.header_label lib
                            (cell_value ws (date_row cfg) c))
                (range (data_start_column cfg) (max_column ws + 1))))
  /\ (forall lib v,
        (forall d, HierarchyMapperSpec.header_label lib (VDate d)
                   = Some (strftime lib d))
        /\ (truthy v = false -> HierarchyMapperSpec.header_label lib v = None)
        /\ ((forall d, v <> VDate d) -> to_datetime lib v = None ->
            HierarchyMapperSpec.header_label lib v = None)
        /\ ((forall d, v <> VDate d) -> truthy v = true ->
            forall dt, to_datetime lib v = Some dt ->
            HierarchyMapperSpec.header_label lib v = Some (strftime lib dt)))
  /\ (forall ws cfg dates row,
        1 <= row -> 1 <= data_start_column cfg ->
        exists m,
          HierarchyMapper.row_values ws dates row 0
            (range (data_start_column cfg)
                   (data_start_column cfg + Z.of_nat (length dates))) ∅ = Ok m
          /\ (forall (i : nat) date v,
                dates !! i = Some date ->
                HierarchyMapperSpec.kept
                  (cell_value ws row (data_start_column cfg + Z.of_nat i))
                = Some v ->
                (forall j : nat, (i < j)%nat -> dates !! j = Some date ->
                   HierarchyMapperSpec.kept
                     (cell_value ws row (data_start_column cfg + Z.of_nat j))
                   = None) ->
                m !! date = Some v)
          /\ (forall date,
                (forall i : nat, dates !! i = Some date ->
                   HierarchyMapperSpec.kept
                     (cell_value ws row (data_start_column cfg + Z.of_nat i))
                   = None) ->
                m !! date = None))
  /\ (forall df cfg dates row,
        1 <= data_start_column cfg ->
        exists m,
          ExtractJson.row_values df cfg row 0 dates ∅ = Ok m
          /\ (forall (i : nat) date v,
                dates !! i = Some date ->
                ExtractJsonSpec.column_value df cfg row i = Some v ->
                (forall j : nat, (i < j)%nat -> dates !! j = Some date ->
                   ExtractJsonSpec.column_value df cfg row j = None) ->
                m !! date = Some v)
          /\ (forall date,
                (forall i : nat, dates !! i = Some date ->
                   ExtractJsonSpec.column_value df cfg row i = None) ->
                m !! date = None))
  /\ (forall lib df cfg,
        0 <= date_row cfg - 1 < ExtractJson.shape0 df ->
        1 <= data_start_column cfg ->
        ExtractJson.extract_dates lib df cfg
        = Ok (omap (fun c => ExtractJsonSpec.header_text lib
                               (ExtractJson.at_pos df (date_row cfg - 1) c))
                   (range (data_start_column cfg - 1) (ExtractJson.shape1 df))))
  /\ (forall lib s d,
        ExtractJsonSpec.header_text lib (VStr s) = Some s
        /\ ExtractJsonSpec.header_text lib (VDate d) = Some (strftime lib d)
        /\ ExtractJsonSpec.header_text lib VNaN = None)
  /\ (exists m,
        HierarchyMapper.extract_dates calendar (sheet total_rows)
          scenario_config = Ok ["2024-01-31"; "2024-02-29"]
        /\ HierarchyMapper.row_values (sheet total_rows)
             ["2024-01-31"; "2024-02-29"] 2 0 (range 2 4) ∅ = Ok m
        /\ cell_value (sheet total_rows) 1 3 = VStr "Total"
        /\ m !! "2024-02-29" = Some (cell_value (sheet total_rows) 2 3)).
Proof.
  split.
  { intros lib ws cfg Hr Hdsc. unfold HierarchyMapper.extract_dates.
    rewrite HierarchyMapperValues.mapper_scan_dates_spec; [reflexivity | exact Hr |].
    apply Forall_forall. intros c Hc. unfold range in Hc.
    apply elem_of_seqZ in Hc. lia. }
  split.
  { intros lib v. unfold HierarchyMapperSpec.header_label.
    split; [reflexivity|]. split; [now intros ->|]. split.
    - intros Hnd Hfail. destruct (truthy v); [|reflexivity].
      destruct v; rewrite ?Hfail; try reflexivity. now destruct (Hnd d).
    - intros Hnd -> dt Hdt.
      destruct v; rewrite ?Hdt; try reflexivity. now destruct (Hnd d). }
  split.
  { intros ws cfg dates row.
    apply HierarchyMapperValues.mapper_row_values_positional. }
  split.
  { intros df cfg dates row.
    apply ExtractJsonValues.json_row_values_positional. }
  split.
  { intros lib df cfg Hr Hdsc. unfold ExtractJson.extract_dates.
    rewrite ExtractJsonValues.json_scan_dates_spec; [reflexivity | exact Hr |].
    apply Forall_forall. intros c Hc. unfold range in Hc.
    apply elem_of_seqZ in Hc. lia. }
  split; [intros lib s d; repeat split|].
  eexists. split; [vm_compute; reflexivity|].
  split; [vm_compute; reflexivity|].
  split; [reflexivity | vm_compute; reflexivity].
Qed.

(** C6 on the header with a text between two dates. *)
Lemma C6_period_axis_witness :
  HierarchyMapper.extract_dates calendar (sheet total_rows) scenario_config
  = Ok ["2024-01-31"; "2024-02-29"]
  /\ HierarchyMapperSpec.header_label calendar (VStr "Total") = None.
Proof.
  destruct C6_period_axis as (Haxis & Hlabel & _).
  split.
  - rewrite (Haxis calendar (sheet total_rows) scenario_config);
      [vm_compute; reflexivity | cbn; lia | cbn; lia].
  - destruct (Hlabel calendar (VStr "Total")) as (_ & _ & Hfail & _).
    apply Hfail; [discriminate | reflexivity].
Defined.

(** ** Sections *)

Lemma sheet_blank_beyond (rows : list (list value)) (r : Z) :
  HierarchyMapperSpec.blank_beyond (sheet rows) r.
Proof.
  intros c Hc. cbn in *. destruct ((1 <=? r) && (1 <=? c)); [|reflexivity].
  destruct (rows !! Z.to_nat (r - 1)) as [row|] eqn:Hrow; [cbn|reflexivity].
  rewrite lookup_ge_None_2; [reflexivity|].
  assert (length row <= width rows)%nat; [|lia].
  clear Hc. revert Hrow. generalize (Z.to_nat (r - 1)).
  induction rows as [|x rows IH]; intros n Hn; [discriminate|].
  destruct n as [|n]; cbn in *.
  - injection Hn as ->. lia.
  - specialize (IH n Hn). unfold width in IH. lia.
Qed.

(** C9, as the specification states it, fails on [extract_json.py]:
    the configuration is not checked, and with a [date_row] of 0 the
    header is read from the last row of the frame ([iloc] counts the
    position -1 from the end), which is a line of the liabilities.  Two
    frames with the same configuration and the same line of assets, and
    another text in that line of the liabilities, get different periods
    and different trees of the assets. *)
Lemma C9_header_among_liabilities :
  exists e1 e2,
    ExtractJson.extract_nested_json calendar (frame (wrapped_rows "x"))
      wrapped_config = Ok e1
    /\ ExtractJson.extract_nested_json calendar (frame (wrapped_rows "y"))
         wrapped_config = Ok e2
    /\ Forall (ExtractJsonSpec.same_row (frame (wrapped_rows "x"))
                 (frame (wrapped_rows "y")))
              (section_rows (assets_row wrapped_config - 1)
                 (assets_hierarchy wrapped_config))
    /\ ExtractJson.dates_of e1 = ["x"]
    /\ ExtractJson.dates_of e2 = ["y"]
    /\ ExtractJson.assets e1 <> ExtractJson.assets e2.
Proof.
  eexists _, _. split; [vm_compute; reflexivity|].
  split; [vm_compute; reflexivity|]. split.
  { constructor; [|constructor]. split; [reflexivity|].
    intros r' Hr'. injection Hr' as <-. intros c Hc.
    assert (c = 0 \/ c = 1 \/ 2 <= c) as [->|[->|?]] by lia;
      repeat split; intros; try reflexivity; cbn in *; lia. }
  split; [reflexivity|]. split; [reflexivity | discriminate].
Qed.

(** C9, amended: two inputs with the same configuration of the assets,
    a header row inside both grids, the same header row and the same rows
    under the assets give the same tree of the assets (and the same
    period axis), whatever their liabilities: other rows, fewer rows,
    other levels.  Each section is built from a state of its own, empty
    at its start (a new stack in [extract_json.py], a new level map in
    [hierarchy_mapper.py]). *)
Theorem C9_assets_independent_of_liabilities :
  (forall lib df1 df2 cfg1 cfg2 e1 e2,
     same_but_liabilities cfg1 cfg2 ->
     ExtractJsonSpec.frames_ok df1 df2 cfg1 = true ->
     ExtractJsonSpec.cells_match df1 df2 (date_row cfg1 - 1) ->
     Forall (ExtractJsonSpec.same_row df1 df2)
            (section_rows (assets_row cfg1 - 1) (assets_hierarchy cfg1)) ->
     ExtractJson.extract_nested_json lib df1 cfg1 = Ok e1 ->
     ExtractJson.extract_nested_json lib df2 cfg2 = Ok e2 ->
     ExtractJson.assets e1 = ExtractJson.assets e2
     /\ ExtractJson.dates_of e1 = ExtractJson.dates_of e2)
  /\ (forall lib ws1 ws2 cfg1 cfg2 h1 h2,
        same_but_liabilities cfg1 cfg2 ->
        1 <= date_row cfg1 -> 1 <= data_start_column cfg1 ->
        HierarchyMapperSpec.same_cells ws1 ws2 (date_row cfg1) ->
        HierarchyMapperSpec.blank_beyond ws1 (date_row cfg1) ->
        HierarchyMapperSpec.blank_beyond ws2 (date_row cfg1) ->
        Forall (HierarchyMapperSpec.same_cells ws1 ws2)
               (section_rows (assets_row cfg1) (assets_hierarchy cfg1)) ->
        HierarchyMapper.extract_hierarchy_data lib ws1 cfg1 = Ok h1 ->
        HierarchyMapper.extract_hierarchy_data lib ws2 cfg2 = Ok h2 ->
        HierarchyMapper.assets h1 = HierarchyMapper.assets h2
        /\ HierarchyMapper.dates_of h1 = HierarchyMapper.dates_of h2)
  /\ (forall lib ws1 ws2 cfg1 cfg2,
        same_but_liabilities cfg1 cfg2 ->
        DataframeParserSpec.coordinates_ok cfg1 = true ->
        DataframeParserSpec.coordinates_ok cfg2 = true ->
        HierarchyMapperSpec.same_cells ws1 ws2 (date_row cfg1) ->
        HierarchyMapperSpec.blank_beyond ws1 (date_row cfg1) ->
        HierarchyMapperSpec.blank_beyond ws2 (date_row cfg1) ->
        Forall (HierarchyMapperSpec.same_cells ws1 ws2)
               (section_rows (assets_row cfg1) (assets_hierarchy cfg1)) ->
        exists all1 all2,
          DataframeParser.collect_all_data lib ws1 cfg1 = Ok all1
          /\ DataframeParser.collect_all_data lib ws2 cfg2 = Ok all2
          /\ List.filter DataframeParserSpec.is_asset all1
             = List.filter DataframeParserSpec.is_asset all2).
Proof.
  split; [|split].
  - intros lib df1 df2 cfg1 cfg2 e1 e2 Hcfg Hok Hhead Hrows H1 H2.
    unfold ExtractJson.extract_nested_json in H1, H2.
    apply bind_Ok in H1 as (d1 & Hd1 & H1).
    apply bind_Ok in H1 as (a1 & Ha1 & H1).
    apply bind_Ok in H1 as (l1 & _ & H1). injection H1 as <-.
    apply bind_Ok in H2 as (d2 & Hd2 & H2).
    apply bind_Ok in H2 as (a2 & Ha2 & H2).
    apply bind_Ok in H2 as (l2 & _ & H2). injection H2 as <-.
    cbn.
    rewrite (ExtractJsonSections.json_extract_dates_agree lib df1 df2 cfg1 cfg2
               Hcfg Hok Hhead) in Hd1.
    assert (d1 = d2) as -> by congruence.
    rewrite (ExtractJsonSections.parse_section_agree lib df1 df2 cfg1 cfg2
               Hcfg Hok d2 _ _ _ Hrows) in Ha1.
    destruct Hcfg as (_ & _ & _ & Har & Hah). rewrite Har, Hah in Ha1.
    split; congruence.
  - intros lib ws1 ws2 cfg1 cfg2 h1 h2 Hcfg Hr Hdsc Hhead Hb1 Hb2 Hrows H1 H2.
    unfold HierarchyMapper.extract_hierarchy_data in H1, H2.
    apply bind_Ok in H1 as (d1 & Hd1 & H1).
    apply bind_Ok in H1 as (a1 & Ha1 & H1).
    apply bind_Ok in H1 as (l1 & _ & H1). injection H1 as <-.
    apply bind_Ok in H2 as (d2 & Hd2 & H2).
    apply bind_Ok in H2 as (a2 & Ha2 & H2).
    apply bind_Ok in H2 as (l2 & _ & H2). injection H2 as <-.
    cbn.
    rewrite (HierarchyMapperSections.mapper_extract_dates_agree lib ws1 ws2 cfg1 cfg2
               Hcfg Hr Hdsc Hhead Hb1 Hb2) in Hd1.
    assert (d1 = d2) as -> by congruence.
    rewrite (HierarchyMapperSections.extract_section_agree lib ws1 ws2
               cfg1 cfg2 Hcfg d2 _ _ _ Hrows) in Ha1.
    destruct Hcfg as (_ & _ & _ & Har & Hah). rewrite Har, Hah in Ha1.
    assert (a1 = a2) as -> by congruence. split; reflexivity.
  - intros lib ws1 ws2 cfg1 cfg2 Hcfg Hok1 Hok2 Hhead Hb1 Hb2 Hrows.
    destruct (DataframeParserFacts.collect_all_data_spec lib ws1 cfg1 Hok1)
      as (d1 & st1 & a1 & l1 & Hd1 & Hrun1 & Hall1 & Hc1 & Ha1 & Hl1 & _).
    destruct (DataframeParserFacts.collect_all_data_spec lib ws2 cfg2 Hok2)
      as (d2 & st2 & a2 & l2 & Hd2 & Hrun2 & Hall2 & Hc2 & Ha2 & Hl2 & _).
    exists (a1 ++ l1), (a2 ++ l2). split; [exact Hc1|]. split; [exact Hc2|].
    rewrite !DataframeParserFacts.filter_assets by assumption.
    unfold DataframeParserSpec.coordinates_ok in Hok1.
    repeat (apply andb_true_iff in Hok1 as [Hok1 ?]).
    repeat match goal with
           | H : (_ <=? _) = true |- _ => apply Z.leb_le in H
           end.
    rewrite (DataframeParserFacts.frame_extract_dates_agree lib ws1 ws2
               cfg1 cfg2 Hcfg) in Hd1 by assumption.
    assert (d1 = d2) as -> by congruence.
    rewrite (DataframeParserFacts.process_rows_agree ws1 ws2 cfg1 cfg2 Hcfg)
      in Hrun1 by (cbn; assumption).
    destruct Hcfg as (_ & _ & _ & Har & Hah). rewrite Har, Hah in Hrun1.
    congruence.
Qed.

(** The rows of two frames of three and four columns match: column by
    column. *)
Ltac cells_match_by_cases :=
  let c := fresh "c" in
  let Hc := fresh "Hc" in
  intros c Hc;
  (assert (c = 0 \/ c = 1 \/ c = 2 \/ c = 3 \/ 4 <= c) as [->|[->|[->|[->|?]]]]
    by lia);
  repeat split; intros; try reflexivity; cbn in *; lia.

(** C9 on two inputs with the assets of the scenario and different
    liabilities, the second wider than the first. *)
Lemma C9_assets_independent_witness :
  (exists e1 e2,
     ExtractJson.extract_nested_json calendar
       (frame (scenario_rows ++ first_liabilities)) first_config = Ok e1
     /\ ExtractJson.extract_nested_json calendar
          (frame (scenario_rows ++ other_liabilities)) other_config = Ok e2
     /\ ExtractJson.liabilities e1 <> ExtractJson.liabilities e2
     /\ ExtractJson.assets e1 = ExtractJson.assets e2)
  /\ (exists h1 h2,
        HierarchyMapper.extract_hierarchy_data calendar
          (sheet (scenario_sheet_rows ++ first_liabilities)) first_config
        = Ok h1
        /\ HierarchyMapper.extract_hierarchy_data calendar
             (sheet (scenario_sheet_rows ++ other_liabilities)) other_config
           = Ok h2
        /\ HierarchyMapper.liabilities h1 <> HierarchyMapper.liabilities h2
        /\ HierarchyMapper.assets h1 = HierarchyMapper.assets h2).
Proof.
  destruct C9_assets_independent_of_liabilities as (Hjson & Hmapper & _).
  split.
  - eexists _, _.
    split; [vm_compute; reflexivity|]. split; [vm_compute; reflexivity|].
    split; [discriminate|].
    eapply (Hjson calendar (frame (scenario_rows ++ first_liabilities))
                  (frame (scenario_rows ++ other_liabilities))
                  first_config other_config).
    + repeat split.
    + reflexivity.
    + cells_match_by_cases.
    + repeat (constructor;
                [split; [reflexivity|];
                 intros r' Hr'; injection Hr' as <-; cells_match_by_cases|]).
      constructor.
    + vm_compute. reflexivity.
    + vm_compute. reflexivity.
  - eexists _, _.
    split; [vm_compute; reflexivity|]. split; [vm_compute; reflexivity|].
    split; [discriminate|].
    eapply (Hmapper calendar (sheet (scenario_sheet_rows ++ first_liabilities))
                    (sheet (scenario_sheet_rows ++ other_liabilities))
                    first_config other_config).
    + repeat split.
    + cbn. lia.
    + cbn. lia.
    + intros c. reflexivity.
    + apply sheet_blank_beyond.
    + apply sheet_blank_beyond.
    + repeat constructor; intros c; reflexivity.
    + vm_compute. reflexivity.
    + vm_compute. reflexivity.
Defined.

(** ** The marker of the liabilities *)

(** C7 does not hold of [detect_hierarchy]: in the condition of line 231
    the offset guards the word LIABILITIES only, and a label with the
    word SKULDIR switches the section wherever it stands.  On the sheet
    [marker_rows], read from row 2, the label of row 3 (within five rows
    of the start) switches to the liabilities and empties the stack: the
    node of that row and the next one are filed under the liabilities.
    The word LIABILITIES in the same row would not have switched. *)
Theorem C7_marker_switches_before_offset :
  is_true (OpenpyxlParser.is_section_switch "SKULDIR og eigid fe" 3 2)
  /\ OpenpyxlParser.is_section_switch "LIABILITIES" 3 2 = false
  /\ exists st,
       OpenpyxlParser.detect_hierarchy calendar (sheet marker_rows) 2 1 2 []
       = Ok st
       /\ OpenpyxlParser.in_assets st = false
       /\ map OpenpyxlParser.children (OpenpyxlParser.heap st)
          = [Some [2]; Some [3; 4]; None; None; None]%nat.
Proof.
  split; [reflexivity|]. split; [reflexivity|].
  eexists. split; [vm_compute; reflexivity|].
  split; reflexivity.
Qed.

Module OpenpyxlParserFacts.
Import OpenpyxlParser.

(** The word SKULDIR switches the section at any row; the word
    LIABILITIES alone only past the fifth row after the start. *)
Lemma is_section_switch_spec (title_text : string) (row_idx start_row : Z) :
  is_section_switch title_text row_idx start_row = true
  <-> str_in "SKULDIR" title_text = true
      \/ (str_in "LIABILITIES" title_text = true /\ start_row + 5 < row_idx).
Proof.
  unfold is_section_switch.
  rewrite orb_true_iff, andb_true_iff, Z.ltb_lt. reflexivity.
Qed.

End OpenpyxlParserFacts.

(** ** The flat view *)

(** C8, as the specification states it, fails: [parse_excel_to_dataframe]
    sorts the rows before it returns them.  On a sheet with the line "B"
    above the line "A" the dictionaries are collected in that order, and
    the frame that is returned has the second one in its first row. *)
Lemma C8_rows_returned_sorted :
  exists all_data index,
    DataframeParser.collect_all_data calendar (sheet unsorted_rows)
      unsorted_config = Ok all_data
    /\ DataframeParser.parse_excel_to_dataframe plain_frames calendar
         (sheet unsorted_rows) unsorted_config = Ok index
    /\ map DataframeParserSpec.cell_of all_data
       = [(VStr "B", DataframeParser.Datetime 738916, VInt 1);
          (VStr "A", DataframeParser.Datetime 738916, VInt 2)]
    /\ index = [1; 0]%nat
    /\ map DataframeParserSpec.cell_of
           (DataframeParserSpec.frame_rows all_data index)
       = [(VStr "A", DataframeParser.Datetime 738916, VInt 2);
          (VStr "B", DataframeParser.Datetime 738916, VInt 1)].
Proof.
  eexists _, _. split; [vm_compute; reflexivity|].
  split; [vm_compute; reflexivity|].
  split; [reflexivity|]. split; reflexivity.
Qed.

(** C8, amended: with coordinates that openpyxl accepts, the projection
    collects its dictionaries in the order of the sheet (the lines of the
    assets from top to bottom, then those of the liabilities, and for
    each line its periods from left to right, one dictionary for each
    cell that holds a number), and returns the frame made of them sorted
    by date, then type, then name.  When every label is a text and no
    date is [NaT], the rows of that frame are the collected dictionaries,
    each once, in the order of their keys: by the date, then the asset
    before the liability, then by the label.  When no dictionary is
    collected, sorting the empty frame raises [KeyError]. *)
Theorem C8_flat_view_order
    (pd : DataframeParser.Pandas) (lib : Library) (ws : Worksheet)
    (cfg : sheet_config) :
  DataframeParserSpec.coordinates_ok cfg = true ->
  exists dates all_data,
    DataframeParser.extract_dates lib ws cfg = Ok dates
    /\ DataframeParser.collect_all_data lib ws cfg = Ok all_data
    /\ map DataframeParserSpec.cell_of all_data
       = DataframeParserSpec.section_cells ws cfg dates (assets_row cfg)
           (assets_hierarchy cfg)
         ++ DataframeParserSpec.section_cells ws cfg dates
              (liabilities_row cfg) (liabilities_hierarchy cfg)
    /\ (exists a l,
          all_data = a ++ l
          /\ Forall (fun r => DataframeParser.type r = DataframeParser.asset) a
          /\ Forall (fun r => DataframeParser.type r
                              = DataframeParser.liability) l)
    /\ match all_data with
       | [] => DataframeParser.parse_excel_to_dataframe pd lib ws cfg
               = Raise KeyError
       | _ =>
           Forall (fun r => DataframeParserSpec.plain r = true) all_data ->
           exists index,
             DataframeParser.parse_excel_to_dataframe pd lib ws cfg
             = Ok index
             /\ Permutation index (seq 0 (length all_data))
             /\ Permutation all_data
                  (DataframeParserSpec.frame_rows all_data index)
             /\ StronglySorted DataframeParserSpec.row_le
                  (DataframeParserSpec.frame_rows all_data index)
       end.
Proof.
  intros Hok.
  destruct (DataframeParserFacts.collect_all_data_spec lib ws cfg Hok)
    as (dates & st_a & a & l & Hdates & _ & _ & Hcollect & Ha & Hl
        & Hcells_a & Hcells_l).
  exists dates, (a ++ l). split; [exact Hdates|]. split; [exact Hcollect|].
  split; [now rewrite map_app, Hcells_a, Hcells_l|].
  split; [now exists a, l|].
  unfold DataframeParser.parse_excel_to_dataframe. rewrite Hcollect. cbn.
  destruct (a ++ l) as [|r rs] eqn:Hal; [reflexivity|].
  intros Hplain.
  destruct (DataframeParserFacts.plain_keys _ Hplain) as (keys & Hkeys).
  unfold DataframeParser.sort_values. rewrite Hkeys.
  eexists. split; [reflexivity|].
  exact (DataframeParserFacts.argsort_spec _ _ Hkeys).
Qed.

(** C8 on a sheet whose lines are not in alphabetical order. *)
Lemma C8_flat_view_order_witness :
  exists all_data index,
    DataframeParser.collect_all_data calendar (sheet unsorted_rows)
      unsorted_config = Ok all_data
    /\ DataframeParser.parse_excel_to_dataframe plain_frames calendar
         (sheet unsorted_rows) unsorted_config = Ok index
    /\ Permutation index (seq 0 (length all_data))
    /\ StronglySorted DataframeParserSpec.row_le
         (DataframeParserSpec.frame_rows all_data index).
Proof.
  destruct (C8_flat_view_order plain_frames calendar (sheet unsorted_rows)
              unsorted_config)
    as (dates & all_data & _ & Hcollect & _ & _ & Hsorted); [reflexivity|].
  pose proof Hcollect as Hrun. vm_compute in Hcollect.
  injection Hcollect as <-.
  destruct Hsorted as (index & Hrows & Hperm & _ & Hsorted);
    [repeat constructor|].
  eexists _, index. split; [exact Hrun|]. split; [exact Hrows|].
  split; [exact Hperm | exact Hsorted].
Defined.

(* ===================================================================== *)
(** * Further properties of the extractors *)
(* ===================================================================== *)

(** ** extract_json.py: the shape of the tree of a section *)

Module ExtractJsonShapeFacts.
Import ExtractJson ExtractJsonSpec ExtractJsonShape PyFacts ExtractJsonFacts.

Lemma pop_stale_suffix (stack s' : list (nat * Z)) (level : Z) :
  pop_stale stack level = Ok s' -> exists popped, stack = popped ++ s'.
Proof.
  induction stack as [|[r l] rest IH]; cbn; [discriminate|].
  destruct (level <=? l).
  - intros H. destruct (IH H) as (popped & ->). now exists ((r, l) :: popped).
  - intros [= <-]. now exists [].
Qed.

(** [iloc] counts a negative position from the end of the axis. *)
Lemma positional_wraps (n i : Z) :
  - n <= i < 0 -> positional n i = Ok (i + n).
Proof.
  intros H. unfold positional.
  replace ((0 <=? i) && (i <? n)) with false
    by (symmetry; apply andb_false_iff; left; apply Z.leb_gt; lia).
  replace ((- n <=? i) && (i <? 0)) with true; [reflexivity|].
  symmetry. apply andb_true_iff. split; [apply Z.leb_le | apply Z.ltb_lt]; lia.
Qed.

Lemma names_alter (c p : nat) (h : list node) :
  map name (alter (append_child c) p h) = map name h.
Proof.
  revert p. induction h as [|n h IH]; intros [|p]; cbn; try reflexivity.
  f_equal. apply IH.
Qed.

Lemma child_refs_alter (c p : nat) (h : list node) :
  (p < length h)%nat ->
  child_refs (alter (append_child c) p h) ≡ₚ c :: child_refs h.
Proof.
  unfold child_refs. revert p.
  induction h as [|n h IH]; intros p Hp; cbn in Hp; [lia|].
  destruct p as [|p]; cbn.
  - rewrite <- app_assoc. cbn.
    symmetry. apply Permutation_middle.
  - rewrite (IH p) by lia. symmetry. apply Permutation_middle.
Qed.

Lemma child_refs_snoc (h : list node) (n : node) :
  children n = [] -> child_refs (h ++ [n]) = child_refs h.
Proof.
  intros Hn. unfold child_refs. rewrite map_app, concat_app. cbn.
  now rewrite Hn, !app_nil_r.
Qed.

Lemma StronglySorted_snoc (l : list nat) (c : nat) :
  StronglySorted lt l -> Forall (fun x => (x < c)%nat) l ->
  StronglySorted lt (l ++ [c]).
Proof.
  induction 1 as [|x l Hs IH Hx]; intros Hall; cbn.
  - repeat constructor.
  - inversion Hall as [|? ? Hxc Hall']; subst.
    constructor; [now apply IH|].
    apply Forall_app. split; [exact Hx|]. repeat constructor. exact Hxc.
Qed.

End ExtractJsonShapeFacts.

(** ** Lists of nodes that are trees written parents first *)

Module HeapShapeFacts.
Import HeapShape.

Section WithKids.
Context {N : Type} (kids : N -> list nat).

Lemma covers_chain_lt (h : list N) :
  (forall r e, covers kids h r e -> (r < e)%nat)
  /\ (forall a cs e, chain kids h a cs e -> (a <= e)%nat).
Proof.
  apply covers_chain_mutind; intros; lia.
Qed.

(** A run depends on its own nodes only. *)
Lemma covers_chain_transfer (h h' : list N) :
  (forall r e, covers kids h r e ->
     (forall x, (r <= x < e)%nat -> h' !! x = h !! x) -> covers kids h' r e)
  /\ (forall a cs e, chain kids h a cs e ->
        (forall x, (a <= x < e)%nat -> h' !! x = h !! x) ->
        chain kids h' a cs e).
Proof.
  destruct (covers_chain_lt h) as [Hlt Hle].
  apply (covers_chain_mutind kids h
           (fun r e => (forall x, (r <= x < e)%nat -> h' !! x = h !! x) ->
                       covers kids h' r e)
           (fun a cs e => (forall x, (a <= x < e)%nat -> h' !! x = h !! x) ->
                          chain kids h' a cs e)).
  - intros r n e Hr Hch IH Hsame.
    pose proof (Hle _ _ _ Hch) as Hre.
    apply (covers_node kids h' r n e).
    + rewrite Hsame by lia. exact Hr.
    + apply IH. intros x Hx. apply Hsame. lia.
  - intros a _. constructor.
  - intros a m cs e Hc IHc Hch IHch Hsame.
    pose proof (Hlt _ _ Hc) as Ham. pose proof (Hle _ _ _ Hch) as Hme.
    apply (chain_cons kids h' a m cs e).
    + apply IHc. intros x Hx. apply Hsame. lia.
    + apply IHch. intros x Hx. apply Hsame. lia.
Qed.

Lemma chain_snoc (h : list N) (a m e : nat) (cs : list nat) :
  chain kids h a cs m -> covers kids h m e -> chain kids h a (cs ++ [m]) e.
Proof.
  intros Hch Hc. induction Hch as [a|a m' cs m Hc' Hch IH]; cbn.
  - apply (chain_cons kids h a e [] e); [exact Hc | constructor].
  - apply (chain_cons kids h a m'); [exact Hc' | now apply IH].
Qed.

Lemma top_open_covers (h : list N) (s e : nat) :
  top_open kids h s e -> covers kids h s e.
Proof. intros (n & Hn & Hch). now apply (covers_node kids h s n e). Qed.

Lemma link_lt (h : list N) (s' s : nat) : link kids h s' s -> (s' < s)%nat.
Proof.
  intros (n & cs & _ & _ & Hch).
  apply (proj2 (covers_chain_lt h)) in Hch. lia.
Qed.

(** Popping an entry leaves the entry under it open. *)
Lemma pop_open (h : list N) (s' s e : nat) :
  link kids h s' s -> top_open kids h s e -> top_open kids h s' e.
Proof.
  intros (n & cs & Hn & Hcs & Hch) Htop.
  exists n. split; [exact Hn|]. rewrite Hcs.
  apply chain_snoc; [exact Hch | now apply top_open_covers].
Qed.

Lemma branch_pop (h : list N) (popped rest : list nat) (p e : nat) :
  branch kids h (popped ++ p :: rest) e -> branch kids h (p :: rest) e.
Proof.
  induction popped as [|s popped IH]; [easy|].
  intros [Hl Htop]. apply IH. cbn in Hl, Htop.
  destruct (popped ++ p :: rest) as [|s' rest'] eqn:E.
  { now destruct popped. }
  destruct Hl as [Hlink Hl]. split; [exact Hl|]. cbn.
  exact (pop_open h s' s _ Hlink Htop).
Qed.

(** The bottom of the stack covers all that is built. *)
Lemma branch_root (h : list N) (stack : list nat) (b e : nat) :
  last stack = Some b -> branch kids h stack e -> covers kids h b e.
Proof.
  induction stack as [|s rest IH]; intros Hlast [Hl Htop]; [discriminate|].
  cbn in Hl, Htop. destruct rest as [|s' rest'].
  - cbn in Hlast. injection Hlast as <-. now apply top_open_covers.
  - destruct Hl as [Hlink Hl]. apply IH; [exact Hlast|].
    split; [exact Hl|]. cbn. exact (pop_open h s' s _ Hlink Htop).
Qed.

(** The entries of the stack go down. *)
Lemma links_bottom (h : list N) (s b : nat) (rest : list nat) :
  links kids h (s :: rest) -> last (s :: rest) = Some b -> (b <= s)%nat.
Proof.
  revert s. induction rest as [|s' rest IH]; intros s Hl Hlast.
  - cbn in Hlast. injection Hlast as <-. lia.
  - cbn [links] in Hl. destruct Hl as [Hlink Hl].
    apply link_lt in Hlink. specialize (IH s' Hl Hlast). lia.
Qed.

Lemma links_transfer (h h' : list N) (s : nat) (rest : list nat) :
  (forall x, (x < s)%nat -> h' !! x = h !! x) ->
  links kids h (s :: rest) -> links kids h' (s :: rest).
Proof.
  revert s. induction rest as [|s' rest IH]; intros s Hsame Hl; [exact Hl|].
  cbn [links] in Hl |- *. destruct Hl as [Hlink Hl].
  pose proof (link_lt _ _ _ Hlink) as Hlt. split.
  - destruct Hlink as (n & cs & Hn & Hcs & Hch).
    exists n, cs. split; [rewrite Hsame by lia; exact Hn|].
    split; [exact Hcs|].
    apply (proj2 (covers_chain_transfer h h') _ _ _ Hch).
    intros x Hx. apply Hsame. lia.
  - apply IH; [|exact Hl]. intros x Hx. apply Hsame. lia.
Qed.

(** Giving the node [e], which has no child, to the entry on top of the
    stack makes it the new top. *)
Lemma branch_push (h h' : list N) (p e : nat) (rest : list nat)
    (np np' node : N) :
  branch kids h (p :: rest) e ->
  (forall x, (x < e)%nat -> x <> p -> h' !! x = h !! x) ->
  h !! p = Some np -> h' !! p = Some np' -> kids np' = kids np ++ [e] ->
  h' !! e = Some node -> kids node = [] ->
  branch kids h' (e :: p :: rest) (S e).
Proof.
  intros [Hl Htop] Hsame Hp Hp' Hkids Hnode Hnone. cbn in Htop.
  destruct Htop as (np0 & Hp0 & Hchain).
  rewrite Hp in Hp0. injection Hp0 as <-.
  pose proof (proj2 (covers_chain_lt h) _ _ _ Hchain) as Hpe.
  split.
  - cbn [links]. split.
    + exists np', (kids np). split; [exact Hp'|]. split; [exact Hkids|].
      apply (proj2 (covers_chain_transfer h h') _ _ _ Hchain).
      intros x Hx. apply Hsame; lia.
    + apply (links_transfer h); [|exact Hl].
      intros x Hx. apply Hsame; lia.
  - cbn. exists node. split; [exact Hnode|]. rewrite Hnone. constructor.
Qed.

End WithKids.
End HeapShapeFacts.

Module ExtractJsonTreeFacts.
Import ExtractJson ExtractJsonSpec ExtractJsonShape PyFacts ExtractJsonFacts.
Import HeapShape HeapShapeFacts ExtractJsonShapeFacts.

(** *** From the intervals to the tree *)

Lemma take_drop_run {A} (l : list A) (a m e : nat) :
  (a <= m <= e)%nat ->
  take (m - a) (drop a l) ++ take (e - m) (drop m l)
  = take (e - a) (drop a l).
Proof.
  intros H. replace (e - a)%nat with ((m - a) + (e - m))%nat by lia.
  rewrite <- take_take_drop, drop_drop.
  now replace (a + (m - a))%nat with m by lia.
Qed.

Lemma covers_chain_reify (h : list node) :
  (forall r e, covers children h r e ->
     forall fuel, (e - r <= fuel)%nat ->
       exists t, reify fuel h r = Some t
                 /\ tree_names t = map name (take (e - r) (drop r h)))
  /\ (forall a cs e, chain children h a cs e ->
        forall fuel, (e - a <= fuel)%nat ->
          exists ts, mapM (reify fuel h) cs = Some ts
                     /\ concat (map tree_names ts)
                        = map name (take (e - a) (drop a h))).
Proof.
  destruct (covers_chain_lt children h) as [Hlt Hle].
  apply covers_chain_mutind.
  - intros r n e Hr Hch IH.
    pose proof (Hle _ _ _ Hch) as Hre.
    intros [|fuel] Hfuel; [lia|].
    destruct (IH fuel) as (ts & Hts & Hnames); [lia|].
    exists (Tree (name n) (item n) (stack_level n) ts). cbn.
    rewrite Hr. cbn. rewrite Hts. cbn. split; [reflexivity|].
    rewrite Hnames. replace (e - r)%nat with (S (e - S r)) by lia.
    now rewrite (drop_S _ _ _ Hr).
  - intros a fuel _. exists []. cbn. now rewrite Nat.sub_diag.
  - intros a m cs e Hc IHc Hch IHch.
    pose proof (Hlt _ _ Hc) as Ham. pose proof (Hle _ _ _ Hch) as Hme.
    intros fuel Hfuel.
    destruct (IHc fuel) as (t & Ht & Hn1); [lia|].
    destruct (IHch fuel) as (ts & Hts & Hn2); [lia|].
    exists (t :: ts). cbn. rewrite Ht. cbn. rewrite Hts. cbn.
    split; [reflexivity|].
    rewrite Hn1, Hn2, <- map_app. f_equal. apply take_drop_run. lia.
Qed.

(** *** The loop keeps the shape *)

Section WithSheet.
Context (lib : Library) (df : DataFrame) (cfg : sheet_config).

Lemma initial_shaped (start_row : Z) (section_name : string) :
  shaped (initial start_row section_name).
Proof.
  split; [|split].
  - intros [|p] np Hp; cbn in Hp; [|discriminate]. injection Hp as <-. cbn.
    split; repeat constructor.
  - reflexivity.
  - split; [exact I|]. cbn. eexists. split; [reflexivity|]. constructor.
Qed.

Lemma parse_row_shaped (dates : list string) (st st' : state) (level : Z) :
  stack_in_heap (heap st) (stack st) -> shaped st ->
  parse_row lib df cfg dates st level = Ok st' -> shaped st'.
Proof.
  intros Hs (Hnest & Hperm & Hbranch) H.
  apply parse_row_inv in H as [->|H]; [now split|].
  destruct H as (node & p & lp & rest & Hpop & Hch & _ & _ & Hh & Hst & _).
  destruct (pop_stale_suffix _ _ _ Hpop) as (popped & Heq).
  assert ((p < length (heap st))%nat) as Hp.
  { apply (stack_in_heap_lt _ _ (p, lp) Hs). rewrite Heq.
    apply elem_of_app. right. left. }
  destruct (grown_lookup (heap st) node p Hp) as (Hnew & Hold & Hbound).
  cbn zeta in Hnew, Hold, Hbound. rewrite <- Hh in Hnew, Hold, Hbound.
  assert (length (heap st') = S (length (heap st))) as Hlen.
  { rewrite Hh, length_alter, length_app. cbn. lia. }
  split; [|split].
  - intros q nq Hq. pose proof (Hbound _ _ Hq) as Hle. rewrite Hlen.
    destruct (decide (q = length (heap st))) as [->|Hne].
    + rewrite Hnew in Hq. injection Hq as <-. rewrite Hch.
      split; repeat constructor.
    + destruct (lookup_lt_is_Some_2 (heap st) q) as [n0 Hq0]; [lia|].
      rewrite (Hold _ _ Hq0) in Hq. injection Hq as <-.
      destruct (Hnest _ _ Hq0) as [Hsorted Hall].
      assert (Forall (fun c => (c < S (length (heap st)))%nat) (children n0))
        as Hall'.
      { eapply Forall_impl; [exact Hall|]. cbn. lia. }
      destruct (decide (q = p)) as [->|Hqp]; [|auto]. cbn.
      split.
      * apply (StronglySorted_snoc (p :: children n0)); [exact Hsorted|].
        constructor; [exact Hp | exact Hall].
      * apply Forall_app. split; [exact Hall'|]. repeat constructor.
  - rewrite Hh at 1. rewrite child_refs_alter
      by (rewrite length_app; cbn; lia).
    rewrite (child_refs_snoc _ _ Hch), Hperm, Hlen.
    replace (S (length (heap st)) - 1)%nat
      with (S (length (heap st) - 1)) by lia.
    rewrite seq_S. rewrite <- Permutation_cons_append.
    replace (1 + (length (heap st) - 1))%nat with (length (heap st)) by lia.
    reflexivity.
  - rewrite Hst, Hlen. cbn [map fst].
    rewrite Heq, map_app in Hbranch. apply branch_pop in Hbranch.
    cbn [map fst] in Hbranch.
    destruct (lookup_lt_is_Some_2 (heap st) p Hp) as [np Hnp].
    apply (branch_push children (heap st) (heap st') p (length (heap st))
             (map fst rest) np (append_child (length (heap st)) np) node
             Hbranch).
    + intros x Hx Hne.
      destruct (lookup_lt_is_Some_2 (heap st) x Hx) as [n Hn].
      rewrite (Hold _ _ Hn), Hn. now destruct (decide (x = p)).
    + exact Hnp.
    + rewrite (Hold _ _ Hnp). now destruct (decide (p = p)).
    + reflexivity.
    + exact Hnew.
    + exact Hch.
Qed.

Lemma parse_rows_shaped (dates : list string) (levels : list Z)
    (st st' : state) :
  stack_in_heap (heap st) (stack st) -> descending (stack st) ->
  root_first (heap st) -> shaped st ->
  parse_rows lib df cfg dates st levels = Ok st' ->
  shaped st' /\ descending (stack st').
Proof.
  revert st. induction levels as [|l levels IH];
    intros st Hs Hd Hr Hshape H; cbn in H.
  - injection H as <-. auto.
  - apply bind_Ok in H as (st1 & Hrow & H).
    destruct (parse_row_invariant _ _ _ _ _ _ _ Hs Hd Hr Hrow)
      as (Hs1 & Hd1 & Hr1).
    exact (IH st1 Hs1 Hd1 Hr1 (parse_row_shaped _ _ _ _ Hs Hshape Hrow) H).
Qed.

Lemma parse_section_shaped (dates : list string) (start_row : Z)
    (levels : list Z) (section_name : string) (h : list node) :
  parse_section lib df cfg dates start_row levels section_name = Ok h ->
  exists st, heap st = h /\ shaped st
             /\ last (map fst (stack st)) = Some 0%nat.
Proof.
  unfold parse_section. intros H. apply bind_Ok in H as (st & Hrun & [= <-]).
  exists st. split; [reflexivity|].
  destruct (initial_invariant start_row section_name) as (Hs & Hc & Hr & _).
  destruct (parse_rows_shaped dates levels _ st Hs
              (consecutive_descending _ Hc) Hr
              (initial_shaped start_row section_name) Hrun) as [Hshape Hd].
  split; [exact Hshape|].
  apply descending_last in Hd.
  change (map fst (stack st)) with (fst <$> stack st).
  now rewrite fmap_last, Hd.
Qed.

(** What a turn of the loop reads, and the name it gives the node. *)
Lemma parse_row_names (dates : list string) (st st' : state) (level : Z) :
  0 <= current_row st ->
  parse_row lib df cfg dates st level = Ok st' ->
  current_row st' = current_row st + 1
  /\ map name (heap st')
     = map name (heap st)
       ++ created_names lib df cfg (current_row st) [level].
Proof.
  intros Hrow H. unfold parse_row in H.
  apply bind_Ok in H as (row & Hpos & H).
  assert (row = current_row st) as ->.
  { unfold iloc_row, positional in Hpos.
    destruct ((0 <=? current_row st) && (current_row st <? shape0 df));
      [congruence|].
    destruct ((- shape0 df <=? current_row st) && (current_row st <? 0)) eqn:E;
      [|discriminate].
    apply andb_true_iff in E as [_ E]. apply Z.ltb_lt in E. lia. }
  apply bind_Ok in H as (label & Hget & H).
  assert (label = at_pos df (current_row st) (data_name_column cfg - 1)) as Hl.
  { unfold getitem in Hget. destruct (_ && _); congruence. }
  cbn [created_names]. rewrite <- Hl.
  destruct (isna label).
  { injection H as <-. cbn. now rewrite app_nil_r. }
  apply bind_Ok in H as ([a b] & _ & H).
  apply bind_Ok in H as (values & _ & H).
  apply bind_Ok in H as (stack1 & _ & H).
  apply bind_Ok in H as ([p lp] & _ & H).
  injection H as <-. cbn. split; [reflexivity|].
  now rewrite names_alter, map_app.
Qed.

Lemma created_names_cons (row : Z) (l : Z) (levels : list Z) :
  created_names lib df cfg row (l :: levels)
  = created_names lib df cfg row [l]
    ++ created_names lib df cfg (row + 1) levels.
Proof. cbn. now destruct (isna _). Qed.

Lemma parse_rows_names (dates : list string) (levels : list Z)
    (st st' : state) :
  0 <= current_row st ->
  parse_rows lib df cfg dates st levels = Ok st' ->
  map name (heap st')
  = map name (heap st) ++ created_names lib df cfg (current_row st) levels.
Proof.
  revert st. induction levels as [|l levels IH]; intros st Hrow H.
  - cbn in H. injection H as <-. cbn. now rewrite app_nil_r.
  - cbn [parse_rows] in H. apply bind_Ok in H as (st1 & Hstep & H).
    destruct (parse_row_names _ _ _ _ Hrow Hstep) as (Hcur & Hnames).
    rewrite (IH st1) by (lia || exact H).
    rewrite Hnames, Hcur, <- app_assoc. f_equal.
    symmetry. apply created_names_cons.
Qed.

End WithSheet.
End ExtractJsonTreeFacts.

(** X1 ([extract_json.parse_section]): in the heap a run leaves, every
    node but [result] is held as a child exactly once, by a node created
    before it, and every list of children is in the order of creation:
    the dictionaries form a tree, no line is lost or attached twice. *)
Theorem X1_json_nodes_attached_once
    (lib : Library) (df : ExtractJson.DataFrame) (cfg : sheet_config)
    (dates : list string) (start_row : Z) (levels : list Z)
    (section_name : string) (h : list ExtractJson.node) :
  ExtractJson.parse_section lib df cfg dates start_row levels section_name
  = Ok h ->
  ExtractJsonShape.nested h
  /\ ExtractJsonShape.child_refs h ≡ₚ seq 1 (length h - 1).
Proof.
  intros Hrun.
  destruct (ExtractJsonTreeFacts.parse_section_shaped _ _ _ _ _ _ _ _ Hrun)
    as (st & <- & (Hnest & Hperm & _) & _).
  now split.
Qed.

(** X1 on the scenario. *)
Lemma X1_json_nodes_attached_once_witness :
  exists h,
    ExtractJson.parse_section Examples.calendar
      (Examples.frame Examples.scenario_rows) Examples.scenario_config
      ["2024-01"; "2024-02"] 1 [1; 2; 3; 2; 1] "EIGNIR / ASSETS" = Ok h
    /\ ExtractJsonShape.nested h
    /\ ExtractJsonShape.child_refs h ≡ₚ seq 1 (length h - 1).
Proof.
  eexists. split; [vm_compute; reflexivity|].
  apply (X1_json_nodes_attached_once Examples.calendar
           (Examples.frame Examples.scenario_rows) Examples.scenario_config
           ["2024-01"; "2024-02"] 1 [1; 2; 3; 2; 1] "EIGNIR / ASSETS").
  vm_compute. reflexivity.
Defined.

(** X2 ([extract_json.parse_section]): the heap a run leaves always
    denotes a finite tree, and walking that tree parents first, children
    from first to last, meets the nodes in the order they were created
    in: the tree keeps the order of the lines of the sheet. *)
Theorem X2_json_tree_keeps_row_order
    (lib : Library) (df : ExtractJson.DataFrame) (cfg : sheet_config)
    (dates : list string) (start_row : Z) (levels : list Z)
    (section_name : string) (h : list ExtractJson.node) :
  ExtractJson.parse_section lib df cfg dates start_row levels section_name
  = Ok h ->
  exists t,
    ExtractJson.section_tree h = Some t
    /\ ExtractJsonShape.tree_names t = map ExtractJson.name h.
Proof.
  intros Hrun.
  destruct (ExtractJsonTreeFacts.parse_section_shaped _ _ _ _ _ _ _ _ Hrun)
    as (st & <- & (_ & _ & Hbranch) & Hlast).
  apply (HeapShapeFacts.branch_root _ _ _ _ _ Hlast) in Hbranch.
  destruct (proj1 (ExtractJsonTreeFacts.covers_chain_reify
                     (ExtractJson.heap st)) _ _ Hbranch
              (length (ExtractJson.heap st))) as (t & Ht & Hnames); [lia|].
  exists t. split; [exact Ht|].
  rewrite Hnames, Nat.sub_0_r. cbn [drop]. now rewrite firstn_all.
Qed.

(** X2 on the scenario. *)
Lemma X2_json_tree_keeps_row_order_witness :
  exists h t,
    ExtractJson.parse_section Examples.calendar
      (Examples.frame Examples.scenario_rows) Examples.scenario_config
      ["2024-01"; "2024-02"] 1 [1; 2; 3; 2; 1] "EIGNIR / ASSETS" = Ok h
    /\ ExtractJson.section_tree h = Some t
    /\ ExtractJsonShape.tree_names t = map ExtractJson.name h.
Proof.
  destruct (ExtractJson.parse_section Examples.calendar
              (Examples.frame Examples.scenario_rows) Examples.scenario_config
              ["2024-01"; "2024-02"] 1 [1; 2; 3; 2; 1] "EIGNIR / ASSETS")
    as [h|e] eqn:Hrun; [|vm_compute in Hrun; discriminate].
  destruct (X2_json_tree_keeps_row_order _ _ _ _ _ _ _ h Hrun)
    as (t & Ht & Hnames).
  exists h, t. split; [reflexivity|]. split; [exact Ht | exact Hnames].
Defined.

(** X3 ([extract_json.parse_section]): from a start row that is not
    negative, the nodes of the heap are [result] followed by one node for
    each line whose label is not blank, in the order of the lines and
    named by the label as [str] and [strip] leave it; a blank line gives
    no node. *)
Theorem X3_json_one_node_per_labelled_line
    (lib : Library) (df : ExtractJson.DataFrame) (cfg : sheet_config)
    (dates : list string) (start_row : Z) (levels : list Z)
    (section_name : string) (h : list ExtractJson.node) :
  0 <= start_row ->
  ExtractJson.parse_section lib df cfg dates start_row levels section_name
  = Ok h ->
  map ExtractJson.name h
  = section_name
    :: ExtractJsonShape.created_names lib df cfg start_row levels.
Proof.
  intros Hrow Hrun. unfold ExtractJson.parse_section in Hrun.
  apply PyFacts.bind_Ok in Hrun as (st & Hrun & [= <-]).
  now rewrite (ExtractJsonTreeFacts.parse_rows_names lib df cfg dates levels
                 (ExtractJson.initial start_row section_name) st Hrow Hrun).
Qed.

(** X3 on a frame whose second line has no label. *)
Lemma X3_json_one_node_per_labelled_line_witness :
  exists h,
    ExtractJson.parse_section Examples.calendar
      (Examples.frame [ [VNaN; VStr "2024-01"]; [VStr " A "; VInt 1];
                        [VNaN; VInt 2]; [VStr "B"; VInt 3] ])
      Examples.scenario_config ["2024-01"] 1 [1; 2; 2] "EIGNIR / ASSETS"
    = Ok h
    /\ map ExtractJson.name h = ["EIGNIR / ASSETS"; "A"; "B"].
Proof.
  eexists. split; [vm_compute; reflexivity|].
  apply (X3_json_one_node_per_labelled_line Examples.calendar
           (Examples.frame [ [VNaN; VStr "2024-01"]; [VStr " A "; VInt 1];
                             [VNaN; VInt 2]; [VStr "B"; VInt 3] ])
           Examples.scenario_config ["2024-01"] 1 [1; 2; 2]
           "EIGNIR / ASSETS"); [lia | vm_compute; reflexivity].
Defined.

(** X4 ([extract_json.extract_nested_json], lines 16-25): a [date_row]
    of 0 or less is not refused: [iloc] counts a negative position from
    the end of the frame, so the header is read from the row
    [date_row + shape[0]], a line at the bottom of the sheet. *)
Theorem X4_json_date_row_wraps
    (lib : Library) (df : ExtractJson.DataFrame) (cfg : sheet_config) :
  - ExtractJson.shape0 df < date_row cfg <= 0 ->
  ExtractJson.extract_dates lib df cfg
  = ExtractJson.extract_dates lib df
      (ExtractJsonShape.with_date_row cfg
         (date_row cfg + ExtractJson.shape0 df)).
Proof.
  intros Hrow. unfold ExtractJson.extract_dates. cbn.
  generalize (range (data_start_column cfg - 1) (ExtractJson.shape1 df)).
  generalize (@nil string).
  intros dates cols. revert dates.
  induction cols as [|c cols IH]; intros dates; cbn; [reflexivity|].
  assert (ExtractJson.iloc df (date_row cfg - 1) c
          = ExtractJson.iloc df (date_row cfg + ExtractJson.shape0 df - 1) c)
    as ->.
  { unfold ExtractJson.iloc.
    rewrite (ExtractJsonFacts.positional_in_range
               (ExtractJson.shape0 df)
               (date_row cfg + ExtractJson.shape0 df - 1)) by lia.
    rewrite (ExtractJsonShapeFacts.positional_wraps
               (ExtractJson.shape0 df) (date_row cfg - 1)) by lia.
    now replace (date_row cfg - 1 + ExtractJson.shape0 df)
      with (date_row cfg + ExtractJson.shape0 df - 1) by lia. }
  destruct (ExtractJson.iloc df _ c) as [v|e]; cbn; [|reflexivity].
  destruct (notna v); [|apply IH].
  destruct v; apply IH.
Qed.

(** X4 on a frame whose dates stand in its last line. *)
Lemma X4_json_date_row_wraps_witness :
  ExtractJson.extract_dates Examples.calendar
    (Examples.frame [ [VStr "A"; VInt 1]; [VNaN; VStr "2024-01"] ])
    (ExtractJsonShape.with_date_row Examples.scenario_config 0)
  = Ok ["2024-01"].
Proof.
  rewrite (X4_json_date_row_wraps Examples.calendar
             (Examples.frame [ [VStr "A"; VInt 1]; [VNaN; VStr "2024-01"] ])
             (ExtractJsonShape.with_date_row Examples.scenario_config 0))
    by (cbn; lia).
  vm_compute. reflexivity.
Defined.

(** ** hierarchy_mapper.py: the shape of the forest of a section *)

Module HierarchyMapperShapeFacts.
Import HierarchyMapper HierarchyMapperSpec HierarchyMapperShape PyFacts.
Import HierarchyMapperFacts.

Lemma mapper_child_refs_alter (c p : nat) (h : list node) :
  (p < length h)%nat ->
  child_refs (alter (append_child c) p h) ≡ₚ c :: child_refs h.
Proof.
  unfold child_refs. revert p.
  induction h as [|n h IH]; intros p Hp; cbn in Hp; [lia|].
  destruct p as [|p]; cbn.
  - rewrite <- app_assoc. cbn. symmetry. apply Permutation_middle.
  - rewrite (IH p) by lia. symmetry. apply Permutation_middle.
Qed.

Lemma payload_alter (c p : nat) (h : list node) :
  map payload (alter (append_child c) p h) = map payload h.
Proof.
  revert p. induction h as [|n h IH]; intros [|p]; cbn; try reflexivity.
  f_equal. apply IH.
Qed.

(** Placing a node changes the [children] of a node at most. *)
Lemma place_payload (st : build_state) (ref : nat) (lv : Z) :
  map payload (nodes (place st ref lv)) = map payload (nodes st).
Proof.
  unfold place. destruct (lv =? 1); [reflexivity|].
  destruct (node_map st !! (lv - 1)); [apply payload_alter | reflexivity].
Qed.

Lemma place_all_payload (todo : list node) (st : build_state) (ref : nat) :
  map payload (nodes (place_all st ref todo)) = map payload (nodes st).
Proof.
  revert st ref. induction todo as [|n todo IH]; intros st ref; cbn.
  - reflexivity.
  - now rewrite IH, place_payload.
Qed.

Lemma place_length (st : build_state) (ref : nat) (lv : Z) :
  length (nodes (place st ref lv)) = length (nodes st).
Proof.
  rewrite <- (length_map payload), place_payload. apply length_map.
Qed.

Lemma sorted_snoc (l : list nat) (c : nat) :
  StronglySorted lt l -> Forall (fun x => (x < c)%nat) l ->
  StronglySorted lt (l ++ [c]).
Proof.
  induction 1 as [|x l Hs IH Hx]; intros Hall; cbn.
  - repeat constructor.
  - inversion Hall as [|? ? Hxc Hall']; subst.
    constructor; [now apply IH|].
    apply Forall_app. split; [exact Hx|]. repeat constructor. exact Hxc.
Qed.

Lemma Forall_lt_S (l : list nat) (n : nat) :
  Forall (fun x => (x < n)%nat) l -> Forall (fun x => (x < S n)%nat) l.
Proof. intros H. eapply Forall_impl; [exact H|]. cbn. lia. Qed.

(** What placing a node does to the references the forest holds. *)
Lemma place_placed (st : build_state) (ref : nat) (lv : Z) :
  (forall k r, node_map st !! k = Some r -> (r < length (nodes st))%nat) ->
  (placed (place st ref lv) = placed st
   /\ lv <> 1 /\ node_map st !! (lv - 1) = None)
  \/ (placed (place st ref lv) ≡ₚ ref :: placed st
      /\ (lv = 1 \/ is_Some (node_map st !! (lv - 1)))).
Proof.
  intros Hmap. unfold place. destruct (Z.eqb_spec lv 1) as [->|Hne].
  - right. split; [|now left]. unfold placed. cbn [nodes root_nodes].
    rewrite <- app_assoc. cbn. symmetry. apply Permutation_middle.
  - destruct (node_map st !! (lv - 1)) as [parent|] eqn:Hp.
    + right. split; [|right; eauto]. unfold placed. cbn [nodes root_nodes].
      rewrite mapper_child_refs_alter by exact (Hmap _ _ Hp).
      symmetry. apply Permutation_middle.
    + left. auto.
Qed.

Lemma place_well_placed (st : build_state) (ref : nat) (lv : Z) :
  (ref < length (nodes st))%nat ->
  well_placed st ref -> well_placed (place st ref lv) (S ref).
Proof.
  intros Href (Hnest & Hroots & Hlt & Hnd & Hmap).
  assert (forall k r, node_map st !! k = Some r ->
            (r < length (nodes st))%nat) as Hmap'.
  { intros k r Hk. specialize (Hmap k r Hk). lia. }
  assert (Forall (fun r => (r < S ref)%nat) (placed (place st ref lv))
          /\ NoDup (placed (place st ref lv))) as [Hlt' Hnd'].
  { destruct (place_placed st ref lv Hmap') as [(-> & _)|(Hperm & _)].
    - split; [now apply Forall_lt_S | exact Hnd].
    - rewrite Hperm. split.
      + constructor; [lia | now apply Forall_lt_S].
      + constructor; [|exact Hnd]. intros Hin.
        rewrite Forall_forall in Hlt. specialize (Hlt _ Hin). lia. }
  assert (Forall (fun r => (r < ref)%nat) (root_nodes st)) as Hrlt.
  { unfold placed in Hlt. now apply Forall_app in Hlt as [? _]. }
  split; [|split; [|split; [exact Hlt'|split; [exact Hnd'|]]]].
  - intros p np Hp.
    assert (forall np0, nodes st !! p = Some np0 ->
              StronglySorted lt (p :: children np0)
              /\ Forall (fun c => (c < S ref)%nat) (children np0)) as Hkeep.
    { intros np0 Hp0. destruct (Hnest _ _ Hp0) as [Hs Hall].
      split; [exact Hs | now apply Forall_lt_S]. }
    unfold place in Hp. destruct (lv =? 1); [now apply Hkeep|].
    destruct (node_map st !! (lv - 1)) as [parent|] eqn:Hparent;
      [|now apply Hkeep].
    cbn in Hp. destruct (decide (parent = p)) as [->|Hne].
    + rewrite list_lookup_alter_eq in Hp.
      destruct (nodes st !! p) as [np0|] eqn:Hp0; [|discriminate].
      injection Hp as <-. cbn. destruct (Hnest _ _ Hp0) as [Hs Hall].
      split.
      * apply (sorted_snoc (p :: children np0)); [exact Hs|].
        constructor; [exact (Hmap _ _ Hparent) | exact Hall].
      * apply Forall_app. split; [now apply Forall_lt_S|].
        repeat constructor.
    + rewrite list_lookup_alter_ne in Hp by exact Hne. now apply Hkeep.
  - unfold place. destruct (lv =? 1); cbn.
    + now apply sorted_snoc.
    + now destruct (node_map st !! (lv - 1)).
  - intros k r Hk. unfold place in Hk.
    destruct (lv =? 1); cbn in Hk.
    + apply lookup_singleton_Some in Hk as [_ <-]. lia.
    + destruct (node_map st !! (lv - 1)) as [parent|]; cbn in Hk.
      * apply map_lookup_filter_Some in Hk as [Hk _].
        destruct (decide (lv = k)) as [->|Hlk].
        -- rewrite lookup_insert_eq in Hk. injection Hk as <-. lia.
        -- rewrite lookup_insert_ne in Hk by exact Hlk.
           specialize (Hmap _ _ Hk). lia.
      * specialize (Hmap _ _ Hk). lia.
Qed.

Lemma place_all_well_placed (todo : list node) (st : build_state)
    (ref : nat) :
  (ref + length todo <= length (nodes st))%nat ->
  well_placed st ref ->
  well_placed (place_all st ref todo) (ref + length todo).
Proof.
  revert st ref. induction todo as [|n todo IH]; intros st ref Hlen Hw; cbn.
  - now rewrite Nat.add_0_r.
  - cbn in Hlen. replace (ref + S (length todo))%nat
      with (S ref + length todo)%nat by lia.
    apply IH; [rewrite place_length; lia|].
    apply place_well_placed; [lia | exact Hw].
Qed.

Lemma child_refs_fresh (section_data : list entry) :
  child_refs (map make_node section_data) = [].
Proof.
  unfold child_refs. induction section_data as [|e l IH]; cbn; auto.
Qed.

Lemma build_well_placed (section_data : list entry) :
  let nodes0 := map make_node section_data in
  well_placed
    (place_all {| nodes := nodes0; root_nodes := []; node_map := ∅ |}
               0 nodes0)
    (length section_data).
Proof.
  cbn zeta.
  pose proof (place_all_well_placed (map make_node section_data)
                {| nodes := map make_node section_data; root_nodes := [];
                   node_map := ∅ |} 0) as H.
  cbn in H. rewrite length_map in H. apply H; [lia|].
  split; [|split; [|split; [|split]]].
  - intros p np Hp. cbn in Hp.
    apply list_lookup_fmap_Some in Hp as (e & -> & _). cbn.
    split; repeat constructor.
  - constructor.
  - unfold placed. cbn [nodes root_nodes]. rewrite child_refs_fresh.
    constructor.
  - unfold placed. cbn [nodes root_nodes]. rewrite child_refs_fresh.
    constructor.
  - intros k r Hk. cbn in Hk. now rewrite lookup_empty in Hk.
Qed.

(** *** Levels without a gap *)

Lemma place_stepwise (st : build_state) (ref : nat) (lv k : Z) :
  (forall j r, node_map st !! j = Some r -> (r < length (nodes st))%nat) ->
  tracks st k -> 1 <= lv <= k + 1 ->
  tracks (place st ref lv) lv
  /\ placed (place st ref lv) ≡ₚ ref :: placed st.
Proof.
  intros Hmap Htr Hlv. split.
  - intros j. unfold place. destruct (Z.eqb_spec lv 1) as [->|Hne]; cbn.
    + rewrite lookup_singleton_is_Some. lia.
    + destruct (proj2 (Htr (lv - 1))) as [parent Hp]; [lia|].
      rewrite Hp. cbn. split.
      * intros [r Hr]. apply map_lookup_filter_Some in Hr as [Hr Hle].
        cbn in Hle. destruct (decide (lv = j)) as [->|Hlj]; [lia|].
        rewrite lookup_insert_ne in Hr by exact Hlj.
        pose proof (proj1 (Htr j) (mk_is_Some _ _ Hr)). lia.
      * intros Hj. destruct (decide (lv = j)) as [->|Hlj].
        -- exists ref. apply map_lookup_filter_Some. split; [|cbn; lia].
           apply lookup_insert_eq.
        -- destruct (proj2 (Htr j)) as [r Hr]; [lia|].
           exists r. apply map_lookup_filter_Some. split; [|cbn; lia].
           now rewrite lookup_insert_ne by exact Hlj.
  - destruct (place_placed st ref lv Hmap) as [(_ & Hne & Hnone)|[Hperm _]];
      [|exact Hperm].
    destruct (proj2 (Htr (lv - 1))) as [parent Hp]; [lia|]. congruence.
Qed.

Lemma place_all_stepwise (todo : list node) (st : build_state) (ref : nat)
    (k : Z) :
  (ref + length todo <= length (nodes st))%nat ->
  well_placed st ref -> tracks st k ->
  stepwise k (map level todo) = true ->
  placed (place_all st ref todo)
  ≡ₚ placed st ++ seq ref (length todo).
Proof.
  revert st ref k. induction todo as [|n todo IH];
    intros st ref k Hlen Hw Htr Hstep; cbn.
  - now rewrite app_nil_r.
  - cbn in Hlen, Hstep.
    apply andb_true_iff in Hstep as [Hstep Hrest].
    apply andb_true_iff in Hstep as [H1 H2].
    apply Z.leb_le in H1, H2.
    assert (forall j r, node_map st !! j = Some r ->
              (r < length (nodes st))%nat) as Hmap.
    { intros j r Hj. destruct Hw as (_ & _ & _ & _ & Hm).
      specialize (Hm j r Hj). lia. }
    destruct (place_stepwise st ref (level n) k Hmap Htr) as [Htr' Hperm];
      [lia|].
    rewrite (IH (place st ref (level n)) (S ref) (level n));
      [| rewrite place_length; lia
       | apply place_well_placed; [lia | exact Hw]
       | exact Htr' | exact Hrest].
    rewrite Hperm. cbn. apply Permutation_middle.
Qed.

(** *** Reading the forest as trees *)

Lemma reify_total (h : list node) (fuel r : nat) :
  nested h -> (r < length h)%nat -> (length h - r <= fuel)%nat ->
  is_Some (reify fuel h r).
Proof.
  intros Hnest. revert r. induction fuel as [|fuel IH]; intros r Hr Hfuel;
    [lia|].
  destruct (lookup_lt_is_Some_2 h r Hr) as [n Hn]. cbn. rewrite Hn. cbn.
  destruct (Hnest _ _ Hn) as [Hs Hall].
  apply StronglySorted_inv in Hs as [_ Hgt].
  assert (is_Some (mapM (reify fuel h) (children n))) as [kids ->].
  { apply mapM_is_Some. apply Forall_forall. intros c Hc.
    rewrite Forall_forall in Hgt, Hall.
    specialize (Hgt c Hc). specialize (Hall c Hc). cbn.
    apply IH; lia. }
  cbn. eauto.
Qed.

(** The forest of [build_section_hierarchy], on every input. *)
Lemma build_shape (section_data : list entry) :
  let f := build_section_hierarchy section_data in
  map payload (heap f)
  = map (fun e => payload (make_node e)) section_data
  /\ nested (heap f)
  /\ StronglySorted lt (roots f)
  /\ NoDup (attached_refs f)
  /\ Forall (fun r => (r < length section_data)%nat) (attached_refs f).
Proof.
  cbn zeta.
  pose proof (build_well_placed section_data)
    as (Hnest & Hroots & Hlt & Hnd & _). cbn zeta in Hnest, Hroots, Hlt, Hnd.
  unfold build_section_hierarchy, attached_refs. cbn [heap roots].
  assert (map payload
            (nodes (place_all
                      {| nodes := map make_node section_data;
                         root_nodes := []; node_map := ∅ |} 0
                      (map make_node section_data)))
          = map (fun e => payload (make_node e)) section_data) as Hpay.
  { rewrite place_all_payload. cbn. now rewrite map_map. }
  split; [exact Hpay|]. split; [|split; [exact Hroots|]].
  - intros p np Hp. destruct (Hnest _ _ Hp) as [Hs Hall].
    split; [exact Hs|].
    rewrite <- (length_map payload), Hpay, length_map. exact Hall.
  - split; [exact Hnd | exact Hlt].
Qed.

Lemma build_length (section_data : list entry) :
  length (heap (build_section_hierarchy section_data))
  = length section_data.
Proof.
  destruct (build_shape section_data) as (Hpay & _).
  rewrite <- (length_map payload), Hpay. apply length_map.
Qed.

End HierarchyMapperShapeFacts.

(** X5 ([hierarchy_mapper.build_section_hierarchy]): the forest is well
    formed on every input.  The list of nodes holds the entries in their
    order, each with the data of its entry; only [children] is ever
    changed.  A child comes after its parent in the list, children and
    roots are in the order of the list, and no node is held twice, as a
    root or as a child. *)
Theorem X5_mapper_forest_well_formed
    (section_data : list HierarchyMapper.entry) :
  let f := HierarchyMapper.build_section_hierarchy section_data in
  map HierarchyMapperShape.payload (HierarchyMapper.heap f)
  = map (fun e => HierarchyMapperShape.payload (HierarchyMapper.make_node e))
        section_data
  /\ HierarchyMapperShape.nested (HierarchyMapper.heap f)
  /\ StronglySorted lt (HierarchyMapper.roots f)
  /\ NoDup (HierarchyMapperShape.attached_refs f)
  /\ Forall (fun r => (r < length section_data)%nat)
            (HierarchyMapperShape.attached_refs f).
Proof. exact (HierarchyMapperShapeFacts.build_shape section_data). Qed.

(** X6 ([hierarchy_mapper.build_section_hierarchy]): what it returns can
    always be written out: every root denotes a finite tree, on every
    input. *)
Theorem X6_mapper_forest_is_finite
    (section_data : list HierarchyMapper.entry) :
  exists ts,
    HierarchyMapper.trees
      (HierarchyMapper.build_section_hierarchy section_data) = Some ts
    /\ length ts
       = length (HierarchyMapper.roots
                   (HierarchyMapper.build_section_hierarchy section_data)).
Proof.
  destruct (HierarchyMapperShapeFacts.build_shape section_data)
    as (_ & Hnest & _ & _ & Hlt).
  pose proof (HierarchyMapperShapeFacts.build_length section_data) as Hlen.
  cbn zeta in Hnest, Hlt.
  set (f := HierarchyMapper.build_section_hierarchy section_data) in *.
  unfold HierarchyMapper.trees.
  assert (is_Some (mapM (HierarchyMapper.reify
                           (length (HierarchyMapper.heap f))
                           (HierarchyMapper.heap f))
                        (HierarchyMapper.roots f))) as [ts Hts].
  { apply mapM_is_Some. apply Forall_forall. intros r Hr. unfold compose.
    unfold HierarchyMapperShape.attached_refs in Hlt.
    apply Forall_app in Hlt as [Hlt _]. rewrite Forall_forall in Hlt.
    specialize (Hlt r Hr).
    apply HierarchyMapperShapeFacts.reify_total; [exact Hnest | lia | lia]. }
  exists ts. split; [exact Hts|].
  symmetry. exact (length_mapM _ _ _ Hts).
Qed.

(** X7 ([hierarchy_mapper.build_section_hierarchy]): when the levels of
    the entries have no gap (the first is 1, and each is at least 1 and at
    most one more than the one before) no line is dropped: every entry is
    in the forest exactly once, as a root or as a child. *)
Theorem X7_mapper_keeps_every_line_without_gap
    (section_data : list HierarchyMapper.entry) :
  HierarchyMapperShape.stepwise 0
    (map HierarchyMapper.hierarchy_level section_data) = true ->
  HierarchyMapperShape.attached_refs
    (HierarchyMapper.build_section_hierarchy section_data)
  ≡ₚ seq 0 (length section_data).
Proof.
  intros Hstep.
  unfold HierarchyMapper.build_section_hierarchy,
    HierarchyMapperShape.attached_refs.
  cbn [HierarchyMapper.heap HierarchyMapper.roots].
  pose proof (HierarchyMapperShapeFacts.place_all_stepwise
                (map HierarchyMapper.make_node section_data)
                {| HierarchyMapper.nodes :=
                     map HierarchyMapper.make_node section_data;
                   HierarchyMapper.root_nodes := [];
                   HierarchyMapper.node_map := ∅ |} 0 0) as H.
  unfold HierarchyMapperShape.placed in H.
  cbn [HierarchyMapper.nodes HierarchyMapper.root_nodes] in H.
  rewrite H.
  - rewrite HierarchyMapperShapeFacts.child_refs_fresh, length_map.
    reflexivity.
  - cbn. rewrite length_map. lia.
  - split; [|split; [|split; [|split]]].
    + intros p np Hp. cbn in Hp.
      apply list_lookup_fmap_Some in Hp as (e & -> & _). cbn.
      split; repeat constructor.
    + constructor.
    + unfold HierarchyMapperShape.placed.
      cbn [HierarchyMapper.nodes HierarchyMapper.root_nodes].
      rewrite HierarchyMapperShapeFacts.child_refs_fresh. constructor.
    + unfold HierarchyMapperShape.placed.
      cbn [HierarchyMapper.nodes HierarchyMapper.root_nodes].
      rewrite HierarchyMapperShapeFacts.child_refs_fresh. constructor.
    + intros k r Hk. cbn in Hk. now rewrite lookup_empty in Hk.
  - intros j. cbn. rewrite lookup_empty. split; [intros [? ?]; discriminate|].
    lia.
  - rewrite map_map. cbn. exact Hstep.
Qed.

(** X7 on the scenario, whose levels are [1, 2, 3, 2, 1]. *)
Lemma X7_mapper_keeps_every_line_without_gap_witness :
  HierarchyMapperShape.attached_refs
    (HierarchyMapper.build_section_hierarchy Examples.scenario_entries)
  ≡ₚ seq 0 5.
Proof.
  apply (X7_mapper_keeps_every_line_without_gap Examples.scenario_entries).
  reflexivity.
Defined.

(** ** hierarchy_mapper.py: the readable view *)

Module ReadableHierarchyFacts.
Import HierarchyMapper ReadableHierarchy PyFacts.

(** Induction on a tree, with the property of its children at hand. *)
Lemma tree_induction (P : tree -> Prop) :
  (forall id name n_is n_en level values kids,
     Forall P kids -> P (Tree id name n_is n_en level values kids)) ->
  forall t, P t.
Proof.
  intros H. fix IH 1. intros [id name n_is n_en level values kids].
  apply H. induction kids as [|k kids IHk]; constructor;
    [apply IH | exact IHk].
Qed.

(** *** The text of a path *)

Lemma go_dot_free (x : N) (s : string) :
  str_in "." s = false -> str_in "." (pretty_N_go x s) = false.
Proof.
  revert s. induction (N.lt_wf_0 x) as [x _ IH]; intros s Hs.
  assert (x = 0 \/ 0 < x)%N as [->|Hx] by lia.
  - now rewrite pretty_N_go_0.
  - rewrite pretty_N_go_step by exact Hx. apply IH.
    + now apply N.div_lt.
    + unfold pretty_N_char. repeat case_match; cbn; exact Hs.
Qed.

Lemma go_nonempty (x : N) (s : string) :
  s <> "" -> pretty_N_go x s <> "".
Proof.
  revert s. induction (N.lt_wf_0 x) as [x _ IH]; intros s Hs.
  assert (x = 0 \/ 0 < x)%N as [->|Hx] by lia.
  - now rewrite pretty_N_go_0.
  - rewrite pretty_N_go_step by exact Hx. apply IH.
    + now apply N.div_lt.
    + discriminate.
Qed.

Lemma pretty_dot_free (n : nat) : str_in "." (pretty n) = false.
Proof.
  unfold pretty, pretty_nat, pretty, pretty_N.
  destruct (decide (N.of_nat n = 0%N)); [reflexivity|].
  now apply go_dot_free.
Qed.

Lemma pretty_nonempty (n : nat) : pretty n <> "".
Proof.
  unfold pretty, pretty_nat, pretty, pretty_N.
  destruct (decide (N.of_nat n = 0%N)) as [|Hne]; [discriminate|].
  assert (0 < N.of_nat n)%N as Hx by lia.
  rewrite pretty_N_go_step by exact Hx. apply go_nonempty. discriminate.
Qed.

Lemma dot_free_cons (c : ascii) (s : string) :
  str_in "." (String c s) = false ->
  c <> "."%char /\ str_in "." s = false.
Proof.
  cbn. intros H. apply orb_false_iff in H as [Hc Hs].
  rewrite andb_true_r in Hc. split; [|exact Hs].
  intros ->. discriminate.
Qed.

(** A text without a dot, a dot and a rest: the first dot ends the
    text. *)
Lemma dot_split (a a' r r' : string) :
  str_in "." a = false -> str_in "." a' = false ->
  a +:+ "." +:+ r = a' +:+ "." +:+ r' -> a = a' /\ r = r'.
Proof.
  revert a'. induction a as [|c a IH]; intros [|c' a'] Ha Ha' H.
  - change (String "." r = String "." r') in H. injection H as ->. auto.
  - change (String "." r = String c' (a' +:+ "." +:+ r')) in H.
    injection H as <- _. now apply dot_free_cons in Ha' as [? _].
  - change (String c (a +:+ "." +:+ r) = String "." r') in H.
    injection H as -> _. now apply dot_free_cons in Ha as [? _].
  - change (String c (a +:+ "." +:+ r) = String c' (a' +:+ "." +:+ r')) in H.
    injection H as <- H.
    apply dot_free_cons in Ha as [_ Ha]. apply dot_free_cons in Ha' as [_ Ha'].
    destruct (IH a' Ha Ha' H) as [-> ->]. auto.
Qed.

Lemma dot_absent (a a' r' : string) :
  str_in "." a = false -> a <> a' +:+ "." +:+ r'.
Proof.
  revert a'. induction a as [|c a IH]; intros [|c' a'] Ha H.
  - discriminate.
  - discriminate.
  - change (String c a = String "." r') in H.
    injection H as -> _. now apply dot_free_cons in Ha as [? _].
  - change (String c a = String c' (a' +:+ "." +:+ r')) in H.
    injection H as <- H.
    apply dot_free_cons in Ha as [_ Ha]. exact (IH a' Ha H).
Qed.

Lemma path_str_cons (i j : nat) (p : list nat) :
  path_str (i :: j :: p) = pretty i +:+ "." +:+ path_str (j :: p).
Proof. reflexivity. Qed.

Lemma path_str_nonempty (i : nat) (p : list nat) : path_str (i :: p) <> "".
Proof.
  destruct p as [|j p].
  - apply pretty_nonempty.
  - rewrite path_str_cons. pose proof (pretty_nonempty i) as Hne.
    destruct (pretty i); [congruence | discriminate].
Qed.

(** Two paths with the same text are the same path. *)
Lemma path_str_inj (p q : list nat) : path_str p = path_str q -> p = q.
Proof.
  revert q. induction p as [|i p IH]; intros [|j q] H.
  - reflexivity.
  - symmetry in H. now apply path_str_nonempty in H.
  - now apply path_str_nonempty in H.
  - destruct p as [|i' p], q as [|j' q].
    + cbn in H. f_equal. now apply (inj pretty).
    + rewrite path_str_cons in H. cbn in H.
      now apply dot_absent in H; [|apply pretty_dot_free].
    + rewrite path_str_cons in H. cbn in H. symmetry in H.
      now apply dot_absent in H; [|apply pretty_dot_free].
    + rewrite !path_str_cons in H.
      apply dot_split in H as [Hi Hrest]; try apply pretty_dot_free.
      apply (inj pretty) in Hi as ->. f_equal. now apply IH.
Qed.

(** *** Dictionaries *)

Lemma dict_set_fresh {A} (k : string) (v : A) (d : dict A) :
  k ∉ keys d -> dict_set k v d = d ++ [(k, v)].
Proof.
  induction d as [|[k' v'] d IH]; cbn; intros Hk; [reflexivity|].
  destruct (String.eqb_spec k k') as [->|Hne].
  - exfalso. apply Hk. left.
  - f_equal. apply IH. intros Hin. apply Hk. now right.
Qed.

Lemma dict_update_fresh {A} (d other : dict A) :
  NoDup (keys other) -> (forall k, k ∈ keys other -> k ∉ keys d) ->
  dict_update d other = d ++ other.
Proof.
  unfold dict_update. revert d.
  induction other as [|[k v] other IH]; intros d Hnd Hfresh; cbn.
  - now rewrite app_nil_r.
  - cbn in Hnd. apply NoDup_cons in Hnd as [Hk Hnd].
    rewrite dict_set_fresh by (apply Hfresh; left).
    rewrite IH; [now rewrite <- app_assoc | exact Hnd |].
    intros k' Hk' Hin. unfold keys in Hin. rewrite map_app in Hin.
    apply elem_of_app in Hin as [Hin|Hin].
    + apply (Hfresh k'); [now right | exact Hin].
    + cbn in Hin. apply list_elem_of_singleton in Hin as ->. contradiction.
Qed.

Lemma dict_get_item {A} (k : string) (v : A) (d : dict A) :
  NoDup (keys d) -> (k, v) ∈ d -> dict_get k d = Some v.
Proof.
  induction d as [|[k' v'] d IH]; cbn; intros Hnd Hin.
  - now apply elem_of_nil in Hin.
  - apply NoDup_cons in Hnd as [Hk Hnd].
    apply elem_of_cons in Hin as [[= <- <-]|Hin].
    + now rewrite String.eqb_refl.
    + destruct (String.eqb_spec k k') as [->|Hne]; [|now apply IH].
      exfalso. apply Hk. apply list_elem_of_fmap. now exists (k', v).
Qed.

(** *** The paths of the entries *)

Lemma readable_item_eq (item : tree) (prefix : string) (path : list nat)
    (i : nat) (result : dict readable) :
  readable_item item prefix path i result
  = dict_update
      (dict_set (path_str (path ++ [i]))
                (entry_of item prefix (path ++ [i]) i) result)
      (extract_readable_hierarchy (children_of item)
         (breadcrumb prefix (name_of item)) (path ++ [i])).
Proof. destruct item as [? ? ? ? ? ? [|k kids]]; reflexivity. Qed.

Lemma listing_eq (item : tree) (prefix : string) (path : list nat)
    (i : nat) :
  listing item prefix path i
  = entry_of item prefix (path ++ [i]) i
    :: listing_all (children_of item) (breadcrumb prefix (name_of item))
                   (path ++ [i]).
Proof. destruct item; reflexivity. Qed.

Lemma entry_of_path (item : tree) (prefix : string) (p : list nat)
    (i : nat) :
  r_path (entry_of item prefix p i) = p.
Proof. now destruct item. Qed.

(** The entries of an item lie on paths through its index, and those of
    the items from index [j] on on paths through an index from [j] on. *)
Lemma listing_paths (t : tree) :
  forall prefix path i r,
    r ∈ listing t prefix path i ->
    exists more, r_path r = path ++ i :: more.
Proof.
  induction t as [id name n_is n_en level values kids IH]
    using tree_induction.
  intros prefix path i r Hin. rewrite listing_eq in Hin.
  apply elem_of_cons in Hin as [->|Hin].
  { exists []. apply entry_of_path. }
  cbn [children_of name_of] in Hin. unfold listing_all in Hin.
  generalize dependent 0%nat.
  induction IH as [|k kids Hk _ IHkids]; intros j Hin; cbn in Hin.
  - now apply elem_of_nil in Hin.
  - apply elem_of_app in Hin as [Hin|Hin]; [|now apply (IHkids (S j))].
    destruct (Hk _ _ _ _ Hin) as (more & ->).
    exists (j :: more). now rewrite <- app_assoc.
Qed.

Lemma flat_listing_paths (items : list tree) (prefix : string)
    (path : list nat) (j : nat) (r : readable) :
  r ∈ flat_enumerate (fun item i => listing item prefix path i) items j ->
  exists i more, (j <= i)%nat /\ r_path r = path ++ i :: more.
Proof.
  revert j. induction items as [|t items IH]; intros j Hin; cbn in Hin.
  - now apply elem_of_nil in Hin.
  - apply elem_of_app in Hin as [Hin|Hin].
    + destruct (listing_paths _ _ _ _ _ Hin) as (more & ->).
      exists j, more. auto.
    + destruct (IH (S j) Hin) as (i & more & Hle & ->).
      exists i, more. split; [lia | reflexivity].
Qed.

(** No two entries share a path. *)
Lemma listing_NoDup (t : tree) :
  forall prefix path i, NoDup (map r_path (listing t prefix path i)).
Proof.
  induction t as [id name n_is n_en level values kids IH]
    using tree_induction.
  intros prefix path i. rewrite listing_eq. cbn [map children_of name_of].
  rewrite entry_of_path. apply NoDup_cons. split.
  - intros Hin. apply list_elem_of_fmap in Hin as (r & Hr & Hin).
    destruct (flat_listing_paths _ _ _ _ _ Hin) as (j & more & _ & Hp).
    rewrite Hp, <- app_assoc in Hr. apply app_inv_head in Hr. discriminate.
  - unfold listing_all. generalize 0%nat.
    induction IH as [|k kids Hk _ IHkids]; intros j; cbn.
    + constructor.
    + rewrite map_app. apply NoDup_app. split; [apply Hk|].
      split; [|apply IHkids].
      intros p Hp Hp'.
      apply list_elem_of_fmap in Hp as (r & -> & Hin).
      apply list_elem_of_fmap in Hp' as (r' & Heq & Hin').
      destruct (listing_paths _ _ _ _ _ Hin) as (more & Hr).
      destruct (flat_listing_paths _ _ _ _ _ Hin')
        as (j' & more' & Hle & Hr').
      rewrite Hr, Hr' in Heq. apply app_inv_head in Heq.
      injection Heq as Heq _. lia.
Qed.

Lemma flat_listing_NoDup (items : list tree) (prefix : string)
    (path : list nat) (j : nat) :
  NoDup (map r_path
           (flat_enumerate (fun item i => listing item prefix path i)
                           items j)).
Proof.
  revert j. induction items as [|t items IH]; intros j; cbn.
  - constructor.
  - rewrite map_app. apply NoDup_app. split; [apply listing_NoDup|].
    split; [|apply IH].
    intros p Hp Hp'.
    apply list_elem_of_fmap in Hp as (r & -> & Hin).
    apply list_elem_of_fmap in Hp' as (r' & Heq & Hin').
    destruct (listing_paths _ _ _ _ _ Hin) as (more & Hr).
    destruct (flat_listing_paths _ _ _ _ _ Hin') as (j' & more' & Hle & Hr').
    rewrite Hr, Hr' in Heq. apply app_inv_head in Heq.
    injection Heq as Heq _. lia.
Qed.

Lemma keys_items (l : list readable) :
  keys (map item_of l) = map path_str (map r_path l).
Proof. unfold keys. rewrite !map_map. reflexivity. Qed.

Lemma keys_NoDup (l : list readable) :
  NoDup (map r_path l) -> NoDup (keys (map item_of l)).
Proof.
  intros H. rewrite keys_items.
  apply (NoDup_fmap_2 (A:=list nat)); [|exact H].
  intros p q. apply path_str_inj.
Qed.

(** *** The loops build the listing *)

Lemma readable_item_listing (t : tree) :
  forall prefix path i acc,
    (forall r, r ∈ listing t prefix path i ->
       path_str (r_path r) ∉ keys acc) ->
    readable_item t prefix path i acc
    = acc ++ map item_of (listing t prefix path i).
Proof.
  induction t as [id name n_is n_en level values kids IH]
    using tree_induction.
  intros prefix path i acc Hfresh.
  rewrite readable_item_eq, listing_eq. cbn [children_of name_of].
  set (t := Tree id name n_is n_en level values kids) in *.
  set (cp := breadcrumb prefix name) in *.
  assert (forall j acc',
            (forall r, r ∈ flat_enumerate
                             (fun item i0 => listing item cp (path ++ [i]) i0)
                             kids j ->
               path_str (r_path r) ∉ keys acc') ->
            enumerate_from
              (fun item i0 acc0 => readable_item item cp (path ++ [i]) i0 acc0)
              kids j acc'
            = acc' ++ map item_of
                        (flat_enumerate
                           (fun item i0 => listing item cp (path ++ [i]) i0)
                           kids j)) as Hkids.
  { clear Hfresh. induction IH as [|k kids Hk _ IHkids]; intros j acc' Hfr; cbn.
    - now rewrite app_nil_r.
    - rewrite Hk by (intros r Hr; apply Hfr; cbn; apply elem_of_app; now left).
      rewrite IHkids.
      + now rewrite map_app, app_assoc.
      + intros r Hr Hin. unfold keys in Hin. rewrite map_app in Hin.
        apply elem_of_app in Hin as [Hin|Hin].
        * apply (Hfr r); [cbn; apply elem_of_app; now right | exact Hin].
        * fold (keys (map item_of (listing k cp (path ++ [i]) j))) in Hin.
          rewrite keys_items in Hin.
          apply list_elem_of_fmap in Hin as (p & Hp & Hin).
          apply path_str_inj in Hp as <-.
          apply list_elem_of_fmap in Hin as (r' & Heq & Hin).
          destruct (listing_paths _ _ _ _ _ Hin) as (more & Hr').
          destruct (flat_listing_paths _ _ _ _ _ Hr)
            as (j' & more' & Hle & Hr'').
          rewrite Hr', Hr'' in Heq. apply app_inv_head in Heq.
          injection Heq as Heq _. lia. }
  unfold extract_readable_hierarchy. rewrite Hkids by (intros r _; apply not_elem_of_nil).
  cbn [app]. fold (listing_all kids cp (path ++ [i])).
  rewrite dict_set_fresh.
  2:{ specialize (Hfresh (entry_of t prefix (path ++ [i]) i)).
      rewrite entry_of_path in Hfresh. apply Hfresh.
      rewrite listing_eq. left. }
  rewrite dict_update_fresh.
  - now rewrite <- app_assoc.
  - apply keys_NoDup. apply flat_listing_NoDup.
  - intros k Hk Hin. rewrite keys_items in Hk.
    apply list_elem_of_fmap in Hk as (p & -> & Hp).
    apply list_elem_of_fmap in Hp as (r & -> & Hr).
    unfold keys in Hin. rewrite map_app in Hin.
    apply elem_of_app in Hin as [Hin|Hin].
    + apply (Hfresh r); [|exact Hin]. rewrite listing_eq. now right.
    + cbn in Hin. apply list_elem_of_singleton in Hin.
      apply path_str_inj in Hin.
      destruct (flat_listing_paths _ _ _ _ _ Hr) as (j & more & _ & Hp).
      rewrite Hp in Hin. rewrite <- (app_nil_r (path ++ [i])) in Hin at 2.
      apply app_inv_head in Hin. discriminate.
Qed.

Lemma enumerate_listing (items : list tree) (prefix : string)
    (path : list nat) :
  forall j acc,
    (forall r, r ∈ flat_enumerate (fun item i => listing item prefix path i)
                     items j ->
       path_str (r_path r) ∉ keys acc) ->
    enumerate_from (fun item i acc0 => readable_item item prefix path i acc0)
                   items j acc
    = acc ++ map item_of
               (flat_enumerate (fun item i => listing item prefix path i)
                               items j).
Proof.
  induction items as [|t items IH]; intros j acc Hfr; cbn.
  - now rewrite app_nil_r.
  - rewrite readable_item_listing
      by (intros r Hr; apply Hfr; cbn; apply elem_of_app; now left).
    rewrite IH.
    + now rewrite map_app, app_assoc.
    + intros r Hr Hin. unfold keys in Hin. rewrite map_app in Hin.
      apply elem_of_app in Hin as [Hin|Hin].
      * apply (Hfr r); [cbn; apply elem_of_app; now right | exact Hin].
      * fold (keys (map item_of (listing t prefix path j))) in Hin.
        rewrite keys_items in Hin.
        apply list_elem_of_fmap in Hin as (p & Hp & Hin).
        apply path_str_inj in Hp as <-.
        apply list_elem_of_fmap in Hin as (r' & Heq & Hin).
        destruct (listing_paths _ _ _ _ _ Hin) as (more & Hr').
        destruct (flat_listing_paths _ _ _ _ _ Hr)
          as (j' & more' & Hle & Hr'').
        rewrite Hr', Hr'' in Heq. apply app_inv_head in Heq.
        injection Heq as Heq _. lia.
Qed.

End ReadableHierarchyFacts.

Module ReadablePathFacts.
Import HierarchyMapper ReadableHierarchy PyFacts ReadableHierarchyFacts.

Lemma flat_enumerate_lookup {A B} (body : A -> nat -> list B)
    (items : list A) (j i : nat) (t : A) (r : B) :
  items !! i = Some t -> r ∈ body t (j + i)%nat ->
  r ∈ flat_enumerate body items j.
Proof.
  revert j i. induction items as [|x items IH]; intros j [|i] Hi Hr;
    cbn in Hi; try discriminate; cbn.
  - injection Hi as ->. rewrite Nat.add_0_r in Hr.
    apply elem_of_app. now left.
  - apply elem_of_app. right. apply (IH (S j) i Hi).
    now replace (S j + i)%nat with (j + S i)%nat by lia.
Qed.

Lemma flat_enumerate_elem {A B} (body : A -> nat -> list B)
    (items : list A) (j : nat) (r : B) :
  r ∈ flat_enumerate body items j ->
  exists i t, items !! i = Some t /\ r ∈ body t (j + i)%nat.
Proof.
  revert j. induction items as [|x items IH]; intros j Hr; cbn in Hr.
  - now apply elem_of_nil in Hr.
  - apply elem_of_app in Hr as [Hr|Hr].
    + exists 0%nat, x. rewrite Nat.add_0_r. auto.
    + destruct (IH (S j) Hr) as (i & t & Hi & Hin).
      exists (S i), t. split; [exact Hi|].
      now replace (j + S i)%nat with (S j + i)%nat by lia.
Qed.

(** The entry of a path is in the listing, on that path. *)
Lemma entry_at_listing (p : list nat) :
  forall items prefix path r,
    entry_at items prefix path p = Some r ->
    r ∈ listing_all items prefix path /\ r_path r = path ++ p.
Proof.
  induction p as [|i p IH]; intros items prefix path r H; [discriminate|].
  cbn [entry_at] in H. destruct (items !! i) as [t|] eqn:Hi; [|discriminate].
  destruct p as [|i' p].
  - injection H as <-. split; [|apply entry_of_path].
    apply (flat_enumerate_lookup _ items 0 i t); [exact Hi|].
    rewrite listing_eq. left.
  - destruct (IH _ _ _ _ H) as [Hin Hpath]. split.
    + apply (flat_enumerate_lookup _ items 0 i t); [exact Hi|].
      rewrite listing_eq. now right.
    + now rewrite Hpath, <- app_assoc.
Qed.

(** Every entry of the listing is the entry of a path. *)
Lemma listing_entry_at (t : tree) :
  forall prefix path i r,
    r ∈ listing t prefix path i ->
    r = entry_of t prefix (path ++ [i]) i
    \/ exists p, p <> []
         /\ entry_at (children_of t) (breadcrumb prefix (name_of t))
                     (path ++ [i]) p = Some r.
Proof.
  induction t as [id name n_is n_en level values kids IH]
    using tree_induction.
  intros prefix path i r Hin. rewrite listing_eq in Hin.
  apply elem_of_cons in Hin as [->|Hin]; [now left|]. right.
  cbn [children_of name_of] in *. unfold listing_all in Hin.
  apply flat_enumerate_elem in Hin as (j & k & Hj & Hin). cbn in Hin.
  rewrite Forall_forall in IH.
  destruct (IH k (list_elem_of_lookup_2 _ _ _ Hj) _ _ _ _ Hin)
    as [->|(p & Hne & Hp)].
  - exists [j]. split; [discriminate|]. cbn. now rewrite Hj.
  - exists (j :: p). split; [discriminate|]. cbn. rewrite Hj.
    destruct p; [congruence | exact Hp].
Qed.

Lemma listing_all_entry_at (items : list tree) (prefix : string)
    (path : list nat) (r : readable) :
  r ∈ listing_all items prefix path ->
  exists p, entry_at items prefix path p = Some r.
Proof.
  intros Hin. unfold listing_all in Hin.
  apply flat_enumerate_elem in Hin as (j & k & Hj & Hin). cbn in Hin.
  destruct (listing_entry_at _ _ _ _ _ Hin) as [->|(p & Hne & Hp)].
  - exists [j]. cbn. now rewrite Hj.
  - exists (j :: p). cbn. rewrite Hj. destruct p; [congruence | exact Hp].
Qed.

(** The entry of a path, from the node the path leads to. *)
Lemma entry_at_node (p : list nat) :
  forall items prefix path,
    entry_at items prefix path p
    = match node_at items p, last p with
      | Some t, Some i =>
          Some (entry_of t (foldl breadcrumb prefix (ancestors_at items p))
                         (path ++ p) i)
      | _, _ => None
      end.
Proof.
  induction p as [|i p IH]; intros items prefix path; [reflexivity|].
  cbn [entry_at node_at ancestors_at].
  destruct (items !! i) as [t|]; [|reflexivity].
  destruct p as [|i' p]; [reflexivity|].
  rewrite IH. cbn [foldl]. rewrite <- app_assoc. reflexivity.
Qed.

Lemma dict_get_elem {A} (k : string) (v : A) (d : dict A) :
  dict_get k d = Some v -> (k, v) ∈ d.
Proof.
  induction d as [|[k' v'] d IH]; cbn; [discriminate|].
  destruct (String.eqb_spec k k') as [->|Hne].
  - intros [= ->]. left.
  - intros H. right. now apply IH.
Qed.

(** The view of a forest: the listing, as a dictionary. *)
Lemma extract_listing (hierarchy : list tree) (prefix : string)
    (path : list nat) :
  extract_readable_hierarchy hierarchy prefix path
  = map item_of (listing_all hierarchy prefix path).
Proof.
  unfold extract_readable_hierarchy, listing_all.
  rewrite enumerate_listing; [reflexivity|].
  intros r _. apply not_elem_of_nil.
Qed.

Lemma extract_keys_NoDup (hierarchy : list tree) (prefix : string)
    (path : list nat) :
  NoDup (keys (extract_readable_hierarchy hierarchy prefix path)).
Proof.
  rewrite extract_listing. apply keys_NoDup. apply flat_listing_NoDup.
Qed.

(** Looking up the text of a path gives the entry of the path. *)
Lemma extract_get (hierarchy : list tree) (prefix : string) (p : list nat) :
  dict_get (path_str p) (extract_readable_hierarchy hierarchy prefix [])
  = entry_at hierarchy prefix [] p.
Proof.
  destruct (entry_at hierarchy prefix [] p) as [r|] eqn:He.
  - destruct (entry_at_listing _ _ _ _ _ He) as [Hin Hpath]. cbn in Hpath.
    apply dict_get_item; [apply extract_keys_NoDup|].
    rewrite extract_listing. apply list_elem_of_fmap. exists r.
    split; [|exact Hin]. unfold item_of. now rewrite Hpath.
  - destruct (dict_get _ _) as [r|] eqn:Hget; [|reflexivity].
    apply dict_get_elem in Hget. rewrite extract_listing in Hget.
    apply list_elem_of_fmap in Hget as (r' & Heq & Hin).
    injection Heq as Hkey <-. apply path_str_inj in Hkey.
    destruct (listing_all_entry_at _ _ _ _ Hin) as (q & Hq).
    destruct (entry_at_listing _ _ _ _ _ Hq) as [_ Hpath]. cbn in Hpath.
    congruence.
Qed.

Lemma append_assoc (a b c : string) : (a +:+ b) +:+ c = a +:+ b +:+ c.
Proof.
  induction a as [|x a IH]; [reflexivity|].
  rewrite !append_cons. now rewrite IH.
Qed.

Lemma concat_cons (sep x : string) (l : list string) :
  l <> [] -> String.concat sep (x :: l) = x +:+ sep +:+ String.concat sep l.
Proof. destruct l; [congruence | reflexivity]. Qed.

Lemma breadcrumb_nonempty (prefix name : string) :
  prefix <> "" ->
  breadcrumb prefix name = prefix +:+ " > " +:+ name
  /\ breadcrumb prefix name <> "".
Proof.
  intros Hp. unfold breadcrumb.
  destruct (String.eqb_spec prefix ""); [contradiction|].
  split; [reflexivity|]. destruct prefix; [contradiction | discriminate].
Qed.

Lemma breadcrumb_join_from (names : list string) (prefix name : string) :
  prefix <> "" -> Forall (fun n => n <> "") names ->
  foldl breadcrumb prefix (names ++ [name])
  = prefix +:+ " > " +:+ String.concat " > " (names ++ [name]).
Proof.
  intros Hp Hall. revert prefix Hp.
  induction Hall as [|n names Hn Hall IH]; intros prefix Hp.
  - cbn. now apply breadcrumb_nonempty.
  - cbn [app foldl].
    destruct (breadcrumb_nonempty prefix n Hp) as [Heq Hne].
    rewrite IH by exact Hne. rewrite Heq.
    rewrite concat_cons by (now destruct names).
    now rewrite !append_assoc.
Qed.

(** With names that are not empty, the breadcrumbs are the names joined
    by [" > "]. *)
Lemma breadcrumb_join (names : list string) (name : string) :
  Forall (fun n => n <> "") names ->
  foldl breadcrumb "" (names ++ [name])
  = String.concat " > " (names ++ [name]).
Proof.
  intros Hall. destruct Hall as [|n names Hn Hall]; [reflexivity|].
  cbn [app foldl]. change (breadcrumb "" n) with n.
  rewrite breadcrumb_join_from by assumption.
  now rewrite concat_cons by (now destruct names).
Qed.

End ReadablePathFacts.

(** X8 ([hierarchy_mapper.extract_readable_hierarchy]): the dictionary
    it returns holds one item for each node of the forest, parents before
    their children and children from first to last; each node is under
    the text of its own path, no two nodes share a key, so no entry is
    ever overwritten by [result[path_str] = ...] or by [result.update]. *)
Theorem X8_readable_view_in_preorder
    (hierarchy : list HierarchyMapper.tree) (prefix : string)
    (path : list nat) :
  ReadableHierarchy.extract_readable_hierarchy hierarchy prefix path
  = map ReadableHierarchy.item_of
        (ReadableHierarchy.listing_all hierarchy prefix path)
  /\ NoDup (ReadableHierarchy.keys
              (ReadableHierarchy.extract_readable_hierarchy hierarchy prefix
                 path)).
Proof.
  split.
  - apply ReadablePathFacts.extract_listing.
  - apply ReadablePathFacts.extract_keys_NoDup.
Qed.

(** X9 ([hierarchy_mapper.extract_readable_hierarchy]): the view can be
    read back by path.  Under the text of a path that leads to a node,
    following child indices from the roots, stands the entry of that
    node: its id and names, the path itself, [level] the length of the
    path, [index] its last index, [full_path] the breadcrumbs of the
    names above it and its own.  The text of a path that leads to no
    node is not a key. *)
Theorem X9_readable_lookup_by_path
    (hierarchy : list HierarchyMapper.tree) (p : list nat) :
  ReadableHierarchy.dict_get (ReadableHierarchy.path_str p)
    (ReadableHierarchy.extract_readable_hierarchy hierarchy "" [])
  = match ReadableHierarchy.node_at hierarchy p, last p with
    | Some t, Some i =>
        Some (ReadableHierarchy.entry_of t
                (foldl ReadableHierarchy.breadcrumb ""
                       (ReadableHierarchy.ancestors_at hierarchy p))
                p i)
    | _, _ => None
    end.
Proof.
  rewrite ReadablePathFacts.extract_get.
  apply (ReadablePathFacts.entry_at_node p hierarchy "" []).
Qed.

(** X10 ([hierarchy_mapper.extract_readable_hierarchy], lines 247 and
    252): when the names of the nodes above a node are not empty, its
    [full_path] is these names and its own joined by [" > "], and its
    [level] is the number of these names. *)
Theorem X10_readable_full_path
    (hierarchy : list HierarchyMapper.tree) (p : list nat)
    (t : HierarchyMapper.tree) :
  ReadableHierarchy.node_at hierarchy p = Some t ->
  Forall (fun n => n <> "") (ReadableHierarchy.ancestors_at hierarchy p) ->
  exists r,
    ReadableHierarchy.dict_get (ReadableHierarchy.path_str p)
      (ReadableHierarchy.extract_readable_hierarchy hierarchy "" [])
    = Some r
    /\ ReadableHierarchy.r_name r = ReadableHierarchy.name_of t
    /\ ReadableHierarchy.r_level r
       = length (ReadableHierarchy.ancestors_at hierarchy p ++
                 [ReadableHierarchy.name_of t])
    /\ ReadableHierarchy.r_full_path r
       = String.concat " > "
           (ReadableHierarchy.ancestors_at hierarchy p
            ++ [ReadableHierarchy.name_of t]).
Proof.
  intros Hnode Hnames.
  rewrite ReadablePathFacts.extract_get,
    (ReadablePathFacts.entry_at_node p hierarchy "" []), Hnode.
  assert (exists i, last p = Some i) as [i Hi].
  { destruct p as [|j p]; [discriminate|].
    destruct (last (j :: p)) eqn:E; [eauto|].
    now apply last_None in E. }
  rewrite Hi. eexists. split; [reflexivity|].
  assert (length (ReadableHierarchy.ancestors_at hierarchy p) + 1 = length p)%nat
    as Hlen.
  { clear Hnames Hi. revert hierarchy Hnode.
    induction p as [|j p IH]; intros items Hnode; [discriminate|].
    cbn in Hnode |- *. destruct (items !! j) as [k|]; [|discriminate].
    destruct p as [|j' p]; [reflexivity|].
    specialize (IH _ Hnode). cbn [length] in IH |- *. lia. }
  destruct t as [id name n_is n_en level values kids]. cbn.
  split; [reflexivity|]. split; [now rewrite length_app|].
  rewrite <- ReadablePathFacts.breadcrumb_join by exact Hnames.
  now rewrite foldl_app.
Qed.

(** X10 on the scenario: ["C"] is the first child of the first child of
    the first root. *)
Lemma X10_readable_full_path_witness :
  exists r,
    ReadableHierarchy.dict_get "0.0.0"
      (ReadableHierarchy.extract_readable_hierarchy
         MoreExamples.scenario_forest "" [])
    = Some r
    /\ ReadableHierarchy.r_name r = "C"
    /\ ReadableHierarchy.r_level r = 3%nat
    /\ ReadableHierarchy.r_full_path r = "A > B > C".
Proof.
  apply (X10_readable_full_path MoreExamples.scenario_forest [0; 0; 0]%nat
           (Examples.scenario_node "C" 4 3 [])).
  - reflexivity.
  - repeat (constructor; [discriminate|]). constructor.
Defined.

(** ** dataframe_parser.py: what every dictionary of the frame holds *)

Module DataframeParserShapeFacts.
Import DataframeParser DataframeParserSpec DataframeParserShape PyFacts.

Lemma cell_Ok (ws : Worksheet) (r c : Z) (v : value) :
  cell ws r c = Ok v -> v = cell_value ws r c.
Proof. unfold cell. destruct (_ && _); congruence. Qed.

Section WithSheet.
Context (lib : Library) (ws : Worksheet) (cfg : sheet_config).

Lemma py_index_elem {A} (l : list A) (i : nat) (a : A) :
  py_index l i = Ok a -> a ∈ l.
Proof.
  unfold py_index. destruct (l !! i) eqn:E; [|discriminate].
  intros [= <-]. now apply list_elem_of_lookup_2 in E.
Qed.

(** The rows a line gives: made by [proto] from a date of the header and
    a number. *)
Lemma emit_values_inv (dates : list datetime) (row : Z) (cols : list Z) (j : nat)
    (proto : datetime -> value -> flat_row) (acc rows : list flat_row) :
  emit_values ws dates row j cols proto acc = Ok rows ->
  exists new,
    rows = acc ++ new
    /\ Forall (fun r => exists d v, r = proto d v /\ d ∈ dates
                 /\ is_None v = false /\ is_int_or_float v = true) new.
Proof.
  revert j acc. induction cols as [|c cols IH]; intros j acc H; cbn in H.
  - injection H as <-. exists []. rewrite app_nil_r. split; constructor.
  - apply bind_Ok in H as (v & _ & H).
    destruct (negb (is_None v) && is_int_or_float v) eqn:Hkeep.
    + apply bind_Ok in H as (d & Hd & H).
      destruct (IH _ _ H) as (new & -> & Hall).
      exists (proto d v :: new). rewrite <- app_assoc. split; [reflexivity|].
      constructor; [|exact Hall].
      apply andb_true_iff in Hkeep as [Hn Hnum].
      apply negb_true_iff in Hn.
      exists d, v. split; [reflexivity|].
      split; [exact (py_index_elem _ _ _ Hd) | auto].
    + exact (IH _ _ H).
Qed.

Lemma process_row_inv (tp : section_type) (dates : list datetime) (st st' : state)
    (level : Z) (lines : list (Z * value)) :
  (forall x, x ∈ labelled_lines ws cfg (row_index st) [level] -> x ∈ lines) ->
  (forall k v, current_parents st !! k = Some v -> (k, v) ∈ lines) ->
  process_row ws cfg tp dates st level = Ok st' ->
  row_index st' = row_index st + 1
  /\ (forall k v, current_parents st' !! k = Some v -> (k, v) ∈ lines)
  /\ exists new,
       all_data st' = all_data st ++ new
       /\ Forall (fun r => type r = tp /\ well_formed dates lines r) new.
Proof.
  intros Hline Hcp H. unfold process_row in H.
  apply bind_Ok in H as (name & Hname & H).
  apply cell_Ok in Hname. cbn [labelled_lines] in Hline. rewrite <- Hname in Hline.
  destruct (is_None name) eqn:Hnone.
  { injection H as <-. cbn. split; [reflexivity|]. split; [exact Hcp|].
    exists []. rewrite app_nil_r. split; constructor. }
  apply bind_Ok in H as ([n_is n_en] & Hsplit & H).
  set (parents := filter (fun kv : Z * value => ¬ (level < kv.1))
                         (<[level := name]> (current_parents st))) in *.
  set (parent := if 1 <? level then default VNone (parents !! (level - 1))
                 else VNone) in *.
  apply bind_Ok in H as ([p_is p_en] & Hsplitp & H).
  apply bind_Ok in H as (rows & Hrows & H). injection H as <-. cbn.
  assert (forall k v, parents !! k = Some v -> (k, v) ∈ lines) as Hparents.
  { intros k v Hk. apply map_lookup_filter_Some in Hk as [Hk _].
    destruct (decide (level = k)) as [<-|Hne].
    - rewrite lookup_insert_eq in Hk. injection Hk as <-.
      apply Hline. left.
    - rewrite lookup_insert_ne in Hk by exact Hne. now apply Hcp. }
  split; [reflexivity|]. split; [exact Hparents|].
  destruct (emit_values_inv _ _ _ _ _ _ _ Hrows) as (new & -> & Hall).
  exists new. split; [reflexivity|].
  eapply Forall_impl; [exact Hall|].
  intros r (d & v & -> & Hd & Hn & Hnum). cbn.
  split; [reflexivity|].
  repeat (split; [first [exact Hd | exact Hn | exact Hnum | exact Hsplit
                         | exact Hsplitp | apply Hline; left]|]).
  split.
  - cbn. intros Hle. unfold parent.
    destruct (1 <? level) eqn:E; [apply Z.ltb_lt in E; lia | reflexivity].
  - cbn. unfold parent. destruct (1 <? level); [|now left].
    destruct (parents !! (level - 1)) as [v'|] eqn:E; [|now left].
    right. cbn. now apply Hparents.
Qed.

Lemma labelled_lines_cons (row l : Z) (hierarchy : list Z) :
  labelled_lines ws cfg row (l :: hierarchy)
  = labelled_lines ws cfg row [l]
    ++ labelled_lines ws cfg (row + 1) hierarchy.
Proof. cbn. now destruct (is_None _). Qed.

Lemma process_rows_inv (tp : section_type) (dates : list datetime)
    (hierarchy : list Z) (lines : list (Z * value)) (st st' : state) :
  (forall x, x ∈ labelled_lines ws cfg (row_index st) hierarchy ->
     x ∈ lines) ->
  (forall k v, current_parents st !! k = Some v -> (k, v) ∈ lines) ->
  process_rows ws cfg tp dates st hierarchy = Ok st' ->
  exists new,
    all_data st' = all_data st ++ new
    /\ Forall (fun r => type r = tp /\ well_formed dates lines r) new.
Proof.
  revert st. induction hierarchy as [|l hierarchy IH];
    intros st Hlines Hcp H; cbn [process_rows] in H.
  - injection H as <-. exists []. rewrite app_nil_r. split; constructor.
  - apply bind_Ok in H as (st1 & Hrow & H).
    rewrite labelled_lines_cons in Hlines.
    destruct (process_row_inv tp dates st st1 l lines)
      as (Hnext & Hcp1 & new1 & Hall1 & Hwf1); try assumption.
    { intros x Hx. apply Hlines. apply elem_of_app. now left. }
    destruct (IH st1) as (new2 & Hall2 & Hwf2); try assumption.
    { intros x Hx. apply Hlines. apply elem_of_app. right.
      now rewrite <- Hnext. }
    exists (new1 ++ new2). split.
    + now rewrite Hall2, Hall1, app_assoc.
    + now apply Forall_app.
Qed.

(** The rows collected, section by section. *)
Lemma collect_all_data_inv (all_data : list flat_row) :
  collect_all_data lib ws cfg = Ok all_data ->
  exists dates,
    extract_dates lib ws cfg = Ok dates
    /\ Forall (fun r => well_formed dates (lines_of ws cfg (type r)) r)
              all_data.
Proof.
  unfold collect_all_data. intros H.
  apply bind_Ok in H as (dates & Hdates & H).
  apply bind_Ok in H as (st_a & Ha & H).
  apply bind_Ok in H as (st_l & Hl & H). injection H as <-.
  exists dates. split; [exact Hdates|].
  pose proof (fun H1 H2 =>
                process_rows_inv asset dates (assets_hierarchy cfg)
                  (lines_of ws cfg asset) _ st_a H1 H2 Ha) as Hinv_a.
  destruct Hinv_a as (new_a & Hall_a & Hwf_a).
  { intros x Hx. exact Hx. }
  { intros k v Hk. cbn in Hk. now rewrite lookup_empty in Hk. }
  pose proof (fun H1 H2 =>
                process_rows_inv liability dates (liabilities_hierarchy cfg)
                  (lines_of ws cfg liability) _ st_l H1 H2 Hl) as Hinv_l.
  destruct Hinv_l as (new_l & Hall_l & Hwf_l).
  { intros x Hx. exact Hx. }
  { intros k v Hk. cbn in Hk. now rewrite lookup_empty in Hk. }
  cbn in Hall_a, Hall_l. rewrite Hall_l, Hall_a.
  apply Forall_app. split.
  - eapply Forall_impl; [exact Hwf_a|]. intros r [-> Hr]. exact Hr.
  - eapply Forall_impl; [exact Hwf_l|]. intros r [-> Hr]. exact Hr.
Qed.

End WithSheet.
End DataframeParserShapeFacts.

(** X11 ([dataframe_parser.parse_excel_to_dataframe], lines 49-177):
    whenever it returns, the list [all_data] the frame is made from is not
    empty, and every dictionary of it is well formed: its date is a date
    of the header, its value a number (never [None], never a text), its
    name and level those of a labelled line of its own section, [name_is]
    and [name_en] the cut of its name, [parent] is [None] for a level of
    1 or less and otherwise [None] or the label of a line of the same
    section one level up, and [parent_is] and [parent_en] are the cut of
    that parent.  (This is what the dictionaries hold; how the columns of
    the frame store it is pandas' matter.) *)
Theorem X11_frame_rows_well_formed
    (pd : DataframeParser.Pandas) (lib : Library) (ws : Worksheet)
    (cfg : sheet_config) (index : list nat) :
  DataframeParser.parse_excel_to_dataframe pd lib ws cfg = Ok index ->
  exists all_data dates,
    DataframeParser.collect_all_data lib ws cfg = Ok all_data
    /\ all_data <> []
    /\ DataframeParser.extract_dates lib ws cfg = Ok dates
    /\ Forall (fun r =>
                 DataframeParserShape.well_formed dates
                   (DataframeParserShape.lines_of ws cfg
                      (DataframeParser.type r)) r) all_data.
Proof.
  unfold DataframeParser.parse_excel_to_dataframe. intros H.
  apply PyFacts.bind_Ok in H as (all_data & Hcollect & H).
  destruct (DataframeParserShapeFacts.collect_all_data_inv _ _ _ _ Hcollect)
    as (dates & Hdates & Hall).
  exists all_data, dates. split; [exact Hcollect|]. split.
  - intros ->. discriminate.
  - split; [exact Hdates | exact Hall].
Qed.

(** X11 on the scenario. *)
Lemma X11_frame_rows_well_formed_witness :
  exists all_data dates,
    DataframeParser.collect_all_data Examples.calendar
      (Examples.sheet Examples.scenario_sheet_rows) Examples.scenario_config
    = Ok all_data
    /\ all_data <> []
    /\ DataframeParser.extract_dates Examples.calendar
         (Examples.sheet Examples.scenario_sheet_rows)
         Examples.scenario_config = Ok dates
    /\ Forall (fun r =>
                 DataframeParserShape.well_formed dates
                   (DataframeParserShape.lines_of
                      (Examples.sheet Examples.scenario_sheet_rows)
                      Examples.scenario_config
                      (DataframeParser.type r)) r) all_data.
Proof.
  destruct (DataframeParser.parse_excel_to_dataframe Examples.plain_frames
              Examples.calendar
              (Examples.sheet Examples.scenario_sheet_rows)
              Examples.scenario_config) as [index|e] eqn:Hrun;
    [|vm_compute in Hrun; discriminate].
  exact (X11_frame_rows_well_formed _ _ _ _ index Hrun).
Defined.

(** ** openpyxl_parser.py: the loop of [detect_hierarchy] *)

Module OpenpyxlParserShapeFacts.
Import OpenpyxlParser OpenpyxlParserShape PyFacts.

(** *** Texts *)

Lemma blank_prefix_none (s : string) :
  blank_prefix s = 0%nat <->
  forall b, b ∈ whitespace -> startswith s b = false.
Proof.
  unfold blank_prefix.
  assert (Forall (fun b => (0 < String.length b)%nat) whitespace) as Hne
    by (repeat constructor).
  induction Hne as [|b l Hb _ IH]; cbn.
  - split; [|reflexivity]. intros _ b Hb. now apply elem_of_nil in Hb.
  - destruct (startswith s b) eqn:E; cbn.
    + split; [lia|]. intros H. rewrite (H b) in E by left. discriminate.
    + rewrite IH. split.
      * intros H x Hx. apply elem_of_cons in Hx as [->|Hx]; auto.
      * intros H x Hx. apply H. now right.
Qed.

(** What [lstrip] leaves is the end of the text, and starts with no
    blank. *)
Lemma lstrip_skip_suffix (s : string) (k : nat) :
  exists p, s = String.append p (lstrip_skip k s).
Proof.
  revert k. induction s as [|c s IH]; intros k; cbn.
  - now exists "".
  - destruct k as [|k].
    + destruct (blank_prefix (String c s)) as [|k'].
      * now exists "".
      * destruct (IH k') as (p & Hp). exists (String c p).
        rewrite append_cons. now f_equal.
    + destruct (IH k) as (p & Hp). exists (String c p).
      rewrite append_cons. now f_equal.
Qed.

Lemma lstrip_skip_clean (s : string) (k : nat) :
  blank_prefix (lstrip_skip k s) = 0%nat.
Proof.
  revert k. induction s as [|c s IH]; intros k; cbn.
  - reflexivity.
  - destruct k as [|k]; [|apply IH].
    destruct (blank_prefix (String c s)) as [|k'] eqn:E; [exact E | apply IH].
Qed.

Lemma lstrip_clean (s : string) :
  blank_prefix s = 0%nat -> lstrip s = s.
Proof.
  intros H. destruct s as [|c s]; [reflexivity|].
  unfold lstrip. cbn. now rewrite H.
Qed.

Lemma rstrip_prefix (s : string) :
  exists q, s = String.append (rstrip s) q.
Proof.
  induction s as [|c s IH]; cbn; [now exists ""|].
  destruct (all_blank (String c s)).
  - now exists (String c s).
  - destruct IH as (q & Hq). exists q. rewrite append_cons. now f_equal.
Qed.

(** A text that [strip] returns has no blank in front. *)
Lemma lstrip_strip (s : string) : lstrip (strip s) = strip s.
Proof.
  unfold strip. apply lstrip_clean. apply blank_prefix_none.
  intros b Hb. destruct (startswith (rstrip (lstrip s)) b) eqn:E;
    [|reflexivity].
  destruct (rstrip_prefix (lstrip s)) as (q & Hq).
  apply (startswith_append _ q) in E. rewrite <- Hq in E.
  pose proof (lstrip_skip_clean s 0) as Hclean.
  rewrite blank_prefix_none in Hclean.
  unfold lstrip in E. now rewrite (Hclean b Hb) in E.
Qed.

Lemma py_len_app (a b : string) :
  py_len (String.append a b) = (py_len a + py_len b)%nat.
Proof.
  induction a as [|c a IH]; [reflexivity|].
  rewrite append_cons. cbn. rewrite IH. lia.
Qed.

Lemma py_len_lstrip (s : string) : (py_len (lstrip s) <= py_len s)%nat.
Proof.
  destruct (lstrip_skip_suffix s 0) as (p & Hp).
  rewrite Hp at 2. rewrite py_len_app. unfold lstrip. lia.
Qed.

Lemma split1_nonempty (sep s : string) : split1 sep s <> [].
Proof.
  induction s as [|c s IH]; cbn.
  - destruct (startswith "" sep); discriminate.
  - destruct (startswith (String c s) sep); [discriminate|].
    destruct (split1 sep s); [contradiction | discriminate].
Qed.

Lemma split_all_nonempty (fuel : nat) (sep s : string) :
  split_all fuel sep s <> [].
Proof.
  destruct fuel as [|fuel]; cbn.
  - pose proof (split1_nonempty sep s).
    destruct (split1 sep s) as [|h [|t [|? ?]]]; congruence.
  - pose proof (split1_nonempty sep s).
    destruct (split1 sep s) as [|h [|t [|? ?]]]; congruence.
Qed.

(** A text that holds the separator is cut in two parts at least. *)
Lemma split_all_present (sep s : string) :
  str_in sep s = true -> s <> "" ->
  exists a b rest, split_all (String.length s) sep s = a :: b :: rest.
Proof.
  intros Hin Hne. destruct (split1_present sep s Hin) as (a & b & Hs & _).
  destruct s as [|c s]; [contradiction|]. cbn [String.length split_all].
  rewrite Hs.
  pose proof (split_all_nonempty (String.length s) sep b) as Hrest.
  destruct (split_all (String.length s) sep b) as [|x rest]; [contradiction|].
  eauto.
Qed.

(** *** The heap *)

Lemma pop_deeper_suffix (stack s' : list nat) (level : Z) :
  pop_deeper stack level = Ok s' -> exists popped, stack = popped ++ s'.
Proof.
  induction stack as [|r rest IH]; cbn [pop_deeper].
  - destruct (level <? 0); [discriminate|]. intros [= <-]. now exists [].
  - destruct (level <? Z.of_nat (length (r :: rest))).
    + intros H. destruct (IH H) as (popped & ->). now exists (r :: popped).
    + intros [= <-]. now exists [].
Qed.

Lemma pop_deeper_total (stack : list nat) (level : Z) :
  0 <= level -> exists s', pop_deeper stack level = Ok s'.
Proof.
  intros Hl. induction stack as [|r rest IH]; cbn [pop_deeper].
  - replace (level <? 0) with false by (symmetry; apply Z.ltb_ge; lia). eauto.
  - destruct (level <? Z.of_nat (length (r :: rest))); eauto.
Qed.

Lemma kids_of_append (c : nat) (n : node) :
  kids_of (append_child c n) = kids_of n ++ [c].
Proof. reflexivity. Qed.

Lemma op_child_refs_alter (c p : nat) (h : list node) :
  (p < length h)%nat ->
  child_refs (alter (append_child c) p h) ≡ₚ c :: child_refs h.
Proof.
  unfold child_refs. revert p.
  induction h as [|n h IH]; intros p Hp; cbn in Hp; [lia|].
  destruct p as [|p]; cbn [alter list_alter map concat].
  - rewrite kids_of_append, <- app_assoc. cbn.
    symmetry. apply Permutation_middle.
  - rewrite (IH p) by lia. symmetry. apply Permutation_middle.
Qed.

(** The heap after the node of a line is created and given to [p]. *)
Lemma grown (h : list node) (node : OpenpyxlParser.node) (p : nat) :
  (p < length h)%nat -> children node = None ->
  let h' := alter (append_child (length h)) p (h ++ [node]) in
  length h' = S (length h)
  /\ h' !! length h = Some node
  /\ (forall r, (r < length h)%nat -> r <> p -> h' !! r = h !! r)
  /\ (forall r, (r < length h)%nat ->
        kids h' r = if decide (r = p) then kids h r ++ [length h]
                    else kids h r)
  /\ child_refs h' ≡ₚ child_refs h ++ [length h].
Proof.
  intros Hp Hnode h'. subst h'.
  split; [rewrite length_alter, length_app; cbn; lia|].
  split.
  { rewrite list_lookup_alter_ne by lia.
    rewrite lookup_app_r by lia. now rewrite Nat.sub_diag. }
  split.
  { intros r Hr Hne. rewrite list_lookup_alter_ne by congruence.
    now rewrite lookup_app_l by lia. }
  split.
  { intros r Hr. unfold kids. destruct (decide (r = p)) as [->|Hne].
    - rewrite list_lookup_alter_eq, lookup_app_l by lia.
      destruct (h !! p) as [n|] eqn:E; [reflexivity|].
      apply lookup_ge_None in E. lia.
    - rewrite list_lookup_alter_ne by congruence.
      now rewrite lookup_app_l by lia. }
  rewrite op_child_refs_alter by (rewrite length_app; cbn; lia).
  unfold child_refs. rewrite map_app, concat_app. cbn.
  unfold kids_of at 2. rewrite Hnode. cbn. rewrite !app_nil_r.
  apply Permutation_cons_append.
Qed.

Ltac decide_refs :=
  unfold assets_ref, liabilities_ref in *;
  repeat match goal with
         | |- context [decide (?a = ?b)] =>
             destruct (decide (a = b)); try lia; try congruence
         end.

(** *** One turn of the loop *)

Section WithSheet.
Context (lib : Library) (ws : Worksheet).
Context (start_row title_col data_start_col : Z) (date_strs : list string).

(** What a turn does, read off its result: nothing on a line without a
    title; otherwise it switches to the liabilities when the title says
    so, pops the stack to the level of the line and files the node. *)
Lemma detect_row_inv (st st' : state) (row_idx : Z) :
  detect_row lib ws start_row title_col data_start_col date_strs
    st row_idx = Ok st' ->
  st' = st
  \/ exists title node stack1,
       let title_text := strip (py_str lib title) in
       let st0 := if is_section_switch title_text row_idx start_row
                  then switched st else st in
       let level := level_of ws row_idx title_col title_text in
       cell ws row_idx title_col = Ok title
       /\ is_None title = false /\ title_text <> ""
       /\ name node = title_text /\ children node = None
       /\ pop_deeper (hierarchy_stack st0) level = Ok stack1
       /\ st' = file_node st0 level stack1 node.
Proof.
  unfold OpenpyxlParser.detect_row. intros H.
  apply bind_Ok in H as (title & Htitle & H).
  destruct (is_None title) eqn:Hnone; cbn [orb] in H; [left; congruence|].
  destruct (negb (truthy (VStr (strip (py_str lib title))))) eqn:Hblank;
    [left; congruence|].
  right.
  apply bind_Ok in H as (p_is & _ & H).
  apply bind_Ok in H as (p_en & _ & H).
  apply bind_Ok in H as (values & _ & H).
  apply bind_Ok in H as (stack1 & Hpop & H).
  exists title,
    {| name := strip (py_str lib title);
       item := Some {| f_is := p_is; f_en := p_en; f_values := values |};
       children := None |}, stack1. cbn zeta.
  split; [exact Htitle|]. split; [exact Hnone|]. split.
  { apply negb_false_iff in Hblank. cbn in Hblank.
    apply negb_true_iff in Hblank. intros E. rewrite E in Hblank.
    discriminate. }
  split; [reflexivity|]. split; [reflexivity|].
  split; [exact Hpop|].
  unfold file_node. fold (level_of ws row_idx title_col
                                   (strip (py_str lib title))) in H.
  destruct (is_section_switch _ _ _); unfold switched; cbn [heap] in *.
  - destruct (level_of _ _ _ _ =? 0); [now injection H as <-|].
    destruct stack1; now injection H as <-.
  - destruct (level_of _ _ _ _ =? 0); [now injection H as <-|].
    destruct stack1; now injection H as <-.
Qed.

Lemma file_node_well_kept (st : state) (level : Z) (popped stack1 : list nat)
    (node : OpenpyxlParser.node) :
  children node = None ->
  hierarchy_stack st = popped ++ stack1 ->
  well_kept st -> well_kept (file_node st level stack1 node).
Proof.
  intros Hnode Hstack (Hlen & Hst & Hperm & Ha & Hl & Hsw).
  assert (Forall (fun r => (2 <= r < length (heap st))%nat) stack1) as Hst1.
  { rewrite Hstack in Hst. now apply Forall_app in Hst as [_ ?]. }
  assert (forall p, (p < length (heap st))%nat ->
            let h' := alter (append_child (length (heap st))) p
                            (heap st ++ [node]) in
            (2 <= length h')%nat
            /\ child_refs h' ≡ₚ seq 2 (length h' - 2)
            /\ (forall r, (r < length (heap st))%nat ->
                  kids h' r = if decide (r = p)
                              then kids (heap st) r ++ [length (heap st)]
                              else kids (heap st) r)
            /\ length h' = S (length (heap st))) as Hgrown.
  { intros p Hp h'.
    destruct (grown (heap st) node p Hp Hnode) as (Hl' & _ & _ & Hk & Hc).
    cbn zeta in Hl', Hk, Hc. subst h'. rewrite Hl'.
    split; [lia|]. split; [|split; [exact Hk | reflexivity]].
    rewrite Hc, Hperm.
    replace (S (length (heap st)) - 2)%nat
      with (S (length (heap st) - 2)) by lia.
    rewrite seq_S.
    now replace (2 + (length (heap st) - 2))%nat with (length (heap st))
      by lia. }
  assert (well_kept (add_top st (length (heap st)) (heap st ++ [node])))
    as Htop.
  { unfold add_top. destruct (in_assets st) eqn:Hin.
    - destruct (Hgrown assets_ref) as (H2 & Hp' & Hk & Hl');
        [unfold assets_ref; lia|]. cbn zeta in *.
      split; [exact H2|]. split; [|split; [exact Hp'|]].
      { cbn. rewrite Hl'. repeat constructor; lia. }
      cbn [heap assets_count liabilities_count in_assets].
      rewrite (Hk assets_ref), (Hk liabilities_ref)
        by (unfold assets_ref, liabilities_ref; lia).
      decide_refs. rewrite length_app. cbn. split; [lia|].
      split; [exact Hl | exact Hsw].
    - destruct (Hgrown liabilities_ref) as (H2 & Hp' & Hk & Hl');
        [unfold liabilities_ref; lia|]. cbn zeta in *.
      split; [exact H2|]. split; [|split; [exact Hp'|]].
      { cbn. rewrite Hl'. repeat constructor; lia. }
      cbn [heap assets_count liabilities_count in_assets].
      rewrite (Hk assets_ref), (Hk liabilities_ref)
        by (unfold assets_ref, liabilities_ref; lia).
      decide_refs. rewrite length_app. cbn. split; [exact Ha|].
      split; [lia | discriminate]. }
  unfold file_node. destruct (level =? 0); [exact Htop|].
  destruct stack1 as [|parent rest]; [exact Htop|].
  inversion Hst1 as [|? ? Hparent Hrest]; subst.
  destruct (Hgrown parent) as (H2 & Hp' & Hk & Hl'); [lia|]. cbn zeta in *.
  split; [exact H2|]. split; [|split; [exact Hp'|]].
  { cbn [hierarchy_stack heap]. rewrite Hl'.
    constructor; [lia|]. constructor; [lia|].
    eapply Forall_impl; [exact Hrest|]. cbn. lia. }
  cbn [heap assets_count liabilities_count in_assets].
  rewrite (Hk assets_ref), (Hk liabilities_ref)
    by (unfold assets_ref, liabilities_ref; lia).
  decide_refs. auto.
Qed.

Lemma switched_well_kept (st : state) :
  well_kept st -> well_kept (switched st).
Proof.
  intros (Hlen & Hst & Hperm & Ha & Hl & Hsw).
  split; [exact Hlen|]. split; [constructor|]. split; [exact Hperm|].
  split; [exact Ha|]. split; [exact Hl | discriminate].
Qed.

Lemma detect_row_well_kept (st st' : state) (row_idx : Z) :
  well_kept st -> detect_row lib ws start_row title_col data_start_col date_strs
    st row_idx = Ok st' -> well_kept st'.
Proof.
  intros Hw H. apply detect_row_inv in H as [->|H]; [exact Hw|].
  destruct H as (title & node & stack1 & _ & _ & _ & _ & Hnode & Hpop & ->).
  destruct (pop_deeper_suffix _ _ _ Hpop) as (popped & Hstack).
  apply (file_node_well_kept _ _ popped); [exact Hnode | exact Hstack|].
  destruct (is_section_switch _ _ _); [now apply switched_well_kept | exact Hw].
Qed.

Lemma initial_well_kept : well_kept initial.
Proof.
  split; [cbn; lia|]. split; [constructor|]. split; [reflexivity|].
  repeat split.
Qed.

Lemma detect_rows_well_kept (rows : list Z) (st st' : state) :
  well_kept st -> detect_rows lib ws start_row title_col data_start_col date_strs
    st rows = Ok st' -> well_kept st'.
Proof.
  revert st. induction rows as [|r rows IH]; intros st Hw H; cbn in H.
  - now injection H as <-.
  - apply bind_Ok in H as (st1 & Hrow & H).
    exact (IH st1 (detect_row_well_kept _ _ _ Hw Hrow) H).
Qed.

(** Once in the liabilities, always in the liabilities. *)
Lemma file_node_in_assets (st : state) (level : Z) (stack1 : list nat)
    (node : OpenpyxlParser.node) :
  in_assets (file_node st level stack1 node) = in_assets st.
Proof.
  unfold file_node, add_top.
  destruct (level =? 0); [now destruct (in_assets st)|].
  destruct stack1; [now destruct (in_assets st) | reflexivity].
Qed.

Lemma detect_row_switch (st st' : state) (row_idx : Z) :
  detect_row lib ws start_row title_col data_start_col date_strs
    st row_idx = Ok st' ->
  in_assets st = false -> in_assets st' = false.
Proof.
  intros H Hin. apply detect_row_inv in H as [->|H]; [exact Hin|].
  destruct H as (title & node & stack1 & _ & _ & _ & _ & _ & _ & ->).
  rewrite file_node_in_assets.
  now destruct (is_section_switch _ _ _).
Qed.

Lemma detect_rows_switch (rows : list Z) (st st' : state) :
  detect_rows lib ws start_row title_col data_start_col date_strs
    st rows = Ok st' ->
  in_assets st = false -> in_assets st' = false.
Proof.
  revert st. induction rows as [|r rows IH]; intros st H Hin; cbn in H.
  - now injection H as <-.
  - apply bind_Ok in H as (st1 & Hrow & H).
    exact (IH st1 H (detect_row_switch _ _ _ Hrow Hin)).
Qed.

(** After the switch the children of [assets] stay as they are. *)
Lemma file_node_assets (st : state) (level : Z) (popped stack1 : list nat)
    (node : OpenpyxlParser.node) :
  children node = None -> hierarchy_stack st = popped ++ stack1 ->
  well_kept st -> in_assets st = false ->
  kids (heap (file_node st level stack1 node)) assets_ref
  = kids (heap st) assets_ref
  /\ assets_count (file_node st level stack1 node) = assets_count st.
Proof.
  intros Hnode Hstack (Hlen & Hst & _) Hin.
  assert (Forall (fun r => (2 <= r < length (heap st))%nat) stack1) as Hst1.
  { rewrite Hstack in Hst. now apply Forall_app in Hst as [_ ?]. }
  assert (kids (heap (add_top st (length (heap st)) (heap st ++ [node])))
               assets_ref = kids (heap st) assets_ref
          /\ assets_count (add_top st (length (heap st)) (heap st ++ [node]))
             = assets_count st) as Htop.
  { unfold add_top. rewrite Hin. cbn [heap assets_count].
    destruct (grown (heap st) node liabilities_ref)
      as (_ & _ & _ & Hk & _); [unfold liabilities_ref; lia | exact Hnode |].
    cbn zeta in Hk. rewrite (Hk assets_ref) by (unfold assets_ref; lia).
    decide_refs. auto. }
  unfold file_node. destruct (level =? 0); [exact Htop|].
  destruct stack1 as [|parent rest]; [exact Htop|].
  inversion Hst1 as [|? ? Hparent _]; subst. cbn [heap assets_count].
  destruct (grown (heap st) node parent) as (_ & _ & _ & Hk & _);
    [lia | exact Hnode |].
  cbn zeta in Hk. rewrite (Hk assets_ref) by (unfold assets_ref; lia).
  decide_refs. auto.
Qed.

Lemma detect_row_assets (st st' : state) (row_idx : Z) :
  well_kept st -> in_assets st = false ->
  detect_row lib ws start_row title_col data_start_col date_strs
    st row_idx = Ok st' ->
  kids (heap st') assets_ref = kids (heap st) assets_ref
  /\ assets_count st' = assets_count st.
Proof.
  intros Hw Hin H. apply detect_row_inv in H as [->|H]; [auto|].
  destruct H as (title & node & stack1 & _ & _ & _ & _ & Hnode & Hpop & ->).
  destruct (pop_deeper_suffix _ _ _ Hpop) as (popped & Hstack).
  destruct (is_section_switch _ _ _).
  - apply (file_node_assets (switched st) _ popped); try assumption.
    + now apply switched_well_kept.
    + reflexivity.
  - now apply (file_node_assets st _ popped).
Qed.

Lemma detect_rows_assets (rows : list Z) (st st' : state) :
  well_kept st -> in_assets st = false ->
  detect_rows lib ws start_row title_col data_start_col date_strs
    st rows = Ok st' ->
  in_assets st' = false
  /\ kids (heap st') assets_ref = kids (heap st) assets_ref
  /\ assets_count st' = assets_count st.
Proof.
  revert st. induction rows as [|r rows IH]; intros st Hw Hin H; cbn in H.
  - injection H as <-. auto.
  - apply bind_Ok in H as (st1 & Hrow & H).
    destruct (detect_row_assets _ _ _ Hw Hin Hrow) as [Hk Hc].
    destruct (IH st1) as (Hin' & Hk' & Hc'); try assumption.
    + exact (detect_row_well_kept _ _ _ Hw Hrow).
    + exact (detect_row_switch _ _ _ Hrow Hin).
    + rewrite Hk', Hc'. auto.
Qed.

(** *** Sheets without indentation *)

Lemma level_of_unindented (row_idx : Z) (s : string) :
  cell_indent ws row_idx title_col = 0 ->
  level_of ws row_idx title_col (strip s) = 0.
Proof.
  intros Hi. unfold level_of. rewrite Hi. cbn.
  rewrite lstrip_strip. now rewrite Z.sub_diag.
Qed.

Lemma add_top_flat (st : state) (node : OpenpyxlParser.node) :
  children node = None -> well_kept st -> flat st ->
  flat (add_top st (length (heap st)) (heap st ++ [node])).
Proof.
  intros Hnode (Hlen & _ & _ & _ & _ & Hsw) [Hkids Hnone].
  assert (seq 2 (S (length (heap st)) - 2)
          = seq 2 (length (heap st) - 2) ++ [length (heap st)]) as Hseq.
  { replace (S (length (heap st)) - 2)%nat
      with (S (length (heap st) - 2)) by lia.
    rewrite seq_S.
    now replace (2 + (length (heap st) - 2))%nat with (length (heap st))
      by lia. }
  unfold add_top. destruct (in_assets st) eqn:Hin.
  - destruct (grown (heap st) node assets_ref) as (Hl' & Hnew & Hold & Hk & _);
      [unfold assets_ref; lia | exact Hnode |]. cbn zeta in *.
    split; cbn [heap].
    + rewrite (Hk assets_ref), (Hk liabilities_ref)
        by (unfold assets_ref, liabilities_ref; lia).
      decide_refs. rewrite Hl', Hseq, <- Hkids, (Hsw eq_refl), !app_nil_r.
      reflexivity.
    + intros r n Hr Hn.
      destruct (decide (r = length (heap st))) as [->|Hne].
      * rewrite Hnew in Hn. now injection Hn as <-.
      * assert ((r < length (heap st))%nat) as Hlt.
        { apply lookup_lt_Some in Hn. rewrite Hl' in Hn. lia. }
        rewrite Hold in Hn by (unfold assets_ref; lia).
        exact (Hnone r n Hr Hn).
  - destruct (grown (heap st) node liabilities_ref)
      as (Hl' & Hnew & Hold & Hk & _);
      [unfold liabilities_ref; lia | exact Hnode |]. cbn zeta in *.
    split; cbn [heap].
    + rewrite (Hk assets_ref), (Hk liabilities_ref)
        by (unfold assets_ref, liabilities_ref; lia).
      decide_refs. rewrite Hl', Hseq, <- Hkids, app_assoc. reflexivity.
    + intros r n Hr Hn.
      destruct (decide (r = length (heap st))) as [->|Hne].
      * rewrite Hnew in Hn. now injection Hn as <-.
      * assert ((r < length (heap st))%nat) as Hlt.
        { apply lookup_lt_Some in Hn. rewrite Hl' in Hn. lia. }
        rewrite Hold in Hn by (unfold liabilities_ref; lia).
        exact (Hnone r n Hr Hn).
Qed.

Lemma detect_row_flat (st st' : state) (row_idx : Z) :
  cell_indent ws row_idx title_col = 0 ->
  well_kept st -> flat st -> detect_row lib ws start_row title_col data_start_col date_strs
    st row_idx = Ok st' -> flat st'.
Proof.
  intros Hi Hw Hf H. apply detect_row_inv in H as [->|H]; [exact Hf|].
  destruct H as (title & node & stack1 & _ & _ & _ & _ & Hnode & _ & ->).
  rewrite level_of_unindented by exact Hi.
  unfold file_node. cbn [Z.eqb].
  destruct (is_section_switch _ _ _).
  - apply (add_top_flat (switched st)); [exact Hnode | |exact Hf].
    now apply switched_well_kept.
  - now apply add_top_flat.
Qed.

Lemma detect_rows_flat (rows : list Z) (st st' : state) :
  (forall r, cell_indent ws r title_col = 0) ->
  well_kept st -> flat st -> detect_rows lib ws start_row title_col data_start_col date_strs
    st rows = Ok st' -> flat st'.
Proof.
  intros Hi. revert st. induction rows as [|r rows IH];
    intros st Hw Hf H; cbn in H.
  - now injection H as <-.
  - apply bind_Ok in H as (st1 & Hrow & H).
    apply (IH st1); [| |exact H].
    + exact (detect_row_well_kept _ _ _ Hw Hrow).
    + exact (detect_row_flat _ _ _ (Hi r) Hw Hf Hrow).
Qed.

(** *** Turns that return *)

Lemma node_values_total (row_idx col_idx : Z) (dates : list string)
    (values : gmap string value) :
  1 <= row_idx -> 1 <= col_idx ->
  exists m, node_values ws row_idx col_idx dates values = Ok m.
Proof.
  intros Hr. revert col_idx values.
  induction dates as [|d dates IH]; intros c values Hc; cbn; [eauto|].
  unfold cell.
  replace ((1 <=? row_idx) && (1 <=? c)) with true
    by (symmetry; apply andb_true_iff; split; apply Z.leb_le; lia).
  cbn. destruct (_ && _); apply IH; lia.
Qed.

Lemma detect_row_total (st : state) (row_idx : Z) :
  1 <= row_idx -> 1 <= title_col -> 1 <= data_start_col ->
  0 <= cell_indent ws row_idx title_col ->
  exists st', detect_row lib ws start_row title_col data_start_col date_strs
    st row_idx = Ok st'.
Proof.
  intros Hr Ht Hd Hi. unfold OpenpyxlParser.detect_row, cell.
  replace ((1 <=? row_idx) && (1 <=? title_col)) with true
    by (symmetry; apply andb_true_iff; split; apply Z.leb_le; lia).
  cbn [mbind result_bind].
  destruct (is_None _ || negb (truthy _)) eqn:Hblank; [eauto|].
  apply orb_false_iff in Hblank as [_ Hblank].
  apply negb_false_iff in Hblank. cbn in Hblank.
  apply negb_true_iff in Hblank.
  set (title_text := strip (py_str lib (cell_value ws row_idx title_col))) in *.
  assert (title_text <> "") as Hne.
  { intros E. rewrite E in Hblank. discriminate. }
  assert (exists p_is p_en,
            (if str_in " / " title_text
             then py_index (split_all (String.length title_text) " / "
                                      title_text) 0
             else Ok title_text) = Ok p_is
            /\ (if str_in " / " title_text
                then py_index (split_all (String.length title_text) " / "
                                         title_text) 1
                else Ok "") = Ok p_en) as (p_is & p_en & -> & ->).
  { destruct (str_in " / " title_text) eqn:Hin; [|eauto].
    destruct (split_all_present _ _ Hin Hne) as (a & b & rest & ->).
    cbn. eauto. }
  cbn [mbind result_bind].
  destruct (node_values_total row_idx data_start_col date_strs ∅ Hr Hd)
    as (m & ->). cbn [mbind result_bind].
  match goal with
  | |- context [pop_deeper ?s ?l] =>
      destruct (pop_deeper_total s l) as (stack1 & ->)
  end.
  - destruct (negb (cell_indent ws row_idx title_col =? 0)); [lia|].
    apply Z.div_pos; [|lia].
    pose proof (py_len_lstrip title_text). lia.
  - cbn [mbind result_bind]. destruct (_ =? 0); [eauto|].
    destruct stack1; eauto.
Qed.

Lemma detect_rows_total (rows : list Z) (st : state) :
  Forall (fun r => 1 <= r) rows -> 1 <= title_col -> 1 <= data_start_col ->
  (forall r, 0 <= cell_indent ws r title_col) ->
  exists st', detect_rows lib ws start_row title_col data_start_col date_strs
    st rows = Ok st'.
Proof.
  intros Hrows Ht Hd Hi. revert st.
  induction Hrows as [|r rows Hr Hrows IH]; intros st; cbn; [eauto|].
  destruct (detect_row_total st r Hr Ht Hd (Hi r)) as (st1 & ->). cbn.
  apply IH.
Qed.

End WithSheet.
End OpenpyxlParserShapeFacts.

(** X12 ([openpyxl_parser.ExcelSheetParser.detect_hierarchy]): in the
    state the loop ends in, every node of a line is held as a child
    exactly once, the two counters are the numbers of children of
    [assets] and of [liabilities], and as long as the switch has not
    happened [liabilities] has no child. *)
Theorem X12_openpyxl_nodes_attached_once
    (lib : Library) (ws : Worksheet) (start_row title_col data_start_col : Z)
    (date_strs : list string) (st : OpenpyxlParser.state) :
  OpenpyxlParser.detect_hierarchy lib ws start_row title_col data_start_col
    date_strs = Ok st ->
  OpenpyxlParserShape.child_refs (OpenpyxlParser.heap st)
  ≡ₚ seq 2 (length (OpenpyxlParser.heap st) - 2)
  /\ OpenpyxlParser.assets_count st
     = Z.of_nat (length (OpenpyxlParserShape.kids (OpenpyxlParser.heap st)
                           OpenpyxlParser.assets_ref))
  /\ OpenpyxlParser.liabilities_count st
     = Z.of_nat (length (OpenpyxlParserShape.kids (OpenpyxlParser.heap st)
                           OpenpyxlParser.liabilities_ref))
  /\ (OpenpyxlParser.in_assets st = true ->
      OpenpyxlParserShape.kids (OpenpyxlParser.heap st)
        OpenpyxlParser.liabilities_ref = []).
Proof.
  intros Hrun.
  destruct (OpenpyxlParserShapeFacts.detect_rows_well_kept _ _ _ _ _ _ _ _ _
              OpenpyxlParserShapeFacts.initial_well_kept Hrun)
    as (_ & _ & Hperm & Ha & Hl & Hsw).
  auto.
Qed.

(** X12 on the sheet with the marker in its third row. *)
Lemma X12_openpyxl_nodes_attached_once_witness :
  exists st,
    OpenpyxlParser.detect_hierarchy Examples.calendar
      (Examples.sheet Examples.marker_rows) 1 1 2 [] = Ok st
    /\ OpenpyxlParserShape.child_refs (OpenpyxlParser.heap st)
       ≡ₚ seq 2 (length (OpenpyxlParser.heap st) - 2)
    /\ OpenpyxlParser.assets_count st
       = Z.of_nat (length (OpenpyxlParserShape.kids (OpenpyxlParser.heap st)
                             OpenpyxlParser.assets_ref))
    /\ OpenpyxlParser.liabilities_count st
       = Z.of_nat (length (OpenpyxlParserShape.kids (OpenpyxlParser.heap st)
                             OpenpyxlParser.liabilities_ref))
    /\ (OpenpyxlParser.in_assets st = true ->
        OpenpyxlParserShape.kids (OpenpyxlParser.heap st)
          OpenpyxlParser.liabilities_ref = []).
Proof.
  destruct (OpenpyxlParser.detect_hierarchy Examples.calendar
              (Examples.sheet Examples.marker_rows) 1 1 2 []) as [st|e] eqn:Hrun;
    [|vm_compute in Hrun; discriminate].
  exists st. split; [reflexivity|].
  exact (X12_openpyxl_nodes_attached_once _ _ _ _ _ _ st Hrun).
Defined.

(** X13 ([openpyxl_parser.ExcelSheetParser.detect_hierarchy], lines
    236-243): on a sheet whose title cells have no indent the result is
    flat.  The text of a title is stripped before its leading blanks are
    counted, so the level guessed from them is always 0: every line is an
    item of [assets] or of [liabilities], in the order of the sheet, and
    no line gets a [children] key. *)
Theorem X13_openpyxl_flat_without_indent
    (lib : Library) (ws : Worksheet) (start_row title_col data_start_col : Z)
    (date_strs : list string) (st : OpenpyxlParser.state) :
  (forall r, cell_indent ws r title_col = 0) ->
  OpenpyxlParser.detect_hierarchy lib ws start_row title_col data_start_col
    date_strs = Ok st ->
  OpenpyxlParserShape.kids (OpenpyxlParser.heap st) OpenpyxlParser.assets_ref
  ++ OpenpyxlParserShape.kids (OpenpyxlParser.heap st)
       OpenpyxlParser.liabilities_ref
  = seq 2 (length (OpenpyxlParser.heap st) - 2)
  /\ forall r n, (2 <= r)%nat ->
       OpenpyxlParser.heap st !! r = Some n ->
       OpenpyxlParser.children n = None.
Proof.
  intros Hindent Hrun.
  apply (OpenpyxlParserShapeFacts.detect_rows_flat lib ws start_row title_col
           data_start_col date_strs (range start_row (max_row ws + 1))
           OpenpyxlParser.initial st Hindent
           OpenpyxlParserShapeFacts.initial_well_kept); [|exact Hrun].
  split; [reflexivity|].
  intros [|[|r]] n Hr Hn; try lia. discriminate.
Qed.

(** X13 on a sheet whose second title starts with four blanks. *)
Lemma X13_openpyxl_flat_without_indent_witness :
  exists st,
    OpenpyxlParser.detect_hierarchy Examples.calendar
      (Examples.sheet [ [VStr "Eignir"]; [VStr "    Sjodur"];
                        [VStr "  Utlan"] ]) 1 1 2 [] = Ok st
    /\ OpenpyxlParserShape.kids (OpenpyxlParser.heap st)
         OpenpyxlParser.assets_ref
       ++ OpenpyxlParserShape.kids (OpenpyxlParser.heap st)
            OpenpyxlParser.liabilities_ref
       = seq 2 (length (OpenpyxlParser.heap st) - 2)
    /\ forall r n, (2 <= r)%nat ->
         OpenpyxlParser.heap st !! r = Some n ->
         OpenpyxlParser.children n = None.
Proof.
  destruct (OpenpyxlParser.detect_hierarchy Examples.calendar
              (Examples.sheet [ [VStr "Eignir"]; [VStr "    Sjodur"];
                                [VStr "  Utlan"] ]) 1 1 2 [])
    as [st|e] eqn:Hrun; [|vm_compute in Hrun; discriminate].
  exists st. split; [reflexivity|].
  apply (X13_openpyxl_flat_without_indent Examples.calendar
           (Examples.sheet [ [VStr "Eignir"]; [VStr "    Sjodur"];
                             [VStr "  Utlan"] ]) 1 1 2 [] st);
    [intros r; reflexivity | exact Hrun].
Defined.

(** X14 ([openpyxl_parser.ExcelSheetParser.detect_hierarchy]): with a
    data region whose row and columns are 1 or more, and indents that are
    not negative, the loop never raises: no cell is refused, a title
    that holds [" / "] always has the two parts that are read, and the
    stack is never popped when it is empty. *)
Theorem X14_openpyxl_loop_returns
    (lib : Library) (ws : Worksheet) (start_row title_col data_start_col : Z)
    (date_strs : list string) :
  1 <= start_row -> 1 <= title_col -> 1 <= data_start_col ->
  (forall r, 0 <= cell_indent ws r title_col) ->
  exists st,
    OpenpyxlParser.detect_hierarchy lib ws start_row title_col
      data_start_col date_strs = Ok st.
Proof.
  intros Hr Ht Hd Hi. unfold OpenpyxlParser.detect_hierarchy.
  apply OpenpyxlParserShapeFacts.detect_rows_total; try assumption.
  apply Forall_forall. intros r Hin. unfold range in Hin.
  apply elem_of_seqZ in Hin. lia.
Qed.

(** X14 on the sheet with the marker. *)
Lemma X14_openpyxl_loop_returns_witness :
  exists st,
    OpenpyxlParser.detect_hierarchy Examples.calendar
      (Examples.sheet Examples.marker_rows) 1 1 2 ["2024-01-31"] = Ok st.
Proof.
  apply (X14_openpyxl_loop_returns Examples.calendar
           (Examples.sheet Examples.marker_rows) 1 1 2 ["2024-01-31"]);
    try lia. intros r. cbn. lia.
Defined.

(** X15 ([openpyxl_parser.ExcelSheetParser.detect_hierarchy], lines
    231-234 and 263-282): the switch to the liabilities is final.  From a
    state the loop has reached in which [in_assets] is false, whatever
    rows follow, [in_assets] stays false, [assets] gets no further child
    and [assets_count] does not change. *)
Theorem X15_openpyxl_switch_is_final
    (lib : Library) (ws : Worksheet) (start_row title_col data_start_col : Z)
    (date_strs : list string) (rows1 rows2 : list Z)
    (st1 st2 : OpenpyxlParser.state) :
  OpenpyxlParser.detect_rows lib ws start_row title_col data_start_col
    date_strs OpenpyxlParser.initial rows1 = Ok st1 ->
  OpenpyxlParser.in_assets st1 = false ->
  OpenpyxlParser.detect_rows lib ws start_row title_col data_start_col
    date_strs st1 rows2 = Ok st2 ->
  OpenpyxlParser.in_assets st2 = false
  /\ OpenpyxlParserShape.kids (OpenpyxlParser.heap st2)
       OpenpyxlParser.assets_ref
     = OpenpyxlParserShape.kids (OpenpyxlParser.heap st1)
         OpenpyxlParser.assets_ref
  /\ OpenpyxlParser.assets_count st2 = OpenpyxlParser.assets_count st1.
Proof.
  intros Hrun1 Hin Hrun2.
  apply (OpenpyxlParserShapeFacts.detect_rows_assets lib ws start_row
           title_col data_start_col date_strs rows2 st1 st2);
    [|exact Hin | exact Hrun2].
  exact (OpenpyxlParserShapeFacts.detect_rows_well_kept _ _ _ _ _ _ _ _ _
           OpenpyxlParserShapeFacts.initial_well_kept Hrun1).
Qed.

(** X15 on the sheet with the marker: the switch happens in the third
    row, and the fourth leaves the assets as they are. *)
Lemma X15_openpyxl_switch_is_final_witness :
  exists st1 st2,
    OpenpyxlParser.detect_rows Examples.calendar
      (Examples.sheet Examples.marker_rows) 1 1 2 [] OpenpyxlParser.initial
      [1; 2; 3] = Ok st1
    /\ OpenpyxlParser.detect_rows Examples.calendar
         (Examples.sheet Examples.marker_rows) 1 1 2 [] st1 [4] = Ok st2
    /\ OpenpyxlParser.in_assets st2 = false
    /\ OpenpyxlParserShape.kids (OpenpyxlParser.heap st2)
         OpenpyxlParser.assets_ref
       = OpenpyxlParserShape.kids (OpenpyxlParser.heap st1)
           OpenpyxlParser.assets_ref
    /\ OpenpyxlParser.assets_count st2 = OpenpyxlParser.assets_count st1.
Proof.
  destruct (OpenpyxlParser.detect_rows Examples.calendar
              (Examples.sheet Examples.marker_rows) 1 1 2 []
              OpenpyxlParser.initial [1; 2; 3]) as [st1|e] eqn:Hrun1;
    [|vm_compute in Hrun1; discriminate].
  destruct (OpenpyxlParser.detect_rows Examples.calendar
              (Examples.sheet Examples.marker_rows) 1 1 2 [] st1 [4])
    as [st2|e] eqn:Hrun2.
  - exists st1, st2. split; [reflexivity|]. split; [exact Hrun2|].
    apply (X15_openpyxl_switch_is_final Examples.calendar
             (Examples.sheet Examples.marker_rows) 1 1 2 [] [1; 2; 3] [4]
             st1 st2 Hrun1); [|exact Hrun2].
    vm_compute in Hrun1. now injection Hrun1 as <-.
  - exfalso. vm_compute in Hrun1. injection Hrun1 as <-.
    vm_compute in Hrun2. discriminate.
Defined.

(** ** openpyxl_parser.py: the data region and the dates *)

Module OpenpyxlSheetFacts.
Import OpenpyxlParser OpenpyxlSheet PyFacts.

Section WithSheet.
Context (lib : Library) (pd : Pandas) (ws : Worksheet).
Context (template : option Template) (sheet_name : string).

Lemma op_cell_valid (r c : Z) :
  1 <= r -> 1 <= c -> cell ws r c = Ok (cell_value ws r c).
Proof.
  intros Hr Hc. unfold cell.
  replace ((1 <=? r) && (1 <=? c)) with true; [reflexivity|].
  symmetry. apply andb_true_iff. split; apply Z.leb_le; lia.
Qed.

(** The count of a row: the number of its cells that count. *)
Lemma count_non_empty_spec (row : Z) (cols : list Z) (n : Z) :
  1 <= row -> Forall (fun c => 1 <= c) cols ->
  count_non_empty lib ws row cols n
  = Ok (n + Z.of_nat (length (List.filter
                                (fun c => non_empty lib (cell_value ws row c))
                                cols))).
Proof.
  intros Hr Hcols. revert n.
  induction Hcols as [|c cols Hc Hcols IH]; intros n;
    cbn [count_non_empty List.filter length].
  - apply (f_equal Ok). lia.
  - rewrite op_cell_valid by assumption. cbn [mbind result_bind List.filter].
    fold (non_empty lib (cell_value ws row c)).
    destruct (non_empty lib (cell_value ws row c)).
    + rewrite IH. cbn [length]. apply (f_equal Ok). lia.
    + apply IH.
Qed.

Lemma inspected_columns_positive :
  Forall (fun c => 1 <= c) (inspected_columns ws).
Proof.
  apply Forall_forall. intros c Hc. unfold inspected_columns, range in Hc.
  apply elem_of_seqZ in Hc. lia.
Qed.

(** The scan stops at the first dense row. *)
Lemma scan_rows_spec (rows : list Z) :
  Forall (fun r => 1 <= r) rows ->
  scan_rows lib ws rows
  = Ok (default 10 (head (List.filter (dense lib ws) rows)), 1, 2).
Proof.
  induction 1 as [|r rows Hr Hrows IH]; cbn; [reflexivity|].
  fold (inspected_columns ws).
  rewrite count_non_empty_spec by (assumption || apply inspected_columns_positive).
  cbn. unfold dense at 1.
  destruct (5 <=? _); [reflexivity | exact IH].
Qed.

Lemma find_data_region_spec :
  template_region template sheet_name = None ->
  find_data_region lib ws template sheet_name
  = Ok (default 10 (head (List.filter (dense lib ws) (inspected_rows ws))),
        1, 2).
Proof.
  intros Ht. unfold find_data_region. rewrite Ht.
  apply scan_rows_spec. apply Forall_forall. intros r Hr.
  unfold range in Hr. apply elem_of_seqZ in Hr. lia.
Qed.

Lemma filter_length_le {A} (f : A -> bool) (l : list A) :
  (length (List.filter f l) <= length l)%nat.
Proof.
  induction l as [|x l IH]; cbn; [lia|]. destruct (f x); cbn; lia.
Qed.

(** A dense row needs six columns. *)
Lemma dense_width (row : Z) : dense lib ws row = true -> 6 <= max_column ws.
Proof.
  unfold dense. intros H. apply Z.leb_le in H.
  pose proof (filter_length_le
                (fun c => non_empty lib (cell_value ws row c))
                (inspected_columns ws)) as Hle.
  assert (length (inspected_columns ws)
          = Z.to_nat (Z.min 20 (max_column ws) - 1)) as Hlen
    by (unfold inspected_columns, range; apply length_seqZ).
  lia.
Qed.

(** *** The dates *)

Lemma header_dates_grows (row : Z) (cols : list Z) (dates ds : list stamp) :
  header_dates pd ws row cols dates = Ok ds ->
  exists more, ds = dates ++ more.
Proof.
  revert dates. induction cols as [|c cols IH]; intros dates H; cbn in H.
  - injection H as <-. exists []. now rewrite app_nil_r.
  - apply bind_Ok in H as (v & _ & H).
    destruct (is_None v); [exact (IH _ H)|].
    destruct (match v with
              | VDate d => Some (Timestamp d)
              | _ => match pd_to_datetime pd v with
                     | Ok s => Some s
                     | Raise _ => None
                     end
              end) as [s|]; [|exact (IH _ H)].
    destruct (IH _ H) as (more & ->). exists (s :: more).
    now rewrite <- app_assoc.
Qed.

Lemma to_datetimes_length (ds : list value) (stamps : list stamp) :
  to_datetimes pd ds = Ok stamps -> length stamps = length ds.
Proof.
  revert stamps. induction ds as [|d ds IH]; intros stamps H; cbn in H.
  - now injection H as <-.
  - apply bind_Ok in H as (s & _ & H).
    apply bind_Ok in H as (rest & Hrest & H). injection H as <-.
    cbn. now rewrite (IH _ Hrest).
Qed.

Lemma sample_dates_length : length (sample_dates pd) = 24%nat.
Proof. unfold sample_dates. now rewrite length_reverse, length_map. Qed.

(** A header row that openpyxl refuses. *)
Lemma header_dates_refused (row : Z) (c : Z) (cols : list Z)
    (dates : list stamp) :
  row < 1 -> header_dates pd ws row (c :: cols) dates = Raise ValueError.
Proof.
  intros Hr. cbn. unfold cell.
  replace ((1 <=? row) && (1 <=? c)) with false; [reflexivity|].
  symmetry. apply andb_false_iff. left. apply Z.leb_gt. lia.
Qed.

End WithSheet.
End OpenpyxlSheetFacts.

(** X16 ([openpyxl_parser.ExcelSheetParser.find_data_region], lines
    74-92): without a region from the template the detection never
    raises, and what it returns is fixed by the first dense row: a row
    with at least five cells that are not empty among the columns it
    looks at, which are the columns from 1 to [min(20, max_column) - 1],
    in the rows from 1 to [min(50, max_row) - 1].  Its result is that
    row with the columns 1 and 2, and [(10, 1, 2)] when no such row is
    dense. *)
Theorem X16_openpyxl_region_is_first_dense_row
    (lib : Library) (ws : Worksheet)
    (template : option OpenpyxlSheet.Template) (sheet_name : string) :
  OpenpyxlSheet.template_region template sheet_name = None ->
  OpenpyxlSheet.find_data_region lib ws template sheet_name
  = Ok (default 10
          (head (List.filter (OpenpyxlSheet.dense lib ws)
                             (OpenpyxlSheet.inspected_rows ws))),
        1, 2).
Proof. apply OpenpyxlSheetFacts.find_data_region_spec. Qed.

(** X16 on a sheet with two rows of titles: the header in the third row
    is its first dense row. *)
Lemma X16_openpyxl_region_is_first_dense_row_witness :
  OpenpyxlSheet.find_data_region MoreExamples.almanac
    (Examples.sheet MoreExamples.titled_rows) None "I"
  = Ok (3, 1, 2).
Proof.
  rewrite (X16_openpyxl_region_is_first_dense_row MoreExamples.almanac
             (Examples.sheet MoreExamples.titled_rows) None "I" eq_refl).
  vm_compute. reflexivity.
Defined.

(** X17 ([openpyxl_parser.ExcelSheetParser.find_data_region], lines
    76-78): the detection does not look at the last column nor at the
    last row of the sheet, so a sheet of five columns or less, or of a
    single row, always gets the default region [(10, 1, 2)]. *)
Theorem X17_openpyxl_small_sheet_gets_default
    (lib : Library) (ws : Worksheet)
    (template : option OpenpyxlSheet.Template) (sheet_name : string) :
  OpenpyxlSheet.template_region template sheet_name = None ->
  max_column ws <= 5 \/ max_row ws <= 1 ->
  OpenpyxlSheet.find_data_region lib ws template sheet_name = Ok (10, 1, 2).
Proof.
  intros Ht Hsmall.
  rewrite OpenpyxlSheetFacts.find_data_region_spec by exact Ht.
  replace (List.filter (OpenpyxlSheet.dense lib ws)
                       (OpenpyxlSheet.inspected_rows ws)) with (@nil Z);
    [reflexivity|].
  symmetry. destruct Hsmall as [Hcol|Hrow].
  - induction (OpenpyxlSheet.inspected_rows ws) as [|r rows IH];
      [reflexivity|]. cbn.
    destruct (OpenpyxlSheet.dense lib ws r) eqn:Hd; [|exact IH].
    apply OpenpyxlSheetFacts.dense_width in Hd. lia.
  - unfold OpenpyxlSheet.inspected_rows, range.
    rewrite seqZ_nil by lia. reflexivity.
Qed.

(** X17 on a sheet of five full columns. *)
Lemma X17_openpyxl_small_sheet_gets_default_witness :
  OpenpyxlSheet.find_data_region MoreExamples.almanac
    (Examples.sheet [ [VStr "a"; VStr "b"; VStr "c"; VStr "d"; VStr "e"];
                      [VStr "f"; VStr "g"; VStr "h"; VStr "i"; VStr "j"] ])
    None "I"
  = Ok (10, 1, 2).
Proof.
  apply (X17_openpyxl_small_sheet_gets_default MoreExamples.almanac
           (Examples.sheet
              [ [VStr "a"; VStr "b"; VStr "c"; VStr "d"; VStr "e"];
                [VStr "f"; VStr "g"; VStr "h"; VStr "i"; VStr "j"] ])
           None "I"); [reflexivity|].
  left. cbn. lia.
Defined.

(** X18 ([openpyxl_parser.ExcelSheetParser.extract_dates_from_header]):
    it never returns an empty list.  With no date in the header it
    returns the dates of the template, when the template is about the
    sheet and has dates, and otherwise the 24 sample dates. *)
Theorem X18_openpyxl_dates_never_empty
    (pd : OpenpyxlSheet.Pandas) (ws : Worksheet)
    (template : option OpenpyxlSheet.Template) (sheet_name : string)
    (data_region : OpenpyxlSheet.region) (dates : list OpenpyxlSheet.stamp) :
  OpenpyxlSheet.extract_dates_from_header pd ws template sheet_name
    data_region = Ok dates ->
  dates <> []
  /\ (OpenpyxlSheet.header_dates pd ws (data_region.1.1 - 1)
        (range data_region.2 (max_column ws + 1)) [] = Ok [] ->
      OpenpyxlSheet.template_dates template sheet_name = [] ->
      dates = OpenpyxlSheet.sample_dates pd /\ length dates = 24%nat).
Proof.
  destruct data_region as [[start_row title_col] data_start_col].
  unfold OpenpyxlSheet.extract_dates_from_header. cbn [fst snd]. intros H.
  apply PyFacts.bind_Ok in H as (ds & Hds & H).
  destruct ds as [|s ds].
  - destruct (OpenpyxlSheet.template_dates template sheet_name)
      as [|d tds] eqn:Ht.
    + injection H as <-. split.
      * intros E. apply (f_equal length) in E.
        now rewrite OpenpyxlSheetFacts.sample_dates_length in E.
      * intros _ _. split; [reflexivity|].
        apply OpenpyxlSheetFacts.sample_dates_length.
    + split; [|discriminate].
      apply OpenpyxlSheetFacts.to_datetimes_length in H.
      intros ->. discriminate.
  - injection H as <-. split; [discriminate|].
    intros Hh. congruence.
Qed.

(** X18 on a sheet whose header holds no date. *)
Lemma X18_openpyxl_dates_never_empty_witness :
  exists dates,
    OpenpyxlSheet.extract_dates_from_header MoreExamples.pandas
      (Examples.sheet Examples.marker_rows) None "I" (2, 1, 2) = Ok dates
    /\ dates <> [].
Proof.
  destruct (OpenpyxlSheet.extract_dates_from_header MoreExamples.pandas
              (Examples.sheet Examples.marker_rows) None "I" (2, 1, 2))
    as [dates|e] eqn:Hrun; [|vm_compute in Hrun; discriminate].
  exists dates. split; [reflexivity|].
  exact (proj1 (X18_openpyxl_dates_never_empty _ _ _ _ _ dates Hrun)).
Defined.

(** X19 ([openpyxl_parser.ExcelSheetParser.parse_sheet]): a sheet whose
    first row is dense cannot be parsed.  The detection returns row 1 as
    the start of the data, the header is then looked for in row 0, and
    openpyxl refuses the first cell that is asked for: the call raises
    [ValueError]. *)
Theorem X19_openpyxl_header_above_first_row
    (lib : Library) (pd : OpenpyxlSheet.Pandas) (ws : Worksheet)
    (template : option OpenpyxlSheet.Template) (sheet_name : string) :
  OpenpyxlSheet.template_region template sheet_name = None ->
  OpenpyxlSheet.dense lib ws 1 = true -> 2 <= max_row ws ->
  OpenpyxlSheet.find_data_region lib ws template sheet_name = Ok (1, 1, 2)
  /\ OpenpyxlSheet.parse_sheet lib pd ws template sheet_name
     = Raise ValueError.
Proof.
  intros Ht Hdense Hrows.
  assert (OpenpyxlSheet.find_data_region lib ws template sheet_name
          = Ok (1, 1, 2)) as Hregion.
  { rewrite OpenpyxlSheetFacts.find_data_region_spec by exact Ht.
    unfold OpenpyxlSheet.inspected_rows, range.
    rewrite seqZ_cons by lia. cbn [List.filter]. now rewrite Hdense. }
  split; [exact Hregion|].
  unfold OpenpyxlSheet.parse_sheet. rewrite Hregion. cbn [mbind result_bind].
  unfold OpenpyxlSheet.extract_dates_from_header.
  pose proof (OpenpyxlSheetFacts.dense_width _ _ _ Hdense) as Hwidth.
  unfold range. rewrite seqZ_cons by lia.
  now rewrite OpenpyxlSheetFacts.header_dates_refused by lia.
Qed.

(** X19 on a sheet that starts with its header. *)
Lemma X19_openpyxl_header_above_first_row_witness :
  OpenpyxlSheet.find_data_region MoreExamples.almanac
    (Examples.sheet MoreExamples.dense_rows) None "I" = Ok (1, 1, 2)
  /\ OpenpyxlSheet.parse_sheet MoreExamples.almanac MoreExamples.pandas
       (Examples.sheet MoreExamples.dense_rows) None "I"
     = Raise ValueError.
Proof.
  apply (X19_openpyxl_header_above_first_row MoreExamples.almanac
           MoreExamples.pandas (Examples.sheet MoreExamples.dense_rows)
           None "I"); [reflexivity | reflexivity | cbn; lia].
Defined.

(** ** hierarchy_mapper.py: the forest keeps the order of the lines *)

Module HierarchyMapperOrderFacts.
Import HierarchyMapper HierarchyMapperSpec HierarchyMapperShape PyFacts.
Import HeapShape HeapShapeFacts HierarchyMapperShapeFacts.

Lemma mapper_take_drop_run {A} (l : list A) (a m e : nat) :
  (a <= m <= e)%nat ->
  take (m - a) (drop a l) ++ take (e - m) (drop m l)
  = take (e - a) (drop a l).
Proof.
  intros H. replace (e - a)%nat with ((m - a) + (e - m))%nat by lia.
  rewrite <- take_take_drop, drop_drop.
  now replace (a + (m - a))%nat with m by lia.
Qed.

(** From the runs to the trees. *)
Lemma mapper_covers_chain_reify (h : list node) :
  (forall r e, covers children h r e ->
     forall fuel, (e - r <= fuel)%nat ->
       exists t, reify fuel h r = Some t
                 /\ tree_names t = map name (take (e - r) (drop r h)))
  /\ (forall a cs e, chain children h a cs e ->
        forall fuel, (e - a <= fuel)%nat ->
          exists ts, mapM (reify fuel h) cs = Some ts
                     /\ concat (map tree_names ts)
                        = map name (take (e - a) (drop a h))).
Proof.
  destruct (covers_chain_lt children h) as [Hlt Hle].
  apply covers_chain_mutind.
  - intros r n e Hr Hch IH.
    pose proof (Hle _ _ _ Hch) as Hre.
    intros [|fuel] Hfuel; [lia|].
    destruct (IH fuel) as (ts & Hts & Hnames); [lia|].
    exists (Tree (id n) (name n) (n_is n) (n_en n) (level n) (values n) ts).
    cbn. rewrite Hr. cbn. rewrite Hts. cbn. split; [reflexivity|].
    rewrite Hnames. replace (e - r)%nat with (S (e - S r)) by lia.
    now rewrite (drop_S _ _ _ Hr).
  - intros a fuel _. exists []. cbn. now rewrite Nat.sub_diag.
  - intros a m cs e Hc IHc Hch IHch.
    pose proof (Hlt _ _ Hc) as Ham. pose proof (Hle _ _ _ Hch) as Hme.
    intros fuel Hfuel.
    destruct (IHc fuel) as (t & Ht & Hn1); [lia|].
    destruct (IHch fuel) as (ts & Hts & Hn2); [lia|].
    exists (t :: ts). cbn. rewrite Ht. cbn. rewrite Hts. cbn.
    split; [reflexivity|].
    rewrite Hn1, Hn2, <- map_app. f_equal. apply mapper_take_drop_run. lia.
Qed.

Lemma ghost_length (st : build_state) (tracked : list nat) (j : Z) (r : nat) :
  ghost st tracked -> node_map st !! j = Some r ->
  1 <= j <= Z.of_nat (length tracked).
Proof.
  intros Hg Hj. rewrite (Hg j) in Hj.
  destruct (decide (1 <= j)); [|discriminate].
  apply lookup_lt_Some in Hj. lia.
Qed.

(** The level map after a node is placed at level [l], at most one more
    than the deepest tracked level. *)
Lemma place_ghost (st : build_state) (ref : nat) (l : Z)
    (tracked : list nat) :
  ghost st tracked -> 1 <= l <= Z.of_nat (length tracked) + 1 ->
  ghost (place st ref l) (take (Z.to_nat (l - 1)) tracked ++ [ref]).
Proof.
  intros Hg Hl j.
  assert (length (take (Z.to_nat (l - 1)) tracked) = Z.to_nat (l - 1))
    as Hlen by (rewrite length_take; lia).
  unfold place. destruct (Z.eqb_spec l 1) as [->|Hne]; cbn [node_map].
  - cbn. destruct (decide (1 = j)) as [<-|Hj].
    + now rewrite lookup_singleton_eq.
    + rewrite lookup_singleton_ne by exact Hj.
      destruct (decide (1 <= j)); [|reflexivity].
      symmetry. apply lookup_ge_None. rewrite length_app, Hlen. cbn. lia.
  - assert (is_Some (node_map st !! (l - 1))) as [parent Hp].
    { rewrite (Hg (l - 1)). destruct (decide (1 <= l - 1)); [|lia].
      apply lookup_lt_is_Some. lia. }
    rewrite Hp. cbn [node_map].
    destruct (decide (1 <= j)) as [H1|H1].
    + destruct (Z.compare_spec j l) as [->|Hlt|Hgt].
      * rewrite lookup_app_r by lia. rewrite Hlen, Nat.sub_diag. cbn.
        apply map_lookup_filter_Some. split; [apply lookup_insert_eq|].
        cbn. lia.
      * rewrite lookup_app_l by lia. rewrite lookup_take_lt by lia.
        destruct (tracked !! Z.to_nat (j - 1)) as [r|] eqn:E.
        -- apply map_lookup_filter_Some. split; [|cbn; lia].
           rewrite lookup_insert_ne by lia. rewrite (Hg j).
           now destruct (decide (1 <= j)).
        -- apply map_lookup_filter_None. left.
           rewrite lookup_insert_ne by lia. rewrite (Hg j).
           now destruct (decide (1 <= j)).
      * rewrite (proj2 (lookup_ge_None _ _))
          by (rewrite length_app, Hlen; cbn; lia).
        apply map_lookup_filter_None. right. intros x _. cbn. lia.
    + apply map_lookup_filter_None. left.
      rewrite lookup_insert_ne by lia. rewrite (Hg j).
      now destruct (decide (1 <= j)).
Qed.

Lemma last_take_lookup {A} (l : list A) (n : nat) :
  (1 <= n <= length l)%nat -> last (take n l) = l !! (n - 1)%nat.
Proof.
  intros Hn. rewrite last_lookup, length_take.
  replace (Init.Nat.pred (n `min` length l)) with (n - 1)%nat by lia.
  apply lookup_take_lt. lia.
Qed.

Lemma head_reverse {A} (l : list A) : head (reverse l) = last l.
Proof.
  induction l as [|x l IH] using rev_ind; [reflexivity|].
  now rewrite reverse_app, last_snoc.
Qed.

Lemma last_reverse {A} (l : list A) : last (reverse l) = head l.
Proof.
  destruct l as [|x l]; [reflexivity|].
  now rewrite reverse_cons, last_snoc.
Qed.

Lemma place_in_order (st : build_state) (ref : nat) (l : Z)
    (tracked : list nat) :
  (ref < length (nodes st))%nat ->
  in_order st ref tracked -> 1 <= l <= Z.of_nat (length tracked) + 1 ->
  in_order (place st ref l) (S ref)
           (take (Z.to_nat (l - 1)) tracked ++ [ref]).
Proof.
  intros Href (Hg & Hlinks & Htop & Hfresh) Hl.
  split; [now apply place_ghost|].
  destruct (lookup_lt_is_Some_2 (nodes st) ref Href) as [node Hnode].
  pose proof (Hfresh ref node (le_n _) Hnode) as Hnone.
  rewrite reverse_app, last_snoc. cbn [reverse rev_append app].
  change (rev_append [ref] []) with [ref]. cbn [app].
  unfold place. destruct (Z.eqb_spec l 1) as [->|Hne].
  - (* a new root *)
    cbn [nodes root_nodes node_map Z.sub Z.to_nat take reverse].
    change (reverse []) with (@nil nat). cbn [app links].
    split; [exact I|]. split; [split|].
    + exists node. split; [exact Hnode|]. rewrite Hnone. constructor.
    + exists (root_nodes st), ref. split; [reflexivity|].
      split; [reflexivity|].
      destruct (last tracked) as [top|] eqn:Elast.
      * destruct Htop as (Hopen & rs & b & Hhead & -> & Hchain).
        apply chain_snoc; [exact Hchain|].
        apply (branch_root children (nodes st) (reverse tracked) b ref).
        -- now rewrite last_reverse.
        -- split; [exact Hlinks|]. rewrite head_reverse, Elast. exact Hopen.
      * destruct Htop as [-> ->]. constructor.
    + intros r n Hr Hn. apply (Hfresh r n); [lia | exact Hn].
  - (* a child of the node tracked one level up *)
    set (n := Z.to_nat (l - 1)) in *.
    assert ((1 <= n <= length tracked)%nat) as Hn by lia.
    assert (node_map st !! (l - 1) = tracked !! (n - 1)%nat) as Hparent.
    { rewrite (Hg (l - 1)). destruct (decide (1 <= l - 1)); [|lia].
      f_equal. lia. }
    destruct (lookup_lt_is_Some_2 tracked (n - 1)) as [parent Hp]; [lia|].
    rewrite Hparent, Hp. cbn [nodes root_nodes node_map].
    destruct (last tracked) as [top|] eqn:Elast;
      [|apply last_None in Elast; subst tracked; cbn in Hn; lia].
    destruct Htop as (Hopen & rs & b & Hhead & Hroots & Hchain).
    assert (branch children (nodes st) (reverse tracked) ref) as Hbranch.
    { split; [exact Hlinks|]. rewrite head_reverse, Elast. exact Hopen. }
    rewrite <- (take_drop n tracked), reverse_app in Hbranch.
    assert (exists rest, reverse (take n tracked) = parent :: rest)
      as (rest & Hrev).
    { destruct (reverse (take n tracked)) as [|x rest] eqn:E.
      - apply (f_equal length) in E. rewrite length_reverse, length_take in E.
        cbn in E. lia.
      - exists rest. f_equal.
        assert (head (reverse (take n tracked)) = Some parent) as Hh
          by (rewrite head_reverse, last_take_lookup by lia; exact Hp).
        rewrite E in Hh. now injection Hh. }
    rewrite Hrev in Hbranch |- *. apply branch_pop in Hbranch.
    pose proof Hbranch as [Hlinks' (np & Hnp & Hch)]. cbn in Hnp, Hch.
    pose proof (proj2 (covers_chain_lt children (nodes st)) _ _ _ Hch) as Hlt.
    assert (forall x, x <> parent ->
              alter (append_child ref) parent (nodes st) !! x
              = nodes st !! x) as Hsame.
    { intros x Hx. now rewrite list_lookup_alter_ne by congruence. }
    assert (alter (append_child ref) parent (nodes st) !! parent
            = Some (append_child ref np)) as Hnew.
    { now rewrite list_lookup_alter_eq, Hnp. }
    destruct (branch_push children (nodes st)
                (alter (append_child ref) parent (nodes st))
                parent ref rest np (append_child ref np) node Hbranch)
      as [Hl' Ht']; try assumption; try reflexivity.
    { intros x _ Hx. now apply Hsame. }
    { rewrite Hsame by lia. exact Hnode. }
    split; [exact Hl'|]. split; [split|].
    + exact Ht'.
    + exists rs, b.
      assert (head (take n tracked) = Some b) as Hb.
      { destruct tracked as [|x tr]; [discriminate|].
        destruct n; [lia|]. exact Hhead. }
      split.
      { destruct (take n tracked) as [|x tr]; [discriminate | exact Hb]. }
      split; [exact Hroots|].
      apply (proj2 (covers_chain_transfer children (nodes st) _) _ _ _ Hchain).
      intros x Hx. apply Hsame.
      assert ((b <= parent)%nat); [|lia].
      apply (links_bottom children (nodes st) parent b rest).
      * exact Hlinks'.
      * rewrite <- Hrev, last_reverse. exact Hb.
    + intros r n0 Hr Hn0. rewrite Hsame in Hn0 by lia.
      apply (Hfresh r n0); [lia | exact Hn0].
Qed.

Lemma place_all_in_order (todo : list node) (st : build_state) (ref : nat)
    (tracked : list nat) :
  (ref + length todo <= length (nodes st))%nat ->
  in_order st ref tracked ->
  stepwise (Z.of_nat (length tracked)) (map level todo) = true ->
  exists tracked',
    in_order (place_all st ref todo) (ref + length todo) tracked'
    /\ (todo <> [] -> tracked' <> []).
Proof.
  revert st ref tracked. induction todo as [|n todo IH];
    intros st ref tracked Hlen Hin Hstep.
  - exists tracked. cbn. rewrite Nat.add_0_r. split; [exact Hin | congruence].
  - cbn in Hlen, Hstep.
    apply andb_true_iff in Hstep as [Hstep Hrest].
    apply andb_true_iff in Hstep as [H1 H2].
    apply Z.leb_le in H1, H2. cbn [place_all].
    pose proof (place_in_order st ref (level n) tracked) as Hplace.
    destruct (IH (place st ref (level n)) (S ref)
                (take (Z.to_nat (level n - 1)) tracked ++ [ref]))
      as (tracked' & Hin' & Hne).
    + rewrite place_length. lia.
    + apply Hplace; [lia | exact Hin | lia].
    + rewrite length_app, length_take. cbn.
      replace (Z.of_nat (Z.to_nat (level n - 1) `min` length tracked + 1))
        with (level n) by lia.
      exact Hrest.
    + exists tracked'. cbn [length]. replace (ref + S (length todo))%nat
        with (S ref + length todo)%nat by lia.
      split; [exact Hin'|]. intros _.
      destruct todo as [|m todo]; [|apply Hne; discriminate].
      cbn in Hin'. clear IH Hne.
      assert (ghost (place st ref (level n))
                    (take (Z.to_nat (level n - 1)) tracked ++ [ref])) as Hg
        by (apply place_ghost; [apply Hin | lia]).
      destruct Hin' as (Hg' & _).
      intros ->. specialize (Hg (level n)). specialize (Hg' (level n)).
      cbn in Hg'. rewrite Hg' in Hg.
      destruct (decide (1 <= level n)); [|lia].
      rewrite lookup_nil in Hg. symmetry in Hg.
      apply lookup_ge_None in Hg. rewrite length_app, length_take in Hg.
      cbn in Hg. lia.
Qed.

(** On levels without a gap the roots, from first to last, cover the
    whole list of nodes. *)
Lemma build_in_order (section_data : list entry) :
  stepwise 0 (map hierarchy_level section_data) = true ->
  let f := build_section_hierarchy section_data in
  chain children (heap f) 0 (roots f) (length section_data).
Proof.
  intros Hstep. cbn zeta. unfold build_section_hierarchy. cbn [heap roots].
  set (nodes0 := map make_node section_data).
  destruct (place_all_in_order nodes0
              {| nodes := nodes0; root_nodes := []; node_map := ∅ |} 0 [])
    as (tracked & (Hg & Hlinks & Htop & _) & Hne).
  - cbn. lia.
  - split; [|split; [exact I|split; [now split|]]].
    + intros j. cbn. rewrite lookup_empty.
      now destruct (decide (1 <= j)).
    + intros r n _ Hn. cbn in Hn. unfold nodes0 in Hn.
      apply list_lookup_fmap_Some in Hn as (e & -> & _). reflexivity.
  - cbn. unfold nodes0. rewrite map_map. exact Hstep.
  - assert (length nodes0 = length section_data) as Hlen0
      by apply length_map.
    cbn [Nat.add] in Htop. rewrite Hlen0 in Htop.
    set (st := place_all _ _ _) in *.
    destruct (last tracked) as [top|] eqn:Elast.
    + destruct Htop as (Hopen & rs & b & Hhead & -> & Hchain).
      apply chain_snoc; [exact Hchain|].
      apply (branch_root children (nodes st) (reverse tracked) b).
      * now rewrite last_reverse.
      * split; [exact Hlinks|]. rewrite head_reverse, Elast. exact Hopen.
    + destruct Htop as [-> ->]. constructor.
Qed.

End HierarchyMapperOrderFacts.

(** ** hierarchy_mapper.py: from the lines to the readable view *)

Module HierarchyMapperViewFacts.
Import HierarchyMapper HierarchyMapperSpec HierarchyMapperShape PyFacts.
Import ReadableHierarchy ReadableHierarchyFacts.

Lemma flat_enumerate_names (body : tree -> nat -> list readable)
    (items : list tree) (j : nat) :
  Forall (fun t => forall i, map r_name (body t i) = tree_names t) items ->
  map r_name (flat_enumerate body items j) = concat (map tree_names items).
Proof.
  intros H. revert j. induction H as [|t items Ht _ IH]; intros j; cbn.
  - reflexivity.
  - now rewrite map_app, Ht, IH.
Qed.

(** The names of the listing of a tree are the names of the tree. *)
Lemma listing_names (t : tree) :
  forall prefix path i, map r_name (listing t prefix path i) = tree_names t.
Proof.
  induction t as [id name n_is n_en level values kids IH]
    using tree_induction.
  intros prefix path i. rewrite listing_eq. cbn. f_equal.
  apply flat_enumerate_names.
  eapply Forall_impl; [exact IH|]. cbn. intros t Ht j. apply Ht.
Qed.

Lemma listing_all_names (hierarchy : list tree) (prefix : string)
    (path : list nat) :
  map r_name (listing_all hierarchy prefix path)
  = concat (map tree_names hierarchy).
Proof.
  apply flat_enumerate_names. apply Forall_forall. intros t _ i.
  apply listing_names.
Qed.

Lemma names_of_payload (h : list node) (section_data : list entry) :
  map payload h = map (fun e => payload (make_node e)) section_data ->
  map name h = map e_name section_data.
Proof.
  intros H.
  apply (f_equal (map (fun p : Z * string * string * string * Z
                                 * gmap string value => p.1.1.1.1.2))) in H.
  rewrite !map_map in H. exact H.
Qed.

(** On levels without a gap the trees of the forest hold the names of
    the entries, in their order. *)
Lemma build_trees_in_order (section_data : list entry) :
  stepwise 0 (map hierarchy_level section_data) = true ->
  exists ts,
    trees (build_section_hierarchy section_data) = Some ts
    /\ concat (map tree_names ts) = map e_name section_data.
Proof.
  intros Hstep.
  pose proof (HierarchyMapperOrderFacts.build_in_order _ Hstep) as Hchain.
  cbn zeta in Hchain.
  pose proof (HierarchyMapperShapeFacts.build_length section_data) as Hlen.
  destruct (HierarchyMapperShapeFacts.build_shape section_data)
    as (Hpay & _). cbn zeta in Hpay.
  set (f := build_section_hierarchy section_data) in *.
  destruct (proj2 (HierarchyMapperOrderFacts.mapper_covers_chain_reify
                     (heap f)) _ _ _ Hchain (length (heap f)))
    as (ts & Hts & Hnames); [lia|].
  exists ts. split; [exact Hts|].
  rewrite Hnames, Nat.sub_0_r, drop_0, take_ge by lia.
  now apply names_of_payload.
Qed.

End HierarchyMapperViewFacts.

(** X20 ([hierarchy_mapper.build_section_hierarchy]): when the levels of
    the entries have no gap (the first is 1, each is at least 1 and at
    most one more than the one before), the forest read parents first and
    children from first to last gives the entries back in their order:
    the names of its trees are the names of the entries. *)
Theorem X20_mapper_forest_keeps_line_order
    (section_data : list HierarchyMapper.entry) :
  HierarchyMapperShape.stepwise 0
    (map HierarchyMapper.hierarchy_level section_data) = true ->
  exists ts,
    HierarchyMapper.trees
      (HierarchyMapper.build_section_hierarchy section_data) = Some ts
    /\ concat (map HierarchyMapperShape.tree_names ts)
       = map HierarchyMapper.e_name section_data.
Proof. apply HierarchyMapperViewFacts.build_trees_in_order. Qed.

(** X20 on the scenario, whose levels are [1, 2, 3, 2, 1]. *)
Lemma X20_mapper_forest_keeps_line_order_witness :
  exists ts,
    HierarchyMapper.trees
      (HierarchyMapper.build_section_hierarchy Examples.scenario_entries)
    = Some ts
    /\ concat (map HierarchyMapperShape.tree_names ts)
       = ["A"; "B"; "C"; "D"; "E"].
Proof.
  apply (X20_mapper_forest_keeps_line_order Examples.scenario_entries).
  reflexivity.
Defined.

(** X21 ([hierarchy_mapper.map_test_schema_to_hierarchy], lines 213-214,
    over [build_section_hierarchy] and [extract_readable_hierarchy]):
    when the levels of the entries of a section have no gap, the readable
    view of the section holds one item for each entry, in the order of
    the entries and with the name of the entry. *)
Theorem X21_readable_view_keeps_line_order
    (section_data : list HierarchyMapper.entry) :
  HierarchyMapperShape.stepwise 0
    (map HierarchyMapper.hierarchy_level section_data) = true ->
  exists view,
    ReadableHierarchy.readable_section
      (HierarchyMapper.build_section_hierarchy section_data) = Some view
    /\ map (fun kv => ReadableHierarchy.r_name kv.2) view
       = map HierarchyMapper.e_name section_data.
Proof.
  intros Hstep.
  destruct (HierarchyMapperViewFacts.build_trees_in_order _ Hstep)
    as (ts & Hts & Hnames).
  unfold ReadableHierarchy.readable_section. rewrite Hts. cbn.
  eexists. split; [reflexivity|].
  rewrite ReadablePathFacts.extract_listing, map_map. cbn.
  rewrite <- Hnames. apply HierarchyMapperViewFacts.listing_all_names.
Qed.

(** X21 on the scenario. *)
Lemma X21_readable_view_keeps_line_order_witness :
  exists view,
    ReadableHierarchy.readable_section
      (HierarchyMapper.build_section_hierarchy Examples.scenario_entries)
    = Some view
    /\ map (fun kv => ReadableHierarchy.r_name kv.2) view
       = ["A"; "B"; "C"; "D"; "E"].
Proof.
  apply (X21_readable_view_keeps_line_order Examples.scenario_entries).
  reflexivity.
Defined.

(** ** hierarchy_mapper.py: the extraction as a whole *)

Module HierarchyMapperExtractFacts.
Import HierarchyMapper HierarchyMapperSpec HierarchyMapperShape PyFacts.
Import HierarchyMapperFacts.

Section WithSheet.
Context (lib : Library) (ws : Worksheet) (cfg : sheet_config).


End WithSheet.


End HierarchyMapperExtractFacts.


